(** * dist-fnf: the three-step SKU allocation engine

    A shallow embedding of the allocation core of the repository:

    - [modules/store_tier_system.py]            (StoreTierSystem)
    - [logic4_oneStyle/modules/sku_classifier.py]  (SKUClassifier)
    - [modules/three_step_optimizer.py]         (ThreeStepOptimizer)
    - [logic4_oneStyle/modules/coverage_optimizer.py] (CoverageOptimizer)
    - [logic4_oneStyle/modules/integrated_optimizer.py]
      (only [_get_sku_store_tier_info])

    Python integers are [Z]; Python floats (tier ratios, priority scores,
    objective weights) are idealised as canonical rationals [Qc]; a dict
    that is only read and written by key is a [gmap]; a dict or list that
    is iterated is a list in iteration order; an exception is the [Raise]
    branch of [result].  The MILP backend (PuLP/CBC) is outside the
    repository: the problem the code builds is embedded as data, and the
    backend is a function from problems to a status and a valuation. *)

From Stdlib Require Import ZArith QArith Qcanon Qround Lia Sorted.
From stdpp Require Import gmap strings list fin_maps.

Set Default Proof Using "Type*".
Local Open Scope Z_scope.

(** ** Exceptions *)

Inductive exn := ValueError | KeyError | IndexError.

Inductive result (A : Type) : Type :=
| Ok (a : A)
| Raise (e : exn).
Arguments Ok {A} a.
Arguments Raise {A} e.

#[global] Instance exn_eq_dec : EqDecision exn.
Proof. solve_decision. Defined.
#[global] Instance result_eq_dec {A} `{EqDecision A} : EqDecision (result A).
Proof. solve_decision. Defined.

#[global] Instance result_ret : MRet result := λ A a, Ok a.
#[global] Instance result_bind : MBind result := λ A B f m,
  match m with
  | Ok a => f a
  | Raise e => Raise e
  end.

(** [d[k]] on a dict: [KeyError] when the key is absent. *)
Definition getitem `{Countable K} {V} (d : gmap K V) (k : K) : result V :=
  match d !! k with
  | Some v => Ok v
  | None => Raise KeyError
  end.

(** [d.get(k, dflt)] *)
Definition dict_get `{Countable K} {V} (d : gmap K V) (k : K) (dflt : V) : V :=
  default dflt (d !! k).

(** ** SKU classification (logic4_oneStyle/modules/sku_classifier.py) *)

Section Classifier.
Context {SKU Color Size : Type}.
Context `{Countable SKU} `{EqDecision Color} `{EqDecision Size}.

(** One row of [df_sku_filtered], with the columns the core reads. *)
Record sku_row := {
  row_SKU : SKU;
  COLOR_CD : Color;
  SIZE_CD : Size
}.

(** [df.loc[df['SKU']==sku, col].iloc[0]]: the column of the first row
    with this SKU; [.iloc[0]] on an empty selection is an [IndexError]. *)
Definition loc_iloc0 {A} (df : list sku_row) (sku : SKU)
    (col : sku_row → A) : result A :=
  match filter (λ r, row_SKU r = sku) df with
  | r :: _ => Ok (col r)
  | [] => Raise IndexError
  end.

(** The inner loop of [classify_skus] over [related_sku in SKUs]. *)
Fixpoint add_related (df : list sku_row) (scarce_sku : SKU)
    (color : Color) (size : Size) (SKUs : list SKU)
    (extended_scarce : gset SKU) : result (gset SKU) :=
  match SKUs with
  | [] => Ok extended_scarce
  | related_sku :: rest =>
      if decide (related_sku ≠ scarce_sku) then
        related_color ← loc_iloc0 df related_sku COLOR_CD;
        related_size ← loc_iloc0 df related_sku SIZE_CD;
        if bool_decide ((color = related_color ∧ size ≠ related_size) ∨
                        (color ≠ related_color ∧ size = related_size))
        then add_related df scarce_sku color size rest
               ({[related_sku]} ∪ extended_scarce)
        else add_related df scarce_sku color size rest extended_scarce
      else add_related df scarce_sku color size rest extended_scarce
  end.

(** The outer loop over [scarce_sku in basic_scarce]. *)
Fixpoint extend_scarce (df : list sku_row) (SKUs : list SKU)
    (basic_scarce : list SKU) (extended_scarce : gset SKU)
    : result (gset SKU) :=
  match basic_scarce with
  | [] => Ok extended_scarce
  | scarce_sku :: rest =>
      color ← loc_iloc0 df scarce_sku COLOR_CD;
      size ← loc_iloc0 df scarce_sku SIZE_CD;
      ext ← add_related df scarce_sku color size SKUs extended_scarce;
      extend_scarce df SKUs rest ext
  end.

(** [basic_scarce = [sku for sku, qty in A.items() if qty < num_target_stores]] *)
Definition basic_scarce_of (A : list (SKU * Z)) (num_target_stores : Z)
    : list SKU :=
  (filter (λ p, p.2 < num_target_stores) A).*1.

(** [SKUClassifier.classify_skus]; [A] is the supply dict as its items in
    iteration order.  [list(extended_scarce)] has the order of the set,
    here the order of [elements]. *)
Definition classify_skus {Store} (df : list sku_row) (A : list (SKU * Z))
    (target_stores : list Store) : result (list SKU * list SKU) :=
  let SKUs := A.*1 in
  let num_target_stores := Z.of_nat (length target_stores) in
  let basic_scarce := basic_scarce_of A num_target_stores in
  extended_scarce ← extend_scarce df SKUs basic_scarce
                      (list_to_set basic_scarce);
  let scarce_skus := elements extended_scarce in
  let abundant_skus := filter (λ sku, sku ∉ scarce_skus) SKUs in
  Ok (scarce_skus, abundant_skus).

(** The propagation relation of the classifier, read off the frame:
    same colour and another size, or same size and another colour. *)
Definition related (df : list sku_row) (s s' : SKU) : Prop :=
  ∃ c z c' z',
    loc_iloc0 df s COLOR_CD = Ok c ∧ loc_iloc0 df s SIZE_CD = Ok z ∧
    loc_iloc0 df s' COLOR_CD = Ok c' ∧ loc_iloc0 df s' SIZE_CD = Ok z' ∧
    ((c = c' ∧ z ≠ z') ∨ (c ≠ c' ∧ z = z')).

(** The classification as the specification words it: the closure of
    the basic scarce SKUs under [related], within the SKUs of [A]. *)
Inductive spec_closure_scarce (df : list sku_row) (A : list (SKU * Z))
    (T : Z) : SKU → Prop :=
| closure_basic sku :
    sku ∈ basic_scarce_of A T → spec_closure_scarce df A T sku
| closure_step s sku :
    spec_closure_scarce df A T s → related df s sku → sku ∈ A.*1 →
    spec_closure_scarce df A T sku.

End Classifier.

(** ** Store tiers (modules/store_tier_system.py, config.py) *)

Inductive tier_name := TIER_1_HIGH | TIER_2_MEDIUM | TIER_3_LOW.

#[global] Instance tier_name_eq_dec : EqDecision tier_name.
Proof. solve_decision. Defined.

(** One entry of [TIER_CONFIG] (the display string is left out). *)
Record tier_entry := {
  ratio : Qc;
  max_sku_limit : Z
}.

(** A tier table: the dict [tier_config], keyed by the three tier names
    that [get_store_tier] hard-codes. *)
Definition tier_table := tier_name → tier_entry.

Definition Qc_of_frac (n : Z) (d : positive) : Qc := Q2Qc (n # d).

(** [config.TIER_CONFIG] *)
Definition TIER_CONFIG : tier_table := λ t,
  match t with
  | TIER_1_HIGH => {| ratio := Qc_of_frac 3 10; max_sku_limit := 3 |}
  | TIER_2_MEDIUM => {| ratio := Qc_of_frac 2 10; max_sku_limit := 2 |}
  | TIER_3_LOW => {| ratio := Qc_of_frac 5 10; max_sku_limit := 1 |}
  end.

(** [StoreTierSystem.get_store_tier] *)
Definition get_store_tier (tier_config : tier_table)
    (store_index total_stores : Z) : tier_name :=
  let ratio_1 := ratio (tier_config TIER_1_HIGH) in
  let ratio_2 := ratio (tier_config TIER_2_MEDIUM) in
  if decide (Qc_of_Z store_index < Qc_of_Z total_stores * ratio_1)%Qc
  then TIER_1_HIGH
  else if decide (Qc_of_Z store_index
                  < Qc_of_Z total_stores * (ratio_1 + ratio_2))%Qc
  then TIER_2_MEDIUM
  else TIER_3_LOW.

(** The dict returned by [get_store_tier_info]. *)
Record store_tier_info {Store : Type} := {
  info_store_id : Store;
  info_tier_name : tier_name;
  info_max_sku_limit : Z;
  info_tier_ratio : Qc
}.
Arguments store_tier_info : clear implicits.

Section Tiers.
Context {Store : Type} `{Countable Store}.

(** [stores.index(store_id)]: [ValueError] when the store is absent. *)
Fixpoint list_index (store_id : Store) (stores : list Store) : result Z :=
  match stores with
  | [] => Raise ValueError
  | s :: rest =>
      if decide (s = store_id) then Ok 0
      else n ← list_index store_id rest; Ok (n + 1)
  end.

(** [StoreTierSystem.get_store_tier_info]: the [except ValueError] arm
    raises a [ValueError] again, with the store in its message. *)
Definition get_store_tier_info (tier_config : tier_table)
    (store_id : Store) (stores : list Store)
    : result (store_tier_info Store) :=
  match list_index store_id stores with
  | Ok store_index =>
      let tier := get_store_tier tier_config store_index
                    (Z.of_nat (length stores)) in
      let tier_info := tier_config tier in
      Ok {| info_store_id := store_id;
            info_tier_name := tier;
            info_max_sku_limit := max_sku_limit tier_info;
            info_tier_ratio := ratio tier_info |}
  | Raise _ => Raise ValueError
  end.

(** [IntegratedOptimizer._get_sku_store_tier_info]
    (logic4_oneStyle/modules/integrated_optimizer.py): a bare [except]
    around the lookup, answering a fixed lowest-tier dict. *)
Definition _get_sku_store_tier_info (tier_config : tier_table)
    (store : Store) (sku_target_stores : list Store)
    : result (store_tier_info Store) :=
  match get_store_tier_info tier_config store sku_target_stores with
  | Ok info => Ok info
  | Raise _ =>
      Ok {| info_store_id := store;
            info_tier_name := TIER_3_LOW;
            info_max_sku_limit := 1;
            info_tier_ratio := Qc_of_frac 5 10 |}
  end.

(** The loop of [create_store_allocation_limits] over
    [enumerate(stores)], from index [i]. *)
Fixpoint fill_limits (tier_config : tier_table) (total_stores : Z)
    (i : Z) (stores : list Store) (limits : gmap Store Z) : gmap Store Z :=
  match stores with
  | [] => limits
  | store_id :: rest =>
      let tier := get_store_tier tier_config i total_stores in
      fill_limits tier_config total_stores (i + 1) rest
        (<[store_id := max_sku_limit (tier_config tier)]> limits)
  end.

(** [StoreTierSystem.create_store_allocation_limits] *)
Definition create_store_allocation_limits (tier_config : tier_table)
    (stores : list Store) : gmap Store Z :=
  fill_limits tier_config (Z.of_nat (length stores)) 0 stores ∅.

End Tiers.

(** ** Priority weighting (ThreeStepOptimizer._compute_mixed_weights) *)

(** The global random source: an infinite sequence of draws and the
    position of the next one. *)
Record rng := {
  draws : nat → Qc;
  pos : nat
}.

(** [random.random()] *)
Definition random_random (g : rng) : Qc * rng :=
  (draws g (pos g), {| draws := draws g; pos := S (pos g) |}).

(** Code that may raise and that draws random numbers. *)
Definition M (A : Type) : Type := rng → result (A * rng).

#[global] Instance M_ret : MRet M := λ A a g, Ok (a, g).
#[global] Instance M_bind : MBind M := λ A B f m g,
  match m g with
  | Ok (a, g') => f a g'
  | Raise e => Raise e
  end.

Definition lift {A} (r : result A) : M A := λ g,
  match r with
  | Ok a => Ok (a, g)
  | Raise e => Raise e
  end.

(** What a computation returns or raises, the random source put aside. *)
Definition value_of {A} (r : result (A * rng)) : result A :=
  match r with
  | Ok (a, _) => Ok a
  | Raise e => Raise e
  end.

(** A computation whose outcome does not depend on the random source. *)
Definition source_free {A} (m : M A) : Prop :=
  ∀ g1 g2, value_of (m g1) = value_of (m g2).

(** Python's two-argument [min] and [max]: the first argument unless the
    second is strictly smaller (larger). *)
Definition py_min (a b : Qc) : Qc := if decide (b < a)%Qc then b else a.
Definition py_max (a b : Qc) : Qc := if decide (a < b)%Qc then b else a.

(** [min(q_vals)] and [max(q_vals)]: [ValueError] on an empty list. *)
Definition list_min (l : list Qc) : result Qc :=
  match l with
  | [] => Raise ValueError
  | x :: rest => Ok (foldl py_min x rest)
  end.
Definition list_max (l : list Qc) : result Qc :=
  match l with
  | [] => Raise ValueError
  | x :: rest => Ok (foldl py_max x rest)
  end.

(** [list.sort(key=lambda x: x[1], reverse=True)]: stable, descending. *)
Fixpoint insert_desc {X} (x : X * Qc) (l : list (X * Qc)) : list (X * Qc) :=
  match l with
  | [] => [x]
  | y :: rest =>
      if decide (x.2 < y.2)%Qc then y :: insert_desc x rest
      else x :: y :: rest
  end.
Definition sort_desc {X} (l : list (X * Qc)) : list (X * Qc) :=
  foldr insert_desc [] l.

Section Priorities.
Context {Store : Type} `{Countable Store}.

(** [[QSUM[j] for j in target_stores]] *)
Fixpoint q_vals_of (QSUM : gmap Store Qc) (target_stores : list Store)
    : result (list Qc) :=
  match target_stores with
  | [] => Ok []
  | j :: rest =>
      q ← getitem QSUM j;
      qs ← q_vals_of QSUM rest;
      Ok (q :: qs)
  end.

(** [{j: (QSUM[j] - qmin)/(qmax - qmin) for j in target_stores}] *)
Fixpoint normalized (QSUM : gmap Store Qc) (qmin qmax : Qc)
    (target_stores : list Store) (w : gmap Store Qc)
    : result (gmap Store Qc) :=
  match target_stores with
  | [] => Ok w
  | j :: rest =>
      q ← getitem QSUM j;
      normalized QSUM qmin qmax rest
        (<[j := ((q - qmin) / (qmax - qmin))%Qc]> w)
  end.

(** [{j: 1.0 for j in target_stores}] *)
Definition uniform (target_stores : list Store) : gmap Store Qc :=
  foldl (λ w j, <[j := 1%Qc]> w) ∅ target_stores.

(** [{j: random.random() for j in target_stores}] *)
Fixpoint random_dict (target_stores : list Store) (r : gmap Store Qc)
    : M (gmap Store Qc) :=
  match target_stores with
  | [] => mret r
  | j :: rest => λ g,
      let '(x, g') := random_random g in
      random_dict rest (<[j := x]> r) g'
  end.

(** [{j: (1-alpha)*w[j] + alpha*r[j] for j in target_stores}] *)
Fixpoint mixed (alpha : Qc) (w r : gmap Store Qc)
    (target_stores : list Store) (s : gmap Store Qc)
    : result (gmap Store Qc) :=
  match target_stores with
  | [] => Ok s
  | j :: rest =>
      wj ← getitem w j;
      rj ← getitem r j;
      mixed alpha w r rest (<[j := ((1 - alpha) * wj + alpha * rj)%Qc]> s)
  end.

(** Part 1 of [_compute_mixed_weights]: the volumes scaled to [0, 1], or
    1 for every store when all volumes tie.  The quotient is the exact
    one; the floats of the code round it, which keeps the order of two
    weights but can make them equal. *)
Definition volume_weights (target_stores : list Store)
    (QSUM : gmap Store Qc) : result (gmap Store Qc) :=
  q_vals ← q_vals_of QSUM target_stores;
  qmin ← list_min q_vals;
  qmax ← list_max q_vals;
  if decide (qmin < qmax)%Qc
  then normalized QSUM qmin qmax target_stores ∅
  else Ok (uniform target_stores).

(** [ThreeStepOptimizer._compute_mixed_weights] *)
Definition _compute_mixed_weights (target_stores : list Store)
    (QSUM : gmap Store Qc) (alpha : Qc) : M (gmap Store Qc) :=
  w ← lift (volume_weights target_stores QSUM);
  r ← random_dict target_stores ∅;
  lift (mixed alpha w r target_stores ∅).

(** [ThreeStepOptimizer._calculate_store_priorities] *)
Definition _calculate_store_priorities (target_stores : list Store)
    (QSUM : gmap Store Qc) (priority_temperature : Qc)
    : M (gmap Store Qc) :=
  let alpha := py_max 0%Qc (py_min 1%Qc priority_temperature) in
  _compute_mixed_weights target_stores QSUM alpha.

End Priorities.

(** ** The MILP the code hands to PuLP *)

Section LP.
Context {SKU Store Color Size : Type}.

(** The variables, by the name the code gives them. *)
Inductive lpvar :=
| b_ (i : SKU) (j : Store)
| color_coverage_ (j : Store)
| size_coverage_ (j : Store)
| color_bin_ (color : Color) (j : Store)
| size_bin_ (size : Size) (j : Store).

Inductive category := LpBinary | LpInteger.

Record LpVariable := {
  name : lpvar;
  lowBound : option Z;
  upBound : option Z;
  cat : category
}.

(** A cell of the tables [b], [color_coverage], [size_coverage]: an
    [LpVariable], or the number the code stores for a non-target store. *)
Inductive entry :=
| Var (v : LpVariable)
| Const (c : Z).

(** [isinstance(e, LpVariable)], answering the variable. *)
Definition as_var (e : entry) : option lpvar :=
  match e with
  | Var v => Some (name v)
  | Const _ => None
  end.

(** An affine expression with integer coefficients. *)
Record LpAffineExpression := {
  terms : list (Z * lpvar);
  constant : Z
}.

Definition lpSum (vs : list lpvar) : LpAffineExpression :=
  {| terms := (λ v, (1, v)) <$> vs; constant := 0 |}.
Definition scaled (c : Z) (v : lpvar) : LpAffineExpression :=
  {| terms := [(c, v)]; constant := 0 |}.
Definition number (c : Z) : LpAffineExpression :=
  {| terms := []; constant := c |}.

Inductive sense := LE | GE | EQ.

Record LpConstraint := {
  lhs : LpAffineExpression;
  rel : sense;
  rhs : LpAffineExpression
}.

Record LpProblem := {
  variables : list LpVariable;
  objective : list (Qc * lpvar);
  constraints : list LpConstraint
}.

(** *** Meaning of a problem under a valuation of its variables *)

Definition eval (val : lpvar → Z) (e : LpAffineExpression) : Z :=
  foldr (λ t acc, t.1 * val t.2 + acc) (constant e) (terms e).

Definition holds (val : lpvar → Z) (c : LpConstraint) : Prop :=
  match rel c with
  | LE => eval val (lhs c) ≤ eval val (rhs c)
  | GE => eval val (rhs c) ≤ eval val (lhs c)
  | EQ => eval val (lhs c) = eval val (rhs c)
  end.

Definition above (lo : option Z) (x : Z) : Prop :=
  match lo with Some l => l ≤ x | None => True end.
Definition below (hi : option Z) (x : Z) : Prop :=
  match hi with Some h => x ≤ h | None => True end.

(** A binary variable ranges over 0 and 1 whatever bounds it was given. *)
Definition in_bounds (val : lpvar → Z) (v : LpVariable) : Prop :=
  match cat v with
  | LpBinary => 0 ≤ val (name v) ≤ 1
  | LpInteger => above (lowBound v) (val (name v)) ∧
                 below (upBound v) (val (name v))
  end.

Definition feasible (P : LpProblem) (val : lpvar → Z) : Prop :=
  Forall (in_bounds val) (variables P) ∧ Forall (holds val) (constraints P).

(** [value(prob.objective)] *)
Definition objective_value (P : LpProblem) (val : lpvar → Z) : Qc :=
  foldr (λ t acc, (t.1 * Qc_of_Z (val t.2) + acc)%Qc) 0%Qc (objective P).

(** The problems are maximisations ([LpMaximize]). *)
Definition optimal (P : LpProblem) (val : lpvar → Z) : Prop :=
  feasible P val ∧
  ∀ val', feasible P val' → (objective_value P val' ≤ objective_value P val)%Qc.

(** What [prob.solve(...)] leaves behind: [prob.status] and the
    [varValue] of every variable (integral, all variables being binary
    or integer). *)
Record solver_response := {
  status : Z;
  varValue : lpvar → Z
}.

(** What the code relies on when it reads the variables after a status
    of 1: the valuation satisfies the problem. *)
Definition answers_feasibly (solve : LpProblem → solver_response)
    (P : LpProblem) : Prop :=
  status (solve P) = 1 → feasible P (varValue (solve P)).

End LP.

Arguments lpvar : clear implicits.
Arguments LpVariable : clear implicits.
Arguments entry : clear implicits.
Arguments LpAffineExpression : clear implicits.
Arguments LpConstraint : clear implicits.
Arguments LpProblem : clear implicits.
Arguments solver_response : clear implicits.

#[global] Instance above_dec lo x : Decision (above lo x).
Proof. destruct lo; simpl; apply _. Defined.
#[global] Instance below_dec hi x : Decision (below hi x).
Proof. destruct hi; simpl; apply _. Defined.
#[global] Instance in_bounds_dec {SKU Store Color Size}
  (val : lpvar SKU Store Color Size → Z) v : Decision (in_bounds val v).
Proof. unfold in_bounds. destruct (cat v); apply _. Defined.
#[global] Instance holds_dec {SKU Store Color Size}
  (val : lpvar SKU Store Color Size → Z) c : Decision (holds val c).
Proof. unfold holds. destruct (rel c); apply _. Defined.
#[global] Instance feasible_dec {SKU Store Color Size}
  (P : LpProblem SKU Store Color Size) val : Decision (feasible P val).
Proof. unfold feasible. apply _. Defined.

(** ** The three-step optimizer (modules/three_step_optimizer.py) *)

(** The dict [data] of [DataLoader.get_basic_data_structures], with the
    entries the optimizer reads; [K_s] and [L_s] are the colour and size
    lists of the target style. *)
Record data {SKU Store Color Size : Type} `{Countable SKU} `{Countable Store} := {
  d_A : gmap SKU Z;
  d_SKUs : list SKU;
  d_stores : list Store;
  d_QSUM : gmap Store Qc;
  d_K_s : list Color;
  d_L_s : list Size
}.
Arguments data SKU Store Color Size {_ _ _ _}.

(** [scenario_params], read with [.get('priority_temperature', 0.0)]. *)
Record scenario := {
  coverage_weight : Qc;
  priority_temperature : option Qc
}.

Section Step1.
Context {SKU Store Color Size : Type}.
Context `{Countable SKU} `{Countable Store}.
Context `{EqDecision Color} `{EqDecision Size}.

Abbreviation lpvar := (lpvar SKU Store Color Size).
Abbreviation LpVariable := (LpVariable SKU Store Color Size).
Abbreviation entry := (entry SKU Store Color Size).
Abbreviation LpConstraint := (LpConstraint SKU Store Color Size).
Abbreviation LpProblem := (LpProblem SKU Store Color Size).
Abbreviation solver_response := (solver_response SKU Store Color Size).
Abbreviation data := (data SKU Store Color Size).
Abbreviation sku_row := (@sku_row SKU Color Size).

Definition binary (v : lpvar) : LpVariable :=
  {| name := v; lowBound := Some 0; upBound := Some 1; cat := LpBinary |}.
Definition integer (v : lpvar) (lo hi : Z) : LpVariable :=
  {| name := v; lowBound := Some lo; upBound := Some hi; cat := LpInteger |}.

(** [_create_binary_variables]: the table [b], read as [b i j] for [i]
    in [SKUs] and [j] in [stores], the only cells the code indexes. *)
Definition _create_binary_variables (target_stores : list Store)
    : SKU → Store → entry :=
  λ i j, if decide (j ∈ target_stores) then Var (binary (b_ i j))
         else Const 0.

(** [_create_coverage_variables]: the tables [color_coverage] and
    [size_coverage], read at [(s, j)] for [j] in [stores]. *)
Definition _create_coverage_variables (target_stores : list Store)
    (K_s : list Color) (L_s : list Size)
    : (Store → entry) * (Store → entry) :=
  (λ j, if decide (j ∈ target_stores)
        then Var (integer (color_coverage_ j) 0 (Z.of_nat (length K_s)))
        else Const 0,
   λ j, if decide (j ∈ target_stores)
        then Var (integer (size_coverage_ j) 0 (Z.of_nat (length L_s)))
        else Const 0).

(** The variables a table holds over a list of keys. *)
Definition created {X} (tbl : X → entry) (keys : list X) : list LpVariable :=
  omap (λ x, match tbl x with Var v => Some v | Const _ => None end) keys.

(** [_set_coverage_objective] *)
Definition _set_coverage_objective (color_coverage size_coverage : Store → entry)
    (stores target_stores : list Store) (K_s : list Color) (L_s : list Size)
    : list (Qc * lpvar) :=
  let total_colors := Z.of_nat (length K_s) in
  let total_sizes := Z.of_nat (length L_s) in
  let color_weight :=
    if decide (0 < total_colors) then (1 / Qc_of_Z total_colors)%Qc else 1%Qc in
  let size_weight :=
    if decide (0 < total_sizes) then (1 / Qc_of_Z total_sizes)%Qc else 1%Qc in
  j ← stores;
  if decide (j ∈ target_stores) then
    match color_coverage j, size_coverage j with
    | Var c, Var z => [(color_weight, name c); (size_weight, name z)]
    | _, _ => []
    end
  else [].

(** [groups[k].append(sku)], creating the group of a new key at the end. *)
Fixpoint group_append {K} `{EqDecision K} (k : K) (sku : SKU)
    (groups : list (K * list SKU)) : list (K * list SKU) :=
  match groups with
  | [] => [(k, [sku])]
  | g :: rest =>
      if decide (g.1 = k) then (g.1, g.2 ++ [sku]) :: rest
      else g :: group_append k sku rest
  end.

(** The grouping loop of [_add_coverage_constraints_step1]: an SKU
    without a row in the frame is skipped by the bare [except]. *)
Fixpoint sku_groups {K} `{EqDecision K} (df : list sku_row)
    (col : sku_row → K) (SKUs : list SKU) (groups : list (K * list SKU))
    : list (K * list SKU) :=
  match SKUs with
  | [] => groups
  | sku :: rest =>
      match loc_iloc0 df sku col with
      | Ok k => sku_groups df col rest (group_append k sku groups)
      | Raise _ => sku_groups df col rest groups
      end
  end.

(** The two linking constraints of every group at store [j]. *)
Definition group_constraints {K} (b : SKU → Store → entry)
    (bin : K → Store → lpvar) (j : Store) (groups : list (K * list SKU))
    : list LpConstraint :=
  g ← groups;
  let allocation := lpSum (omap (λ sku, as_var (b sku j)) g.2) in
  [ {| lhs := allocation; rel := GE; rhs := scaled 1 (bin g.1 j) |};
    {| lhs := allocation; rel := LE;
       rhs := scaled (Z.of_nat (length g.2)) (bin g.1 j) |} ].

(** [_add_coverage_constraints_step1], the constraints of one store. *)
Definition store_coverage_constraints (b : SKU → Store → entry)
    (color_coverage size_coverage : Store → entry)
    (color_sku_groups : list (Color * list SKU))
    (size_sku_groups : list (Size * list SKU)) (j : Store)
    : list LpConstraint :=
  match color_coverage j, size_coverage j with
  | Var c, Var z =>
      group_constraints b color_bin_ j color_sku_groups
      ++ [ {| lhs := scaled 1 (name c); rel := EQ;
              rhs := lpSum ((λ g, color_bin_ g.1 j) <$> color_sku_groups) |} ]
      ++ group_constraints b size_bin_ j size_sku_groups
      ++ [ {| lhs := scaled 1 (name z); rel := EQ;
              rhs := lpSum ((λ g, size_bin_ g.1 j) <$> size_sku_groups) |} ]
  | _, _ => []
  end.

Definition _add_coverage_constraints_step1 (b : SKU → Store → entry)
    (color_coverage size_coverage : Store → entry)
    (SKUs : list SKU) (stores target_stores : list Store)
    (df_sku_filtered : list sku_row) : list LpConstraint :=
  let color_sku_groups := sku_groups df_sku_filtered COLOR_CD SKUs [] in
  let size_sku_groups := sku_groups df_sku_filtered SIZE_CD SKUs [] in
  j ← stores;
  if decide (j ∈ target_stores) then
    store_coverage_constraints b color_coverage size_coverage
      color_sku_groups size_sku_groups j
  else [].

(** The indicator variables the coverage constraints create. *)
Definition coverage_binaries (SKUs : list SKU)
    (stores target_stores : list Store) (df_sku_filtered : list sku_row)
    : list LpVariable :=
  let color_sku_groups := sku_groups df_sku_filtered COLOR_CD SKUs [] in
  let size_sku_groups := sku_groups df_sku_filtered SIZE_CD SKUs [] in
  j ← stores;
  if decide (j ∈ target_stores) then
    ((λ g, binary (color_bin_ g.1 j)) <$> color_sku_groups)
    ++ ((λ g, binary (size_bin_ g.1 j)) <$> size_sku_groups)
  else [].

(** The supply loop of [_add_step1_constraints]: [data['A'][i]] is a
    [KeyError] for an SKU without supply entry. *)
Fixpoint supply_constraints (b : SKU → Store → entry) (A : gmap SKU Z)
    (SKUs : list SKU) (stores : list Store) : result (list LpConstraint) :=
  match SKUs with
  | [] => Ok []
  | i :: rest =>
      let sku_allocation := lpSum (omap (λ j, as_var (b i j)) stores) in
      Ai ← getitem A i;
      cs ← supply_constraints b A rest stores;
      Ok ({| lhs := sku_allocation; rel := LE; rhs := number Ai |} :: cs)
  end.

(** [_add_step1_constraints]: supply, then coverage.  The parameter
    [store_allocation_limits] is received and not read. *)
Definition _add_step1_constraints (b : SKU → Store → entry)
    (color_coverage size_coverage : Store → entry)
    (SKUs : list SKU) (stores target_stores : list Store)
    (store_allocation_limits : gmap Store Z)
    (df_sku_filtered : list sku_row) (A : gmap SKU Z)
    : result (list LpConstraint) :=
  supply ← supply_constraints b A SKUs stores;
  Ok (supply ++ _add_coverage_constraints_step1 b color_coverage
                  size_coverage SKUs stores target_stores df_sku_filtered).

(** The problem [_step1_coverage_optimization] has built when it calls
    [solve]. *)
Definition step1_problem (d : data) (target_stores : list Store)
    (store_allocation_limits : gmap Store Z)
    (df_sku_filtered : list sku_row) : result LpProblem :=
  let b := _create_binary_variables target_stores in
  let '(color_coverage, size_coverage) :=
    _create_coverage_variables target_stores (d_K_s d) (d_L_s d) in
  let obj := _set_coverage_objective color_coverage size_coverage
               (d_stores d) target_stores (d_K_s d) (d_L_s d) in
  cs ← _add_step1_constraints b color_coverage size_coverage (d_SKUs d)
         (d_stores d) target_stores store_allocation_limits
         df_sku_filtered (d_A d);
  Ok {| variables :=
          (i ← d_SKUs d; created (b i) (d_stores d))
          ++ created color_coverage (d_stores d)
          ++ created size_coverage (d_stores d)
          ++ coverage_binaries (d_SKUs d) (d_stores d) target_stores
               df_sku_filtered;
        objective := obj;
        constraints := cs |}.

(** [selected_combinations]: the pairs whose variable came out above
    one half (and not falsy). *)
Definition selected_combinations (val : lpvar → Z) (SKUs : list SKU)
    (stores target_stores : list Store) : list (SKU * Store) :=
  i ← SKUs; j ← stores;
  if decide (j ∈ target_stores ∧ val (b_ i j) ≠ 0 ∧ 1 < 2 * val (b_ i j))
  then [(i, j)] else [].

(** [step1_allocation[(i, j)] = 1] for every selected pair. *)
Definition mark_all (sel : list (SKU * Store)) : gmap (SKU * Store) Z :=
  foldl (λ a ij, <[ij := 1]> a) ∅ sel.

(** The dict a successful Step 1 returns (without its wall time). *)
Record step1_result := {
  s1_allocation : gmap (SKU * Store) Z;
  s1_objective : Qc;
  s1_combinations : Z
}.

(** [_step1_coverage_optimization]; [None] is [{'status': 'failed'}]. *)
Definition _step1_coverage_optimization
    (solve : LpProblem → solver_response) (d : data)
    (target_stores : list Store) (store_allocation_limits : gmap Store Z)
    (df_sku_filtered : list sku_row) : result (option step1_result) :=
  P ← step1_problem d target_stores store_allocation_limits df_sku_filtered;
  let r := solve P in
  if decide (status r = 1) then
    let sel := selected_combinations (varValue r) (d_SKUs d) (d_stores d)
                 target_stores in
    Ok (Some {| s1_allocation := mark_all sel;
                s1_objective := objective_value P (varValue r);
                s1_combinations := Z.of_nat (length sel) |})
  else Ok None.

End Step1.

Section Greedy.
Context {SKU Store : Type} `{Countable SKU} `{Countable Store}.

(** [sum(...)] of integers *)
Definition sum_list_Z (l : list Z) : Z := foldr Z.add 0 l.

(** [sum(self.final_allocation.get((i, j), 0) for j in target_stores)] *)
Definition allocated_quantity_of (final_allocation : gmap (SKU * Store) Z)
    (i : SKU) (target_stores : list Store) : Z :=
  sum_list_Z ((λ j, dict_get final_allocation (i, j) 0) <$> target_stores).

(** The state of the inner loop of Step 2: the allocation,
    [allocated_this_sku] and [total_additional]. *)
Definition fill_state : Type := gmap (SKU * Store) Z * Z * Z.

(** Step 2, the loop [for j, weight in weighted_stores]. *)
Fixpoint step2_fill (i : SKU) (store_allocation_limits : gmap Store Z)
    (remaining_quantity : Z) (weighted_stores : list (Store * Qc))
    (st : fill_state) : fill_state :=
  match weighted_stores with
  | [] => st
  | (j, weight) :: rest =>
      let '(final_allocation, allocated_this_sku, total_additional) := st in
      if decide (remaining_quantity ≤ allocated_this_sku) then st
      else
        let current_qty := dict_get final_allocation (i, j) 0 in
        let max_qty_per_sku := dict_get store_allocation_limits j 0 in
        if decide (max_qty_per_sku ≤ current_qty)
        then step2_fill i store_allocation_limits remaining_quantity rest st
        else step2_fill i store_allocation_limits remaining_quantity rest
               (<[(i, j) := dict_get final_allocation (i, j) 0 + 1]>
                  final_allocation,
                allocated_this_sku + 1, total_additional + 1)
  end.

(** Step 2, the body of [for i in SKUs]. *)
Definition step2_sku (A : gmap SKU Z) (target_stores : list Store)
    (store_allocation_limits : gmap Store Z)
    (store_priority_weights : gmap Store Qc) (i : SKU)
    (st : gmap (SKU * Store) Z * Z) : result (gmap (SKU * Store) Z * Z) :=
  let '(final_allocation, total_additional) := st in
  let unfilled_stores :=
    filter (λ j, final_allocation !! (i, j) = None ∨
                 final_allocation !! (i, j) = Some 0) target_stores in
  if decide (unfilled_stores = []) then Ok st
  else
    let allocated_quantity :=
      allocated_quantity_of final_allocation i target_stores in
    Ai ← getitem A i;
    let remaining_quantity := Ai - allocated_quantity in
    if decide (remaining_quantity ≤ 0) then Ok st
    else
      let weighted_stores :=
        sort_desc ((λ j, (j, dict_get store_priority_weights j 0%Qc))
                     <$> unfilled_stores) in
      let '(fa, _, ta) :=
        step2_fill i store_allocation_limits remaining_quantity
          weighted_stores (final_allocation, 0, total_additional) in
      Ok (fa, ta).

(** A [for i in SKUs] loop over a body that may raise. *)
Fixpoint for_each {X S} (body : X → S → result S) (xs : list X) (st : S)
    : result S :=
  match xs with
  | [] => Ok st
  | x :: rest => st' ← body x st; for_each body rest st'
  end.

(** The dict Steps 2 and 3 return (without the wall time). *)
Record step_result := {
  additional_allocation : Z;
  allocation : gmap (SKU * Store) Z
}.

(** [_step2_single_allocation] *)
Definition _step2_single_allocation (A : gmap SKU Z) (QSUM : gmap Store Qc)
    (SKUs : list SKU) (target_stores : list Store)
    (store_allocation_limits : gmap Store Z)
    (step1_allocation : gmap (SKU * Store) Z) (scenario_params : scenario)
    : M step_result :=
  let priority_temperature :=
    default 0%Qc (priority_temperature scenario_params) in
  store_priority_weights ←
    _calculate_store_priorities target_stores QSUM priority_temperature;
  r ← lift (for_each (step2_sku A target_stores store_allocation_limits
                        store_priority_weights)
              SKUs (step1_allocation, 0));
  mret {| additional_allocation := r.2; allocation := r.1 |}.

(** The state of the inner loop of Step 3: the allocation,
    [remaining_quantity] and [total_additional]. *)
Fixpoint step3_fill (i : SKU) (store_allocation_limits : gmap Store Z)
    (weighted_stores : list (Store * Qc)) (st : fill_state) : fill_state :=
  match weighted_stores with
  | [] => st
  | (j, weight) :: rest =>
      let '(final_allocation, remaining_quantity, total_additional) := st in
      if decide (remaining_quantity ≤ 0) then st
      else
        let current_qty := dict_get final_allocation (i, j) 0 in
        let max_qty_per_sku := dict_get store_allocation_limits j 0 in
        let available_capacity := max_qty_per_sku - current_qty in
        if decide (available_capacity ≤ 0)
        then step3_fill i store_allocation_limits rest st
        else
          let allocate_quantity := Z.min remaining_quantity available_capacity in
          step3_fill i store_allocation_limits rest
            (<[(i, j) := dict_get final_allocation (i, j) 0 + allocate_quantity]>
               final_allocation,
             remaining_quantity - allocate_quantity,
             total_additional + allocate_quantity)
  end.

(** Step 3, the body of [for i in SKUs]. *)
Definition step3_sku (A : gmap SKU Z) (target_stores : list Store)
    (store_allocation_limits : gmap Store Z)
    (store_priority_weights : gmap Store Qc) (i : SKU)
    (st : gmap (SKU * Store) Z * Z) : result (gmap (SKU * Store) Z * Z) :=
  let '(final_allocation, total_additional) := st in
  let allocated_quantity :=
    allocated_quantity_of final_allocation i target_stores in
  Ai ← getitem A i;
  let remaining_quantity := Ai - allocated_quantity in
  if decide (remaining_quantity ≤ 0) then Ok st
  else
    let eligible_stores :=
      filter (λ j, dict_get final_allocation (i, j) 0
                   < dict_get store_allocation_limits j 0) target_stores in
    if decide (eligible_stores = []) then Ok st
    else
      let weighted_stores :=
        sort_desc ((λ j, (j, dict_get store_priority_weights j 0%Qc))
                     <$> eligible_stores) in
      let '(fa, _, ta) :=
        step3_fill i store_allocation_limits weighted_stores
          (final_allocation, remaining_quantity, total_additional) in
      Ok (fa, ta).

(** [_step3_remaining_allocation] *)
Definition _step3_remaining_allocation (A : gmap SKU Z) (QSUM : gmap Store Qc)
    (SKUs : list SKU) (target_stores : list Store)
    (store_allocation_limits : gmap Store Z)
    (step2_allocation : gmap (SKU * Store) Z) (scenario_params : scenario)
    : M step_result :=
  let priority_temperature :=
    default 0%Qc (priority_temperature scenario_params) in
  store_priority_weights ←
    _calculate_store_priorities target_stores QSUM priority_temperature;
  r ← lift (for_each (step3_sku A target_stores store_allocation_limits
                        store_priority_weights)
              SKUs (step2_allocation, 0));
  mret {| additional_allocation := r.2; allocation := r.1 |}.

(** [sum(self.final_allocation.values())] *)
Definition total_allocated_of (a : gmap (SKU * Store) Z) : Z :=
  map_fold (λ _ q acc, q + acc) 0 a.

End Greedy.

Section Pipeline.
Context {SKU Store Color Size : Type}.
Context `{Countable SKU} `{Countable Store}.
Context `{EqDecision Color} `{EqDecision Size}.

(** The attributes of a [ThreeStepOptimizer] that hold allocations and
    counts (the wall times and the problem object are left out). *)
Record ThreeStepOptimizer := {
  step1_objective : Qc;
  step2_additional_allocation : Z;
  step3_additional_allocation : Z;
  final_allocation : gmap (SKU * Store) Z;
  step1_allocation : gmap (SKU * Store) Z;
  allocation_after_step2 : gmap (SKU * Store) Z;
  allocation_after_step3 : gmap (SKU * Store) Z
}.

(** [ThreeStepOptimizer.__init__] *)
Definition init : ThreeStepOptimizer :=
  {| step1_objective := 0%Qc;
     step2_additional_allocation := 0;
     step3_additional_allocation := 0;
     final_allocation := ∅;
     step1_allocation := ∅;
     allocation_after_step2 := ∅;
     allocation_after_step3 := ∅ |}.

(** The dict [optimize_three_step] returns: the failure of Step 1 with its
    empty [final_allocation], or the summary of
    [_get_optimization_summary] (rates, store counts and times left out). *)
Inductive outcome :=
| failed (step : Z) (final : gmap (SKU * Store) Z)
| success (final : gmap (SKU * Store) Z) (total_allocated : Z)
    (step1_combinations : Z) (step1_obj : Qc)
    (step2_additional step3_additional : Z).

(** [ThreeStepOptimizer.optimize_three_step], returning the dict and the
    optimizer object as the run leaves it. *)
Definition optimize_three_step
    (solve : LpProblem SKU Store Color Size → solver_response SKU Store Color Size)
    (d : data SKU Store Color Size) (target_stores : list Store)
    (store_allocation_limits : gmap Store Z)
    (df_sku_filtered : list (@sku_row SKU Color Size))
    (scenario_params : scenario) : M (outcome * ThreeStepOptimizer) :=
  step1 ← lift (_step1_coverage_optimization solve d target_stores
                  store_allocation_limits df_sku_filtered);
  match step1 with
  | None => mret (failed 1 ∅, init)
  | Some step1_result =>
      step2_result ← _step2_single_allocation (d_A d) (d_QSUM d) (d_SKUs d)
                       target_stores store_allocation_limits
                       (s1_allocation step1_result) scenario_params;
      step3_result ← _step3_remaining_allocation (d_A d) (d_QSUM d) (d_SKUs d)
                       target_stores store_allocation_limits
                       (allocation step2_result) scenario_params;
      mret (success (allocation step3_result)
              (total_allocated_of (allocation step3_result))
              (s1_combinations step1_result) (s1_objective step1_result)
              (additional_allocation step2_result)
              (additional_allocation step3_result),
            {| step1_objective := s1_objective step1_result;
               step2_additional_allocation := additional_allocation step2_result;
               step3_additional_allocation := additional_allocation step3_result;
               final_allocation := allocation step3_result;
               step1_allocation := s1_allocation step1_result;
               allocation_after_step2 := allocation step2_result;
               allocation_after_step3 := allocation step3_result |})
  end.

(** The optimizer object a run leaves behind (the fresh object when the
    run raised). *)
Definition run_self (r : result (outcome * ThreeStepOptimizer * rng))
    : ThreeStepOptimizer :=
  match r with
  | Ok (_, self, _) => self
  | Raise _ => init
  end.

End Pipeline.

(** ** The Step 1 of logic4_oneStyle (modules/coverage_optimizer.py) *)

Section Coverage.
Context {SKU Store Color Size : Type}.
Context `{Countable SKU} `{Countable Store}.
Context `{EqDecision Color} `{EqDecision Size}.

Abbreviation lpvar := (lpvar SKU Store Color Size).
Abbreviation entry := (entry SKU Store Color Size).
Abbreviation LpConstraint := (LpConstraint SKU Store Color Size).
Abbreviation LpProblem := (LpProblem SKU Store Color Size).
Abbreviation solver_response := (solver_response SKU Store Color Size).
Abbreviation sku_row := (@sku_row SKU Color Size).

(** [CoverageOptimizer._set_objective]: the coverage variables, unweighted. *)
Definition _set_objective (color_coverage size_coverage : Store → entry)
    (stores : list Store) : list (Qc * lpvar) :=
  ((λ v, (1%Qc, v)) <$> omap (λ j, as_var (color_coverage j)) stores)
  ++ ((λ v, (1%Qc, v)) <$> omap (λ j, as_var (size_coverage j)) stores).

(** [CoverageOptimizer._add_store_limit_constraints]:
    [store_allocation_limits[j]] is a [KeyError] for a store without limit. *)
Fixpoint _add_store_limit_constraints (b : SKU → Store → entry)
    (scarce_skus : list SKU) (stores target_stores : list Store)
    (store_allocation_limits : gmap Store Z) : result (list LpConstraint) :=
  match stores with
  | [] => Ok []
  | j :: rest =>
      if decide (j ∈ target_stores) then
        max_allocation ← getitem store_allocation_limits j;
        let store_scarce_allocation :=
          lpSum (omap (λ i, as_var (b i j)) scarce_skus) in
        cs ← _add_store_limit_constraints b scarce_skus rest target_stores
               store_allocation_limits;
        Ok ({| lhs := store_scarce_allocation; rel := LE;
               rhs := number max_allocation |} :: cs)
      else _add_store_limit_constraints b scarce_skus rest target_stores
             store_allocation_limits
  end.

(** The constraints of one colour (or size) [k] at store [j] in
    [CoverageOptimizer._add_coverage_constraints]; [idx] is [idx_color]. *)
Definition covered_constraints (b : SKU → Store → entry) (covered : lpvar)
    (idx : list SKU) (j : Store) : list LpConstraint :=
  match idx with
  | [] => [ {| lhs := scaled 1 covered; rel := EQ; rhs := number 0 |} ]
  | _ =>
      {| lhs := lpSum (omap (λ i, as_var (b i j)) idx); rel := GE;
         rhs := scaled 1 covered |}
      :: omap (λ i, v ← as_var (b i j);
                    Some {| lhs := scaled 1 v; rel := LE;
                            rhs := scaled 1 covered |}) idx
  end.

(** [idx_color]: the SKUs of [I_s] whose column is [k] and whose cell at
    [j] is a variable; the frame lookup cannot fail on [I_s]. *)
Definition idx_of {K} `{EqDecision K} (b : SKU → Store → entry)
    (df : list sku_row) (col : sku_row → K) (I_s : list SKU) (k : K)
    (j : Store) : list SKU :=
  filter (λ i, loc_iloc0 df i col = Ok k ∧ is_Some (as_var (b i j))) I_s.

(** [CoverageOptimizer._add_coverage_constraints] *)
Definition _add_coverage_constraints (b : SKU → Store → entry)
    (color_coverage size_coverage : Store → entry)
    (scarce_skus : list SKU) (stores target_stores : list Store)
    (K_s : list Color) (L_s : list Size) (df_sku_filtered : list sku_row)
    : list LpConstraint :=
  let I_s : list SKU :=
    elements ((list_to_set (row_SKU <$> df_sku_filtered) : gset SKU)
              ∩ list_to_set scarce_skus) in
  j ← stores;
  if decide (j ∈ target_stores) then
    match color_coverage j, size_coverage j with
    | Var c, Var z =>
        (k ← K_s; covered_constraints b (color_bin_ k j)
                    (idx_of b df_sku_filtered COLOR_CD I_s k j) j)
        ++ [ {| lhs := scaled 1 (name c); rel := EQ;
                rhs := lpSum ((λ k, color_bin_ k j) <$> K_s) |} ]
        ++ (l ← L_s; covered_constraints b (size_bin_ l j)
                       (idx_of b df_sku_filtered SIZE_CD I_s l j) j)
        ++ [ {| lhs := scaled 1 (name z); rel := EQ;
                rhs := lpSum ((λ l, size_bin_ l j) <$> L_s) |} ]
    | _, _ => []
    end
  else [].

(** The problem [optimize_coverage] has built when it calls [solve]. *)
Definition coverage_problem (d : data SKU Store Color Size)
    (scarce_skus : list SKU) (target_stores : list Store)
    (store_allocation_limits : gmap Store Z)
    (df_sku_filtered : list sku_row) : result LpProblem :=
  let b := _create_binary_variables target_stores in
  let '(color_coverage, size_coverage) :=
    _create_coverage_variables target_stores (d_K_s d) (d_L_s d) in
  supply ← supply_constraints b (d_A d) scarce_skus (d_stores d);
  limit ← _add_store_limit_constraints b scarce_skus (d_stores d)
            target_stores store_allocation_limits;
  Ok {| variables :=
          (i ← scarce_skus; created (b i) (d_stores d))
          ++ created color_coverage (d_stores d)
          ++ created size_coverage (d_stores d)
          ++ (j ← d_stores d;
              if decide (j ∈ target_stores) then
                ((λ k, binary (color_bin_ k j)) <$> d_K_s d)
                ++ ((λ l, binary (size_bin_ l j)) <$> d_L_s d)
              else []);
        objective := _set_objective color_coverage size_coverage (d_stores d);
        constraints :=
          supply ++ limit
          ++ _add_coverage_constraints b color_coverage size_coverage
               scarce_skus (d_stores d) target_stores (d_K_s d) (d_L_s d)
               df_sku_filtered |}.

(** [CoverageOptimizer._save_results] *)
Definition _save_results (b : SKU → Store → entry) (val : lpvar → Z)
    (scarce_skus : list SKU) (stores : list Store) : gmap (SKU * Store) Z :=
  foldl (λ b_hat ij,
           <[ij := match as_var (b ij.1 ij.2) with
                   | Some v => val v
                   | None => 0
                   end]> b_hat)
        ∅ (i ← scarce_skus; j ← stores; [(i, j)]).

(** The summary dict of [optimize_coverage]. *)
Inductive coverage_summary :=
| coverage_failed (problem_status : Z)
| coverage_success (total_marked : Z) (b_hat : gmap (SKU * Store) Z).

(** [CoverageOptimizer.optimize_coverage] *)
Definition optimize_coverage (solve : LpProblem → solver_response)
    (d : data SKU Store Color Size) (scarce_skus : list SKU)
    (target_stores : list Store) (store_allocation_limits : gmap Store Z)
    (df_sku_filtered : list sku_row) : result coverage_summary :=
  P ← coverage_problem d scarce_skus target_stores store_allocation_limits
        df_sku_filtered;
  let r := solve P in
  let b_hat := _save_results (_create_binary_variables target_stores)
                 (varValue r) scarce_skus (d_stores d) in
  if decide (status r = 1)
  then Ok (coverage_success (total_allocated_of b_hat) b_hat)
  else Ok (coverage_failed (status r)).

End Coverage.

(** ** Observations on an allocation *)

Section Observations.
Context {SKU Store : Type} `{Countable SKU} `{Countable Store}.

(** The sum of the quantities of the keys selected by [sel]. *)
Definition fold_total (sel : SKU * Store → bool) (a : gmap (SKU * Store) Z) : Z :=
  map_fold (λ k q acc, if sel k then q + acc else acc) 0 a.

(** Σ over stores of the quantity of SKU [i]. *)
Definition sku_total (a : gmap (SKU * Store) Z) (i : SKU) : Z :=
  fold_total (λ k, bool_decide (k.1 = i)) a.

(** The number of distinct SKUs store [j] holds:
    [len([sku for (sku, store), qty in a.items() if store == j and qty > 0])] *)
Definition distinct_skus_at (a : gmap (SKU * Store) Z) (j : Store) : Z :=
  map_fold (λ k q acc, if bool_decide (k.2 = j ∧ 0 < q) then 1 + acc else acc)
    0 a.

End Observations.

(** ** The shape of a greedy pass *)

Section Passes.
Context {SKU Store : Type} `{Countable SKU} `{Countable Store}.

(** What the inner loop of Step 2 or Step 3 does to the allocation while
    it serves SKU [i]: it adds [q > 0] units at a store of [S], never
    beyond the limit of the store, any number of times; [n] counts the
    units added. *)
Inductive tops_up (i : SKU) (S : list Store) (limits : gmap Store Z)
  : gmap (SKU * Store) Z → Z → gmap (SKU * Store) Z → Prop :=
| tops_done a : tops_up i S limits a 0 a
| tops_more a j q n a' :
    j ∈ S → 0 < q →
    dict_get a (i, j) 0 + q ≤ dict_get limits j 0 →
    tops_up i S limits (<[(i, j) := dict_get a (i, j) 0 + q]> a) n a' →
    tops_up i S limits a (q + n) a'.

(** What the loop over the SKUs does: one pass per SKU, each adding no
    more than the supply the SKU had left when its pass began. *)
Inductive grows (A : gmap SKU Z) (S : list Store) (limits : gmap Store Z)
  : gmap (SKU * Store) Z → Z → gmap (SKU * Store) Z → Prop :=
| grows_done a : grows A S limits a 0 a
| grows_more a i n a' m a'' :
    tops_up i S limits a n a' →
    (n = 0 ∨ ∃ s, A !! i = Some s ∧ n ≤ s - allocated_quantity_of a i S) →
    grows A S limits a' m a'' →
    grows A S limits a (n + m) a''.

(** Every key is a store of [S] and no quantity is negative. *)
Definition placed (S : list Store) (a : gmap (SKU * Store) Z) : Prop :=
  ∀ k v, a !! k = Some v → k.2 ∈ S ∧ 0 ≤ v.

(** Invariant 1: no SKU of [SKUs] is allocated beyond its supply. *)
Definition within_supply (A : gmap SKU Z) (SKUs : list SKU)
    (a : gmap (SKU * Store) Z) : Prop :=
  ∀ i, i ∈ SKUs → ∃ s, A !! i = Some s ∧ sku_total a i ≤ s.

(** Invariant 2: no pair at a store of [S] holds more than the limit of
    the store ([store_allocation_limits.get(j, 0)]). *)
Definition within_limits (S : list Store) (limits : gmap Store Z)
    (a : gmap (SKU * Store) Z) : Prop :=
  ∀ i j, j ∈ S → dict_get a (i, j) 0 ≤ dict_get limits j 0.

(** Invariant 4, between two snapshots: every entry is kept and not
    decreased, and the total quantity is not decreased. *)
Definition not_decreased (a a' : gmap (SKU * Store) Z) : Prop :=
  (∀ k v, a !! k = Some v → ∃ v', a' !! k = Some v' ∧ v ≤ v') ∧
  total_allocated_of a ≤ total_allocated_of a'.

End Passes.

(** ** Sample inputs *)

Module Sample.

Abbreviation var := (lpvar string string string string).
Abbreviation problem := (LpProblem string string string string).
Abbreviation response := (solver_response string string string string).

(** One style in two colours and two sizes, five units of each SKU, and
    a single store. *)
Definition frame : list (@sku_row string string string) :=
  [ {| row_SKU := "A_red_S"; COLOR_CD := "red"; SIZE_CD := "S" |};
    {| row_SKU := "A_blue_M"; COLOR_CD := "blue"; SIZE_CD := "M" |} ].

Definition inputs : data string string string string :=
  {| d_A := <["A_red_S" := 5]> (<["A_blue_M" := 5]> ∅);
     d_SKUs := ["A_red_S"; "A_blue_M"];
     d_stores := ["s1"];
     d_QSUM := <["s1" := Qc_of_Z 100]> ∅;
     d_K_s := ["red"; "blue"];
     d_L_s := ["S"; "M"] |}.

Definition target_stores : list string := ["s1"].

(** The limits [main.py] computes: the only store is in the first tier. *)
Definition limits : gmap string Z :=
  create_store_allocation_limits TIER_CONFIG target_stores.

(** A backend that marks every pair and counts every colour and size. *)
Definition mark_everything (colors sizes : Z) : var → Z := λ v,
  match v with
  | color_coverage_ _ => colors
  | size_coverage_ _ => sizes
  | _ => 1
  end.
Definition solve : problem → response :=
  λ _, {| status := 1; varValue := mark_everything 2 2 |}.

Definition deterministic : scenario :=
  {| coverage_weight := 1%Qc; priority_temperature := Some 0%Qc |}.
Definition temperature_50 : scenario :=
  {| coverage_weight := 1%Qc; priority_temperature := Some (Qc_of_frac 1 2) |}.

(** Two random sources. *)
Definition source_a : rng :=
  {| draws := λ n, Qc_of_frac 1 (Pos.of_nat (n + 2)); pos := 0 |}.
Definition source_b : rng :=
  {| draws := λ n, Qc_of_frac (Z.of_nat n) (Pos.of_nat (n + 1)); pos := 7 |}.

(** A tier table that leaves no room in any store. *)
Definition no_room : tier_table := λ t,
  {| ratio := ratio (TIER_CONFIG t); max_sku_limit := 0 |}.
Definition limits_no_room : gmap string Z :=
  create_store_allocation_limits no_room target_stores.

(** One style in four colours and one size, one unit of each SKU. *)
Definition frame4 : list (@sku_row string string string) :=
  [ {| row_SKU := "B_red_F"; COLOR_CD := "red"; SIZE_CD := "F" |};
    {| row_SKU := "B_blue_F"; COLOR_CD := "blue"; SIZE_CD := "F" |};
    {| row_SKU := "B_green_F"; COLOR_CD := "green"; SIZE_CD := "F" |};
    {| row_SKU := "B_black_F"; COLOR_CD := "black"; SIZE_CD := "F" |} ].

Definition inputs4 : data string string string string :=
  {| d_A := <["B_red_F" := 1]> (<["B_blue_F" := 1]>
              (<["B_green_F" := 1]> (<["B_black_F" := 1]> ∅)));
     d_SKUs := ["B_red_F"; "B_blue_F"; "B_green_F"; "B_black_F"];
     d_stores := ["s1"];
     d_QSUM := <["s1" := Qc_of_Z 100]> ∅;
     d_K_s := ["red"; "blue"; "green"; "black"];
     d_L_s := ["F"] |}.

Definition solve4 : problem → response :=
  λ _, {| status := 1; varValue := mark_everything 4 1 |}.

(** The frame of the propagation example, with a third SKU that shares
    nothing with the scarce one. *)
Definition frame3 : list (@sku_row string string string) :=
  [ {| row_SKU := "A_red_S"; COLOR_CD := "red"; SIZE_CD := "S" |};
    {| row_SKU := "A_red_M"; COLOR_CD := "red"; SIZE_CD := "M" |};
    {| row_SKU := "A_blue_M"; COLOR_CD := "blue"; SIZE_CD := "M" |} ].
Definition supply3 : list (string * Z) :=
  [("A_red_S", 2); ("A_red_M", 50); ("A_blue_M", 50)].
Definition ten_stores : list string :=
  ["s0"; "s1"; "s2"; "s3"; "s4"; "s5"; "s6"; "s7"; "s8"; "s9"].

End Sample.

(** ** Store tiers, continued (modules/store_tier_system.py) *)

(** The place of a tier in [tier_names], the key order of
    [config.TIER_CONFIG]: 1 for the highest tier. *)
Definition tier_rank (t : tier_name) : Z :=
  match t with
  | TIER_1_HIGH => 1
  | TIER_2_MEDIUM => 2
  | TIER_3_LOW => 3
  end.

(** [range(n)] *)
Definition range (n : Z) : list Z := seqZ 0 n.

(** The dict [StoreTierSystem.print_tier_summary] returns (and
    [create_store_allocation_limits] prints): for every tier name, the
    number of indices of [range(total_stores)] in that tier. *)
Definition print_tier_summary {Store : Type} (tier_config : tier_table)
    (stores : list Store) : tier_name → Z :=
  let total_stores := Z.of_nat (length stores) in
  λ tier_name,
    Z.of_nat (length (filter (λ i, get_store_tier tier_config i total_stores
                                   = tier_name)
                        (range total_stores))).

(** ** SKU classification, continued (sku_classifier.py) *)

(** The strings [get_sku_type] answers. *)
Inductive sku_type := type_scarce | type_abundant | type_unknown.

(** The dict of [get_classification_stats]. *)
Record classification_stats := {
  total_skus : Z;
  scarce_count : Z;
  abundant_count : Z;
  scarce_ratio : Qc;
  abundant_ratio : Qc
}.

Section ClassifierState.
Context {SKU : Type} `{Countable SKU}.

(** [SKUClassifier.get_sku_type], on the two lists the classifier keeps. *)
Definition get_sku_type (scarce_skus abundant_skus : list SKU) (sku : SKU)
    : sku_type :=
  if decide (sku ∈ scarce_skus) then type_scarce
  else if decide (sku ∈ abundant_skus) then type_abundant
  else type_unknown.

(** [SKUClassifier.get_classification_stats]; [None] is the
    [ZeroDivisionError] of the two ratios when both lists are empty. *)
Definition get_classification_stats (scarce_skus abundant_skus : list SKU)
    : option classification_stats :=
  let n_scarce := Z.of_nat (length scarce_skus) in
  let n_abundant := Z.of_nat (length abundant_skus) in
  if decide (n_scarce + n_abundant = 0) then None
  else Some {| total_skus := n_scarce + n_abundant;
               scarce_count := n_scarce;
               abundant_count := n_abundant;
               scarce_ratio :=
                 (Qc_of_Z n_scarce / Qc_of_Z (n_scarce + n_abundant))%Qc;
               abundant_ratio :=
                 (Qc_of_Z n_abundant / Qc_of_Z (n_scarce + n_abundant))%Qc |}.

End ClassifierState.

(** ** How far the greedy steps serve an SKU *)

Section Served.
Context {SKU Store : Type} `{Countable SKU} `{Countable Store}.

(** The supply of SKU [i] is used up over the stores of [S]. *)
Definition used_up (A : gmap SKU Z) (S : list Store)
    (a : gmap (SKU * Store) Z) (i : SKU) : Prop :=
  ∃ s, A !! i = Some s ∧ s ≤ allocated_quantity_of a i S.

(** Step 2 has nothing left to do for SKU [i]: its supply is used up, or
    every store of [S] with room for one unit holds at least one. *)
Definition served_once (A : gmap SKU Z) (S : list Store)
    (limits : gmap Store Z) (a : gmap (SKU * Store) Z) (i : SKU) : Prop :=
  used_up A S a i ∨
  ∀ j, j ∈ S → 1 ≤ dict_get limits j 0 → 1 ≤ dict_get a (i, j) 0.

(** Step 3 has nothing left to do for SKU [i]: its supply is used up, or
    every store of [S] holds its limit. *)
Definition served_to_limit (A : gmap SKU Z) (S : list Store)
    (limits : gmap Store Z) (a : gmap (SKU * Store) Z) (i : SKU) : Prop :=
  used_up A S a i ∨
  ∀ j, j ∈ S → dict_get limits j 0 ≤ dict_get a (i, j) 0.

End Served.

(** ** A sample with two stores *)

Module TwoStores.

(** Three units of one SKU and five of the other, for a store of the
    first tier (limit 3) and one of the last (limit 1). *)
Definition inputs : data string string string string :=
  {| d_A := <["A_red_S" := 3]> (<["A_blue_M" := 5]> ∅);
     d_SKUs := ["A_red_S"; "A_blue_M"];
     d_stores := ["s1"; "s2"];
     d_QSUM := <["s1" := Qc_of_Z 100]> (<["s2" := Qc_of_Z 50]> ∅);
     d_K_s := ["red"; "blue"];
     d_L_s := ["S"; "M"] |}.

Definition target_stores : list string := ["s1"; "s2"].

Definition limits : gmap string Z :=
  create_store_allocation_limits TIER_CONFIG target_stores.

(** A backend that marks both SKUs at the first store and nothing at the
    second. *)
Definition first_store_only : Sample.var → Z := λ v,
  match v with
  | b_ _ j | color_bin_ _ j | size_bin_ _ j =>
      if decide (j = "s1") then 1 else 0
  | color_coverage_ j | size_coverage_ j =>
      if decide (j = "s1") then 2 else 0
  end.
Definition solve : Sample.problem → Sample.response :=
  λ _, {| status := 1; varValue := first_store_only |}.

(** A limits dict with room at the first store only: the second store
    has no entry, which [store_allocation_limits.get(j, 0)] reads as 0. *)
Definition limits_first_only : gmap string Z := <["s1" := 3]> ∅.

(** Room for three units of an SKU at either store, so that the last
    unit of an SKU goes to the store that is served first. *)
Definition limits_even : gmap string Z := <["s1" := 3]> (<["s2" := 3]> ∅).

(** [priority_temperature] 1: the scores are the random draws. *)
Definition fully_random : scenario :=
  {| coverage_weight := 1%Qc; priority_temperature := Some 1%Qc |}.

End TwoStores.

(** ** Min-max normalisation *)

Section Normalisation.
Context {Store : Type} `{Countable Store}.

(** The volumes of the stores of a list. *)
Definition volume_in (QSUM : gmap Store Qc) (S : list Store) (v : Qc) : Prop :=
  ∃ j, j ∈ S ∧ QSUM !! j = Some v.

(** Modelled from the spec: the min-max-normalized volume of a store
    among the stores of a list is its volume less the least volume of
    the list, over the spread between the greatest and the least volume
    of the list; it is 1 when all volumes tie. *)
Definition min_max_normalized (QSUM : gmap Store Qc) (S : list Store)
    (j : Store) (x : Qc) : Prop :=
  ∃ q lo hi,
    QSUM !! j = Some q ∧
    volume_in QSUM S lo ∧ (∀ v, volume_in QSUM S v → (lo ≤ v)%Qc) ∧
    volume_in QSUM S hi ∧ (∀ v, volume_in QSUM S v → (v ≤ hi)%Qc) ∧
    x = if decide (lo = hi) then 1%Qc else ((q - lo) / (hi - lo))%Qc.

End Normalisation.

(** ** Reports of the optimizer (get_step_analysis) *)

(** The dict of [get_step_analysis], without the wall times. *)
Record step_analysis := {
  analysis_objective : Qc;
  analysis_combinations : Z;
  analysis_step2_additional : Z;
  analysis_step3_additional : Z
}.

Section Reports.
Context {SKU Store : Type} `{Countable SKU} `{Countable Store}.

(** [len([k for k, v in a.items() if v > 0])] *)
Definition positive_entries (a : gmap (SKU * Store) Z) : Z :=
  map_fold (λ _ v acc, if decide (0 < v) then 1 + acc else acc) 0 a.

(** [ThreeStepOptimizer.get_step_analysis] *)
Definition get_step_analysis (self : @ThreeStepOptimizer SKU Store _ _ _ _)
    : step_analysis :=
  {| analysis_objective := step1_objective self;
     analysis_combinations := positive_entries (step1_allocation self);
     analysis_step2_additional := step2_additional_allocation self;
     analysis_step3_additional := step3_additional_allocation self |}.

(** [sum(A[i] for i in SKUs)], an absent supply counting 0. *)
Definition supply_of (A : gmap SKU Z) (SKUs : list SKU) : Z :=
  sum_list_Z ((λ i, dict_get A i 0) <$> SKUs).

End Reports.

(** ** Tiers per SKU (logic4_oneStyle/modules/store_tier_system.py) *)

(** [int(x)] on a float: truncation toward zero. *)
Definition py_int (q : Qc) : Z :=
  if decide (0 ≤ q)%Qc then Qfloor q else Qceiling q.

(** The dict [print_sku_tier_summary] returns. *)
Record sku_tier_summary := {
  summary_tier_1 : Z;
  summary_tier_2 : Z;
  summary_tier_3 : Z
}.

Section SkuTiers.
Context {SKU Store : Type} `{Countable SKU} `{Countable Store}.

(** [sorted(l, key=lambda x: QSUM.get(x, 0), reverse=True)] *)
Definition sorted_by_volume (QSUM : gmap Store Qc) (l : list Store)
    : list Store :=
  (sort_desc ((λ x, (x, dict_get QSUM x 0%Qc)) <$> l)).*1.

(** [set_sku_target_stores]: the dict [self.sku_target_stores] after the
    call, and the list returned. *)
Definition set_sku_target_stores (sku_target_stores : gmap SKU (list Store))
    (sku : SKU) (target_stores : list Store) (QSUM : gmap Store Qc)
    : gmap SKU (list Store) * list Store :=
  let sorted_stores := sorted_by_volume QSUM target_stores in
  (<[sku := sorted_stores]> sku_target_stores, sorted_stores).

(** [get_sku_target_stores]: [default_stores or []] when the SKU has no
    list. *)
Definition get_sku_target_stores (sku_target_stores : gmap SKU (list Store))
    (sku : SKU) (default_stores : option (list Store)) : list Store :=
  dict_get sku_target_stores sku (default [] default_stores).

(** [get_store_tier_for_sku]: the shares 0.3 and 0.2 are written in the
    code, not read from the table. *)
Definition get_store_tier_for_sku (sku_target_stores : gmap SKU (list Store))
    (sku : SKU) (store : Store) (QSUM : gmap Store Qc) : tier_name :=
  let sku_stores := get_sku_target_stores sku_target_stores sku None in
  if decide (sku_stores = [] ∨ store ∉ sku_stores) then TIER_3_LOW
  else
    let sorted_stores := sorted_by_volume QSUM sku_stores in
    match list_index store sorted_stores with
    | Ok store_index =>
        let total_stores := Z.of_nat (length sorted_stores) in
        let tier1_count := py_int (Qc_of_Z total_stores * Qc_of_frac 3 10) in
        let tier2_count := py_int (Qc_of_Z total_stores * Qc_of_frac 2 10) in
        if decide (store_index < tier1_count) then TIER_1_HIGH
        else if decide (store_index < tier1_count + tier2_count)
        then TIER_2_MEDIUM
        else TIER_3_LOW
    | Raise _ => TIER_3_LOW
    end.

(** [get_store_tier_info_for_sku] (the display string and the echoed
    SKU are left out). *)
Definition get_store_tier_info_for_sku (tier_config : tier_table)
    (sku_target_stores : gmap SKU (list Store))
    (store_id : Store) (sku : SKU) (QSUM : gmap Store Qc)
    : store_tier_info Store :=
  let tier_name := get_store_tier_for_sku sku_target_stores sku store_id QSUM in
  let tier_info := tier_config tier_name in
  {| info_store_id := store_id;
     info_tier_name := tier_name;
     info_max_sku_limit := max_sku_limit tier_info;
     info_tier_ratio := ratio tier_info |}.

(** [get_max_allocatable_for_sku] *)
Definition get_max_allocatable_for_sku (tier_config : tier_table)
    (sku_target_stores : gmap SKU (list Store))
    (sku : SKU) (QSUM : gmap Store Qc) (A : gmap SKU Z) : Z :=
  let sku_stores := get_sku_target_stores sku_target_stores sku None in
  if decide (sku_stores = []) then dict_get A sku 0
  else
    let tier_based_capacity :=
      foldl (λ acc store,
               acc + info_max_sku_limit
                       (get_store_tier_info_for_sku tier_config
                          sku_target_stores store sku QSUM))
            0 sku_stores in
    let actual_supply := dict_get A sku 0 in
    Z.min actual_supply tier_based_capacity.

(** [create_store_allocation_limits_for_sku] *)
Definition create_store_allocation_limits_for_sku (tier_config : tier_table)
    (sku_target_stores : gmap SKU (list Store))
    (sku : SKU) (QSUM : gmap Store Qc) : gmap Store Z :=
  let sku_stores := get_sku_target_stores sku_target_stores sku None in
  if decide (sku_stores = []) then ∅
  else
    foldl (λ store_limits store,
             <[store := info_max_sku_limit
                          (get_store_tier_info_for_sku tier_config
                             sku_target_stores store sku QSUM)]> store_limits)
          ∅ sku_stores.

(** [print_sku_tier_summary]: [None] when the SKU has no list. *)
Definition print_sku_tier_summary (sku_target_stores : gmap SKU (list Store))
    (sku : SKU) (QSUM : gmap Store Qc) : option sku_tier_summary :=
  let sku_stores := get_sku_target_stores sku_target_stores sku None in
  if decide (sku_stores = []) then None
  else
    let sorted_stores := sorted_by_volume QSUM sku_stores in
    let total_stores := Z.of_nat (length sorted_stores) in
    let tier1_count := py_int (Qc_of_Z total_stores * Qc_of_frac 3 10) in
    let tier2_count := py_int (Qc_of_Z total_stores * Qc_of_frac 2 10) in
    let tier3_count := total_stores - tier1_count - tier2_count in
    Some {| summary_tier_1 := tier1_count;
            summary_tier_2 := tier2_count;
            summary_tier_3 := tier3_count |}.

End SkuTiers.

(** The tier [get_store_tier_for_sku] gives position [idx] of a sorted
    list of [n] stores, with the two counts as integer quotients. *)
Definition tier_by_floor (idx n : Z) : tier_name :=
  if decide (idx < 3 * n / 10) then TIER_1_HIGH
  else if decide (idx < 3 * n / 10 + 2 * n / 10) then TIER_2_MEDIUM
  else TIER_3_LOW.

(** A sample for the tiers per SKU: five stores, three of them with a
    sales volume, all five given to one SKU with four units. *)
Module SkuSample.

Definition QSUM : gmap string Qc :=
  <["s1" := Qc_of_Z 100]> (<["s2" := Qc_of_Z 50]> (<["s3" := Qc_of_Z 70]> ∅)).

Definition five_stores : list string := ["s1"; "s2"; "s3"; "s4"; "s5"].

Definition sku_target_stores : gmap string (list string) :=
  (set_sku_target_stores ∅ "A_red_S" five_stores QSUM).1.

Definition A : gmap string Z := <["A_red_S" := 4]> ∅.

End SkuSample.

(** ** The greedy allocator (logic4_oneStyle/modules/greedy_allocator.py) *)

#[global] Instance sku_type_eq_dec : EqDecision sku_type.
Proof. solve_decision. Defined.

Module GreedyAllocator.

Section Allocator.
Context {SKU Store Color Size : Type}.
Context `{Countable SKU} `{Countable Store}.

(** [self.final_allocation] is a dict that is walked with [.items()]: its
    entries are kept in the order of their first insertion. *)
Abbreviation odict := (list (SKU * Store * Z)) (only parsing).

(** [d[k] = v] *)
Fixpoint od_set (k : SKU * Store) (v : Z) (d : odict) : odict :=
  match d with
  | [] => [(k, v)]
  | e :: rest =>
      if decide (e.1 = k) then (k, v) :: rest else e :: od_set k v rest
  end.

Fixpoint od_lookup (d : odict) (k : SKU * Store) : option Z :=
  match d with
  | [] => None
  | e :: rest => if decide (e.1 = k) then Some e.2 else od_lookup rest k
  end.

(** [d[k]]: [KeyError] when the key is absent. *)
Definition od_getitem (d : odict) (k : SKU * Store) : result Z :=
  match od_lookup d k with
  | Some v => Ok v
  | None => Raise KeyError
  end.

(** The two attributes of a [GreedyAllocator] the methods work on. *)
Record state := {
  final_allocation : odict;
  current_supply : gmap SKU Z
}.

(** The body of the two loops of [_priority_allocation]. *)
Definition mark_priority (b_hat : gmap (SKU * Store) Z) (i : SKU) (j : Store)
    (st : state) : result state :=
  if decide (dict_get b_hat (i, j) 0 = 1) then
    remaining ← getitem (current_supply st) i;
    if decide (0 < remaining) then
      Ok {| final_allocation := od_set (i, j) 1 (final_allocation st);
            current_supply := <[i := remaining - 1]> (current_supply st) |}
    else Ok st
  else Ok st.

(** [GreedyAllocator._priority_allocation]: the allocation and the
    remaining supply it stores in the object. *)
Definition _priority_allocation (b_hat : gmap (SKU * Store) Z)
    (scarce_skus : list SKU) (target_stores : list Store) (A : gmap SKU Z)
    : result state :=
  for_each (λ i, for_each (mark_priority b_hat i) target_stores) scarce_skus
    {| final_allocation := []; current_supply := A |}.

(** A candidate: the SKU, its type and the supply seen when it was
    listed. *)
Abbreviation candidate := (SKU * sku_type * Z)%type (only parsing).

(** One of the two loops of [_get_candidate_skus]. *)
Fixpoint candidates_of (ty : sku_type) (skus : list SKU) (store_id : Store)
    (st : state) : result (list candidate) :=
  match skus with
  | [] => Ok []
  | sku :: rest =>
      supply ← getitem (current_supply st) sku;
      more ← candidates_of ty rest store_id st;
      Ok (if decide (0 < supply ∧ (sku, store_id) ∉ (final_allocation st).*1)
          then (sku, ty, supply) :: more else more)
  end.

(** [key=lambda x: (0 if x[1] == 'scarce' else 1, x[2])] *)
Definition sort_key (x : candidate) : Z * Z :=
  (if decide (x.1.2 = type_scarce) then 0 else 1, x.2).

(** The order of Python on pairs. *)
Definition key_lt (a b : Z * Z) : Prop :=
  a.1 < b.1 ∨ (a.1 = b.1 ∧ a.2 < b.2).

(** [list.sort(key=...)]: stable, ascending. *)
Fixpoint insert_by_key (x : candidate) (l : list candidate) : list candidate :=
  match l with
  | [] => [x]
  | y :: rest =>
      if decide (key_lt (sort_key y) (sort_key x)) then y :: insert_by_key x rest
      else x :: y :: rest
  end.
Definition sort_by_key (l : list candidate) : list candidate :=
  foldr insert_by_key [] l.

(** [GreedyAllocator._get_candidate_skus] *)
Definition _get_candidate_skus (scarce_skus abundant_skus : list SKU)
    (store_id : Store) (st : state) : result (list candidate) :=
  scarce ← candidates_of type_scarce scarce_skus store_id st;
  abundant ← candidates_of type_abundant abundant_skus store_id st;
  Ok (sort_by_key (scarce ++ abundant)).

(** [GreedyAllocator._allocate_to_store], from the count reached so far:
    the count and the state it leaves. *)
Fixpoint _allocate_to_store (store_id : Store) (candidate_skus : list candidate)
    (additional_slots : Z) (tier_info : store_tier_info Store)
    (allocated_count : Z) (st : state) : result (Z * state) :=
  let max_qty_per_sku := info_max_sku_limit tier_info in
  match candidate_skus with
  | [] => Ok (allocated_count, st)
  | (sku, _, available_qty) :: rest =>
      if decide (additional_slots ≤ allocated_count)
      then Ok (allocated_count, st)
      else
        let allocated_qty := Z.min (Z.min max_qty_per_sku available_qty) 1 in
        if decide (0 < allocated_qty) then
          supply ← getitem (current_supply st) sku;
          _allocate_to_store store_id rest additional_slots tier_info
            (allocated_count + 1)
            {| final_allocation :=
                 od_set (sku, store_id) allocated_qty (final_allocation st);
               current_supply :=
                 <[sku := supply - allocated_qty]> (current_supply st) |}
        else
          _allocate_to_store store_id rest additional_slots tier_info
            allocated_count st
  end.

(** The body of the loop of [_additional_allocation]. *)
Definition additional_for_store (tier_config : tier_table)
    (scarce_skus abundant_skus : list SKU) (target_stores : list Store)
    (store_id : Store) (st : state) : result state :=
  tier_info ← get_store_tier_info tier_config store_id target_stores;
  let max_skus_per_store := info_max_sku_limit tier_info in
  let current_allocated :=
    Z.of_nat (length (filter (λ e : SKU * Store * Z, e.1.2 = store_id ∧ 0 < e.2)
                        (final_allocation st))) in
  let additional_slots := max_skus_per_store - current_allocated in
  if decide (additional_slots ≤ 0) then Ok st
  else
    candidate_skus ← _get_candidate_skus scarce_skus abundant_skus store_id st;
    r ← _allocate_to_store store_id candidate_skus additional_slots tier_info
          0 st;
    Ok r.2.

(** [GreedyAllocator._additional_allocation] (of its arguments, the
    method reads the two SKU lists and the stores). *)
Definition _additional_allocation (tier_config : tier_table)
    (scarce_skus abundant_skus : list SKU) (target_stores : list Store)
    (st : state) : result state :=
  for_each (additional_for_store tier_config scarce_skus abundant_skus
              target_stores)
    target_stores st.

(** The body of the inner loop of [_quantity_increase_allocation], on an
    entry of the list [store_allocations]. *)
Definition increase_entry (store_id : Store) (max_qty_per_sku : Z)
    (e : SKU * Z) (st : state) : result state :=
  let '(sku, current_qty) := e in
  if decide (current_qty < max_qty_per_sku) then
    supply ← getitem (current_supply st) sku;
    if decide (0 < supply) then
      let additional_qty := Z.min (max_qty_per_sku - current_qty) supply in
      qty ← od_getitem (final_allocation st) (sku, store_id);
      Ok {| final_allocation :=
              od_set (sku, store_id) (qty + additional_qty) (final_allocation st);
            current_supply :=
              <[sku := supply - additional_qty]> (current_supply st) |}
    else Ok st
  else Ok st.

(** The loop of [_quantity_increase_allocation] over
    [enumerate(target_stores)], from index [store_idx]. *)
Fixpoint increase_stores (tier_config : tier_table) (total_stores store_idx : Z)
    (stores : list Store) (st : state) : result state :=
  match stores with
  | [] => Ok st
  | store_id :: rest =>
      let tier := get_store_tier tier_config store_idx total_stores in
      let max_qty_per_sku := max_sku_limit (tier_config tier) in
      if decide (max_qty_per_sku = 1)
      then increase_stores tier_config total_stores (store_idx + 1) rest st
      else
        let store_allocations :=
          (λ e : SKU * Store * Z, (e.1.1, e.2))
            <$> filter (λ e : SKU * Store * Z, e.1.2 = store_id)
                  (final_allocation st) in
        st' ← for_each (increase_entry store_id max_qty_per_sku)
                store_allocations st;
        increase_stores tier_config total_stores (store_idx + 1) rest st'
  end.

(** [GreedyAllocator._quantity_increase_allocation] *)
Definition _quantity_increase_allocation (tier_config : tier_table)
    (target_stores : list Store) (st : state) : result state :=
  increase_stores tier_config (Z.of_nat (length target_stores)) 0
    target_stores st.

(** [sum(d.values())] on a dict of quantities per SKU. *)
Definition sum_values (m : gmap SKU Z) : Z :=
  map_fold (λ _ q acc, q + acc) 0 m.

(** The dict of [_get_allocation_summary]. *)
Record summary := {
  total_allocated : Z;
  total_remaining : Z;
  allocation_rate : Qc;
  allocated_stores : Z;
  summary_final_allocation : odict;
  remaining_supply : gmap SKU Z
}.

(** [GreedyAllocator._get_allocation_summary]: [None] stands for the
    [ZeroDivisionError] of the rate when the supply adds up to zero. *)
Definition _get_allocation_summary (A : gmap SKU Z) (st : state)
    : option summary :=
  let total_final_allocation := sum_list_Z (final_allocation st).*2 in
  let total_remaining := sum_values (current_supply st) in
  let total_original := sum_values A in
  if decide (total_original = 0) then None
  else
    let allocated_stores :=
      Z.of_nat (length (remove_dups
                          ((λ e : SKU * Store * Z, e.1.2)
                             <$> final_allocation st))) in
    Some {| total_allocated := total_final_allocation;
            total_remaining := total_remaining;
            allocation_rate :=
              (Qc_of_Z total_final_allocation / Qc_of_Z total_original)%Qc;
            allocated_stores := allocated_stores;
            summary_final_allocation := final_allocation st;
            remaining_supply := current_supply st |}.

(** [GreedyAllocator.allocate] (the limits and [QSUM] it is given are
    not read). *)
Definition allocate (tier_config : tier_table) (d : data SKU Store Color Size)
    (b_hat : gmap (SKU * Store) Z) (scarce_skus abundant_skus : list SKU)
    (target_stores : list Store) : result (option summary) :=
  let A := d_A d in
  st ← _priority_allocation b_hat scarce_skus target_stores A;
  st ← _additional_allocation tier_config scarce_skus abundant_skus
         target_stores st;
  st ← _quantity_increase_allocation tier_config target_stores st;
  Ok (_get_allocation_summary A st).

(** Σ over stores of the quantity of SKU [i] in an allocation. *)
Definition sku_quantity (d : odict) (i : SKU) : Z :=
  sum_list_Z (filter (λ e : SKU * Store * Z, e.1.1 = i) d).*2.

(** One unit of work of the allocator: [q] units of [sku], between one
    and what is left of it, go from the supply to the entry of a store. *)
Definition moves (sku : SKU) (store_id : Store) (q : Z) (st st' : state)
    : Prop :=
  ∃ supply, current_supply st !! sku = Some supply ∧ 1 ≤ q ≤ supply ∧
    st' = {| final_allocation :=
               od_set (sku, store_id)
                 (default 0 (od_lookup (final_allocation st) (sku, store_id)) + q)
                 (final_allocation st);
             current_supply := <[sku := supply - q]> (current_supply st) |}.

Definition move (st st' : state) : Prop :=
  ∃ sku store_id q, moves sku store_id q st st'.

(** What the moves keep: the totals add up to the supply, SKU by SKU as
    well, no supply that was not negative becomes negative, every entry
    holds at least one unit, and the supply keeps its keys. *)
Definition accounted (A : gmap SKU Z) (st : state) : Prop :=
  sum_values (current_supply st) + sum_list_Z (final_allocation st).*2
  = sum_values A ∧
  (∀ i, dict_get (current_supply st) i 0 + sku_quantity (final_allocation st) i
        = dict_get A i 0) ∧
  (∀ i, 0 ≤ dict_get A i 0 → 0 ≤ dict_get (current_supply st) i 0) ∧
  (∀ k q, (k, q) ∈ final_allocation st → 1 ≤ q) ∧
  (∀ i, current_supply st !! i = None ↔ A !! i = None).

(** A call that raises nothing but a [KeyError]. *)
Definition only_key_error {X} (r : result X) : Prop :=
  match r with
  | Ok _ => True
  | Raise e => e = KeyError
  end.

End Allocator.

End GreedyAllocator.

(** A sample for the greedy allocator: two scarce SKUs and an abundant
    one for three stores, one of each tier; Step 1 marked the first
    scarce SKU at every store, with two units of it at hand. *)
Module GreedySample.

Definition inputs : data string string string string :=
  {| d_A := <["A_red_S" := 2]> (<["A_red_M" := 1]> (<["A_blue_M" := 5]> ∅));
     d_SKUs := ["A_red_S"; "A_red_M"; "A_blue_M"];
     d_stores := ["s1"; "s2"; "s3"];
     d_QSUM := ∅;
     d_K_s := ["red"; "blue"];
     d_L_s := ["S"; "M"] |}.

Definition scarce_skus : list string := ["A_red_S"; "A_red_M"].
Definition abundant_skus : list string := ["A_blue_M"].
Definition target_stores : list string := ["s1"; "s2"; "s3"].

Definition b_hat : gmap (string * string) Z :=
  <[("A_red_S", "s1") := 1]> (<[("A_red_M", "s1") := 1]>
    (<[("A_red_S", "s2") := 1]> (<[("A_red_S", "s3") := 1]> ∅))).

End GreedySample.

(** ** The error of the tier lookup, with its message
    (modules/store_tier_system.py) *)

Section LookupMessage.
Context {Store : Type} `{Countable Store}.

(** What a call returns, or the class and the message of the exception
    it raises (the message as the bytes of its UTF-8 text). *)
Inductive described (A : Type) : Type :=
| returns (a : A)
| raises (e : exn) (message : string).
#[global] Arguments returns {A} a.
#[global] Arguments raises {A} e message.

(** The class of the exception alone. *)
Definition forget_message {A} (r : described A) : result A :=
  match r with
  | returns a => Ok a
  | raises e _ => Raise e
  end.

(** [f"매장 {store_id}를 찾을 수 없습니다"], the message of the
    [ValueError] raised in the [except ValueError] arm of
    [get_store_tier_info]; [str_of] is the text an f-string writes for a
    store id. *)
Definition not_found_message (str_of : Store → string) (store_id : Store)
    : string :=
  "매장 " +:+ str_of store_id +:+ "를 찾을 수 없습니다".

(** [StoreTierSystem.get_store_tier_info], the exception kept with its
    message: the [ValueError] of [stores.index] is caught and a new
    [ValueError] is raised, whose message names the store. *)
Definition get_store_tier_info_described (str_of : Store → string)
    (tier_config : tier_table) (store_id : Store) (stores : list Store)
    : described (store_tier_info Store) :=
  match list_index store_id stores with
  | Ok store_index =>
      let tier := get_store_tier tier_config store_index
                    (Z.of_nat (length stores)) in
      let tier_info := tier_config tier in
      returns {| info_store_id := store_id;
                 info_tier_name := tier;
                 info_max_sku_limit := max_sku_limit tier_info;
                 info_tier_ratio := ratio tier_info |}
  | Raise _ => raises ValueError (not_found_message str_of store_id)
  end.

End LookupMessage.

(** ** The order of a list *)

(** [x] stands before [y] in the list. *)
Definition listed_before {X} (l : list X) (x y : X) : Prop :=
  ∃ l1 l2, l = l1 ++ x :: l2 ∧ y ∈ l2.

(** * Properties *)

(** ** Sums over an allocation *)

Section TotalsFacts.
Context {SKU Store : Type} `{Countable SKU} `{Countable Store}.
Implicit Types (a m : gmap (SKU * Store) Z) (k : SKU * Store).
Implicit Types sel : SKU * Store → bool.

Lemma fold_total_empty sel : fold_total sel (∅ : gmap (SKU * Store) Z) = 0.
Proof. unfold fold_total. by rewrite map_fold_empty. Qed.

Lemma fold_total_insert_fresh sel m k v :
  m !! k = None →
  fold_total sel (<[k := v]> m) = (if sel k then v else 0) + fold_total sel m.
Proof.
  intros Hnone. unfold fold_total.
  rewrite map_fold_insert_L; [ by destruct (sel k) | | done ].
  intros j1 j2 z1 z2 y _ _ _. destruct (sel j1), (sel j2); lia.
Qed.

Lemma fold_total_insert sel m k v :
  fold_total sel (<[k := v]> m)
  = fold_total sel m + (if sel k then v - dict_get m k 0 else 0).
Proof.
  unfold dict_get. destruct (m !! k) as [w|] eqn:Hk; simpl.
  - rewrite <- (insert_delete_id m k w) at 2 by done.
    rewrite <- (insert_delete_eq m k v).
    rewrite !fold_total_insert_fresh by apply lookup_delete_eq.
    destruct (sel k); lia.
  - rewrite fold_total_insert_fresh by done. destruct (sel k); lia.
Qed.

Lemma sum_list_Z_cons x l : sum_list_Z (x :: l) = x + sum_list_Z l.
Proof. reflexivity. Qed.

(** Reading a list of keys after a fresh non-negative insertion. *)
Lemma sum_get_insert_fresh m k v (ks : list (SKU * Store)) :
  m !! k = None → 0 ≤ v →
  sum_list_Z ((λ k', dict_get m k' 0) <$> ks)
    + (if bool_decide (k ∈ ks) then v else 0)
  ≤ sum_list_Z ((λ k', dict_get (<[k := v]> m) k' 0) <$> ks).
Proof.
  intros Hnone Hv. induction ks as [|k0 ks IH].
  - rewrite bool_decide_eq_false_2 by apply not_elem_of_nil. simpl. lia.
  - rewrite !fmap_cons, !sum_list_Z_cons.
    assert (dict_get m k0 0 ≤ dict_get (<[k := v]> m) k0 0 ∧
            (k = k0 → dict_get m k0 0 + v ≤ dict_get (<[k := v]> m) k0 0))
      as [Hhead Hhead'].
    { unfold dict_get. destruct (decide (k = k0)) as [->|Hk].
      - rewrite lookup_insert_eq, Hnone. simpl. lia.
      - rewrite lookup_insert_ne by done. split; [lia | done]. }
    destruct (decide (k ∈ ks)) as [Hin|Hin].
    + rewrite bool_decide_eq_true_2 in IH by done.
      rewrite bool_decide_eq_true_2 by (by right). lia.
    + rewrite bool_decide_eq_false_2 in IH by done.
      destruct (decide (k = k0)) as [->|Hk].
      * rewrite bool_decide_eq_true_2 by (by left).
        specialize (Hhead' eq_refl). lia.
      * rewrite bool_decide_eq_false_2; [lia|].
        intros [?|?]%elem_of_cons; done.
Qed.

Lemma sum_get_empty (ks : list (SKU * Store)) :
  sum_list_Z ((λ k, dict_get (∅ : gmap (SKU * Store) Z) k 0) <$> ks) = 0.
Proof.
  induction ks as [|k ks IH]; [done|].
  rewrite fmap_cons, sum_list_Z_cons, IH. unfold dict_get.
  by rewrite lookup_empty.
Qed.

(** The selected total is bounded by what a list of keys reads, when the
    list covers the selected keys and no quantity is negative. *)
Lemma fold_total_le_list sel a (ks : list (SKU * Store)) :
  (∀ k v, a !! k = Some v → 0 ≤ v) →
  (∀ k v, a !! k = Some v → sel k = true → k ∈ ks) →
  fold_total sel a ≤ sum_list_Z ((λ k, dict_get a k 0) <$> ks).
Proof.
  induction a as [|k v m Hnone IH] using map_ind; intros Hpos Hcov.
  - rewrite fold_total_empty, sum_get_empty. done.
  - rewrite fold_total_insert_fresh by done.
    assert (0 ≤ v) as Hv by (eapply Hpos; apply lookup_insert_eq).
    pose proof (sum_get_insert_fresh m k v ks Hnone Hv) as Hsum.
    assert (fold_total sel m ≤ sum_list_Z ((λ k', dict_get m k' 0) <$> ks)) as Hm.
    { apply IH.
      - intros k' v' Hk'. apply (Hpos k' v').
        rewrite lookup_insert_ne; [done | congruence].
      - intros k' v' Hk' Hs. apply (Hcov k' v'); [|done].
        rewrite lookup_insert_ne; [done | congruence]. }
    destruct (sel k) eqn:Hs.
    + rewrite bool_decide_eq_true_2 in Hsum; [lia|].
      apply (Hcov k v); [apply lookup_insert_eq | done].
    + destruct (bool_decide (k ∈ ks)); lia.
Qed.

Lemma sku_total_le_allocated a i (ts : list Store) :
  (∀ k v, a !! k = Some v → 0 ≤ v) →
  (∀ j v, a !! (i, j) = Some v → j ∈ ts) →
  sku_total a i ≤ allocated_quantity_of a i ts.
Proof.
  intros Hpos Hkeys. unfold sku_total, allocated_quantity_of.
  etrans; [apply (fold_total_le_list _ a ((λ j, (i, j)) <$> ts)); [done|]|].
  - intros [i' j] v Hk Hs. apply bool_decide_eq_true in Hs. simpl in Hs.
    subst i'. apply list_elem_of_fmap. exists j. split; [done|]. by eapply Hkeys.
  - by rewrite <- list_fmap_compose.
Qed.

Lemma distinct_skus_at_empty (j : Store) :
  distinct_skus_at (∅ : gmap (SKU * Store) Z) j = 0.
Proof. unfold distinct_skus_at. by rewrite map_fold_empty. Qed.

Lemma distinct_skus_at_insert_fresh m k v (j : Store) :
  m !! k = None →
  distinct_skus_at (<[k := v]> m) j
  = (if bool_decide (k.2 = j ∧ 0 < v) then 1 else 0) + distinct_skus_at m j.
Proof.
  intros Hnone. unfold distinct_skus_at.
  rewrite map_fold_insert_L; [ by case_bool_decide | | done ].
  intros j1 j2 z1 z2 y _ _ _. repeat case_bool_decide; lia.
Qed.

(** With quantities that are never negative, a store holds at most as
    many distinct SKUs as units. *)
Lemma distinct_skus_at_le_total a (j : Store) :
  (∀ k v, a !! k = Some v → 0 ≤ v) →
  distinct_skus_at a j ≤ fold_total (λ k, bool_decide (k.2 = j)) a.
Proof.
  induction a as [|k v m Hnone IH] using map_ind; intros Hpos.
  - by rewrite distinct_skus_at_empty, fold_total_empty.
  - rewrite distinct_skus_at_insert_fresh, fold_total_insert_fresh by done.
    assert (0 ≤ v) as Hv by (eapply Hpos; apply lookup_insert_eq).
    assert (distinct_skus_at m j ≤ fold_total (λ k, bool_decide (k.2 = j)) m).
    { apply IH. intros k' v' Hk'. apply (Hpos k' v').
      rewrite lookup_insert_ne; [done | congruence]. }
    destruct (decide (k.2 = j)) as [Hj|Hj].
    + rewrite (bool_decide_eq_true_2 (k.2 = j)) by done.
      destruct (decide (0 < v)).
      * rewrite bool_decide_eq_true_2 by done. lia.
      * rewrite bool_decide_eq_false_2 by tauto. lia.
    + rewrite (bool_decide_eq_false_2 (k.2 = j)) by done.
      rewrite bool_decide_eq_false_2 by tauto. lia.
Qed.

End TotalsFacts.

(** ** Greedy passes *)

Section PassFacts.
Context {SKU Store : Type} `{Countable SKU} `{Countable Store}.
Implicit Types (a : gmap (SKU * Store) Z) (limits : gmap Store Z).
Implicit Types (A : gmap SKU Z) (S ts : list Store).

Lemma total_allocated_of_fold a : total_allocated_of a = fold_total (λ _, true) a.
Proof. reflexivity. Qed.

Lemma tops_up_nonneg i S limits a n a' : tops_up i S limits a n a' → 0 ≤ n.
Proof. induction 1; lia. Qed.

Lemma tops_up_other i S limits a n a' k :
  tops_up i S limits a n a' → k.1 ≠ i → a' !! k = a !! k.
Proof.
  induction 1 as [|a j q n a' _ _ _ _ IH]; intros Hk; [done|].
  rewrite IH by done. apply lookup_insert_ne. intros <-. by apply Hk.
Qed.

Lemma tops_up_kept i S limits a n a' k v :
  tops_up i S limits a n a' → a !! k = Some v →
  ∃ v', a' !! k = Some v' ∧ v ≤ v'.
Proof.
  intros Hup. revert v.
  induction Hup as [|a j q n a' _ Hq _ _ IH]; intros v Hk; [by exists v|].
  destruct (decide (k = (i, j))) as [->|Hne].
  - destruct (IH (dict_get a (i, j) 0 + q)) as (v' & Hv' & Hle).
    { apply lookup_insert_eq. }
    exists v'. split; [done|]. unfold dict_get in Hle. rewrite Hk in Hle.
    simpl in Hle. lia.
  - apply IH. by rewrite lookup_insert_ne.
Qed.

Lemma tops_up_total_in sel i S limits a n a' :
  tops_up i S limits a n a' → (∀ j, sel (i, j) = true) →
  fold_total sel a' = fold_total sel a + n.
Proof.
  intros Hup Hall. induction Hup as [|a j q n a' _ _ _ _ IH]; [lia|].
  rewrite fold_total_insert, Hall in IH. lia.
Qed.

Lemma tops_up_total_out sel i S limits a n a' :
  tops_up i S limits a n a' → (∀ j, sel (i, j) = false) →
  fold_total sel a' = fold_total sel a.
Proof.
  intros Hup Hnone. induction Hup as [|a j q n a' _ _ _ _ IH]; [lia|].
  rewrite fold_total_insert, Hnone in IH. lia.
Qed.

Lemma tops_up_sku_total i S limits a n a' i' :
  tops_up i S limits a n a' →
  sku_total a' i' = sku_total a i' + (if decide (i' = i) then n else 0).
Proof.
  intros Hup. unfold sku_total. destruct (decide (i' = i)) as [->|Hne].
  - apply (tops_up_total_in _ _ _ _ _ _ _ Hup). intros j.
    by apply bool_decide_eq_true_2.
  - rewrite (tops_up_total_out _ _ _ _ _ _ _ Hup); [lia|]. intros j.
    apply bool_decide_eq_false_2. simpl. congruence.
Qed.

Lemma tops_up_placed i S limits a n a' :
  tops_up i S limits a n a' → placed S a → placed S a'.
Proof.
  induction 1 as [|a j q n a' Hj Hq _ _ IH]; intros Hpl; [done|].
  apply IH. intros k v Hk. destruct (decide (k = (i, j))) as [->|Hne].
  - rewrite lookup_insert_eq in Hk. injection Hk as <-. split; [done|].
    unfold dict_get. destruct (a !! (i, j)) as [w|] eqn:Hw; simpl; [|lia].
    destruct (Hpl _ _ Hw). lia.
  - rewrite lookup_insert_ne in Hk by done. by apply (Hpl k v).
Qed.

Lemma tops_up_within_limits i S limits a n a' :
  tops_up i S limits a n a' →
  within_limits S limits a → within_limits S limits a'.
Proof.
  induction 1 as [|a j q n a' Hj Hq Hcap _ IH]; intros Hlim; [done|].
  apply IH. intros i0 j0 Hj0. unfold dict_get at 1.
  destruct (decide ((i0, j0) = (i, j))) as [Heq|Hne].
  - injection Heq as -> ->. rewrite lookup_insert_eq. simpl. done.
  - rewrite lookup_insert_ne by done. by apply Hlim.
Qed.

Lemma tops_up_not_decreased i S limits a n a' :
  tops_up i S limits a n a' → not_decreased a a'.
Proof.
  intros Hup. split.
  - intros k v Hk. by eapply tops_up_kept.
  - rewrite !total_allocated_of_fold.
    rewrite (tops_up_total_in _ _ _ _ _ _ _ Hup) by done.
    apply tops_up_nonneg in Hup. lia.
Qed.

Lemma not_decreased_refl a : not_decreased a a.
Proof. split; [|lia]. intros k v Hk. exists v. split; [done | lia]. Qed.

Lemma not_decreased_trans a1 a2 a3 :
  not_decreased a1 a2 → not_decreased a2 a3 → not_decreased a1 a3.
Proof.
  intros [Hk12 Ht12] [Hk23 Ht23]. split; [|lia].
  intros k v Hk. destruct (Hk12 _ _ Hk) as (v2 & Hv2 & Hle2).
  destruct (Hk23 _ _ Hv2) as (v3 & Hv3 & Hle3). exists v3. split; [done | lia].
Qed.

(** *** The loop over the SKUs *)

Lemma grows_nonneg A S limits a n a' : grows A S limits a n a' → 0 ≤ n.
Proof.
  induction 1 as [|a i n a' m a'' Hup _ _ IH]; [lia|].
  apply tops_up_nonneg in Hup. lia.
Qed.

Lemma grows_placed A S limits a n a' :
  grows A S limits a n a' → placed S a → placed S a'.
Proof.
  induction 1 as [|a i n a' m a'' Hup _ _ IH]; intros Hpl; [done|].
  apply IH. by eapply tops_up_placed.
Qed.

Lemma grows_within_limits A S limits a n a' :
  grows A S limits a n a' →
  within_limits S limits a → within_limits S limits a'.
Proof.
  induction 1 as [|a i n a' m a'' Hup _ _ IH]; intros Hlim; [done|].
  apply IH. by eapply tops_up_within_limits.
Qed.

Lemma grows_not_decreased A S limits a n a' :
  grows A S limits a n a' → not_decreased a a'.
Proof.
  induction 1 as [|a i n a' m a'' Hup _ _ IH]; [apply not_decreased_refl|].
  eapply not_decreased_trans; [by eapply tops_up_not_decreased | done].
Qed.

Lemma grows_total A S limits a n a' :
  grows A S limits a n a' →
  total_allocated_of a' = total_allocated_of a + n.
Proof.
  induction 1 as [|a i n a' m a'' Hup _ _ IH]; [lia|].
  rewrite IH, !total_allocated_of_fold.
  rewrite (tops_up_total_in _ _ _ _ _ _ _ Hup) by done. lia.
Qed.

Lemma grows_within_supply A SKUs S limits a n a' :
  grows A S limits a n a' → placed S a →
  within_supply A SKUs a → within_supply A SKUs a'.
Proof.
  induction 1 as [|a i n a' m a'' Hup Hn _ IH]; intros Hpl Hsup; [done|].
  apply IH; [by eapply tops_up_placed|].
  intros i' Hi'. destruct (Hsup i' Hi') as (s & Hs & Hle).
  exists s. split; [done|].
  rewrite (tops_up_sku_total _ _ _ _ _ _ i' Hup).
  destruct (decide (i' = i)) as [->|Hne]; [|lia].
  destruct Hn as [->|(s' & Hs' & Hn)]; [lia|].
  assert (s' = s) as -> by congruence.
  assert (sku_total a i ≤ allocated_quantity_of a i S); [|lia].
  apply sku_total_le_allocated.
  - intros k v Hk. by destruct (Hpl k v Hk).
  - intros j v Hk. by destruct (Hpl (i, j) v Hk).
Qed.

(** *** The loops are passes *)

Lemma insert_desc_perm {X} (x : X * Qc) l : insert_desc x l ≡ₚ x :: l.
Proof.
  induction l as [|y l IH]; simpl; [done|].
  destruct (decide (x.2 < y.2)%Qc); [|done].
  rewrite IH. apply Permutation_swap.
Qed.

Lemma sort_desc_perm {X} (l : list (X * Qc)) : sort_desc l ≡ₚ l.
Proof.
  induction l as [|x l IH]; simpl; [done|].
  by rewrite insert_desc_perm, IH.
Qed.

(** The sort puts the scores in descending order. *)
Lemma insert_desc_sorted {X} (x : X * Qc) l :
  Sorted (λ p q, (q.2 ≤ p.2)%Qc) l →
  Sorted (λ p q, (q.2 ≤ p.2)%Qc) (insert_desc x l).
Proof.
  induction l as [|y l IH]; intros Hl; cbn [insert_desc].
  { repeat constructor. }
  apply Sorted_inv in Hl as [Hl Hhd].
  destruct (decide (x.2 < y.2)%Qc) as [Hlt|Hge].
  - constructor; [by apply IH|].
    destruct l as [|z l]; cbn [insert_desc].
    + constructor. by apply Qclt_le_weak.
    + destruct (decide (x.2 < z.2)%Qc); constructor.
      * by apply HdRel_inv in Hhd.
      * by apply Qclt_le_weak.
  - constructor; [by constructor|]. constructor. by apply Qcnot_lt_le.
Qed.

Lemma sort_desc_sorted {X} (l : list (X * Qc)) :
  Sorted (λ p q, (q.2 ≤ p.2)%Qc) (sort_desc l).
Proof.
  induction l as [|x l IH]; cbn [sort_desc foldr]; [constructor|].
  by apply insert_desc_sorted.
Qed.

Lemma weighted_stores_in (w : gmap Store Qc) (l : list Store) S :
  (∀ j, j ∈ l → j ∈ S) →
  Forall (λ p, p.1 ∈ S) (sort_desc ((λ j, (j, dict_get w j 0%Qc)) <$> l)).
Proof.
  intros Hl. rewrite sort_desc_perm. apply Forall_fmap, Forall_forall.
  intros j Hj. simpl. by apply Hl.
Qed.

Lemma step2_fill_tops_up i S limits rem ws a x t :
  Forall (λ p, p.1 ∈ S) ws →
  ∃ n a', step2_fill i limits rem ws (a, x, t) = (a', x + n, t + n) ∧
          tops_up i S limits a n a' ∧ (x ≤ rem → x + n ≤ rem).
Proof.
  intros Hws. revert a x t.
  induction Hws as [|[j w] ws Hj _ IH]; intros a x t; simpl.
  { exists 0, a. rewrite !Z.add_0_r. split_and!; [done | constructor | done]. }
  destruct (decide (rem ≤ x)) as [Hbreak|Hgo].
  { exists 0, a. rewrite !Z.add_0_r. split_and!; [done | constructor | done]. }
  destruct (decide (dict_get limits j 0 ≤ dict_get a (i, j) 0)) as [Hfull|Hroom].
  { apply IH. }
  destruct (IH (<[(i, j) := dict_get a (i, j) 0 + 1]> a) (x + 1) (t + 1))
    as (n & a' & Heq & Hup & Hle).
  exists (1 + n), a'. split_and!.
  - rewrite Heq. f_equal; [f_equal|]; lia.
  - apply (tops_more i S limits a j 1 n a'); [done | lia | lia | done].
  - lia.
Qed.

Lemma step3_fill_tops_up i S limits ws a x t :
  Forall (λ p, p.1 ∈ S) ws →
  ∃ n a', step3_fill i limits ws (a, x, t) = (a', x - n, t + n) ∧
          tops_up i S limits a n a' ∧ n ≤ Z.max 0 x.
Proof.
  intros Hws. revert a x t.
  induction Hws as [|[j w] ws Hj _ IH]; intros a x t; simpl.
  { exists 0, a. rewrite Z.sub_0_r, Z.add_0_r.
    split_and!; [done | constructor | lia]. }
  destruct (decide (x ≤ 0)) as [Hbreak|Hgo].
  { exists 0, a. rewrite Z.sub_0_r, Z.add_0_r.
    split_and!; [done | constructor | lia]. }
  destruct (decide (dict_get limits j 0 - dict_get a (i, j) 0 ≤ 0))
    as [Hfull|Hroom].
  { apply IH. }
  set (q := Z.min x (dict_get limits j 0 - dict_get a (i, j) 0)).
  destruct (IH (<[(i, j) := dict_get a (i, j) 0 + q]> a) (x - q) (t + q))
    as (n & a' & Heq & Hup & Hle).
  exists (q + n), a'. split_and!.
  - rewrite Heq. f_equal; [f_equal|]; lia.
  - apply (tops_more i S limits a j q n a'); [done | lia | lia | done].
  - lia.
Qed.

Lemma step2_sku_grows A ts limits w i a t a' t' :
  step2_sku A ts limits w i (a, t) = Ok (a', t') →
  ∃ n, t' = t + n ∧ tops_up i ts limits a n a' ∧
       (n = 0 ∨ ∃ s, A !! i = Some s ∧ n ≤ s - allocated_quantity_of a i ts).
Proof.
  unfold step2_sku. intros Hrun.
  assert (∃ n : Z, t = t + n ∧ tops_up i ts limits a n a ∧
            (n = 0 ∨ ∃ s, A !! i = Some s ∧
                          n ≤ s - allocated_quantity_of a i ts)) as Hskip.
  { exists 0. split_and!; [lia | constructor | by left]. }
  destruct (decide (filter _ ts = [])) as [_|_].
  { by injection Hrun as <- <-. }
  unfold getitem in Hrun. destruct (A !! i) as [s|] eqn:Hs; [|done].
  simpl in Hrun.
  destruct (decide (s - allocated_quantity_of a i ts ≤ 0)) as [_|Hrem].
  { by injection Hrun as <- <-. }
  match type of Hrun with
  | context [step2_fill i limits ?rem ?ws (a, 0, t)] =>
      destruct (step2_fill_tops_up i ts limits rem ws a 0 t)
        as (n & a'' & Heq & Hup & Hle)
  end.
  { apply weighted_stores_in. intros j Hj.
    by apply list_elem_of_filter in Hj as [_ Hj]. }
  rewrite Heq in Hrun. injection Hrun as <- <-.
  exists n. split_and!; [done | done |]. right. exists s. split; [done | lia].
Qed.

Lemma step3_sku_grows A ts limits w i a t a' t' :
  step3_sku A ts limits w i (a, t) = Ok (a', t') →
  ∃ n, t' = t + n ∧ tops_up i ts limits a n a' ∧
       (n = 0 ∨ ∃ s, A !! i = Some s ∧ n ≤ s - allocated_quantity_of a i ts).
Proof.
  unfold step3_sku. intros Hrun.
  assert (∃ n : Z, t = t + n ∧ tops_up i ts limits a n a ∧
            (n = 0 ∨ ∃ s, A !! i = Some s ∧
                          n ≤ s - allocated_quantity_of a i ts)) as Hskip.
  { exists 0. split_and!; [lia | constructor | by left]. }
  unfold getitem in Hrun. destruct (A !! i) as [s|] eqn:Hs; [|done].
  simpl in Hrun.
  destruct (decide (s - allocated_quantity_of a i ts ≤ 0)) as [_|Hrem].
  { by injection Hrun as <- <-. }
  destruct (decide (filter _ ts = [])) as [_|_].
  { by injection Hrun as <- <-. }
  match type of Hrun with
  | context [step3_fill i limits ?ws (a, ?rem, t)] =>
      destruct (step3_fill_tops_up i ts limits ws a rem t)
        as (n & a'' & Heq & Hup & Hle)
  end.
  { apply weighted_stores_in. intros j Hj.
    by apply list_elem_of_filter in Hj as [_ Hj]. }
  rewrite Heq in Hrun. injection Hrun as <- <-.
  exists n. split_and!; [done | done |]. right. exists s. split; [done | lia].
Qed.

(** A loop whose body is a pass grows the allocation. *)
Lemma for_each_grows A ts limits
    (body : SKU → gmap (SKU * Store) Z * Z → result (gmap (SKU * Store) Z * Z))
    SKUs a t a' t' :
  (∀ i a t a' t', body i (a, t) = Ok (a', t') →
     ∃ n, t' = t + n ∧ tops_up i ts limits a n a' ∧
          (n = 0 ∨ ∃ s, A !! i = Some s ∧
                        n ≤ s - allocated_quantity_of a i ts)) →
  for_each body SKUs (a, t) = Ok (a', t') →
  grows A ts limits a (t' - t) a'.
Proof.
  intros Hbody. revert a t.
  induction SKUs as [|i SKUs IH]; intros a t Hrun; simpl in Hrun.
  { injection Hrun as <- <-. rewrite Z.sub_diag. constructor. }
  destruct (body i (a, t)) as [[a1 t1]|] eqn:Hi; [|done]. simpl in Hrun.
  destruct (Hbody _ _ _ _ _ Hi) as (n & -> & Hup & Hn).
  replace (t' - t) with (n + (t' - (t + n))) by lia.
  eapply grows_more; [done | done | by apply IH].
Qed.

End PassFacts.

(** ** Step 1 *)

Section Step1Facts.
Context {SKU Store Color Size : Type}.
Context `{Countable SKU} `{Countable Store}.
Context `{EqDecision Color} `{EqDecision Size}.
Implicit Types (val : lpvar SKU Store Color Size → Z).
Implicit Types (sel : list (SKU * Store)) (ts stores : list Store).

Lemma mark_from_lookup sel (a0 : gmap (SKU * Store) Z) k :
  foldl (λ a ij, <[ij := 1]> a) a0 sel !! k
  = if decide (k ∈ sel) then Some 1 else a0 !! k.
Proof.
  revert a0. induction sel as [|ij sel IH]; intros a0; cbn [foldl].
  { rewrite decide_False; [done | apply not_elem_of_nil]. }
  rewrite IH. destruct (decide (k ∈ sel)) as [Hin|Hin].
  - rewrite decide_True; [done | by right].
  - destruct (decide (k = ij)) as [->|Hne].
    + rewrite lookup_insert_eq, decide_True; [done | by left].
    + rewrite lookup_insert_ne by done.
      rewrite decide_False; [done|]. intros [?|?]%elem_of_cons; done.
Qed.

Lemma mark_all_lookup sel k :
  mark_all sel !! k = if decide (k ∈ sel) then Some 1 else None.
Proof. unfold mark_all. by rewrite mark_from_lookup, lookup_empty. Qed.

Lemma selected_combinations_elem val SKUs stores ts i j :
  (i, j) ∈ selected_combinations val SKUs stores ts ↔
  i ∈ SKUs ∧ j ∈ stores ∧ j ∈ ts ∧
  val (b_ i j) ≠ 0 ∧ 1 < 2 * val (b_ i j).
Proof.
  unfold selected_combinations. rewrite list_elem_of_bind. split.
  - intros (i' & Hij & Hi'). apply list_elem_of_bind in Hij as (j' & Hij & Hj').
    destruct (decide _) as [Hsel|_]; [|by apply not_elem_of_nil in Hij].
    apply list_elem_of_singleton in Hij. injection Hij as -> ->. tauto.
  - intros (Hi & Hj & Hsel). exists i. split; [|done].
    apply list_elem_of_bind. exists j. split; [|done].
    rewrite decide_True by done. apply list_elem_of_here.
Qed.

Lemma mark_all_placed val SKUs stores ts :
  placed ts (mark_all (selected_combinations val SKUs stores ts)).
Proof.
  intros [i j] v Hk. rewrite mark_all_lookup in Hk.
  destruct (decide _) as [Hin|_]; [|done]. injection Hk as <-.
  apply selected_combinations_elem in Hin. simpl. split; [tauto | lia].
Qed.

Lemma eval_lpSum val (vs : list (lpvar SKU Store Color Size)) :
  eval val (lpSum vs) = sum_list_Z (val <$> vs).
Proof.
  unfold eval, lpSum. cbn [terms constant].
  induction vs as [|v vs IH]; [done|].
  rewrite !fmap_cons, sum_list_Z_cons. cbn [foldr fst snd]. rewrite IH. lia.
Qed.

Lemma supply_constraints_elem (b : SKU → Store → entry SKU Store Color Size)
    (A : gmap SKU Z) SKUs stores cs i :
  supply_constraints b A SKUs stores = Ok cs → i ∈ SKUs →
  ∃ Ai, A !! i = Some Ai ∧
        {| lhs := lpSum (omap (λ j, as_var (b i j)) stores); rel := LE;
           rhs := number Ai |} ∈ cs.
Proof.
  revert cs. induction SKUs as [|i0 SKUs IH]; intros cs Hcs Hi.
  { by apply not_elem_of_nil in Hi. }
  simpl in Hcs. unfold getitem in Hcs.
  destruct (A !! i0) as [A0|] eqn:HA0; [|done]. simpl in Hcs.
  destruct (supply_constraints b A SKUs stores) as [cs'|] eqn:Hcs'; [|done].
  simpl in Hcs. injection Hcs as <-.
  apply elem_of_cons in Hi as [->|Hi].
  - exists A0. split; [done | apply list_elem_of_here].
  - destruct (IH cs' eq_refl Hi) as (Ai & HAi & Hin).
    exists Ai. split; [done | by apply list_elem_of_further].
Qed.

Lemma b_variable_created ts SKUs stores i j :
  i ∈ SKUs → j ∈ stores → j ∈ ts →
  binary (b_ i j : lpvar SKU Store Color Size)
  ∈ (i ← SKUs; created (_create_binary_variables ts i) stores).
Proof.
  intros Hi Hj Hts. apply list_elem_of_bind. exists i. split; [|done].
  unfold created. apply list_elem_of_omap. exists j. split; [done|].
  unfold _create_binary_variables. by rewrite decide_True.
Qed.

(** What the marks of SKU [i] read over a list of stores is no more
    than the sum of its assignment variables over that list. *)
Lemma marks_le_assignment val SKUs stores ts i (l : list Store) :
  (∀ j, j ∈ l → j ∈ ts → 0 ≤ val (b_ i j)) →
  sum_list_Z ((λ j, dict_get (mark_all (selected_combinations val SKUs stores ts))
                      (i, j) 0) <$> l)
  ≤ sum_list_Z (val <$> omap (λ j, as_var (_create_binary_variables ts i j)) l).
Proof.
  induction l as [|j l IH]; intros Hpos; [done|].
  rewrite fmap_cons, sum_list_Z_cons.
  set (f := λ j, as_var (_create_binary_variables ts i j)).
  assert (omap f (j :: l)
          = if decide (j ∈ ts) then b_ i j :: omap f l else omap f l) as ->.
  { unfold f at 1. unfold _create_binary_variables. cbn [omap list_omap].
    by destruct (decide (j ∈ ts)). }
  assert (sum_list_Z ((λ j, dict_get (mark_all (selected_combinations val
                                SKUs stores ts)) (i, j) 0) <$> l)
          ≤ sum_list_Z (val <$> omap f l)) as Hl.
  { apply IH. intros j' Hj'. apply Hpos. by right. }
  unfold dict_get at 1. rewrite mark_all_lookup.
  destruct (decide (j ∈ ts)) as [Hts|Hts].
  - rewrite fmap_cons, sum_list_Z_cons.
    assert (0 ≤ val (b_ i j)) by (apply Hpos; [by left | done]).
    destruct (decide _) as [Hin|_]; cbn [default from_option id]; [|lia].
    apply selected_combinations_elem in Hin. lia.
  - destruct (decide _) as [Hin|_]; cbn [default from_option id]; [|lia].
    apply selected_combinations_elem in Hin. tauto.
Qed.

(** Invariant 1 after Step 1, from the supply constraints. *)
Lemma step1_within_supply (d : data SKU Store Color Size) ts limits
    (df : list (@sku_row SKU Color Size)) P val :
  step1_problem d ts limits df = Ok P → feasible P val →
  within_supply (d_A d) (d_SKUs d)
    (mark_all (selected_combinations val (d_SKUs d) (d_stores d) ts)).
Proof.
  unfold step1_problem, _add_step1_constraints. simpl.
  destruct (supply_constraints _ (d_A d) (d_SKUs d) (d_stores d))
    as [cs|] eqn:Hcs; [|done].
  simpl. intros HP [Hbounds Hcons]. injection HP as <-. simpl in *.
  intros i Hi.
  destruct (supply_constraints_elem _ _ _ _ _ i Hcs Hi) as (Ai & HAi & Hin).
  exists Ai. split; [done|].
  rewrite Forall_forall in Hcons.
  pose proof (Hcons _ (proj2 (elem_of_app _ _ _) (or_introl Hin))) as Hsup.
  unfold holds in Hsup. simpl in Hsup. rewrite eval_lpSum in Hsup.
  unfold eval in Hsup. simpl in Hsup.
  etrans; [|exact Hsup]. unfold sku_total.
  etrans; [apply (fold_total_le_list _ _ ((λ j, (i, j)) <$> d_stores d))|].
  - intros k v Hk. by destruct (mark_all_placed _ _ _ _ k v Hk).
  - intros [i' j] v Hk Hs. apply bool_decide_eq_true in Hs. simpl in Hs.
    subst i'. rewrite mark_all_lookup in Hk.
    destruct (decide _) as [Hsel|_]; [|done].
    apply selected_combinations_elem in Hsel.
    apply list_elem_of_fmap. exists j. tauto.
  - rewrite <- list_fmap_compose.
    apply (marks_le_assignment val (d_SKUs d) (d_stores d) ts i (d_stores d)).
    intros j Hj Hts. rewrite Forall_forall in Hbounds.
    assert (in_bounds val (binary (b_ i j))) as Hb.
    { apply Hbounds. apply elem_of_app. left.
      by apply b_variable_created. }
    unfold in_bounds in Hb. simpl in Hb. lia.
Qed.

Lemma step1_inv solve (d : data SKU Store Color Size) ts limits
    (df : list (@sku_row SKU Color Size)) r :
  _step1_coverage_optimization solve d ts limits df = Ok (Some r) →
  ∃ P, step1_problem d ts limits df = Ok P ∧ status (solve P) = 1 ∧
       s1_allocation r
       = mark_all (selected_combinations (varValue (solve P)) (d_SKUs d)
                     (d_stores d) ts).
Proof.
  unfold _step1_coverage_optimization.
  destruct (step1_problem d ts limits df) as [P|]; [|done]. simpl.
  destruct (decide (status (solve P) = 1)) as [Hst|_]; [|done].
  intros Hr. injection Hr as <-. by exists P.
Qed.

End Step1Facts.

(** ** The pipeline, stage by stage *)

Section PipelineFacts.
Context {SKU Store Color Size : Type}.
Context `{Countable SKU} `{Countable Store}.
Context `{EqDecision Color} `{EqDecision Size}.
Implicit Types (a : gmap (SKU * Store) Z) (limits : gmap Store Z).
Implicit Types (A : gmap SKU Z) (ts : list Store) (g : rng).

Lemma step2_grows A QSUM SKUs ts limits a sp g r g' :
  _step2_single_allocation A QSUM SKUs ts limits a sp g = Ok (r, g') →
  grows A ts limits a (additional_allocation r) (allocation r).
Proof.
  unfold _step2_single_allocation, mbind, M_bind, lift, mret, M_ret.
  destruct (_calculate_store_priorities _ _ _ g) as [[w g1]|]; [|done].
  destruct (for_each _ SKUs (a, 0)) as [[a' t']|] eqn:Hloop; [|done].
  intros Hr. injection Hr as <- <-. simpl.
  replace t' with (t' - 0) by lia.
  eapply for_each_grows; [|exact Hloop].
  intros *. apply step2_sku_grows.
Qed.

Lemma step3_grows A QSUM SKUs ts limits a sp g r g' :
  _step3_remaining_allocation A QSUM SKUs ts limits a sp g = Ok (r, g') →
  grows A ts limits a (additional_allocation r) (allocation r).
Proof.
  unfold _step3_remaining_allocation, mbind, M_bind, lift, mret, M_ret.
  destruct (_calculate_store_priorities _ _ _ g) as [[w g1]|]; [|done].
  destruct (for_each _ SKUs (a, 0)) as [[a' t']|] eqn:Hloop; [|done].
  intros Hr. injection Hr as <- <-. simpl.
  replace t' with (t' - 0) by lia.
  eapply for_each_grows; [|exact Hloop].
  intros *. apply step3_sku_grows.
Qed.

(** A successful run, taken apart: the problem Step 1 solved, and the
    three snapshots with the passes between them. *)
Lemma optimize_three_step_success
    (solve : LpProblem SKU Store Color Size → solver_response SKU Store Color Size)
    (d : data SKU Store Color Size) ts limits
    (df : list (@sku_row SKU Color Size)) sp g
    final tot comb obj n2 n3 (self : @ThreeStepOptimizer SKU Store _ _ _ _) g' :
  optimize_three_step solve d ts limits df sp g
  = Ok (success final tot comb obj n2 n3, self, g') →
  ∃ P, step1_problem d ts limits df = Ok P ∧ status (solve P) = 1 ∧
       step1_allocation self
       = mark_all (selected_combinations (varValue (solve P)) (d_SKUs d)
                     (d_stores d) ts) ∧
       grows (d_A d) ts limits (step1_allocation self) n2
         (allocation_after_step2 self) ∧
       grows (d_A d) ts limits (allocation_after_step2 self) n3
         (allocation_after_step3 self) ∧
       final = allocation_after_step3 self ∧
       final_allocation self = allocation_after_step3 self ∧
       tot = total_allocated_of final.
Proof.
  unfold optimize_three_step, mbind, M_bind, lift, mret, M_ret.
  destruct (_step1_coverage_optimization solve d ts limits df)
    as [[r1|]|] eqn:H1; [|done|done].
  destruct (_step2_single_allocation _ _ _ _ _ _ _ g) as [[r2 g2]|] eqn:H2;
    [|done].
  destruct (_step3_remaining_allocation _ _ _ _ _ _ _ g2) as [[r3 g3]|] eqn:H3;
    [|done].
  intros Hrun. injection Hrun as <- <- <- <- <- <- <- <-. simpl.
  apply step1_inv in H1 as (P & HP & Hst & Ha1).
  exists P. split_and!; try done.
  - by eapply step2_grows.
  - by eapply step3_grows.
Qed.

End PipelineFacts.

(** ** The invariants of the snapshots *)

Section Invariants.
Context {SKU Store Color Size : Type}.
Context `{Countable SKU} `{Countable Store}.
Context `{EqDecision Color} `{EqDecision Size}.

(** C2 (supply invariant).  In a successful run whose backend answered
    Step 1 with a feasible valuation, every SKU of the run has a supply
    and, in each of the three snapshots (after Step 1, after Step 2,
    after Step 3), the sum over all stores of its allocated quantity is
    at most that supply. *)
Theorem supply_invariant
    (solve : LpProblem SKU Store Color Size → solver_response SKU Store Color Size)
    (d : data SKU Store Color Size) (target_stores : list Store)
    (store_allocation_limits : gmap Store Z)
    (df_sku_filtered : list (@sku_row SKU Color Size))
    (scenario_params : scenario) (g : rng)
    final tot comb obj n2 n3 (self : @ThreeStepOptimizer SKU Store _ _ _ _) g' :
  (∀ P, step1_problem d target_stores store_allocation_limits df_sku_filtered
        = Ok P → answers_feasibly solve P) →
  optimize_three_step solve d target_stores store_allocation_limits
    df_sku_filtered scenario_params g
  = Ok (success final tot comb obj n2 n3, self, g') →
  ∀ i, i ∈ d_SKUs d →
    ∃ supply, d_A d !! i = Some supply ∧
      sku_total (step1_allocation self) i ≤ supply ∧
      sku_total (allocation_after_step2 self) i ≤ supply ∧
      sku_total (allocation_after_step3 self) i ≤ supply ∧
      sku_total final i ≤ supply.
Proof.
  intros Hbackend Hrun.
  apply optimize_three_step_success in Hrun
    as (P & HP & Hst & Ha1 & H12 & H23 & -> & _ & _).
  assert (placed target_stores (step1_allocation self)) as Hpl1.
  { rewrite Ha1. apply mark_all_placed. }
  assert (within_supply (d_A d) (d_SKUs d) (step1_allocation self)) as Hs1.
  { rewrite Ha1. eapply step1_within_supply; [done|]. by apply Hbackend. }
  assert (within_supply (d_A d) (d_SKUs d) (allocation_after_step2 self)) as Hs2.
  { by eapply grows_within_supply. }
  assert (within_supply (d_A d) (d_SKUs d) (allocation_after_step3 self)) as Hs3.
  { eapply grows_within_supply; [done | by eapply grows_placed | done]. }
  intros i Hi.
  destruct (Hs1 i Hi) as (s & Hs & Hle1).
  destruct (Hs2 i Hi) as (s2 & Hs' & Hle2).
  destruct (Hs3 i Hi) as (s3 & Hs'' & Hle3).
  assert (s2 = s) as -> by congruence. assert (s3 = s) as -> by congruence.
  by exists s.
Qed.

(** A pass leaves an entry where it was or at most at the limit of its
    store. *)
Lemma tops_up_capped (i : SKU) (S : list Store) (limits : gmap Store Z)
    (a : gmap (SKU * Store) Z) n a' k :
  tops_up i S limits a n a' →
  dict_get a' k 0 ≤ Z.max (dict_get a k 0) (dict_get limits k.2 0).
Proof.
  induction 1 as [|a j q n a' Hj Hq Hcap _ IH]; [lia|].
  etrans; [exact IH|]. destruct (decide (k = (i, j))) as [->|Hne].
  - unfold dict_get at 1. rewrite lookup_insert_eq. cbn. lia.
  - unfold dict_get at 1. rewrite lookup_insert_ne by done.
    fold (dict_get a k 0). lia.
Qed.

Lemma grows_capped (A : gmap SKU Z) (S : list Store) (limits : gmap Store Z)
    (a : gmap (SKU * Store) Z) n a' k :
  grows A S limits a n a' →
  dict_get a' k 0 ≤ Z.max (dict_get a k 0) (dict_get limits k.2 0).
Proof.
  induction 1 as [|a i n a' m a'' Hup _ _ IH]; [lia|].
  pose proof (tops_up_capped _ _ _ _ _ _ k Hup). lia.
Qed.

(** C3, as amended (tier-cap invariant).  In a successful run, at every
    store whose limit is at least one unit, the quantity of every SKU is
    at most the limit of the store in each snapshot (after Step 1, after
    Step 2, after Step 3, and in the allocation returned), whatever the
    limits of the other stores.  Step 1 marks at most one unit at a
    pair, without reading the limit; and an entry that Step 2 or Step 3
    raises ends at most at the limit of its store, whatever that limit
    is. *)
Theorem tier_cap_invariant
    (solve : LpProblem SKU Store Color Size → solver_response SKU Store Color Size)
    (d : data SKU Store Color Size) (target_stores : list Store)
    (store_allocation_limits : gmap Store Z)
    (df_sku_filtered : list (@sku_row SKU Color Size))
    (scenario_params : scenario) (g : rng)
    final tot comb obj n2 n3 (self : @ThreeStepOptimizer SKU Store _ _ _ _) g' :
  optimize_three_step solve d target_stores store_allocation_limits
    df_sku_filtered scenario_params g
  = Ok (success final tot comb obj n2 n3, self, g') →
  (∀ i j, 1 ≤ dict_get store_allocation_limits j 0 →
     dict_get (step1_allocation self) (i, j) 0
     ≤ dict_get store_allocation_limits j 0 ∧
     dict_get (allocation_after_step2 self) (i, j) 0
     ≤ dict_get store_allocation_limits j 0 ∧
     dict_get (allocation_after_step3 self) (i, j) 0
     ≤ dict_get store_allocation_limits j 0 ∧
     dict_get final (i, j) 0 ≤ dict_get store_allocation_limits j 0) ∧
  (∀ i j, 0 ≤ dict_get (step1_allocation self) (i, j) 0 ≤ 1) ∧
  (∀ i j, dict_get (step1_allocation self) (i, j) 0
          < dict_get (allocation_after_step2 self) (i, j) 0 →
          dict_get (allocation_after_step2 self) (i, j) 0
          ≤ dict_get store_allocation_limits j 0) ∧
  (∀ i j, dict_get (allocation_after_step2 self) (i, j) 0
          < dict_get (allocation_after_step3 self) (i, j) 0 →
          dict_get (allocation_after_step3 self) (i, j) 0
          ≤ dict_get store_allocation_limits j 0).
Proof.
  intros Hrun.
  apply optimize_three_step_success in Hrun
    as (P & HP & Hst & Ha1 & H12 & H23 & -> & _ & _).
  assert (∀ i j, 0 ≤ dict_get (step1_allocation self) (i, j) 0 ≤ 1) as H1.
  { intros i j. rewrite Ha1. unfold dict_get. rewrite mark_all_lookup.
    destruct (decide _); simpl; lia. }
  assert (∀ i j, dict_get (allocation_after_step2 self) (i, j) 0
                 ≤ Z.max (dict_get (step1_allocation self) (i, j) 0)
                     (dict_get store_allocation_limits j 0)) as H2.
  { intros i j. exact (grows_capped _ _ _ _ _ _ (i, j) H12). }
  assert (∀ i j, dict_get (allocation_after_step3 self) (i, j) 0
                 ≤ Z.max (dict_get (allocation_after_step2 self) (i, j) 0)
                     (dict_get store_allocation_limits j 0)) as H3.
  { intros i j. exact (grows_capped _ _ _ _ _ _ (i, j) H23). }
  split_and!.
  - intros i j Hcap. specialize (H1 i j). specialize (H2 i j).
    specialize (H3 i j). lia.
  - exact H1.
  - intros i j Hup. specialize (H2 i j). lia.
  - intros i j Hup. specialize (H3 i j). lia.
Qed.

(** C4 (monotonicity across stages).  In a successful run every entry of
    the snapshot after Step 1 is still an entry after Step 2 with at
    least its value, every entry after Step 2 is still an entry after
    Step 3 with at least its value, and the total allocated quantity does
    not decrease from Step 1 to Step 2 to Step 3; the totals differ by
    exactly the additional units the two steps report. *)
Theorem stages_monotone
    (solve : LpProblem SKU Store Color Size → solver_response SKU Store Color Size)
    (d : data SKU Store Color Size) (target_stores : list Store)
    (store_allocation_limits : gmap Store Z)
    (df_sku_filtered : list (@sku_row SKU Color Size))
    (scenario_params : scenario) (g : rng)
    final tot comb obj n2 n3 (self : @ThreeStepOptimizer SKU Store _ _ _ _) g' :
  optimize_three_step solve d target_stores store_allocation_limits
    df_sku_filtered scenario_params g
  = Ok (success final tot comb obj n2 n3, self, g') →
  (∀ k v, step1_allocation self !! k = Some v →
     ∃ v', allocation_after_step2 self !! k = Some v' ∧ v ≤ v') ∧
  (∀ k v, allocation_after_step2 self !! k = Some v →
     ∃ v', allocation_after_step3 self !! k = Some v' ∧ v ≤ v') ∧
  total_allocated_of (step1_allocation self)
    ≤ total_allocated_of (allocation_after_step2 self) ∧
  total_allocated_of (allocation_after_step2 self)
    ≤ total_allocated_of (allocation_after_step3 self) ∧
  total_allocated_of (allocation_after_step2 self)
    = total_allocated_of (step1_allocation self) + n2 ∧
  total_allocated_of (allocation_after_step3 self)
    = total_allocated_of (allocation_after_step2 self) + n3.
Proof.
  intros Hrun.
  apply optimize_three_step_success in Hrun
    as (P & HP & Hst & Ha1 & H12 & H23 & -> & _ & _).
  destruct (grows_not_decreased _ _ _ _ _ _ H12) as [Hk12 Ht12].
  destruct (grows_not_decreased _ _ _ _ _ _ H23) as [Hk23 Ht23].
  split_and!; try done.
  - by eapply grows_total.
  - by eapply grows_total.
Qed.

(** C5 (binarity after Step 1).  Whatever the backend answers, every
    entry of the allocation a successful Step 1 returns is 1, so every
    (SKU, store) quantity of that snapshot is 0 or 1. *)
Theorem step1_binary
    (solve : LpProblem SKU Store Color Size → solver_response SKU Store Color Size)
    (d : data SKU Store Color Size) (target_stores : list Store)
    (store_allocation_limits : gmap Store Z)
    (df_sku_filtered : list (@sku_row SKU Color Size)) r :
  _step1_coverage_optimization solve d target_stores store_allocation_limits
    df_sku_filtered = Ok (Some r) →
  (∀ k v, s1_allocation r !! k = Some v → v = 1) ∧
  (∀ i j, dict_get (s1_allocation r) (i, j) 0 = 0 ∨
          dict_get (s1_allocation r) (i, j) 0 = 1).
Proof.
  intros Hrun. apply step1_inv in Hrun as (P & _ & _ & ->). split.
  - intros k v Hk. rewrite mark_all_lookup in Hk.
    destruct (decide _); congruence.
  - intros i j. unfold dict_get. rewrite mark_all_lookup.
    destruct (decide _); simpl; auto.
Qed.

End Invariants.

(** ** The sample run *)

(** A run that is seen to succeed hands out its snapshots. *)
Lemma success_run {SKU Store : Type} `{Countable SKU} `{Countable Store}
    (r : result (@outcome SKU Store _ _ _ _ * @ThreeStepOptimizer SKU Store _ _ _ _ * rng)) :
  match r with Ok (success _ _ _ _ _ _, _, _) => True | _ => False end →
  ∃ final tot comb obj n2 n3 self g',
    r = Ok (success final tot comb obj n2 n3, self, g').
Proof.
  destruct r as [[[[step f|final tot comb obj n2 n3] self] g']|e]; try done.
  intros _. by exists final, tot, comb, obj, n2, n3, self, g'.
Defined.

Lemma sample_step1_feasible P :
  step1_problem Sample.inputs Sample.target_stores Sample.limits Sample.frame
  = Ok P →
  feasible P (varValue (Sample.solve P)).
Proof.
  intros HP. vm_compute in HP. injection HP as <-.
  refine (bool_decide_unpack _ _). vm_compute. exact I.
Qed.

Lemma supply_invariant_witness :
  ∃ final tot comb obj n2 n3 self g',
    optimize_three_step Sample.solve Sample.inputs Sample.target_stores
      Sample.limits Sample.frame Sample.temperature_50 Sample.source_a
    = Ok (success final tot comb obj n2 n3, self, g') ∧
    ∀ i, i ∈ d_SKUs Sample.inputs →
      ∃ supply, d_A Sample.inputs !! i = Some supply ∧
        sku_total (step1_allocation self) i ≤ supply ∧
        sku_total (allocation_after_step2 self) i ≤ supply ∧
        sku_total (allocation_after_step3 self) i ≤ supply ∧
        sku_total final i ≤ supply.
Proof.
  destruct (success_run (optimize_three_step Sample.solve Sample.inputs
              Sample.target_stores Sample.limits Sample.frame
              Sample.temperature_50 Sample.source_a))
    as (final & tot & comb & obj & n2 & n3 & self & g' & Hrun).
  { vm_compute. exact I. }
  exists final, tot, comb, obj, n2, n3, self, g'. split; [exact Hrun|].
  refine (supply_invariant _ _ _ _ _ _ _ _ _ _ _ _ _ _ _ _ Hrun).
  intros P HP _. by apply sample_step1_feasible.
Defined.

(** *** Optimality of the sample answers *)

Lemma Qc_of_Z_le (x y : Z) : x ≤ y → (Qc_of_Z x ≤ Qc_of_Z y)%Qc.
Proof. intros Hxy. unfold Qcle, Qc_of_Z. simpl. by rewrite <- Zle_Qle. Qed.

(** A valuation that is nowhere below another on the variables of the
    objective, all weights being non-negative, has no smaller value. *)
Lemma objective_value_le {SKU Store Color Size : Type}
    (P : LpProblem SKU Store Color Size) (val val' : lpvar SKU Store Color Size → Z) :
  Forall (λ t, (0 ≤ t.1)%Qc ∧ val' t.2 ≤ val t.2) (objective P) →
  (objective_value P val' ≤ objective_value P val)%Qc.
Proof.
  unfold objective_value.
  induction 1 as [|[w v] l [Hw Hv] _ IH]; cbn [foldr fst snd] in *.
  { apply Qcle_refl. }
  apply Qcplus_le_compat; [|done].
  rewrite !(Qcmult_comm w). apply Qcmult_le_compat_r; [|done].
  by apply Qc_of_Z_le.
Qed.

Lemma sample_step1_optimal limits P :
  step1_problem Sample.inputs Sample.target_stores limits Sample.frame = Ok P →
  optimal P (varValue (Sample.solve P)).
Proof.
  intros HP. vm_compute in HP. injection HP as <-. split.
  { refine (bool_decide_unpack _ _). vm_compute. exact I. }
  intros val' [Hbounds _]. apply objective_value_le.
  cbn [objective variables] in *.
  repeat (apply Forall_cons in Hbounds as [?Hb Hbounds]).
  unfold in_bounds in *. cbn in *.
  repeat (apply List.Forall_cons; [split|]); try apply List.Forall_nil;
    cbn [fst snd Sample.mark_everything];
    first [ lia | refine (bool_decide_unpack _ _); vm_compute; exact I ].
Qed.

(** *** Witnesses on the sample run *)

Lemma tier_cap_invariant_witness :
  ∃ final tot comb obj n2 n3 self g',
    optimize_three_step TwoStores.solve TwoStores.inputs
      TwoStores.target_stores TwoStores.limits_first_only Sample.frame
      Sample.temperature_50 Sample.source_a
    = Ok (success final tot comb obj n2 n3, self, g') ∧
    dict_get TwoStores.limits_first_only "s2" 0 = 0 ∧
    1 ≤ dict_get TwoStores.limits_first_only "s1" 0 ∧
    dict_get (step1_allocation self) ("A_red_S", "s1") 0 ≤ 3 ∧
    dict_get (allocation_after_step2 self) ("A_red_S", "s1") 0 ≤ 3 ∧
    dict_get (allocation_after_step3 self) ("A_red_S", "s1") 0 ≤ 3 ∧
    dict_get final ("A_red_S", "s1") 0 ≤ 3.
Proof.
  destruct (success_run (optimize_three_step TwoStores.solve TwoStores.inputs
              TwoStores.target_stores TwoStores.limits_first_only Sample.frame
              Sample.temperature_50 Sample.source_a))
    as (final & tot & comb & obj & n2 & n3 & self & g' & Hrun).
  { vm_compute. exact I. }
  assert (1 ≤ dict_get TwoStores.limits_first_only "s1" 0) as Hcap.
  { refine (bool_decide_unpack _ _). vm_compute. exact I. }
  exists final, tot, comb, obj, n2, n3, self, g'.
  split; [exact Hrun|]. split; [reflexivity|]. split; [exact Hcap|].
  exact (proj1 (tier_cap_invariant _ _ _ _ _ _ _ _ _ _ _ _ _ _ _ Hrun)
           "A_red_S" "s1" Hcap).
Defined.

Lemma stages_monotone_witness :
  ∃ final tot comb obj n2 n3 self g',
    optimize_three_step Sample.solve Sample.inputs Sample.target_stores
      Sample.limits Sample.frame Sample.temperature_50 Sample.source_a
    = Ok (success final tot comb obj n2 n3, self, g') ∧
    total_allocated_of (step1_allocation self)
      ≤ total_allocated_of (allocation_after_step2 self) ∧
    total_allocated_of (allocation_after_step2 self)
      ≤ total_allocated_of (allocation_after_step3 self).
Proof.
  destruct (success_run (optimize_three_step Sample.solve Sample.inputs
              Sample.target_stores Sample.limits Sample.frame
              Sample.temperature_50 Sample.source_a))
    as (final & tot & comb & obj & n2 & n3 & self & g' & Hrun).
  { vm_compute. exact I. }
  exists final, tot, comb, obj, n2, n3, self, g'. split; [exact Hrun|].
  destruct (stages_monotone _ _ _ _ _ _ _ _ _ _ _ _ _ _ _ Hrun)
    as (_ & _ & H12 & H23 & _).
  split; [exact H12 | exact H23].
Defined.

(** A Step 1 that is seen to succeed hands out its result. *)
Lemma success_step1 {SKU Store : Type} `{Countable SKU} `{Countable Store}
    (r : result (option (@step1_result SKU Store _ _ _ _))) :
  match r with Ok (Some _) => True | _ => False end →
  ∃ r1, r = Ok (Some r1).
Proof. destruct r as [[r1|]|e]; try done. intros _. by exists r1. Defined.

Lemma step1_binary_witness :
  ∃ r, _step1_coverage_optimization Sample.solve Sample.inputs
         Sample.target_stores Sample.limits Sample.frame = Ok (Some r) ∧
       (∀ k v, s1_allocation r !! k = Some v → v = 1) ∧
       (∀ i j, dict_get (s1_allocation r) (i, j) 0 = 0 ∨
               dict_get (s1_allocation r) (i, j) 0 = 1).
Proof.
  destruct (success_step1 (_step1_coverage_optimization Sample.solve
              Sample.inputs Sample.target_stores Sample.limits Sample.frame))
    as (r & Hrun).
  { vm_compute. exact I. }
  exists r. split; [exact Hrun|].
  exact (step1_binary _ _ _ _ _ _ Hrun).
Defined.

(** C3, counterexample.  With a tier table whose limits are 0, the sample
    run succeeds on an optimal answer of the backend, and its snapshots
    hold one unit of an SKU at the store whose limit is 0. *)
Lemma tier_cap_counterexample :
  let run := optimize_three_step Sample.solve Sample.inputs
               Sample.target_stores Sample.limits_no_room Sample.frame
               Sample.deterministic Sample.source_a in
  (∃ final tot comb obj n2 n3 g',
     run = Ok (success final tot comb obj n2 n3, run_self run, g')) ∧
  (∀ P, step1_problem Sample.inputs Sample.target_stores
          Sample.limits_no_room Sample.frame = Ok P →
        optimal P (varValue (Sample.solve P))) ∧
  dict_get Sample.limits_no_room "s1" 0 = 0 ∧
  dict_get (step1_allocation (run_self run)) ("A_red_S", "s1") 0 = 1 ∧
  dict_get (allocation_after_step2 (run_self run)) ("A_red_S", "s1") 0 = 1 ∧
  dict_get (allocation_after_step3 (run_self run)) ("A_red_S", "s1") 0 = 1 ∧
  ¬ within_limits Sample.target_stores Sample.limits_no_room
      (step1_allocation (run_self run)) ∧
  ¬ within_limits Sample.target_stores Sample.limits_no_room
      (allocation_after_step3 (run_self run)).
Proof.
  intros run.
  assert (dict_get Sample.limits_no_room "s1" 0 = 0) as Hcap
    by (vm_compute; reflexivity).
  assert (dict_get (step1_allocation (run_self run)) ("A_red_S", "s1") 0 = 1)
    as H1 by (vm_compute; reflexivity).
  assert (dict_get (allocation_after_step3 (run_self run)) ("A_red_S", "s1") 0
          = 1) as H3 by (vm_compute; reflexivity).
  split_and!.
  - destruct (success_run run)
      as (final & tot & comb & obj & n2 & n3 & self & g' & Hrun).
    { vm_compute. exact I. }
    exists final, tot, comb, obj, n2, n3, g'.
    pose proof (f_equal run_self Hrun) as Hself. cbn [run_self] in Hself.
    rewrite Hself. exact Hrun.
  - apply sample_step1_optimal.
  - exact Hcap.
  - exact H1.
  - vm_compute; reflexivity.
  - exact H3.
  - intros Hlim. specialize (Hlim "A_red_S" "s1" (list_elem_of_here _ _)).
    rewrite H1, Hcap in Hlim. lia.
  - intros Hlim. specialize (Hlim "A_red_S" "s1" (list_elem_of_here _ _)).
    rewrite H3, Hcap in Hlim. lia.
Qed.

(** ** The store limit in Step 1 *)

Section CoverageFacts.
Context {SKU Store Color Size : Type}.
Context `{Countable SKU} `{Countable Store}.
Context `{EqDecision Color} `{EqDecision Size}.
Implicit Types (val : lpvar SKU Store Color Size → Z).
Implicit Types (ts stores : list Store) (scarce_skus : list SKU).

Lemma fill_lookup (f : SKU * Store → Z) (l : list (SKU * Store))
    (m0 : gmap (SKU * Store) Z) k :
  foldl (λ m ij, <[ij := f ij]> m) m0 l !! k
  = if decide (k ∈ l) then Some (f k) else m0 !! k.
Proof.
  revert m0. induction l as [|ij l IH]; intros m0; cbn [foldl].
  { rewrite decide_False; [done | apply not_elem_of_nil]. }
  rewrite IH. destruct (decide (k ∈ l)) as [Hin|Hin].
  - rewrite decide_True; [done | by right].
  - destruct (decide (k = ij)) as [->|Hne].
    + rewrite lookup_insert_eq, decide_True; [done | by left].
    + rewrite lookup_insert_ne by done.
      rewrite decide_False; [done|]. intros [?|?]%elem_of_cons; done.
Qed.

Lemma save_results_lookup val scarce_skus stores ts i j :
  _save_results (_create_binary_variables ts) val scarce_skus stores !! (i, j)
  = if decide (i ∈ scarce_skus ∧ j ∈ stores)
    then Some (if decide (j ∈ ts) then val (b_ i j) else 0)
    else None.
Proof.
  unfold _save_results.
  rewrite (fill_lookup (λ ij, match as_var (_create_binary_variables ts ij.1 ij.2)
                              with Some v => val v | None => 0 end)).
  rewrite lookup_empty.
  destruct (decide (i ∈ scarce_skus ∧ j ∈ stores)) as [[Hi Hj]|Hno].
  - rewrite decide_True.
    + unfold _create_binary_variables. cbn [fst snd].
      by destruct (decide (j ∈ ts)).
    + apply list_elem_of_bind. exists i. split; [|done].
      apply list_elem_of_bind. exists j. split; [apply list_elem_of_here | done].
  - rewrite decide_False; [done|]. intros Hin. apply Hno.
    apply list_elem_of_bind in Hin as (i' & Hin & Hi').
    apply list_elem_of_bind in Hin as (j' & Hin & Hj').
    apply list_elem_of_singleton in Hin. injection Hin as -> ->. done.
Qed.

Lemma store_limit_constraints_elem
    (b : SKU → Store → entry SKU Store Color Size) scarce_skus stores ts
    (limits : gmap Store Z) cs j :
  _add_store_limit_constraints b scarce_skus stores ts limits = Ok cs →
  j ∈ stores → j ∈ ts →
  ∃ cap, limits !! j = Some cap ∧
         {| lhs := lpSum (omap (λ i, as_var (b i j)) scarce_skus); rel := LE;
            rhs := number cap |} ∈ cs.
Proof.
  revert cs. induction stores as [|j0 stores IH]; intros cs Hcs Hj Hts.
  { by apply not_elem_of_nil in Hj. }
  cbn [_add_store_limit_constraints] in Hcs.
  destruct (decide (j0 ∈ ts)) as [Hts0|Hts0].
  - unfold getitem in Hcs. destruct (limits !! j0) as [cap0|] eqn:Hcap0; [|done].
    cbn in Hcs.
    destruct (_add_store_limit_constraints b scarce_skus stores ts limits)
      as [cs'|] eqn:Hcs'; [|done].
    cbn in Hcs. injection Hcs as <-.
    apply elem_of_cons in Hj as [->|Hj].
    + exists cap0. split; [done | apply list_elem_of_here].
    + destruct (IH cs' eq_refl Hj Hts) as (cap & Hcap & Hin).
      exists cap. split; [done | by apply list_elem_of_further].
  - apply elem_of_cons in Hj as [->|Hj]; [done|]. by apply IH.
Qed.

(** What the saved marks at store [j] read over a list of SKUs is the
    sum of the assignment variables over that list. *)
Lemma saved_le_assignment val scarce_skus stores ts j (l : list SKU) :
  j ∈ stores → j ∈ ts → (∀ i, i ∈ l → i ∈ scarce_skus) →
  sum_list_Z ((λ k, dict_get (_save_results (_create_binary_variables ts) val
                                scarce_skus stores) k 0)
                <$> ((λ i, (i, j)) <$> l))
  = sum_list_Z (val <$> omap (λ i, as_var (_create_binary_variables ts i j)) l).
Proof.
  intros Hj Hts. induction l as [|i l IH]; intros Hl; [done|].
  rewrite !fmap_cons, sum_list_Z_cons.
  set (f := λ i, as_var (_create_binary_variables ts i j)).
  assert (omap f (i :: l) = b_ i j :: omap f l) as ->.
  { unfold f at 1. unfold _create_binary_variables. cbn [omap list_omap].
    by rewrite decide_True. }
  rewrite fmap_cons, sum_list_Z_cons, IH by (intros i' Hi'; apply Hl; by right).
  unfold dict_get. rewrite save_results_lookup.
  rewrite decide_True by (split; [apply Hl; by left | done]).
  by rewrite decide_True.
Qed.

(** C1, as amended (store capacity in Step 1).  In the Step 1 MILP of
    [CoverageOptimizer] every target store carries the constraint that
    the sum over the modelled (scarce) SKUs of its binary assignment
    variables is at most the limit of the store: when the backend answers
    status 1 with a feasible valuation, every target store has a limit,
    and the saved marks give it at most that many distinct SKUs. *)
Theorem coverage_store_limit
    (solve : LpProblem SKU Store Color Size → solver_response SKU Store Color Size)
    (d : data SKU Store Color Size) (scarce_skus : list SKU)
    (target_stores : list Store) (store_allocation_limits : gmap Store Z)
    (df_sku_filtered : list (@sku_row SKU Color Size)) total_marked b_hat :
  (∀ P, coverage_problem d scarce_skus target_stores store_allocation_limits
          df_sku_filtered = Ok P → answers_feasibly solve P) →
  optimize_coverage solve d scarce_skus target_stores store_allocation_limits
    df_sku_filtered = Ok (coverage_success total_marked b_hat) →
  ∀ j, j ∈ d_stores d → j ∈ target_stores →
    ∃ cap, store_allocation_limits !! j = Some cap ∧
           distinct_skus_at b_hat j ≤ cap.
Proof.
  intros Hbackend Hrun j Hj Hts. unfold optimize_coverage in Hrun.
  destruct (coverage_problem d scarce_skus target_stores
              store_allocation_limits df_sku_filtered) as [P|] eqn:HP; [|done].
  cbn in Hrun. destruct (decide (status (solve P) = 1)) as [Hst|]; [|done].
  injection Hrun as _ <-.
  destruct (Hbackend P eq_refl Hst) as [Hbounds Hcons].
  set (val := varValue (solve P)) in *.
  unfold coverage_problem in HP. cbn in HP.
  destruct (supply_constraints _ (d_A d) scarce_skus (d_stores d))
    as [supply|]; [|done]. cbn in HP.
  destruct (_add_store_limit_constraints _ scarce_skus (d_stores d)
              target_stores store_allocation_limits) as [limit|] eqn:Hlimit;
    [|done]. cbn in HP. injection HP as <-. cbn [variables constraints] in *.
  destruct (store_limit_constraints_elem _ _ _ _ _ _ j Hlimit Hj Hts)
    as (cap & Hcap & Hin).
  exists cap. split; [done|].
  rewrite Forall_forall in Hcons.
  assert (holds val {| lhs := lpSum (omap (λ i, as_var
                          (_create_binary_variables target_stores i j))
                          scarce_skus);
                       rel := LE; rhs := number cap |}) as Hle.
  { apply Hcons. apply elem_of_app. right. apply elem_of_app. by left. }
  unfold holds in Hle. cbn [rel lhs rhs] in Hle. rewrite eval_lpSum in Hle.
  unfold eval in Hle. cbn in Hle.
  assert (∀ k v, _save_results (_create_binary_variables target_stores) val
                   scarce_skus (d_stores d) !! k = Some v → 0 ≤ v) as Hpos.
  { intros [i' j'] v. rewrite save_results_lookup.
    destruct (decide _) as [[Hi' Hj']|]; [|done]. intros Hv. injection Hv as <-.
    destruct (decide (j' ∈ target_stores)) as [Hts'|]; [|lia].
    rewrite Forall_forall in Hbounds.
    assert (in_bounds val (binary (b_ i' j'))) as Hb.
    { apply Hbounds. apply elem_of_app. left. by apply b_variable_created. }
    unfold in_bounds in Hb. cbn in Hb. lia. }
  etrans; [by apply distinct_skus_at_le_total|].
  etrans; [apply (fold_total_le_list _ _ ((λ i, (i, j)) <$> scarce_skus));
           [done|]|].
  - intros [i' j'] v Hk Hs. apply bool_decide_eq_true in Hs. cbn in Hs.
    subst j'. rewrite save_results_lookup in Hk.
    destruct (decide _) as [[Hi' _]|]; [|done].
    apply list_elem_of_fmap. by exists i'.
  - rewrite saved_le_assignment by done. exact Hle.
Qed.

End CoverageFacts.

(** *** The store limit on the samples *)

Lemma sample_coverage_feasible P :
  coverage_problem Sample.inputs (d_SKUs Sample.inputs) Sample.target_stores
    Sample.limits Sample.frame = Ok P →
  feasible P (varValue (Sample.solve P)).
Proof.
  intros HP. vm_compute in HP. injection HP as <-.
  refine (bool_decide_unpack _ _). vm_compute. exact I.
Qed.

(** A coverage run that is seen to succeed hands out its marks. *)
Lemma success_coverage {SKU Store : Type} `{Countable SKU} `{Countable Store}
    (r : result (@coverage_summary SKU Store _ _ _ _)) :
  match r with Ok (coverage_success _ _) => True | _ => False end →
  ∃ total_marked b_hat, r = Ok (coverage_success total_marked b_hat).
Proof.
  destruct r as [[st|total_marked b_hat]|e]; try done.
  intros _. by exists total_marked, b_hat.
Defined.

Lemma coverage_store_limit_witness :
  ∃ total_marked b_hat,
    optimize_coverage Sample.solve Sample.inputs (d_SKUs Sample.inputs)
      Sample.target_stores Sample.limits Sample.frame
    = Ok (coverage_success total_marked b_hat) ∧
    ∀ j, j ∈ d_stores Sample.inputs → j ∈ Sample.target_stores →
      ∃ cap, Sample.limits !! j = Some cap ∧ distinct_skus_at b_hat j ≤ cap.
Proof.
  destruct (success_coverage (optimize_coverage Sample.solve Sample.inputs
              (d_SKUs Sample.inputs) Sample.target_stores Sample.limits
              Sample.frame)) as (total_marked & b_hat & Hrun).
  { vm_compute. exact I. }
  exists total_marked, b_hat. split; [exact Hrun|].
  refine (coverage_store_limit _ _ _ _ _ _ _ _ _ Hrun).
  intros P HP _. by apply sample_coverage_feasible.
Defined.

Lemma sample4_values P val :
  step1_problem Sample.inputs4 Sample.target_stores Sample.limits Sample.frame4
  = Ok P →
  optimal P val →
  val (b_ "B_red_F" "s1") = 1 ∧ val (b_ "B_blue_F" "s1") = 1 ∧
  val (b_ "B_green_F" "s1") = 1 ∧ val (b_ "B_black_F" "s1") = 1.
Proof.
  intros HP [[Hbounds Hcons] Hbest]. vm_compute in HP. injection HP as <-.
  cbn [objective variables constraints] in *.
  assert (val (color_coverage_ "s1") = 4) as Hcolors.
  { destruct (decide (val (color_coverage_ "s1") ≤ 3)) as [Hless|]; [|
      repeat (apply Forall_cons in Hbounds as [?Hb Hbounds]);
      unfold in_bounds in *; cbn in *; lia ].
    exfalso.
    specialize (Hbest (Sample.mark_everything 4 1)).
    match type of Hbest with
    | _ → (objective_value ?P _ ≤ _)%Qc =>
        pose proof (objective_value_le P (Sample.mark_everything 3 1) val) as Hup;
        assert (objective_value P (Sample.mark_everything 3 1)
                < objective_value P (Sample.mark_everything 4 1))%Qc as Hlt
          by (refine (bool_decide_unpack _ _); vm_compute; exact I)
    end.
    apply (Qclt_not_le _ _ Hlt). eapply Qcle_trans; [apply Hbest | apply Hup].
    - refine (bool_decide_unpack _ _). vm_compute. exact I.
    - cbn [objective].
      repeat (apply Forall_cons in Hbounds as [?Hb Hbounds]).
      unfold in_bounds in *. cbn in *.
      repeat (apply List.Forall_cons; [split|]); try apply List.Forall_nil;
        cbn [fst snd Sample.mark_everything];
        first [ lia | refine (bool_decide_unpack _ _); vm_compute; exact I ]. }
  repeat (apply Forall_cons in Hbounds as [?Hb Hbounds]).
  repeat (apply Forall_cons in Hcons as [?Hc Hcons]).
  unfold in_bounds, holds, eval in *. cbn in *. lia.
Qed.

Lemma sample4_optimal P :
  step1_problem Sample.inputs4 Sample.target_stores Sample.limits Sample.frame4
  = Ok P →
  optimal P (varValue (Sample.solve4 P)).
Proof.
  intros HP. vm_compute in HP. injection HP as <-. split.
  { refine (bool_decide_unpack _ _). vm_compute. exact I. }
  intros val' [Hbounds _]. apply objective_value_le.
  cbn [objective variables] in *.
  repeat (apply Forall_cons in Hbounds as [?Hb Hbounds]).
  unfold in_bounds in *. cbn in *.
  repeat (apply List.Forall_cons; [split|]); try apply List.Forall_nil;
    cbn [fst snd Sample.mark_everything];
    first [ lia | refine (bool_decide_unpack _ _); vm_compute; exact I ].
Qed.

Lemma sample4_marks P val :
  step1_problem Sample.inputs4 Sample.target_stores Sample.limits Sample.frame4
  = Ok P →
  optimal P val →
  distinct_skus_at
    (mark_all (selected_combinations val (d_SKUs Sample.inputs4)
                 (d_stores Sample.inputs4) Sample.target_stores)) "s1" = 4.
Proof.
  intros HP Hopt.
  destruct (sample4_values P val HP Hopt) as (H1 & H2 & H3 & H4).
  assert (selected_combinations val (d_SKUs Sample.inputs4)
            (d_stores Sample.inputs4) Sample.target_stores
          = [("B_red_F", "s1"); ("B_blue_F", "s1");
             ("B_green_F", "s1"); ("B_black_F", "s1")]) as ->.
  { unfold selected_combinations.
    cbn [Sample.inputs4 d_SKUs d_stores Sample.target_stores mbind list_bind].
    rewrite H1, H2, H3, H4.
    rewrite !decide_True
      by (split; [apply list_elem_of_here | split; [discriminate | reflexivity]]).
    reflexivity. }
  vm_compute. reflexivity.
Qed.

(** C1, counterexample.  On a single first-tier store (limit 3) and four
    SKUs of four colours, the Step 1 problem of [ThreeStepOptimizer] has
    an optimal solution, the backend returns one, and every optimal
    solution marks all four SKUs at the store: one more than its limit. *)
Lemma store_capacity_counterexample :
  let step1 := _step1_coverage_optimization Sample.solve4 Sample.inputs4
                 Sample.target_stores Sample.limits Sample.frame4 in
  Sample.limits !! "s1" = Some 3 ∧
  (∀ P, step1_problem Sample.inputs4 Sample.target_stores Sample.limits
          Sample.frame4 = Ok P →
        optimal P (varValue (Sample.solve4 P))) ∧
  (∃ r, step1 = Ok (Some r) ∧ distinct_skus_at (s1_allocation r) "s1" = 4) ∧
  (∀ P val, step1_problem Sample.inputs4 Sample.target_stores Sample.limits
              Sample.frame4 = Ok P →
            optimal P val →
            ¬ distinct_skus_at
                (mark_all (selected_combinations val (d_SKUs Sample.inputs4)
                             (d_stores Sample.inputs4) Sample.target_stores))
                "s1" ≤ 3).
Proof.
  intros step1. split_and!.
  - vm_compute. reflexivity.
  - apply sample4_optimal.
  - destruct (success_step1 step1) as (r & Hrun); [vm_compute; exact I|].
    exists r. split; [exact Hrun|].
    apply step1_inv in Hrun as (P & HP & _ & ->).
    apply (sample4_marks P); [exact HP | by apply sample4_optimal].
  - intros P val HP Hopt. rewrite (sample4_marks P val HP Hopt). lia.
Qed.

(** ** Scarcity classification *)

Section ClassifierFacts.
Context {SKU Color Size : Type}.
Context `{Countable SKU} `{EqDecision Color} `{EqDecision Size}.
Implicit Types (df : list (@sku_row SKU Color Size)) (A : list (SKU * Z)).

Lemma loc_iloc0_row {X} df sku (col : sku_row → X) :
  sku ∈ row_SKU <$> df → ∃ r, loc_iloc0 df sku col = Ok (col r).
Proof.
  intros Hin. apply list_elem_of_fmap in Hin as (r & -> & Hr).
  unfold loc_iloc0.
  destruct (filter (λ r0, row_SKU r0 = row_SKU r) df) as [|r' l] eqn:Hf.
  - assert (r ∈ filter (λ r0, row_SKU r0 = row_SKU r) df) as Hr'
      by (by apply list_elem_of_filter).
    rewrite Hf in Hr'. by apply not_elem_of_nil in Hr'.
  - by exists r'.
Qed.

(** One pass of the inner loop adds exactly the SKUs related to the
    scarce one. *)
Lemma add_related_spec df s c z SKUs ext ext' :
  loc_iloc0 df s COLOR_CD = Ok c → loc_iloc0 df s SIZE_CD = Ok z →
  add_related df s c z SKUs ext = Ok ext' →
  ∀ x, x ∈ ext' ↔ x ∈ ext ∨ (x ∈ SKUs ∧ related df s x).
Proof.
  intros Hc Hz. revert ext.
  induction SKUs as [|y SKUs IH]; intros ext Hrun x; cbn [add_related] in Hrun.
  { injection Hrun as <-. split; [by left|].
    intros [?|[Hx _]]; [done | by apply not_elem_of_nil in Hx]. }
  assert (∀ c' z', loc_iloc0 df y COLOR_CD = Ok c' →
            loc_iloc0 df y SIZE_CD = Ok z' →
            ((c = c' ∧ z ≠ z') ∨ (c ≠ c' ∧ z = z')) ↔ related df s y) as Hrel.
  { intros c' z' Hc' Hz'. split.
    - intros Hcond. by exists c, z, c', z'.
    - intros (c0 & z0 & c1 & z1 & H0 & H1 & H2 & H3 & Hcond). congruence. }
  assert (¬ related df s s) as Hirr.
  { intros (c0 & z0 & c1 & z1 & H0 & H1 & H2 & H3 & Hcond).
    assert (c0 = c1) by congruence. assert (z0 = z1) by congruence.
    destruct Hcond as [[_ ?]|[? _]]; done. }
  destruct (decide (y ≠ s)) as [Hne|Heq].
  - destruct (loc_iloc0 df y COLOR_CD) as [c'|] eqn:Hc'; [|done].
    destruct (loc_iloc0 df y SIZE_CD) as [z'|] eqn:Hz'; [|done].
    cbn in Hrun. specialize (Hrel c' z' eq_refl eq_refl).
    case_bool_decide as Hcond.
    + rewrite (IH _ Hrun x), elem_of_union, elem_of_singleton, elem_of_cons.
      split.
      * intros [[->|?]|[? ?]]; [right; split; [by left | tauto] | by left
                               | right; split; [by right | done]].
      * intros [?|[[->|?] ?]]; [left; by right | left; by left | by right].
    + rewrite (IH _ Hrun x), elem_of_cons. split.
      * intros [?|[? ?]]; [by left | right; split; [by right | done]].
      * intros [?|[[->|?] Hr]]; [by left | tauto | by right].
  - apply dec_stable in Heq as ->.
    rewrite (IH _ Hrun x), elem_of_cons. split.
    + intros [?|[? ?]]; [by left | right; split; [by right | done]].
    + intros [?|[[->|?] Hr]]; [by left | done | by right].
Qed.

Lemma extend_scarce_spec df SKUs basic ext ext' :
  extend_scarce df SKUs basic ext = Ok ext' →
  ∀ x, x ∈ ext' ↔ x ∈ ext ∨ (x ∈ SKUs ∧ ∃ s, s ∈ basic ∧ related df s x).
Proof.
  revert ext. induction basic as [|s basic IH]; intros ext Hrun x;
    cbn [extend_scarce] in Hrun.
  { injection Hrun as <-. split; [by left|].
    intros [?|[_ (s & Hs & _)]]; [done | by apply not_elem_of_nil in Hs]. }
  destruct (loc_iloc0 df s COLOR_CD) as [c|] eqn:Hc; [|done].
  destruct (loc_iloc0 df s SIZE_CD) as [z|] eqn:Hz; [|done]. cbn in Hrun.
  destruct (add_related df s c z SKUs ext) as [ext1|] eqn:H1; [|done].
  cbn in Hrun. rewrite (IH _ Hrun x), (add_related_spec _ _ _ _ _ _ _ Hc Hz H1 x).
  split.
  - intros [[?|[? ?]]|[? (s' & ? & ?)]]; [by left | right | right].
    + split; [done|]. exists s. split; [by left | done].
    + split; [done|]. exists s'. split; [by right | done].
  - intros [?|[? (s' & [->|?]%elem_of_cons & ?)]].
    + left. by left.
    + left. by right.
    + right. split; [done|]. by exists s'.
Qed.

Lemma add_related_total df s c z SKUs ext :
  (∀ x, x ∈ SKUs → x ∈ row_SKU <$> df) →
  ∃ ext', add_related df s c z SKUs ext = Ok ext'.
Proof.
  revert ext. induction SKUs as [|y SKUs IH]; intros ext Hrows;
    cbn [add_related]; [by eexists|].
  assert (∀ x, x ∈ SKUs → x ∈ row_SKU <$> df) as Hrest
    by (intros x Hx; apply Hrows; by right).
  destruct (decide (y ≠ s)); [|by apply IH].
  destruct (loc_iloc0_row df y COLOR_CD) as (r1 & ->); [apply Hrows; by left|].
  destruct (loc_iloc0_row df y SIZE_CD) as (r2 & ->); [apply Hrows; by left|].
  cbn. case_bool_decide; by apply IH.
Qed.

Lemma extend_scarce_total df SKUs basic ext :
  (∀ x, x ∈ SKUs → x ∈ row_SKU <$> df) →
  (∀ x, x ∈ basic → x ∈ row_SKU <$> df) →
  ∃ ext', extend_scarce df SKUs basic ext = Ok ext'.
Proof.
  intros Hrows. revert ext. induction basic as [|s basic IH]; intros ext Hbasic;
    cbn [extend_scarce]; [by eexists|].
  destruct (loc_iloc0_row df s COLOR_CD) as (r1 & ->); [apply Hbasic; by left|].
  destruct (loc_iloc0_row df s SIZE_CD) as (r2 & ->); [apply Hbasic; by left|].
  cbn. destruct (add_related_total df s (COLOR_CD r1) (SIZE_CD r2) SKUs ext Hrows)
    as (ext1 & ->).
  cbn. apply IH. intros x Hx. apply Hbasic. by right.
Qed.

Lemma basic_scarce_subset A T x : x ∈ basic_scarce_of A T → x ∈ A.*1.
Proof.
  unfold basic_scarce_of. intros Hx.
  apply list_elem_of_fmap in Hx as (p & -> & Hp).
  apply list_elem_of_filter in Hp as [_ Hp].
  apply list_elem_of_fmap. by exists p.
Qed.

(** C6, as amended (scarcity classification).  When every SKU of the
    supply dict has a row in the frame, the classifier returns; its
    scarce SKUs are the basic scarce ones (supply below the number of
    target stores) together with the SKUs related to a basic scarce one
    (one step of propagation, not its closure); its abundant SKUs are
    the SKUs of the supply dict that are not scarce. *)
Theorem classify_one_step {Store : Type} df A (target_stores : list Store) :
  (∀ sku, sku ∈ A.*1 → sku ∈ row_SKU <$> df) →
  ∃ scarce_skus abundant_skus,
    classify_skus df A target_stores = Ok (scarce_skus, abundant_skus) ∧
    (∀ sku, sku ∈ scarce_skus ↔
       sku ∈ basic_scarce_of A (Z.of_nat (length target_stores)) ∨
       (sku ∈ A.*1 ∧
        ∃ s, s ∈ basic_scarce_of A (Z.of_nat (length target_stores)) ∧
             related df s sku)) ∧
    (∀ sku, sku ∈ abundant_skus ↔ sku ∈ A.*1 ∧ sku ∉ scarce_skus).
Proof.
  intros Hrows. unfold classify_skus.
  set (T := Z.of_nat (length target_stores)).
  destruct (extend_scarce_total df A.*1 (basic_scarce_of A T)
              (list_to_set (basic_scarce_of A T)) Hrows) as (ext & Hext).
  { intros x Hx. apply Hrows. by eapply basic_scarce_subset. }
  rewrite Hext. cbn. eexists _, _. split; [reflexivity|]. split.
  - intros sku. rewrite elem_of_elements, (extend_scarce_spec _ _ _ _ _ Hext sku).
    by rewrite elem_of_list_to_set.
  - intros sku. rewrite list_elem_of_filter. tauto.
Qed.

End ClassifierFacts.

Lemma classify_one_step_witness :
  ∃ scarce_skus abundant_skus,
    classify_skus Sample.frame3 Sample.supply3 Sample.ten_stores
    = Ok (scarce_skus, abundant_skus) ∧
    (∀ sku, sku ∈ scarce_skus ↔
       sku ∈ basic_scarce_of Sample.supply3
               (Z.of_nat (length Sample.ten_stores)) ∨
       (sku ∈ Sample.supply3.*1 ∧
        ∃ s, s ∈ basic_scarce_of Sample.supply3
                   (Z.of_nat (length Sample.ten_stores)) ∧
             related Sample.frame3 s sku)) ∧
    (∀ sku, sku ∈ abundant_skus ↔ sku ∈ Sample.supply3.*1 ∧ sku ∉ scarce_skus).
Proof.
  apply (classify_one_step Sample.frame3 Sample.supply3 Sample.ten_stores).
  intros sku Hsku.
  change (sku ∈ ["A_red_S"; "A_red_M"; "A_blue_M"]) in Hsku.
  repeat (apply elem_of_cons in Hsku as [->|Hsku];
          [refine (bool_decide_unpack _ _); vm_compute; exact I|]).
  by apply not_elem_of_nil in Hsku.
Defined.

(** C6, counterexample.  With ten target stores, A_red_S (supply 2) is
    basic scarce, A_red_M shares its colour, and A_blue_M shares the size
    of A_red_M only: the closure holds A_blue_M, the classifier returns
    it as abundant. *)
Lemma classify_closure_counterexample :
  classify_skus Sample.frame3 Sample.supply3 Sample.ten_stores
  = Ok (["A_red_S"; "A_red_M"], ["A_blue_M"]) ∧
  spec_closure_scarce Sample.frame3 Sample.supply3
    (Z.of_nat (length Sample.ten_stores)) "A_blue_M" ∧
  ¬ (∀ sku, sku ∈ ["A_red_S"; "A_red_M"] ↔
            spec_closure_scarce Sample.frame3 Sample.supply3
              (Z.of_nat (length Sample.ten_stores)) sku).
Proof.
  assert (spec_closure_scarce Sample.frame3 Sample.supply3
            (Z.of_nat (length Sample.ten_stores)) "A_blue_M") as Hclosure.
  { apply (closure_step _ _ _ "A_red_M").
    - apply (closure_step _ _ _ "A_red_S").
      + apply closure_basic. refine (bool_decide_unpack _ _). vm_compute. exact I.
      + exists "red", "S", "red", "M". split_and!; try reflexivity.
        left. split; [reflexivity | discriminate].
      + refine (bool_decide_unpack _ _). vm_compute. exact I.
    - exists "red", "M", "blue", "M". split_and!; try reflexivity.
      right. split; [discriminate | reflexivity].
    - refine (bool_decide_unpack _ _). vm_compute. exact I. }
  split_and!; [vm_compute; reflexivity | exact Hclosure |].
  intros Hall. apply Hall in Hclosure.
  revert Hclosure. refine (bool_decide_eq_false_1 _ _). vm_compute. reflexivity.
Qed.

(** ** Store tier lookup *)

Section TierFacts.
Context {Store : Type} `{Countable Store}.

Lemma list_index_ok (store_id : Store) stores :
  store_id ∈ stores → ∃ n, list_index store_id stores = Ok n.
Proof.
  induction stores as [|s stores IH]; intros Hin.
  { by apply not_elem_of_nil in Hin. }
  cbn [list_index]. destruct (decide (s = store_id)) as [|Hne]; [by eexists|].
  apply elem_of_cons in Hin as [->|Hin]; [done|].
  destruct (IH Hin) as (n & ->). by eexists.
Qed.

Lemma list_index_raise (store_id : Store) stores :
  store_id ∉ stores → list_index store_id stores = Raise ValueError.
Proof.
  induction stores as [|s stores IH]; intros Hin; [done|].
  cbn [list_index]. rewrite decide_False.
  - rewrite IH; [done|]. intros ?. apply Hin. by right.
  - intros ->. apply Hin. by left.
Qed.

(** C9, as amended (tier lookup).  [StoreTierSystem.get_store_tier_info]
    answers for a store of the ranked list with the limit and ratio of
    its tier, and for any other store raises a [ValueError] whose
    message names the store, [f"매장 {store_id}를 찾을 수 없습니다"]; the
    wrapper [_get_sku_store_tier_info] of the integrated optimizer
    answers the same for a ranked store, and for any other store raises
    nothing: it answers the lowest tier with limit 1. *)
Theorem tier_lookup (str_of : Store → string) (tier_config : tier_table)
    (store : Store) (stores : list Store) :
  forget_message (get_store_tier_info_described str_of tier_config store stores)
  = get_store_tier_info tier_config store stores ∧
  (store ∈ stores →
   ∃ info, get_store_tier_info tier_config store stores = Ok info ∧
           get_store_tier_info_described str_of tier_config store stores
           = returns info ∧
           _get_sku_store_tier_info tier_config store stores = Ok info ∧
           info_store_id info = store ∧
           info_max_sku_limit info
           = max_sku_limit (tier_config (info_tier_name info)) ∧
           info_tier_ratio info = ratio (tier_config (info_tier_name info))) ∧
  (store ∉ stores →
   get_store_tier_info tier_config store stores = Raise ValueError ∧
   get_store_tier_info_described str_of tier_config store stores
   = raises ValueError ("매장 " +:+ str_of store +:+ "를 찾을 수 없습니다") ∧
   _get_sku_store_tier_info tier_config store stores
   = Ok {| info_store_id := store;
           info_tier_name := TIER_3_LOW;
           info_max_sku_limit := 1;
           info_tier_ratio := Qc_of_frac 5 10 |}).
Proof.
  unfold _get_sku_store_tier_info, get_store_tier_info_described,
    get_store_tier_info.
  split_and!.
  - by destruct (list_index store stores).
  - intros Hin. destruct (list_index_ok store stores Hin) as (n & ->).
    eexists. split_and!; reflexivity.
  - intros Hin. rewrite (list_index_raise store stores Hin). by split_and!.
Qed.

End TierFacts.

Lemma tier_lookup_witness :
  ("s1" ∈ Sample.target_stores ∧
   ∃ info, get_store_tier_info TIER_CONFIG "s1" Sample.target_stores = Ok info ∧
           _get_sku_store_tier_info TIER_CONFIG "s1" Sample.target_stores
           = Ok info ∧
           info_max_sku_limit info = 3) ∧
  (("ghost" ∉ Sample.target_stores) ∧
   get_store_tier_info TIER_CONFIG "ghost" Sample.target_stores
   = Raise ValueError ∧
   get_store_tier_info_described id TIER_CONFIG "ghost" Sample.target_stores
   = raises ValueError "매장 ghost를 찾을 수 없습니다").
Proof.
  assert ("s1" ∈ Sample.target_stores) as Hin by apply list_elem_of_here.
  assert ("ghost" ∉ Sample.target_stores) as Hout.
  { intros Hin'. apply list_elem_of_singleton in Hin'. discriminate. }
  destruct (tier_lookup id TIER_CONFIG "s1" Sample.target_stores)
    as (_ & Hknown & _).
  destruct (tier_lookup id TIER_CONFIG "ghost" Sample.target_stores)
    as (_ & _ & Hghost).
  destruct (Hknown Hin) as (info & Hinfo & _ & Hwrap & _ & Hlimit & _).
  split.
  - split; [exact Hin|]. exists info. split_and!; [exact Hinfo | exact Hwrap |].
    rewrite Hlimit. vm_compute in Hinfo. injection Hinfo as <-. reflexivity.
  - destruct (Hghost Hout) as (Hraise & Hmsg & _).
    split_and!; [exact Hout | exact Hraise | exact Hmsg].
Defined.

(** C9, counterexample.  For a store that is not in the ranked list the
    wrapper of the integrated optimizer raises nothing and answers the
    lowest tier. *)
Lemma tier_lookup_counterexample :
  ("ghost" ∉ Sample.target_stores) ∧
  _get_sku_store_tier_info TIER_CONFIG "ghost" Sample.target_stores
  = Ok {| info_store_id := "ghost";
          info_tier_name := TIER_3_LOW;
          info_max_sku_limit := 1;
          info_tier_ratio := Qc_of_frac 5 10 |} ∧
  ¬ ∃ e, _get_sku_store_tier_info TIER_CONFIG "ghost" Sample.target_stores
         = Raise e.
Proof.
  split_and!.
  - intros Hin. apply list_elem_of_singleton in Hin. discriminate.
  - reflexivity.
  - intros [e He]. discriminate He.
Qed.

(** ** Priority weighting *)





Section PriorityFacts.
Context {Store : Type} `{Countable Store}.
Implicit Types (QSUM w r s : gmap Store Qc) (ts : list Store) (g : rng).

Lemma q_vals_of_ok QSUM ts :
  (∀ j, j ∈ ts → is_Some (QSUM !! j)) →
  ∃ qs, q_vals_of QSUM ts = Ok qs ∧ (ts ≠ [] → qs ≠ []).
Proof.
  induction ts as [|j ts IH]; intros Hcov; [by exists []|].
  cbn [q_vals_of]. unfold getitem.
  destruct (Hcov j) as [q ->]; [by left|]. cbn.
  destruct IH as (qs & -> & _); [intros j' Hj'; apply Hcov; by right|].
  cbn. by exists (q :: qs).
Qed.

Lemma normalized_lookup QSUM qmin qmax ts w0 w :
  normalized QSUM qmin qmax ts w0 = Ok w →
  ∀ j, w !! j = if decide (j ∈ ts)
                then (λ q, ((q - qmin) / (qmax - qmin))%Qc) <$> QSUM !! j
                else w0 !! j.
Proof.
  revert w0. induction ts as [|j0 ts IH]; intros w0 Hrun j;
    cbn [normalized] in Hrun.
  { injection Hrun as <-. rewrite decide_False; [done | apply not_elem_of_nil]. }
  unfold getitem in Hrun. destruct (QSUM !! j0) as [q0|] eqn:Hq0; [|done].
  cbn in Hrun. rewrite (IH _ Hrun j).
  destruct (decide (j ∈ ts)) as [Hin|Hin].
  - rewrite decide_True; [done | by right].
  - destruct (decide (j = j0)) as [->|Hne].
    + rewrite lookup_insert_eq, decide_True, Hq0; [done | by left].
    + rewrite lookup_insert_ne by done.
      rewrite decide_False; [done|]. intros [?|?]%elem_of_cons; done.
Qed.

Lemma normalized_ok QSUM qmin qmax ts w0 :
  (∀ j, j ∈ ts → is_Some (QSUM !! j)) →
  ∃ w, normalized QSUM qmin qmax ts w0 = Ok w.
Proof.
  revert w0. induction ts as [|j ts IH]; intros w0 Hcov; [by eexists|].
  cbn [normalized]. unfold getitem.
  destruct (Hcov j) as [q ->]; [by left|]. cbn.
  apply IH. intros j' Hj'. apply Hcov. by right.
Qed.

Lemma uniform_from_lookup ts w0 j :
  foldl (λ w j, <[j := 1%Qc]> w) w0 ts !! j
  = if decide (j ∈ ts) then Some 1%Qc else w0 !! j.
Proof.
  revert w0. induction ts as [|j0 ts IH]; intros w0; cbn [foldl].
  { rewrite decide_False; [done | apply not_elem_of_nil]. }
  rewrite IH. destruct (decide (j ∈ ts)) as [Hin|Hin].
  - rewrite decide_True; [done | by right].
  - destruct (decide (j = j0)) as [->|Hne].
    + rewrite lookup_insert_eq, decide_True; [done | by left].
    + rewrite lookup_insert_ne by done.
      rewrite decide_False; [done|]. intros [?|?]%elem_of_cons; done.
Qed.

Lemma random_dict_ok ts r0 g :
  ∃ r g', random_dict ts r0 g = Ok (r, g') ∧
          ∀ j, (j ∈ ts ∨ is_Some (r0 !! j)) → is_Some (r !! j).
Proof.
  revert r0 g. induction ts as [|j0 ts IH]; intros r0 g; cbn [random_dict].
  { exists r0, g. split; [done|]. intros j [Hj|Hj]; [|done].
    by apply not_elem_of_nil in Hj. }
  unfold random_random.
  destruct (IH (<[j0 := draws g (pos g)]> r0)
              {| draws := draws g; pos := S (pos g) |}) as (r & g' & -> & Hr).
  exists r, g'. split; [done|]. intros j Hj. apply Hr.
  destruct (decide (j = j0)) as [->|Hne].
  - right. rewrite lookup_insert_eq. by eexists.
  - rewrite lookup_insert_ne by done.
    destruct Hj as [[?|?]%elem_of_cons|?]; [done | by left | by right].
Qed.

Lemma mixed_lookup alpha w r ts s0 s :
  mixed alpha w r ts s0 = Ok s →
  ∀ j, s !! j = if decide (j ∈ ts)
                then wj ← w !! j; rj ← r !! j;
                     Some ((1 - alpha) * wj + alpha * rj)%Qc
                else s0 !! j.
Proof.
  revert s0. induction ts as [|j0 ts IH]; intros s0 Hrun j; cbn [mixed] in Hrun.
  { injection Hrun as <-. rewrite decide_False; [done | apply not_elem_of_nil]. }
  unfold getitem in Hrun.
  destruct (w !! j0) as [w0|] eqn:Hw0; [|done]. cbn in Hrun.
  destruct (r !! j0) as [r0|] eqn:Hr0; [|done]. cbn in Hrun.
  rewrite (IH _ Hrun j).
  destruct (decide (j ∈ ts)) as [Hin|Hin].
  - rewrite decide_True; [done | by right].
  - destruct (decide (j = j0)) as [->|Hne].
    + rewrite lookup_insert_eq, decide_True, Hw0, Hr0; [done | by left].
    + rewrite lookup_insert_ne by done.
      rewrite decide_False; [done|]. intros [?|?]%elem_of_cons; done.
Qed.

Lemma mixed_ok alpha w r ts s0 :
  (∀ j, j ∈ ts → is_Some (w !! j) ∧ is_Some (r !! j)) →
  ∃ s, mixed alpha w r ts s0 = Ok s.
Proof.
  revert s0. induction ts as [|j ts IH]; intros s0 Hcov; [by eexists|].
  cbn [mixed]. unfold getitem.
  destruct (Hcov j) as [[wj ->] [rj ->]]; [by left|]. cbn.
  apply IH. intros j' Hj'. apply Hcov. by right.
Qed.

(** With [alpha = 0] the random values are read and play no part. *)
Lemma mixed_zero w r r' ts s0 :
  (∀ j, j ∈ ts → is_Some (r !! j) ∧ is_Some (r' !! j)) →
  mixed 0%Qc w r ts s0 = mixed 0%Qc w r' ts s0.
Proof.
  revert s0. induction ts as [|j ts IH]; intros s0 Hcov; [done|].
  cbn [mixed]. unfold getitem.
  destruct (Hcov j) as [[rj ->] [rj' ->]]; [by left|].
  destruct (w !! j) as [wj|]; [|done]. cbn.
  replace ((1 - 0) * wj + 0 * rj)%Qc with ((1 - 0) * wj + 0 * rj')%Qc by ring.
  apply IH. intros j' Hj'. apply Hcov. by right.
Qed.

End PriorityFacts.

Section SourceFacts.
Context {Store : Type} `{Countable Store}.
Implicit Types (QSUM : gmap Store Qc) (ts : list Store) (g : rng).

Lemma source_free_lift {X} (r : result X) : source_free (lift r).
Proof. intros g1 g2. unfold lift. by destruct r. Qed.

Lemma source_free_ret {X} (x : X) : source_free (mret x).
Proof. by intros g1 g2. Qed.

Lemma source_free_bind {X Y} (m : M X) (f : X → M Y) :
  source_free m → (∀ x, source_free (f x)) → source_free (m ≫= f).
Proof.
  intros Hm Hf g1 g2. unfold mbind, M_bind. specialize (Hm g1 g2).
  destruct (m g1) as [[x1 g1']|e1], (m g2) as [[x2 g2']|e2];
    cbn in Hm; try discriminate.
  - injection Hm as ->. apply Hf.
  - by injection Hm as ->.
Qed.

Lemma volume_weights_ok ts QSUM :
  ts ≠ [] → (∀ j, j ∈ ts → is_Some (QSUM !! j)) →
  ∃ w, volume_weights ts QSUM = Ok w.
Proof.
  intros Hne Hcov. unfold volume_weights.
  destruct (q_vals_of_ok QSUM ts Hcov) as (qs & -> & Hqs).
  destruct qs as [|q qs]; [by destruct (Hqs Hne)|]. cbn.
  destruct (decide _); [by apply normalized_ok | by eexists].
Qed.

(** The weight of a store: its normalized volume, or 1 on a tie. *)
Lemma volume_weights_lookup ts QSUM w :
  volume_weights ts QSUM = Ok w →
  ∃ qs qmin qmax,
    q_vals_of QSUM ts = Ok qs ∧ list_min qs = Ok qmin ∧ list_max qs = Ok qmax ∧
    ∀ j, w !! j = if decide (j ∈ ts)
                  then if decide (qmin < qmax)%Qc
                       then (λ q, ((q - qmin) / (qmax - qmin))%Qc) <$> QSUM !! j
                       else Some 1%Qc
                  else None.
Proof.
  unfold volume_weights.
  destruct (q_vals_of QSUM ts) as [qs|] eqn:Hqs; [|done]. cbn.
  destruct (list_min qs) as [qmin|] eqn:Hmin; [|done]. cbn.
  destruct (list_max qs) as [qmax|] eqn:Hmax; [|done]. cbn.
  intros Hw. exists qs, qmin, qmax. split_and!; try done. intros j.
  destruct (decide (qmin < qmax)%Qc).
  - by rewrite (normalized_lookup _ _ _ _ _ _ Hw j), lookup_empty.
  - injection Hw as <-. unfold uniform.
    by rewrite uniform_from_lookup, lookup_empty.
Qed.

Lemma volume_weights_covers ts QSUM w j :
  volume_weights ts QSUM = Ok w → j ∈ ts → is_Some (w !! j).
Proof.
  intros Hw Hj.
  assert (is_Some (QSUM !! j)) as [q Hq].
  { unfold volume_weights in Hw.
    destruct (q_vals_of QSUM ts) as [qs|] eqn:Hqs; [|done].
    clear -Hqs Hj. revert qs Hqs.
    induction ts as [|j0 ts IH]; intros qs Hqs.
    { by apply not_elem_of_nil in Hj. }
    cbn [q_vals_of] in Hqs. unfold getitem in Hqs.
    destruct (QSUM !! j0) as [q0|] eqn:Hq0; [|done]. cbn in Hqs.
    destruct (q_vals_of QSUM ts) as [qs'|] eqn:Hqs'; [|done].
    apply elem_of_cons in Hj as [->|Hj]; [by eexists | by eapply IH]. }
  destruct (volume_weights_lookup _ _ _ Hw) as (qs & qmin & qmax & _ & _ & _ & Hl).
  rewrite Hl, decide_True, Hq by done. destruct (decide _); by eexists.
Qed.

Lemma compute_mixed_weights_ok ts QSUM alpha g :
  ts ≠ [] → (∀ j, j ∈ ts → is_Some (QSUM !! j)) →
  ∃ s g', _compute_mixed_weights ts QSUM alpha g = Ok (s, g').
Proof.
  intros Hne Hcov. unfold _compute_mixed_weights, mbind, M_bind, lift.
  destruct (volume_weights_ok ts QSUM Hne Hcov) as (w & Hw). rewrite Hw.
  destruct (random_dict_ok ts ∅ g) as (r & g' & -> & Hr).
  destruct (mixed_ok alpha w r ts ∅) as (s & ->).
  { intros j Hj. split; [by eapply volume_weights_covers | apply Hr; by left]. }
  by exists s, g'.
Qed.

(** At [alpha = 0] the scores are the volume weights, whatever is drawn. *)
Lemma compute_mixed_weights_zero ts QSUM g :
  value_of (_compute_mixed_weights ts QSUM 0%Qc g) = volume_weights ts QSUM.
Proof.
  unfold _compute_mixed_weights, mbind, M_bind, lift.
  destruct (volume_weights ts QSUM) as [w|] eqn:Hw; [|done].
  destruct (random_dict_ok ts ∅ g) as (r & g' & -> & Hr).
  destruct (mixed_ok 0%Qc w r ts ∅) as (s & Hs).
  { intros j Hj. split; [by eapply volume_weights_covers | apply Hr; by left]. }
  rewrite Hs. cbn. f_equal. apply map_eq. intros j.
  rewrite (mixed_lookup _ _ _ _ _ _ Hs j), lookup_empty.
  destruct (decide (j ∈ ts)) as [Hj|Hj].
  - destruct (volume_weights_covers _ _ _ j Hw Hj) as [wj ->].
    destruct (Hr j (or_introl Hj)) as [rj ->]. cbn. f_equal. ring.
  - destruct (volume_weights_lookup _ _ _ Hw) as (? & ? & ? & _ & _ & _ & Hl).
    by rewrite Hl, decide_False.
Qed.

Lemma compute_mixed_weights_source_free ts QSUM :
  source_free (_compute_mixed_weights ts QSUM 0%Qc).
Proof. intros g1 g2. by rewrite !compute_mixed_weights_zero. Qed.

End SourceFacts.

(** ** The least and the greatest volume *)

Section NormalizedFacts.
Context {Store : Type} `{Countable Store}.
Implicit Types (QSUM : gmap Store Qc) (ts : list Store).

Lemma foldl_py_min_le (l : list Qc) (x : Qc) :
  (foldl py_min x l ≤ x)%Qc ∧ ∀ y, y ∈ l → (foldl py_min x l ≤ y)%Qc.
Proof.
  revert x. induction l as [|z l IH]; intros x; cbn [foldl].
  { split; [apply Qcle_refl|]. intros y Hy. by apply not_elem_of_nil in Hy. }
  destruct (IH (py_min x z)) as [Hhd Htl].
  assert (py_min x z ≤ x ∧ py_min x z ≤ z)%Qc as [Hx Hz].
  { unfold py_min. destruct (decide (z < x)%Qc) as [Hlt|Hge].
    - split; [by apply Qclt_le_weak | apply Qcle_refl].
    - split; [apply Qcle_refl | by apply Qcnot_lt_le]. }
  split; [by eapply Qcle_trans|].
  intros y [->|Hy]%elem_of_cons; [by eapply Qcle_trans | by apply Htl].
Qed.

Lemma foldl_py_max_ge (l : list Qc) (x : Qc) :
  (x ≤ foldl py_max x l)%Qc ∧ ∀ y, y ∈ l → (y ≤ foldl py_max x l)%Qc.
Proof.
  revert x. induction l as [|z l IH]; intros x; cbn [foldl].
  { split; [apply Qcle_refl|]. intros y Hy. by apply not_elem_of_nil in Hy. }
  destruct (IH (py_max x z)) as [Hhd Htl].
  assert (x ≤ py_max x z ∧ z ≤ py_max x z)%Qc as [Hx Hz].
  { unfold py_max. destruct (decide (x < z)%Qc) as [Hlt|Hge].
    - split; [by apply Qclt_le_weak | apply Qcle_refl].
    - split; [apply Qcle_refl | by apply Qcnot_lt_le]. }
  split; [by eapply Qcle_trans|].
  intros y [->|Hy]%elem_of_cons; [by eapply Qcle_trans | by apply Htl].
Qed.

Lemma list_min_le (l : list Qc) m y :
  list_min l = Ok m → y ∈ l → (m ≤ y)%Qc.
Proof.
  destruct l as [|x l]; [done|]. cbn. intros Hm. injection Hm as <-.
  destruct (foldl_py_min_le l x) as [Hhd Htl].
  intros [->|Hy]%elem_of_cons; [done | by apply Htl].
Qed.

Lemma list_max_ge (l : list Qc) m y :
  list_max l = Ok m → y ∈ l → (y ≤ m)%Qc.
Proof.
  destruct l as [|x l]; [done|]. cbn. intros Hm. injection Hm as <-.
  destruct (foldl_py_max_ge l x) as [Hhd Htl].
  intros [->|Hy]%elem_of_cons; [done | by apply Htl].
Qed.

Lemma q_vals_of_elem QSUM ts qs j q :
  q_vals_of QSUM ts = Ok qs → j ∈ ts → QSUM !! j = Some q → q ∈ qs.
Proof.
  revert qs. induction ts as [|j0 ts IH]; intros qs Hqs Hj Hq.
  { by apply not_elem_of_nil in Hj. }
  cbn [q_vals_of] in Hqs. unfold getitem in Hqs.
  destruct (QSUM !! j0) as [q0|] eqn:Hq0; [|done]. cbn in Hqs.
  destruct (q_vals_of QSUM ts) as [qs'|] eqn:Hqs'; [|done].
  cbn in Hqs. injection Hqs as <-.
  apply elem_of_cons in Hj as [->|Hj].
  - assert (q = q0) as -> by congruence. by left.
  - right. by apply IH.
Qed.

Lemma foldl_py_min_elem (l : list Qc) (x : Qc) :
  foldl py_min x l = x ∨ foldl py_min x l ∈ l.
Proof.
  revert x. induction l as [|z l IH]; intros x; cbn [foldl]; [by left|].
  destruct (IH (py_min x z)) as [->|Hin]; [|right; by right].
  unfold py_min. destruct (decide (z < x)%Qc); [right; by left | by left].
Qed.

Lemma foldl_py_max_elem (l : list Qc) (x : Qc) :
  foldl py_max x l = x ∨ foldl py_max x l ∈ l.
Proof.
  revert x. induction l as [|z l IH]; intros x; cbn [foldl]; [by left|].
  destruct (IH (py_max x z)) as [->|Hin]; [|right; by right].
  unfold py_max. destruct (decide (x < z)%Qc); [right; by left | by left].
Qed.

Lemma list_min_elem (l : list Qc) m : list_min l = Ok m → m ∈ l.
Proof.
  destruct l as [|x l]; [done|]. cbn. intros Hm. injection Hm as <-.
  destruct (foldl_py_min_elem l x) as [->|Hin]; [by left | by right].
Qed.

Lemma list_max_elem (l : list Qc) m : list_max l = Ok m → m ∈ l.
Proof.
  destruct l as [|x l]; [done|]. cbn. intros Hm. injection Hm as <-.
  destruct (foldl_py_max_elem l x) as [->|Hin]; [by left | by right].
Qed.

(** The list [q_vals] holds the volumes of the target stores, and
    nothing else. *)
Lemma q_vals_of_volumes QSUM ts qs :
  q_vals_of QSUM ts = Ok qs →
  (∀ j, j ∈ ts → is_Some (QSUM !! j)) ∧
  (∀ v, v ∈ qs ↔ volume_in QSUM ts v).
Proof.
  revert qs. induction ts as [|j0 ts IH]; intros qs Hqs;
    cbn [q_vals_of] in Hqs.
  { injection Hqs as <-. split.
    - intros j Hj. by apply not_elem_of_nil in Hj.
    - intros v. split.
      + intros Hv. by apply not_elem_of_nil in Hv.
      + intros (j & Hj & _). by apply not_elem_of_nil in Hj. }
  unfold getitem in Hqs.
  destruct (QSUM !! j0) as [q0|] eqn:Hq0; [|done]. cbn in Hqs.
  destruct (q_vals_of QSUM ts) as [qs'|] eqn:Hqs'; [|done].
  cbn in Hqs. injection Hqs as <-.
  destruct (IH qs' eq_refl) as [Hcov Hvol]. split.
  - intros j [->|Hj]%elem_of_cons; [by rewrite Hq0 | by apply Hcov].
  - intros v. rewrite elem_of_cons, Hvol. split.
    + intros [->|(j & Hj & Hv)].
      * exists j0. split; [by left | done].
      * exists j. split; [by right | done].
    + intros (j & [->|Hj]%elem_of_cons & Hv).
      * left. congruence.
      * right. by exists j.
Qed.

(** The weights the code computes are the min-max-normalized volumes. *)
Lemma volume_weights_normalized ts QSUM (w : gmap Store Qc) :
  volume_weights ts QSUM = Ok w →
  ∀ j, (j ∈ ts → ∃ x, w !! j = Some x ∧ min_max_normalized QSUM ts j x) ∧
       (j ∉ ts → w !! j = None).
Proof.
  intros Hw.
  destruct (volume_weights_lookup _ _ _ Hw)
    as (qs & qmin & qmax & Hqs & Hmin & Hmax & Hl).
  destruct (q_vals_of_volumes _ _ _ Hqs) as [Hcov Hvol].
  intros j. split.
  - intros Hj. destruct (Hcov j Hj) as [q Hq].
    assert (qmin ≤ qmax)%Qc as Hle
      by (by eapply list_min_le, list_max_elem).
    exists (if decide (qmin < qmax)%Qc
            then ((q - qmin) / (qmax - qmin))%Qc else 1%Qc).
    split.
    { rewrite Hl, decide_True, Hq by done. by destruct (decide _). }
    exists q, qmin, qmax. split_and!.
    + done.
    + by apply Hvol, list_min_elem.
    + intros v Hv. eapply list_min_le; [done|]. by apply Hvol.
    + by apply Hvol, list_max_elem.
    + intros v Hv. eapply list_max_ge; [done|]. by apply Hvol.
    + destruct (decide (qmin < qmax)%Qc) as [Hlt|Hge].
      * rewrite decide_False; [done|]. intros Heq. rewrite Heq in Hlt.
        apply (Qclt_not_le _ _ Hlt), Qcle_refl.
      * rewrite decide_True; [done|]. apply Qcle_antisym; [done|].
        by apply Qcnot_lt_le.
  - intros Hj. by rewrite Hl, decide_False.
Qed.

End NormalizedFacts.

(** ** Determinism, clamping, empty inputs *)

Section RunFacts.
Context {SKU Store Color Size : Type}.
Context `{Countable SKU} `{Countable Store}.
Context `{EqDecision Color} `{EqDecision Size}.
Implicit Types (a : gmap (SKU * Store) Z) (limits : gmap Store Z).
Implicit Types (A : gmap SKU Z) (QSUM : gmap Store Qc) (ts : list Store).




Lemma step2_source_free A QSUM SKUs ts limits a sp :
  default 0%Qc (priority_temperature sp) = 0%Qc →
  source_free (_step2_single_allocation A QSUM SKUs ts limits a sp).
Proof.
  intros Ht. unfold _step2_single_allocation, _calculate_store_priorities.
  rewrite Ht. replace (py_max 0%Qc (py_min 1%Qc 0%Qc)) with 0%Qc by done.
  apply source_free_bind; [apply compute_mixed_weights_source_free|].
  intros w. apply source_free_bind; [apply source_free_lift|].
  intros r. apply source_free_ret.
Qed.

Lemma step3_source_free A QSUM SKUs ts limits a sp :
  default 0%Qc (priority_temperature sp) = 0%Qc →
  source_free (_step3_remaining_allocation A QSUM SKUs ts limits a sp).
Proof.
  intros Ht. unfold _step3_remaining_allocation, _calculate_store_priorities.
  rewrite Ht. replace (py_max 0%Qc (py_min 1%Qc 0%Qc)) with 0%Qc by done.
  apply source_free_bind; [apply compute_mixed_weights_source_free|].
  intros w. apply source_free_bind; [apply source_free_lift|].
  intros r. apply source_free_ret.
Qed.

(** C8 (determinism at temperature zero).  With [priority_temperature]
    0 (given, or left to its default) two runs on the same inputs and
    the same backend return the same dict and leave the same optimizer
    object, snapshots included, whatever their random sources draw.  The
    priority scores do not depend on the draws either: the score of
    every target store is its min-max-normalized volume (its volume
    less the least volume of the target stores, over the spread between
    the greatest and the least; 1 for every store when the volumes
    tie), no other store has a score, and scores are produced whenever
    there is a target store and every target store has a volume. *)
Theorem deterministic_at_zero
    (solve : LpProblem SKU Store Color Size → solver_response SKU Store Color Size)
    (d : data SKU Store Color Size) (target_stores : list Store)
    (store_allocation_limits : gmap Store Z)
    (df_sku_filtered : list (@sku_row SKU Color Size))
    (scenario_params : scenario) (g1 g2 : rng) :
  default 0%Qc (priority_temperature scenario_params) = 0%Qc →
  value_of (optimize_three_step solve d target_stores store_allocation_limits
              df_sku_filtered scenario_params g1)
  = value_of (optimize_three_step solve d target_stores
                store_allocation_limits df_sku_filtered scenario_params g2) ∧
  value_of (_calculate_store_priorities target_stores (d_QSUM d)
              (default 0%Qc (priority_temperature scenario_params)) g1)
  = volume_weights target_stores (d_QSUM d) ∧
  value_of (_calculate_store_priorities target_stores (d_QSUM d)
              (default 0%Qc (priority_temperature scenario_params)) g2)
  = volume_weights target_stores (d_QSUM d) ∧
  (∀ s, value_of (_calculate_store_priorities target_stores (d_QSUM d)
                    (default 0%Qc (priority_temperature scenario_params)) g1)
        = Ok s →
        ∀ j, (j ∈ target_stores →
              ∃ x, s !! j = Some x ∧
                   min_max_normalized (d_QSUM d) target_stores j x) ∧
             (j ∉ target_stores → s !! j = None)) ∧
  (target_stores ≠ [] →
   (∀ j, j ∈ target_stores → is_Some (d_QSUM d !! j)) →
   ∃ s, value_of (_calculate_store_priorities target_stores (d_QSUM d)
                    (default 0%Qc (priority_temperature scenario_params)) g1)
        = Ok s).
Proof.
  intros Ht.
  assert (∀ g, value_of (_calculate_store_priorities target_stores (d_QSUM d)
                 (default 0%Qc (priority_temperature scenario_params)) g)
               = volume_weights target_stores (d_QSUM d)) as Hscore.
  { intros g. rewrite Ht. apply compute_mixed_weights_zero. }
  split_and!.
  - revert g1 g2. change (source_free (optimize_three_step solve d target_stores
      store_allocation_limits df_sku_filtered scenario_params)).
    unfold optimize_three_step.
    apply source_free_bind; [apply source_free_lift|].
    intros [r1|]; [|apply source_free_ret].
    apply source_free_bind; [by apply step2_source_free|]. intros r2.
    apply source_free_bind; [by apply step3_source_free|]. intros r3.
    apply source_free_ret.
  - apply Hscore.
  - apply Hscore.
  - intros s Hs. rewrite Hscore in Hs. by apply volume_weights_normalized.
  - intros Hne Hcov. rewrite Hscore. by apply volume_weights_ok.
Qed.


(** With no target store the priority computation raises, so no run on
    an empty list of target stores is a success. *)
Lemma empty_target_stores_no_success
    (solve : LpProblem SKU Store Color Size → solver_response SKU Store Color Size)
    (d : data SKU Store Color Size) limits
    (df : list (@sku_row SKU Color Size)) sp g :
  match optimize_three_step solve d [] limits df sp g with
  | Ok (success _ _ _ _ _ _, _, _) => False
  | Ok (failed step final, _, _) => step = 1 ∧ final = ∅
  | Raise _ => True
  end.
Proof.
  unfold optimize_three_step, mbind, M_bind, lift.
  destruct (_step1_coverage_optimization solve d [] limits df)
    as [[r1|]|]; [|done|done].
  unfold _step2_single_allocation, _calculate_store_priorities,
    _compute_mixed_weights, mbind, M_bind, lift. by cbn.
Qed.

(** With no SKU, a non-empty list of target stores with a volume each
    and a backend answering status 1, the run is a success with an empty
    allocation. *)
Lemma empty_skus_success
    (solve : LpProblem SKU Store Color Size → solver_response SKU Store Color Size)
    (d : data SKU Store Color Size) ts limits
    (df : list (@sku_row SKU Color Size)) sp g :
  d_SKUs d = [] → ts ≠ [] → (∀ j, j ∈ ts → is_Some (d_QSUM d !! j)) →
  (∀ P, step1_problem d ts limits df = Ok P → status (solve P) = 1) →
  ∃ obj self g',
    optimize_three_step solve d ts limits df sp g
    = Ok (success ∅ 0 0 obj 0 0, self, g') ∧
    step1_allocation self = ∅ ∧ allocation_after_step2 self = ∅ ∧
    allocation_after_step3 self = ∅.
Proof.
  intros HS Hne Hcov Hst.
  unfold optimize_three_step, _step1_coverage_optimization, mbind at 1, M_bind,
    lift.
  assert (∃ P, step1_problem d ts limits df = Ok P) as (P & HP).
  { unfold step1_problem, _add_step1_constraints. rewrite HS. cbn. by eexists. }
  rewrite HP. cbn. rewrite decide_True by (by apply Hst).
  unfold _step2_single_allocation, _step3_remaining_allocation,
    _calculate_store_priorities, mbind, M_bind, lift, mret, M_ret.
  rewrite HS. cbn.
  destruct (compute_mixed_weights_ok ts (d_QSUM d)
              (py_max 0%Qc (py_min 1%Qc (default 0%Qc (priority_temperature sp))))
              g Hne Hcov) as (s2 & g2 & ->).
  destruct (compute_mixed_weights_ok ts (d_QSUM d)
              (py_max 0%Qc (py_min 1%Qc (default 0%Qc (priority_temperature sp))))
              g2 Hne Hcov) as (s3 & g3 & ->).
  cbn. eexists _, _, _. split; [reflexivity|]. by cbn.
Qed.

End RunFacts.

(** *** The sample runs *)

(** C7 (empty inputs), on the code.  No run on an empty list of target
    stores is a success; on the sample inputs with the list emptied, the
    backend answers status 1 with a feasible valuation and the run raises
    [ValueError] (the [min] of an empty list in
    [_compute_mixed_weights]). *)
Theorem empty_target_stores_raise :
  (∀ (solve : Sample.problem → Sample.response) d limits df sp g,
     match optimize_three_step solve d [] limits df sp g with
     | Ok (success _ _ _ _ _ _, _, _) => False
     | _ => True
     end) ∧
  (∃ P, step1_problem Sample.inputs [] Sample.limits Sample.frame = Ok P ∧
        status (Sample.solve P) = 1 ∧
        feasible P (varValue (Sample.solve P))) ∧
  optimize_three_step Sample.solve Sample.inputs [] Sample.limits Sample.frame
    Sample.deterministic Sample.source_a
  = Raise ValueError.
Proof.
  split_and!.
  - intros solve d limits df sp g.
    pose proof (empty_target_stores_no_success solve d limits df sp g) as Hno.
    by destruct (optimize_three_step solve d [] limits df sp g)
      as [[[[] ?] ?]|].
  - eexists. split; [vm_compute; reflexivity|]. split; [reflexivity|].
    refine (bool_decide_unpack _ _). vm_compute. exact I.
  - vm_compute. reflexivity.
Qed.

Lemma deterministic_at_zero_witness :
  let run sp g := optimize_three_step TwoStores.solve TwoStores.inputs
                    TwoStores.target_stores TwoStores.limits_even Sample.frame
                    sp g in
  (∃ final tot comb obj n2 n3 self,
     value_of (run Sample.deterministic Sample.source_a)
     = Ok (success final tot comb obj n2 n3, self) ∧
     value_of (run Sample.deterministic Sample.source_b)
     = Ok (success final tot comb obj n2 n3, self)) ∧
  (dict_get (final_allocation (run_self (run TwoStores.fully_random
                                           Sample.source_a)))
     ("A_red_S", "s1") 0 = 2 ∧
   dict_get (final_allocation (run_self (run TwoStores.fully_random
                                           Sample.source_b)))
     ("A_red_S", "s1") 0 = 1) ∧
  (∃ s x, value_of (_calculate_store_priorities TwoStores.target_stores
                      (d_QSUM TwoStores.inputs) 0%Qc Sample.source_b) = Ok s ∧
          s !! "s2" = Some x ∧
          min_max_normalized (d_QSUM TwoStores.inputs)
            TwoStores.target_stores "s2" x).
Proof.
  intros run.
  destruct (deterministic_at_zero TwoStores.solve TwoStores.inputs
              TwoStores.target_stores TwoStores.limits_even Sample.frame
              Sample.deterministic Sample.source_a Sample.source_b eq_refl)
    as (Hsame & _ & _ & _ & _).
  destruct (deterministic_at_zero TwoStores.solve TwoStores.inputs
              TwoStores.target_stores TwoStores.limits_even Sample.frame
              Sample.deterministic Sample.source_b Sample.source_a eq_refl)
    as (_ & _ & _ & Hnorm & Hsome).
  split_and!.
  - destruct (success_run (run Sample.deterministic Sample.source_a))
      as (final & tot & comb & obj & n2 & n3 & self & g' & Hrun).
    { vm_compute. exact I. }
    exists final, tot, comb, obj, n2, n3, self.
    fold (run Sample.deterministic Sample.source_a) in Hsame.
    fold (run Sample.deterministic Sample.source_b) in Hsame.
    rewrite <- Hsame, Hrun. split; reflexivity.
  - vm_compute. reflexivity.
  - vm_compute. reflexivity.
  - destruct Hsome as [s Hs].
    { discriminate. }
    { intros j Hj. refine (bool_decide_unpack _ _). revert j Hj.
      apply Forall_forall. refine (bool_decide_unpack _ _).
      vm_compute. exact I. }
    destruct (proj1 (Hnorm s Hs "s2")) as (x & Hx & Hmm).
    { refine (bool_decide_unpack _ _). vm_compute. exact I. }
    exists s, x. split_and!; [exact Hs | exact Hx | exact Hmm].
Defined.


(** ** Store tiers: ranks, counts and limits *)

Lemma Qc_lt_frac (i n a : Z) (b : positive) :
  (Qc_of_Z i < Qc_of_Z n * Qc_of_frac a b)%Qc ↔ i * Z.pos b < n * a.
Proof.
  unfold Qclt, Qc_of_frac, Qc_of_Z, Qcmult. cbn [this Q2Qc].
  rewrite !Qred_correct. unfold Qlt. cbn. lia.
Qed.

Lemma default_ratio_sum :
  (ratio (TIER_CONFIG TIER_1_HIGH) + ratio (TIER_CONFIG TIER_2_MEDIUM))%Qc
  = Qc_of_frac 1 2.
Proof. apply Qc_is_canon. reflexivity. Qed.

(** X1.  [get_store_tier] never ranks a later index higher: going down
    the ranked list, the tier goes from TIER_1_HIGH through
    TIER_2_MEDIUM to TIER_3_LOW and never back, whatever the ratios of
    the table. *)
Theorem get_store_tier_monotone (tier_config : tier_table)
    (i j total_stores : Z) :
  i ≤ j →
  tier_rank (get_store_tier tier_config i total_stores)
  ≤ tier_rank (get_store_tier tier_config j total_stores).
Proof.
  intros Hij. unfold get_store_tier.
  assert (∀ x : Qc, (Qc_of_Z j < x)%Qc → (Qc_of_Z i < x)%Qc) as Hdown.
  { intros x Hx. eapply Qcle_lt_trans; [by apply Qc_of_Z_le | done]. }
  repeat destruct (decide _); cbn [tier_rank]; try lia;
    exfalso; eauto.
Qed.

Lemma get_store_tier_monotone_witness :
  2 ≤ 7 ∧
  tier_rank (get_store_tier TIER_CONFIG 2 10)
  ≤ tier_rank (get_store_tier TIER_CONFIG 7 10).
Proof. split; [lia | apply (get_store_tier_monotone TIER_CONFIG 2 7 10); lia]. Defined.

(** The comparisons of [get_store_tier] under the table of [config.py],
    on integers. *)
Lemma config_tier_by_index (i n : Z) :
  get_store_tier TIER_CONFIG i n
  = if decide (10 * i < 3 * n) then TIER_1_HIGH
    else if decide (2 * i < n) then TIER_2_MEDIUM
    else TIER_3_LOW.
Proof.
  unfold get_store_tier. rewrite default_ratio_sum.
  change (ratio (TIER_CONFIG TIER_1_HIGH)) with (Qc_of_frac 3 10).
  destruct (decide (Qc_of_Z i < _ * Qc_of_frac 3 10)%Qc) as [H1|H1];
    rewrite Qc_lt_frac in H1.
  { rewrite (decide_True (P := 10 * i < 3 * n)) by lia. done. }
  rewrite (decide_False (P := 10 * i < 3 * n)) by lia.
  destruct (decide (Qc_of_Z i < _ * Qc_of_frac 1 2)%Qc) as [H2|H2];
    rewrite Qc_lt_frac in H2.
  - rewrite (decide_True (P := 2 * i < n)) by lia. done.
  - rewrite (decide_False (P := 2 * i < n)) by lia. done.
Qed.

(** X2.  With the table of [config.py] (ratios 0.3, 0.2, 0.5 read as
    exact fractions) the tier of index [i] among [n] stores is decided
    by integer comparisons: TIER_1_HIGH when [10 i < 3 n], otherwise
    TIER_2_MEDIUM when [2 i < n], otherwise TIER_3_LOW. *)
Theorem default_tier_by_index (i n : Z) :
  get_store_tier TIER_CONFIG i n
  = if decide (10 * i < 3 * n) then TIER_1_HIGH
    else if decide (2 * i < n) then TIER_2_MEDIUM
    else TIER_3_LOW.
Proof.
  unfold get_store_tier. rewrite default_ratio_sum.
  change (ratio (TIER_CONFIG TIER_1_HIGH)) with (Qc_of_frac 3 10).
  destruct (decide (Qc_of_Z i < _ * Qc_of_frac 3 10)%Qc) as [H1|H1];
    rewrite Qc_lt_frac in H1.
  { rewrite (decide_True (P := 10 * i < 3 * n)) by lia. done. }
  rewrite (decide_False (P := 10 * i < 3 * n)) by lia.
  destruct (decide (Qc_of_Z i < _ * Qc_of_frac 1 2)%Qc) as [H2|H2];
    rewrite Qc_lt_frac in H2.
  - rewrite (decide_True (P := 2 * i < n)) by lia. done.
  - rewrite (decide_False (P := 2 * i < n)) by lia. done.
Qed.

Section TierCounts.

Lemma filter_agree {X} (P Q : X → Prop) `{∀ x, Decision (P x)}
    `{∀ x, Decision (Q x)} (l : list X) :
  Forall (λ x, P x ↔ Q x) l → filter P l = filter Q l.
Proof.
  induction 1 as [|x l Hx _ IH]; [done|].
  rewrite !filter_cons, IH.
  destruct (decide (P x)), (decide (Q x)); tauto.
Qed.

Lemma filter_split_length {X} (P : X → Prop) `{∀ x, Decision (P x)}
    (l : list X) :
  (length (filter P l) + length (filter (λ x, ¬ P x) l) = length l)%nat.
Proof.
  induction l as [|x l IH]; [done|].
  rewrite !filter_cons. destruct (decide (P x)), (decide (¬ P x));
    cbn [length]; try tauto; lia.
Qed.

Lemma filter_all {X} (P : X → Prop) `{∀ x, Decision (P x)} (l : list X) :
  Forall P l → filter P l = l.
Proof.
  induction 1 as [|x l Hx _ IH]; [done|].
  by rewrite filter_cons_True, IH.
Qed.

(** The number of indices of [range(n)] below a bound. *)
Lemma range_below (n : nat) (c : Z) :
  0 ≤ c ≤ Z.of_nat n →
  Z.of_nat (length (filter (λ i, i < c) (range (Z.of_nat n)))) = c.
Proof.
  unfold range. revert c. induction n as [|n IH]; intros c Hc.
  { assert (c = 0) as -> by lia. reflexivity. }
  rewrite Nat2Z.inj_succ, <- Z.add_1_r, seqZ_app by lia.
  rewrite filter_app, length_app, Nat2Z.inj_add.
  change (seqZ (0 + Z.of_nat n) 1) with [0 + Z.of_nat n].
  rewrite filter_cons, filter_nil.
  destruct (decide (0 + Z.of_nat n < c)) as [Hlt|Hge].
  - assert (filter (λ i, i < c) (seqZ 0 (Z.of_nat n)) = seqZ 0 (Z.of_nat n))
      as ->.
    { apply filter_all. apply Forall_forall. intros x Hx.
      apply elem_of_seqZ in Hx. lia. }
    rewrite length_seqZ. cbn [length]. lia.
  - rewrite IH by lia. cbn [length]. lia.
Qed.

(** Every index falls in exactly one tier. *)
Lemma tier_partition_length (f : Z → tier_name) (l : list Z) :
  Z.of_nat (length (filter (λ i, f i = TIER_1_HIGH) l))
  + Z.of_nat (length (filter (λ i, f i = TIER_2_MEDIUM) l))
  + Z.of_nat (length (filter (λ i, f i = TIER_3_LOW) l))
  = Z.of_nat (length l).
Proof.
  induction l as [|i l IH]; [done|].
  rewrite !filter_cons.
  destruct (f i); repeat (destruct (decide _); try done); cbn [length]; lia.
Qed.

End TierCounts.

(** X3.  The tier counts [print_tier_summary] returns add up to the
    number of stores, whatever the ratios; with the table of [config.py]
    they are [⌈3n/10⌉], [⌈n/2⌉ - ⌈3n/10⌉] and [⌊n/2⌋] for [n] stores. *)
Theorem print_tier_summary_counts {Store : Type} (tier_config : tier_table)
    (stores : list Store) :
  let n := Z.of_nat (length stores) in
  print_tier_summary tier_config stores TIER_1_HIGH
  + print_tier_summary tier_config stores TIER_2_MEDIUM
  + print_tier_summary tier_config stores TIER_3_LOW = n ∧
  print_tier_summary TIER_CONFIG stores TIER_1_HIGH = (3 * n + 9) / 10 ∧
  print_tier_summary TIER_CONFIG stores TIER_2_MEDIUM
  = (n + 1) / 2 - (3 * n + 9) / 10 ∧
  print_tier_summary TIER_CONFIG stores TIER_3_LOW = n / 2.
Proof.
  intros n.
  assert (∀ tc, print_tier_summary tc stores TIER_1_HIGH
                + print_tier_summary tc stores TIER_2_MEDIUM
                + print_tier_summary tc stores TIER_3_LOW = n) as Hsum.
  { intros tc. unfold print_tier_summary. fold n.
    rewrite (tier_partition_length (λ i, get_store_tier tc i n)).
    unfold range. rewrite length_seqZ. lia. }
  assert (print_tier_summary TIER_CONFIG stores TIER_1_HIGH = (3 * n + 9) / 10)
    as H1.
  { unfold print_tier_summary. fold n.
    rewrite (filter_agree _ (λ i, i < (3 * n + 9) / 10)).
    - apply range_below. subst n. Z.div_mod_to_equations. lia.
    - apply Forall_forall. intros i _. rewrite config_tier_by_index.
      repeat destruct (decide _); split; try done;
        Z.div_mod_to_equations; lia. }
  assert (print_tier_summary TIER_CONFIG stores TIER_3_LOW = n / 2) as H3.
  { unfold print_tier_summary. fold n.
    rewrite (filter_agree _ (λ i, ¬ i < (n + 1) / 2)).
    - pose proof (filter_split_length (λ i, i < (n + 1) / 2) (range n)) as Hs.
      pose proof (range_below (length stores) ((n + 1) / 2)) as Hb.
      fold n in Hb. unfold range in Hs at 3. rewrite length_seqZ in Hs.
      Z.div_mod_to_equations. lia.
    - apply Forall_forall. intros i Hi. apply elem_of_seqZ in Hi.
      rewrite config_tier_by_index.
      repeat destruct (decide _); split; try done;
        Z.div_mod_to_equations; lia. }
  split_and!; [apply Hsum | exact H1 | | exact H3].
  specialize (Hsum TIER_CONFIG). Z.div_mod_to_equations. lia.
Qed.

Section LimitFacts.
Context {Store : Type} `{Countable Store}.
Implicit Types (stores : list Store) (limits : gmap Store Z).

Lemma fill_limits_other tc n i stores limits s :
  s ∉ stores → fill_limits tc n i stores limits !! s = limits !! s.
Proof.
  revert i limits. induction stores as [|s0 stores IH]; intros i limits Hs;
    cbn [fill_limits]; [done|].
  rewrite IH by (intros ?; apply Hs; by right).
  apply lookup_insert_ne. intros ->. apply Hs. by left.
Qed.

(** The limit of a store is the limit of the tier of its last position. *)
Lemma fill_limits_last tc n i stores limits (k : nat) s :
  stores !! k = Some s →
  (∀ k', (k < k')%nat → stores !! k' ≠ Some s) →
  fill_limits tc n i stores limits !! s
  = Some (max_sku_limit (tc (get_store_tier tc (i + Z.of_nat k) n))).
Proof.
  revert i limits k. induction stores as [|s0 stores IH];
    intros i limits k Hk Hlast; [done|].
  cbn [fill_limits]. destruct k as [|k].
  - injection Hk as ->. rewrite fill_limits_other.
    + rewrite lookup_insert_eq. by rewrite Z.add_0_r.
    + intros Hin. apply list_elem_of_lookup in Hin as [k' Hk'].
      apply (Hlast (S k')); [lia | done].
  - rewrite (IH (i + 1) _ k Hk).
    + do 4 f_equal. lia.
    + intros k' Hk'. apply (Hlast (S k')). lia.
Qed.

Lemma fill_limits_member tc n i stores limits s :
  s ∈ stores →
  ∃ t, fill_limits tc n i stores limits !! s = Some (max_sku_limit (tc t)).
Proof.
  revert i limits. induction stores as [|s0 stores IH]; intros i limits Hs.
  { by apply not_elem_of_nil in Hs. }
  cbn [fill_limits]. destruct (decide (s ∈ stores)) as [Hin|Hout].
  - by apply IH.
  - apply elem_of_cons in Hs as [->|Hs]; [|done].
    rewrite fill_limits_other by done. rewrite lookup_insert_eq. by eexists.
Qed.

Lemma list_index_lookup (s : Store) stores k :
  list_index s stores = Ok k →
  0 ≤ k ∧ stores !! Z.to_nat k = Some s ∧
  ∀ k', (k' < Z.to_nat k)%nat → stores !! k' ≠ Some s.
Proof.
  revert k. induction stores as [|s0 stores IH]; intros k Hk; [done|].
  cbn [list_index] in Hk. destruct (decide (s0 = s)) as [->|Hne].
  - injection Hk as <-. split_and!; [lia | done | lia].
  - destruct (list_index s stores) as [k0|] eqn:Hk0; [|done].
    cbn in Hk. injection Hk as <-.
    destruct (IH k0 eq_refl) as (Hpos & Hat & Hfirst).
    replace (Z.to_nat (k0 + 1)) with (S (Z.to_nat k0)) by lia.
    split_and!; [lia | done |].
    intros [|k'] Hk'; cbn; [congruence|]. apply Hfirst. lia.
Qed.

(** X4.  [create_store_allocation_limits] gives a limit to exactly the
    stores of the list: a store that is not listed has no entry, and a
    listed store has the limit of the tier of its last position in the
    list (of its position, when it is listed once). *)
Theorem create_store_allocation_limits_lookup (tier_config : tier_table)
    (stores : list Store) :
  (∀ s, s ∉ stores →
     create_store_allocation_limits tier_config stores !! s = None) ∧
  (∀ (k : nat) s, stores !! k = Some s →
     (∀ k', (k < k')%nat → stores !! k' ≠ Some s) →
     create_store_allocation_limits tier_config stores !! s
     = Some (max_sku_limit
               (tier_config (get_store_tier tier_config (Z.of_nat k)
                               (Z.of_nat (length stores)))))) ∧
  (∀ s, is_Some (create_store_allocation_limits tier_config stores !! s)
        ↔ s ∈ stores).
Proof.
  unfold create_store_allocation_limits. split_and!.
  - intros s Hs. by rewrite fill_limits_other.
  - intros k s Hk Hlast. by rewrite (fill_limits_last _ _ _ _ _ k s Hk Hlast).
  - intros s. split.
    + intros Hsome. destruct (decide (s ∈ stores)) as [|Hout]; [done|].
      rewrite fill_limits_other, lookup_empty in Hsome by done.
      by destruct Hsome.
    + intros Hs. destruct (fill_limits_member tier_config
        (Z.of_nat (length stores)) 0 stores ∅ s Hs) as [t ->]. by eexists.
Qed.

(** X5.  When no store is listed twice, the limits dict and
    [get_store_tier_info] agree: the lookup answers for a store exactly
    when the store has a limit, and then its [max_sku_limit] is that
    limit. *)
Theorem limits_agree_with_tier_info (tier_config : tier_table)
    (stores : list Store) (s : Store) :
  NoDup stores →
  match get_store_tier_info tier_config s stores with
  | Ok info =>
      create_store_allocation_limits tier_config stores !! s
      = Some (info_max_sku_limit info)
  | Raise e =>
      e = ValueError ∧
      create_store_allocation_limits tier_config stores !! s = None
  end.
Proof.
  intros Hnd. unfold get_store_tier_info.
  destruct (list_index s stores) as [k|e] eqn:Hk.
  - destruct (list_index_lookup _ _ _ Hk) as (Hpos & Hat & _).
    cbn [info_max_sku_limit]. unfold create_store_allocation_limits.
    rewrite (fill_limits_last _ _ _ _ _ (Z.to_nat k) s Hat).
    + by rewrite Z.add_0_l, Z2Nat.id.
    + intros k' Hlt Hk'.
      pose proof (NoDup_lookup _ _ _ _ Hnd Hat Hk'). lia.
  - split; [done|].
    destruct (decide (s ∈ stores)) as [Hin|Hout].
    + destruct (list_index_ok s stores Hin) as [n Hn]. congruence.
    + unfold create_store_allocation_limits. by rewrite fill_limits_other.
Qed.

End LimitFacts.

Lemma create_store_allocation_limits_lookup_witness :
  (("ghost" ∉ Sample.ten_stores) ∧
   create_store_allocation_limits TIER_CONFIG Sample.ten_stores !! "ghost"
   = None) ∧
  (Sample.ten_stores !! 4%nat = Some "s4" ∧
   create_store_allocation_limits TIER_CONFIG Sample.ten_stores !! "s4"
   = Some 2).
Proof.
  destruct (create_store_allocation_limits_lookup TIER_CONFIG Sample.ten_stores)
    as (Hout & Hlast & _).
  assert ("ghost" ∉ Sample.ten_stores) as Hghost.
  { refine (bool_decide_unpack _ _). vm_compute. exact I. }
  split; [split; [exact Hghost | exact (Hout "ghost" Hghost)]|].
  split; [reflexivity|].
  rewrite (Hlast 4%nat "s4" eq_refl); [reflexivity|].
  intros k' Hk' Heq.
  do 5 (destruct k' as [|k']; [lia|]).
  do 5 (destruct k' as [|k']; [discriminate Heq|]). discriminate Heq.
Defined.

Lemma limits_agree_with_tier_info_witness :
  NoDup Sample.ten_stores ∧
  ∃ info, get_store_tier_info TIER_CONFIG "s7" Sample.ten_stores = Ok info ∧
          create_store_allocation_limits TIER_CONFIG Sample.ten_stores !! "s7"
          = Some (info_max_sku_limit info).
Proof.
  assert (NoDup Sample.ten_stores) as Hnd.
  { refine (bool_decide_unpack _ _). vm_compute. exact I. }
  split; [exact Hnd|].
  pose proof (limits_agree_with_tier_info TIER_CONFIG Sample.ten_stores "s7" Hnd)
    as Hagree.
  destruct (get_store_tier_info TIER_CONFIG "s7" Sample.ten_stores)
    as [info|e] eqn:Hinfo.
  - exists info. split; [reflexivity | exact Hagree].
  - exfalso. vm_compute in Hinfo. discriminate Hinfo.
Defined.

(** ** The run on the limits of the default tier table *)

Section DefaultLimits.
Context {SKU Store Color Size : Type}.
Context `{Countable SKU} `{Countable Store}.
Context `{EqDecision Color} `{EqDecision Size}.

Lemma default_limit_range (ts : list Store) (j : Store) :
  (j ∈ ts → 1 ≤ dict_get (create_store_allocation_limits TIER_CONFIG ts) j 0 ≤ 3) ∧
  (j ∉ ts → dict_get (create_store_allocation_limits TIER_CONFIG ts) j 0 = 0).
Proof.
  unfold dict_get, create_store_allocation_limits. split; intros Hj.
  - destruct (fill_limits_member TIER_CONFIG (Z.of_nat (length ts)) 0 ts ∅ j Hj)
      as [t ->].
    destruct t; cbn; lia.
  - by rewrite fill_limits_other, lookup_empty.
Qed.

Lemma placed_outside (ts : list Store) (a : gmap (SKU * Store) Z) i j :
  placed ts a → 0 ≤ dict_get a (i, j) 0 ∧ (j ∉ ts → dict_get a (i, j) 0 = 0).
Proof.
  intros Hpl. unfold dict_get.
  destruct (a !! (i, j)) as [v|] eqn:Hv; cbn; [|done].
  destruct (Hpl _ _ Hv) as [Hin Hpos]. split; [done | by intros []].
Qed.

(** X6.  When the limits are the ones [main.py] builds, from the target
    stores and the tier table of [config.py], every snapshot of a
    successful run respects them at every store, with no condition on
    the backend: each quantity lies between 0 and the limit of its
    store, and no limit exceeds 3. *)
Theorem default_limits_respected
    (solve : LpProblem SKU Store Color Size → solver_response SKU Store Color Size)
    (d : data SKU Store Color Size) (target_stores : list Store)
    (df_sku_filtered : list (@sku_row SKU Color Size))
    (scenario_params : scenario) (g : rng)
    final tot comb obj n2 n3 (self : @ThreeStepOptimizer SKU Store _ _ _ _) g' :
  let store_allocation_limits :=
    create_store_allocation_limits TIER_CONFIG target_stores in
  optimize_three_step solve d target_stores store_allocation_limits
    df_sku_filtered scenario_params g
  = Ok (success final tot comb obj n2 n3, self, g') →
  ∀ a, a ∈ [step1_allocation self; allocation_after_step2 self;
            allocation_after_step3 self; final] →
    ∀ i j, 0 ≤ dict_get a (i, j) 0 ≤ dict_get store_allocation_limits j 0 ∧
           dict_get store_allocation_limits j 0 ≤ 3.
Proof.
  intros limits Hrun.
  apply optimize_three_step_success in Hrun
    as (P & HP & Hst & Ha1 & H12 & H23 & -> & _ & _).
  assert (placed target_stores (step1_allocation self)) as Hp1.
  { rewrite Ha1. apply mark_all_placed. }
  assert (placed target_stores (allocation_after_step2 self)) as Hp2
    by (by eapply grows_placed).
  assert (placed target_stores (allocation_after_step3 self)) as Hp3
    by (by eapply grows_placed).
  assert (within_limits target_stores limits (step1_allocation self)) as Hl1.
  { intros i j Hj. rewrite Ha1. unfold dict_get at 1. rewrite mark_all_lookup.
    destruct (default_limit_range target_stores j) as [Hin _].
    specialize (Hin Hj). fold limits in Hin.
    destruct (decide _); cbn; lia. }
  assert (within_limits target_stores limits (allocation_after_step2 self))
    as Hl2 by (by eapply grows_within_limits).
  assert (within_limits target_stores limits (allocation_after_step3 self))
    as Hl3 by (by eapply grows_within_limits).
  assert (∀ a : gmap (SKU * Store) Z,
            placed target_stores a → within_limits target_stores limits a →
            ∀ i j, 0 ≤ dict_get a (i, j) 0 ≤ dict_get limits j 0 ∧
                   dict_get limits j 0 ≤ 3) as Hall.
  { intros a Hp Hl i j.
    destruct (placed_outside target_stores a i j Hp) as [Hpos Hout].
    destruct (default_limit_range target_stores j) as [Hin Hzero].
    fold limits in Hin, Hzero.
    destruct (decide (j ∈ target_stores)) as [Hj|Hj].
    - specialize (Hl i j Hj). specialize (Hin Hj). lia.
    - rewrite (Hout Hj), (Hzero Hj). lia. }
  intros a Ha i j.
  repeat (apply elem_of_cons in Ha as [->|Ha]; [by apply Hall|]).
  by apply not_elem_of_nil in Ha.
Qed.

End DefaultLimits.

Lemma default_limits_respected_witness :
  ∃ final tot comb obj n2 n3 self g',
    optimize_three_step Sample.solve Sample.inputs Sample.target_stores
      (create_store_allocation_limits TIER_CONFIG Sample.target_stores)
      Sample.frame Sample.temperature_50 Sample.source_a
    = Ok (success final tot comb obj n2 n3, self, g') ∧
    ∀ i j, 0 ≤ dict_get final (i, j) 0 ≤ 3.
Proof.
  destruct (success_run (optimize_three_step Sample.solve Sample.inputs
              Sample.target_stores
              (create_store_allocation_limits TIER_CONFIG Sample.target_stores)
              Sample.frame Sample.temperature_50 Sample.source_a))
    as (final & tot & comb & obj & n2 & n3 & self & g' & Hrun).
  { vm_compute. exact I. }
  exists final, tot, comb, obj, n2, n3, self, g'. split; [exact Hrun|].
  intros i j.
  pose proof (default_limits_respected _ _ _ _ _ _ _ _ _ _ _ _ _ _ Hrun final)
    as Hall.
  destruct (Hall (list_elem_of_further _ _ _ (list_elem_of_further _ _ _
                    (list_elem_of_further _ _ _ (list_elem_of_here _ _)))) i j)
    as [[Hlo Hhi] Hcap].
  split; [exact Hlo | exact (Z.le_trans _ _ _ Hhi Hcap)].
Defined.

(** ** Scarcity classification: the two lists, errors, statistics *)

Section ClassifierMore.
Context {SKU Color Size : Type}.
Context `{Countable SKU} `{EqDecision Color} `{EqDecision Size}.
Implicit Types (df : list (@sku_row SKU Color Size)) (A : list (SKU * Z)).

(** A frame lookup answers exactly for the SKUs that have a row, and
    otherwise raises [IndexError]. *)
Lemma loc_iloc0_cases {X} df sku (col : sku_row → X) :
  (sku ∈ row_SKU <$> df ∧ ∃ x, loc_iloc0 df sku col = Ok x) ∨
  ((sku ∉ row_SKU <$> df) ∧ loc_iloc0 df sku col = Raise IndexError).
Proof.
  destruct (decide (sku ∈ row_SKU <$> df)) as [Hin|Hout].
  - left. split; [done|]. destruct (loc_iloc0_row df sku col Hin) as [r Hr].
    by eexists.
  - right. split; [done|]. unfold loc_iloc0.
    destruct (filter (λ r, row_SKU r = sku) df) as [|r l] eqn:Hf; [done|].
    exfalso. apply Hout. apply list_elem_of_fmap. exists r.
    assert (r ∈ filter (λ r, row_SKU r = sku) df) as Hr
      by (rewrite Hf; apply list_elem_of_here).
    apply list_elem_of_filter in Hr as [-> Hr]. done.
Qed.

Lemma add_related_cases df s c z SKUs ext :
  match add_related df s c z SKUs ext with
  | Ok _ => ∀ x, x ∈ SKUs → x ≠ s → x ∈ row_SKU <$> df
  | Raise e => e = IndexError ∧ ∃ x, x ∈ SKUs ∧ x ∉ row_SKU <$> df
  end.
Proof.
  revert ext. induction SKUs as [|y SKUs IH]; intros ext; cbn [add_related].
  { intros x Hx. by apply not_elem_of_nil in Hx. }
  assert (∀ ext', match add_related df s c z SKUs ext' with
                  | Ok _ => y = s ∨ y ∈ row_SKU <$> df
                  | Raise _ => True
                  end →
          match add_related df s c z SKUs ext' with
          | Ok _ => ∀ x, x ∈ y :: SKUs → x ≠ s → x ∈ row_SKU <$> df
          | Raise e => e = IndexError ∧ ∃ x, x ∈ y :: SKUs ∧ x ∉ row_SKU <$> df
          end) as Hstep.
  { intros ext' Hy. specialize (IH ext').
    destruct (add_related df s c z SKUs ext') as [r|e].
    - intros x [->|Hx]%elem_of_cons Hne; [by destruct Hy | by apply IH].
    - destruct IH as (-> & x & Hx & Hrow). split; [done|].
      exists x. split; [by right | done]. }
  destruct (decide (y ≠ s)) as [Hne|Heq].
  - destruct (loc_iloc0_cases df y COLOR_CD) as [[Hin [c' Hc']]|[Hout Hc']];
      rewrite Hc'; cbn.
    + destruct (loc_iloc0_cases df y SIZE_CD) as [[_ [z' Hz']]|[Hout _]];
        [|done]. rewrite Hz'. cbn.
      case_bool_decide; apply Hstep; by destruct (add_related _ _ _ _ _ _); auto.
    + split; [done|]. exists y. split; [by left | done].
  - apply dec_stable in Heq. apply Hstep.
    by destruct (add_related _ _ _ _ _ _); auto.
Qed.

Lemma extend_scarce_cases df SKUs basic ext :
  (∀ x, x ∈ basic → x ∈ SKUs) →
  match extend_scarce df SKUs basic ext with
  | Ok _ => basic = [] ∨ ∀ x, x ∈ SKUs → x ∈ row_SKU <$> df
  | Raise e => e = IndexError ∧ ∃ x, x ∈ SKUs ∧ x ∉ row_SKU <$> df
  end.
Proof.
  revert ext. induction basic as [|s basic IH]; intros ext Hsub;
    cbn [extend_scarce]; [by left|].
  assert (s ∈ SKUs) as Hs by (apply Hsub; by left).
  destruct (loc_iloc0_cases df s COLOR_CD) as [[Hin [c Hc]]|[Hout Hc]];
    rewrite Hc; cbn; [|split; [done | by exists s]].
  destruct (loc_iloc0_cases df s SIZE_CD) as [[_ [z Hz]]|[Hout _]]; [|done].
  rewrite Hz. cbn.
  pose proof (add_related_cases df s c z SKUs ext) as Hadd.
  destruct (add_related df s c z SKUs ext) as [ext1|e]; cbn; [|done].
  specialize (IH ext1 (λ x Hx, Hsub x (list_elem_of_further _ _ _ Hx))).
  destruct (extend_scarce df SKUs basic ext1) as [r|e]; [|done].
  right. intros x Hx. destruct (decide (x = s)) as [->|Hne]; [done|].
  by apply Hadd.
Qed.

(** X7.  The classifier raises nothing but [IndexError], and exactly
    when some SKU is basic scarce and some SKU of the supply dict has no
    row in the frame; with no basic scarce SKU the frame is not read. *)
Theorem classify_skus_errors {Store : Type} df A (target_stores : list Store) :
  match classify_skus df A target_stores with
  | Ok _ =>
      basic_scarce_of A (Z.of_nat (length target_stores)) = [] ∨
      ∀ sku, sku ∈ A.*1 → sku ∈ row_SKU <$> df
  | Raise e =>
      e = IndexError ∧
      basic_scarce_of A (Z.of_nat (length target_stores)) ≠ [] ∧
      ∃ sku, sku ∈ A.*1 ∧ sku ∉ row_SKU <$> df
  end.
Proof.
  unfold classify_skus.
  set (basic := basic_scarce_of A (Z.of_nat (length target_stores))).
  pose proof (extend_scarce_cases df A.*1 basic (list_to_set basic)) as Hext.
  destruct (extend_scarce df A.*1 basic (list_to_set basic)) as [ext|e] eqn:Hrun;
    cbn.
  - apply Hext. intros x Hx. by eapply basic_scarce_subset.
  - destruct Hext as (-> & Hmissing).
    { intros x Hx. by eapply basic_scarce_subset. }
    split_and!; [done | | done].
    intros Hnil. rewrite Hnil in Hrun. discriminate Hrun.
Qed.

(** X8.  When every SKU has at least as many units as there are target
    stores (in particular with no target store and no negative supply),
    nothing is scarce: the classifier returns an empty scarce list and
    all SKUs, in the order of the supply dict, as abundant, whatever the
    frame holds. *)
Theorem classify_skus_nothing_scarce {Store : Type} df A
    (target_stores : list Store) :
  (∀ sku qty, (sku, qty) ∈ A → Z.of_nat (length target_stores) ≤ qty) →
  classify_skus df A target_stores = Ok ([], A.*1).
Proof.
  intros Hqty. unfold classify_skus.
  assert (basic_scarce_of A (Z.of_nat (length target_stores)) = []) as ->.
  { unfold basic_scarce_of.
    rewrite (filter_agree _ (λ _, False)).
    - clear Hqty. induction A as [|p A IH]; [done|].
      rewrite filter_cons_False; [exact IH | tauto].
    - apply Forall_forall. intros [sku qty] Hin. cbn.
      specialize (Hqty sku qty Hin). lia. }
  cbn. rewrite elements_empty. f_equal. f_equal.
  apply filter_all, Forall_forall. intros x _. apply not_elem_of_nil.
Qed.

(** Membership in the two lists a successful classification returns. *)
Lemma classify_skus_lists {Store : Type} df A (target_stores : list Store)
    scarce_skus abundant_skus :
  classify_skus df A target_stores = Ok (scarce_skus, abundant_skus) →
  NoDup scarce_skus ∧
  (∀ sku, sku ∈ scarce_skus → sku ∈ A.*1) ∧
  abundant_skus = filter (λ sku, sku ∉ scarce_skus) A.*1 ∧
  (∀ sku, sku ∈ scarce_skus ↔
     sku ∈ basic_scarce_of A (Z.of_nat (length target_stores)) ∨
     (sku ∈ A.*1 ∧
      ∃ s, s ∈ basic_scarce_of A (Z.of_nat (length target_stores)) ∧
           related df s sku)).
Proof.
  unfold classify_skus.
  set (basic := basic_scarce_of A (Z.of_nat (length target_stores))).
  destruct (extend_scarce df A.*1 basic (list_to_set basic)) as [ext|e] eqn:Hext;
    [|done].
  cbn. intros Hrun. injection Hrun as <- <-.
  assert (∀ sku, sku ∈ elements ext ↔
            sku ∈ basic ∨ (sku ∈ A.*1 ∧ ∃ s, s ∈ basic ∧ related df s sku))
    as Hmem.
  { intros sku.
    rewrite elem_of_elements, (extend_scarce_spec _ _ _ _ _ Hext sku).
    by rewrite elem_of_list_to_set. }
  split_and!; [apply NoDup_elements | | done | done].
  intros sku [Hb|[Hin _]]%Hmem; [by eapply basic_scarce_subset | done].
Qed.

(** X9.  The two lists of a successful classification split the SKUs of
    the supply dict: [get_sku_type] answers scarce or abundant for each
    of them and unknown for every other SKU, no SKU is in both lists,
    the scarce list has no duplicate, and the abundant list keeps the
    order of the dict. *)
Theorem classify_skus_partition {Store : Type} df A (target_stores : list Store)
    scarce_skus abundant_skus :
  classify_skus df A target_stores = Ok (scarce_skus, abundant_skus) →
  NoDup scarce_skus ∧
  abundant_skus = filter (λ sku, sku ∉ scarce_skus) A.*1 ∧
  (∀ sku, ¬ (sku ∈ scarce_skus ∧ sku ∈ abundant_skus)) ∧
  (∀ sku, get_sku_type scarce_skus abundant_skus sku = type_unknown
          ↔ sku ∉ A.*1) ∧
  (∀ sku, get_sku_type scarce_skus abundant_skus sku = type_scarce
          ↔ sku ∈ scarce_skus) ∧
  (∀ sku, get_sku_type scarce_skus abundant_skus sku = type_abundant
          ↔ sku ∈ A.*1 ∧ sku ∉ scarce_skus).
Proof.
  intros Hrun.
  destruct (classify_skus_lists _ _ _ _ _ Hrun) as (Hnd & Hsub & Hab & _).
  assert (∀ sku, sku ∈ abundant_skus ↔ sku ∈ A.*1 ∧ sku ∉ scarce_skus) as Hmem.
  { intros sku. rewrite Hab, list_elem_of_filter. tauto. }
  split_and!; [done | done | | | |].
  - intros sku [Hs Ha%Hmem]. tauto.
  - intros sku. unfold get_sku_type.
    destruct (decide (sku ∈ scarce_skus)) as [Hs|Hs].
    { split; [done|]. intros Hout. destruct Hout. by apply Hsub. }
    destruct (decide (sku ∈ abundant_skus)) as [Ha|Ha].
    + split; [done|]. apply Hmem in Ha. tauto.
    + split; [|done]. intros _ Hin. apply Ha, Hmem. tauto.
  - intros sku. unfold get_sku_type.
    destruct (decide (sku ∈ scarce_skus)); [done|].
    destruct (decide (sku ∈ abundant_skus)); split; done.
  - intros sku. unfold get_sku_type. rewrite <- Hmem.
    destruct (decide (sku ∈ scarce_skus)) as [Hs|Hs].
    { split; [done|]. intros Ha%Hmem. tauto. }
    destruct (decide (sku ∈ abundant_skus)); split; done.
Qed.

(** X10.  More target stores never make an SKU abundant: when the
    classifier returns for both, every SKU that is scarce for a list of
    target stores is scarce for any list at least as long, and every SKU
    abundant for the longer list is abundant for the shorter one. *)
Theorem classify_skus_monotone {Store : Type} df A
    (target_stores target_stores' : list Store)
    scarce_skus abundant_skus scarce_skus' abundant_skus' :
  (length target_stores ≤ length target_stores')%nat →
  classify_skus df A target_stores = Ok (scarce_skus, abundant_skus) →
  classify_skus df A target_stores' = Ok (scarce_skus', abundant_skus') →
  (∀ sku, sku ∈ scarce_skus → sku ∈ scarce_skus') ∧
  (∀ sku, sku ∈ abundant_skus' → sku ∈ abundant_skus).
Proof.
  intros Hlen Hrun Hrun'.
  destruct (classify_skus_lists _ _ _ _ _ Hrun) as (_ & _ & Hab & Hmem).
  destruct (classify_skus_lists _ _ _ _ _ Hrun') as (_ & _ & Hab' & Hmem').
  assert (∀ x, x ∈ basic_scarce_of A (Z.of_nat (length target_stores)) →
               x ∈ basic_scarce_of A (Z.of_nat (length target_stores')))
    as Hbasic.
  { intros x. unfold basic_scarce_of. rewrite !list_elem_of_fmap.
    intros (p & -> & Hp). exists p. split; [done|].
    apply list_elem_of_filter in Hp as [Hlt Hp].
    apply list_elem_of_filter. split; [lia | done]. }
  assert (∀ sku, sku ∈ scarce_skus → sku ∈ scarce_skus') as Hsc.
  { intros sku [Hb|(Hin & s & Hs & Hrel)]%Hmem; apply Hmem'.
    - left. by apply Hbasic.
    - right. split; [done|]. exists s. split; [by apply Hbasic | done]. }
  split; [done|].
  intros sku. rewrite Hab, Hab', !list_elem_of_filter.
  intros [Hno Hin]. split; [|done]. intros Hs. by apply Hno, Hsc.
Qed.

(** X11.  After a successful classification of a supply dict (a dict
    has no key twice), [get_classification_stats] divides by zero
    exactly when the dict is empty; otherwise its total is the number of
    SKUs of the dict and the two ratios add up to 1. *)
Theorem classification_stats_total {Store : Type} df A
    (target_stores : list Store) scarce_skus abundant_skus :
  NoDup A.*1 →
  classify_skus df A target_stores = Ok (scarce_skus, abundant_skus) →
  match get_classification_stats scarce_skus abundant_skus with
  | None => A = []
  | Some st =>
      A ≠ [] ∧
      total_skus st = Z.of_nat (length A) ∧
      scarce_count st + abundant_count st = Z.of_nat (length A) ∧
      (scarce_ratio st + abundant_ratio st = 1)%Qc
  end.
Proof.
  intros HndA Hrun.
  destruct (classify_skus_lists _ _ _ _ _ Hrun) as (Hnd & Hsub & Hab & _).
  assert (Z.of_nat (length scarce_skus) + Z.of_nat (length abundant_skus)
          = Z.of_nat (length A)) as Hlen.
  { rewrite <- (length_fmap fst A).
    pose proof (filter_split_length (λ sku, sku ∈ scarce_skus) A.*1) as Hs.
    cbn beta in Hs. change (filter (λ x, x ∉ scarce_skus) A.*1)
      with (filter (λ sku, sku ∉ scarce_skus) A.*1) in Hs.
    rewrite <- Hab in Hs.
    assert (filter (λ sku, sku ∈ scarce_skus) A.*1 ≡ₚ scarce_skus) as Hperm.
    { apply NoDup_Permutation; [by apply NoDup_filter | done |].
      intros x. rewrite list_elem_of_filter. split; [tauto|].
      intros Hx. split; [done | by apply Hsub]. }
    rewrite Hperm in Hs. lia. }
  unfold get_classification_stats. rewrite Hlen.
  destruct (decide (Z.of_nat (length A) = 0)) as [Hz|Hnz].
  { destruct A; [done | cbn in Hz; lia]. }
  cbn. split_and!; [by intros -> | done | done |].
  assert (Qc_of_Z (Z.of_nat (length A)) ≠ 0%Qc) as Hne.
  { intros Heq. apply Hnz. apply (f_equal this) in Heq. cbn in Heq.
    by injection Heq. }
  unfold Qcdiv. rewrite <- Qcmult_plus_distr_l.
  assert (Qc_of_Z (Z.of_nat (length scarce_skus))
          + Qc_of_Z (Z.of_nat (length abundant_skus))
          = Qc_of_Z (Z.of_nat (length A)))%Qc as ->.
  { rewrite <- Hlen. apply Qc_is_canon. cbn.
    rewrite !Qred_correct. unfold Qeq. cbn. lia. }
  by apply Qcmult_inv_r.
Qed.

End ClassifierMore.

Lemma classify_skus_nothing_scarce_witness :
  (∀ sku qty, (sku, qty) ∈ Sample.supply3 →
     Z.of_nat (length Sample.target_stores) ≤ qty) ∧
  classify_skus Sample.frame Sample.supply3 Sample.target_stores
  = Ok ([], ["A_red_S"; "A_red_M"; "A_blue_M"]).
Proof.
  assert (∀ sku qty, (sku, qty) ∈ Sample.supply3 →
            Z.of_nat (length Sample.target_stores) ≤ qty) as Hqty.
  { intros sku qty Hin.
    repeat (apply elem_of_cons in Hin as [Heq|Hin];
            [injection Heq as -> ->; cbn; lia|]).
    by apply not_elem_of_nil in Hin. }
  split; [exact Hqty|].
  exact (classify_skus_nothing_scarce Sample.frame Sample.supply3
           Sample.target_stores Hqty).
Defined.

Lemma classify_skus_partition_witness :
  ∃ scarce_skus abundant_skus,
    classify_skus Sample.frame3 Sample.supply3 Sample.ten_stores
    = Ok (scarce_skus, abundant_skus) ∧
    get_sku_type scarce_skus abundant_skus "A_red_M" = type_scarce ∧
    get_sku_type scarce_skus abundant_skus "A_blue_M" = type_abundant ∧
    get_sku_type scarce_skus abundant_skus "ghost" = type_unknown.
Proof.
  exists ["A_red_S"; "A_red_M"], ["A_blue_M"].
  assert (classify_skus Sample.frame3 Sample.supply3 Sample.ten_stores
          = Ok (["A_red_S"; "A_red_M"], ["A_blue_M"])) as Hrun
    by (vm_compute; reflexivity).
  split; [exact Hrun|].
  destruct (classify_skus_partition _ _ _ _ _ Hrun)
    as (_ & _ & _ & Hunknown & Hscarce & Habundant).
  split_and!.
  - apply Hscarce. refine (bool_decide_unpack _ _). vm_compute. exact I.
  - apply Habundant. refine (bool_decide_unpack _ _). vm_compute. exact I.
  - apply Hunknown. refine (bool_decide_unpack _ _). vm_compute. exact I.
Defined.

Lemma classify_skus_monotone_witness :
  (length Sample.target_stores ≤ length Sample.ten_stores)%nat ∧
  classify_skus Sample.frame3 Sample.supply3 Sample.target_stores
  = Ok ([], ["A_red_S"; "A_red_M"; "A_blue_M"]) ∧
  classify_skus Sample.frame3 Sample.supply3 Sample.ten_stores
  = Ok (["A_red_S"; "A_red_M"], ["A_blue_M"]) ∧
  (∀ sku, sku ∈ ["A_blue_M"] → sku ∈ ["A_red_S"; "A_red_M"; "A_blue_M"]).
Proof.
  assert (length Sample.target_stores ≤ length Sample.ten_stores)%nat as Hlen
    by (cbn; lia).
  assert (classify_skus Sample.frame3 Sample.supply3 Sample.target_stores
          = Ok ([], ["A_red_S"; "A_red_M"; "A_blue_M"])) as Hrun
    by (vm_compute; reflexivity).
  assert (classify_skus Sample.frame3 Sample.supply3 Sample.ten_stores
          = Ok (["A_red_S"; "A_red_M"], ["A_blue_M"])) as Hrun'
    by (vm_compute; reflexivity).
  split_and!; [exact Hlen | exact Hrun | exact Hrun' |].
  exact (proj2 (classify_skus_monotone _ _ _ _ _ _ _ _ Hlen Hrun Hrun')).
Defined.

Lemma classification_stats_total_witness :
  NoDup Sample.supply3.*1 ∧
  classify_skus Sample.frame3 Sample.supply3 Sample.ten_stores
  = Ok (["A_red_S"; "A_red_M"], ["A_blue_M"]) ∧
  ∃ st, get_classification_stats ["A_red_S"; "A_red_M"] ["A_blue_M"] = Some st ∧
        total_skus st = 3 ∧ (scarce_ratio st + abundant_ratio st = 1)%Qc.
Proof.
  assert (NoDup Sample.supply3.*1) as Hnd.
  { refine (bool_decide_unpack _ _). vm_compute. exact I. }
  assert (classify_skus Sample.frame3 Sample.supply3 Sample.ten_stores
          = Ok (["A_red_S"; "A_red_M"], ["A_blue_M"])) as Hrun
    by (vm_compute; reflexivity).
  split_and!; [exact Hnd | exact Hrun |].
  pose proof (classification_stats_total _ _ _ _ _ Hnd Hrun) as Hstats.
  destruct (get_classification_stats ["A_red_S"; "A_red_M"] ["A_blue_M"])
    as [st|].
  - exists st. destruct Hstats as (_ & Htot & _ & Hsum).
    split_and!; [reflexivity | exact Htot | exact Hsum].
  - discriminate Hstats.
Defined.

(** ** What a run returns or raises *)

Section OutcomeFacts.
Context {SKU Store Color Size : Type}.
Context `{Countable SKU} `{Countable Store}.
Context `{EqDecision Color} `{EqDecision Size}.
Implicit Types (a : gmap (SKU * Store) Z) (limits : gmap Store Z).
Implicit Types (A : gmap SKU Z) (QSUM : gmap Store Qc) (ts : list Store).
Implicit Types (g : rng).

Lemma supply_constraints_cases
    (b : SKU → Store → entry SKU Store Color Size) A SKUs (stores : list Store) :
  match supply_constraints b A SKUs stores with
  | Ok _ => ∀ i, i ∈ SKUs → is_Some (A !! i)
  | Raise e => e = KeyError ∧ ∃ i, i ∈ SKUs ∧ A !! i = None
  end.
Proof.
  induction SKUs as [|i SKUs IH]; cbn [supply_constraints].
  { intros i Hi. by apply not_elem_of_nil in Hi. }
  unfold getitem. destruct (A !! i) as [Ai|] eqn:HAi; cbn.
  - destruct (supply_constraints b A SKUs stores) as [cs|e]; cbn.
    + intros i' [->|Hi']%elem_of_cons; [by eexists | by apply IH].
    + destruct IH as (-> & i' & Hi' & Hnone). split; [done|].
      exists i'. split; [by right | done].
  - split; [done|]. exists i. split; [by left | done].
Qed.

Lemma step1_problem_cases (d : data SKU Store Color Size) ts limits
    (df : list (@sku_row SKU Color Size)) :
  match step1_problem d ts limits df with
  | Ok _ => ∀ i, i ∈ d_SKUs d → is_Some (d_A d !! i)
  | Raise e => e = KeyError ∧ ∃ i, i ∈ d_SKUs d ∧ d_A d !! i = None
  end.
Proof.
  unfold step1_problem, _add_step1_constraints. cbn.
  pose proof (supply_constraints_cases (_create_binary_variables ts) (d_A d)
                (d_SKUs d) (d_stores d)) as Hs.
  by destruct (supply_constraints _ (d_A d) (d_SKUs d) (d_stores d)).
Qed.

Lemma random_dict_pos ts (r0 : gmap Store Qc) g r g' :
  random_dict ts r0 g = Ok (r, g') →
  pos g' = (pos g + length ts)%nat ∧ draws g' = draws g.
Proof.
  revert r0 g. induction ts as [|j ts IH]; intros r0 g Hrun;
    cbn [random_dict] in Hrun.
  { injection Hrun as <- <-. cbn. split; [lia | done]. }
  unfold random_random in Hrun. apply IH in Hrun as [Hpos Hdraws].
  cbn in *. split; [lia | done].
Qed.

Lemma q_vals_of_cases QSUM ts :
  match q_vals_of QSUM ts with
  | Ok qs => length qs = length ts ∧ ∀ j, j ∈ ts → is_Some (QSUM !! j)
  | Raise e => e = KeyError ∧ ∃ j, j ∈ ts ∧ QSUM !! j = None
  end.
Proof.
  induction ts as [|j ts IH]; cbn [q_vals_of].
  { split; [done|]. intros j Hj. by apply not_elem_of_nil in Hj. }
  unfold getitem. destruct (QSUM !! j) as [q|] eqn:Hq; cbn.
  - destruct (q_vals_of QSUM ts) as [qs|e]; cbn.
    + destruct IH as [Hlen Hcov]. split; [by rewrite Hlen|].
      intros j' [->|Hj']%elem_of_cons; [by eexists | by apply Hcov].
    + destruct IH as (-> & j' & Hj' & Hnone). split; [done|].
      exists j'. split; [by right | done].
  - split; [done|]. exists j. split; [by left | done].
Qed.

Lemma volume_weights_cases ts QSUM :
  match volume_weights ts QSUM with
  | Ok _ => ts ≠ [] ∧ ∀ j, j ∈ ts → is_Some (QSUM !! j)
  | Raise e => (e = ValueError ∧ ts = []) ∨
               (e = KeyError ∧ ∃ j, j ∈ ts ∧ QSUM !! j = None)
  end.
Proof.
  unfold volume_weights. pose proof (q_vals_of_cases QSUM ts) as Hq.
  destruct (q_vals_of QSUM ts) as [[|q qs]|e]; cbn.
  - left. split; [done|]. destruct Hq as [Hlen _]. by destruct ts.
  - destruct Hq as [Hlen Hcov].
    assert (ts ≠ []) as Hne by (by intros ->).
    destruct (decide _); [|done].
    by destruct (normalized_ok QSUM (foldl py_min q qs) (foldl py_max q qs)
                   ts ∅ Hcov) as [w ->].
  - by right.
Qed.

Lemma calculate_store_priorities_cases ts QSUM (t : Qc) g :
  match _calculate_store_priorities ts QSUM t g with
  | Ok (_, g') =>
      ts ≠ [] ∧ (∀ j, j ∈ ts → is_Some (QSUM !! j)) ∧
      pos g' = (pos g + length ts)%nat ∧ draws g' = draws g
  | Raise e => (e = ValueError ∧ ts = []) ∨
               (e = KeyError ∧ ∃ j, j ∈ ts ∧ QSUM !! j = None)
  end.
Proof.
  unfold _calculate_store_priorities, _compute_mixed_weights, mbind, M_bind,
    lift.
  pose proof (volume_weights_cases ts QSUM) as Hw.
  destruct (volume_weights ts QSUM) as [w|e] eqn:Hvw; [|done].
  destruct Hw as [Hne Hcov].
  destruct (random_dict_ok ts ∅ g) as (r & g' & Hr & Hrcov). rewrite Hr.
  destruct (mixed_ok (py_max 0%Qc (py_min 1%Qc t)) w r ts ∅) as (s & ->).
  { intros j Hj. split; [by eapply volume_weights_covers | apply Hrcov; by left]. }
  apply random_dict_pos in Hr. tauto.
Qed.

Lemma for_each_total {X S} (body : X → S → result S) (xs : list X) (st : S) :
  (∀ x st, x ∈ xs → ∃ st', body x st = Ok st') →
  ∃ st', for_each body xs st = Ok st'.
Proof.
  revert st. induction xs as [|x xs IH]; intros st Hbody; cbn [for_each].
  { by eexists. }
  destruct (Hbody x st) as [st1 ->]; [by left|]. cbn.
  apply IH. intros x' st' Hx'. apply Hbody. by right.
Qed.

Lemma step2_sku_total A ts limits (w : gmap Store Qc) i st :
  is_Some (A !! i) → ∃ st', step2_sku A ts limits w i st = Ok st'.
Proof.
  intros [s Hs]. unfold step2_sku. destruct st as [a t].
  destruct (decide _); [by eexists|].
  unfold getitem. rewrite Hs. cbn.
  destruct (decide _); [by eexists|].
  destruct (step2_fill _ _ _ _ _) as [[fa x] ta]. by eexists.
Qed.

Lemma step3_sku_total A ts limits (w : gmap Store Qc) i st :
  is_Some (A !! i) → ∃ st', step3_sku A ts limits w i st = Ok st'.
Proof.
  intros [s Hs]. unfold step3_sku. destruct st as [a t].
  unfold getitem. rewrite Hs. cbn.
  destruct (decide _); [by eexists|].
  destruct (decide _); [by eexists|].
  destruct (step3_fill _ _ _ _) as [[fa x] ta]. by eexists.
Qed.

Lemma step2_cases A QSUM SKUs ts limits a sp g :
  (∀ i, i ∈ SKUs → is_Some (A !! i)) →
  match _step2_single_allocation A QSUM SKUs ts limits a sp g with
  | Ok (_, g') =>
      ts ≠ [] ∧ (∀ j, j ∈ ts → is_Some (QSUM !! j)) ∧
      pos g' = (pos g + length ts)%nat ∧ draws g' = draws g
  | Raise e => (e = ValueError ∧ ts = []) ∨
               (e = KeyError ∧ ∃ j, j ∈ ts ∧ QSUM !! j = None)
  end.
Proof.
  intros HA. unfold _step2_single_allocation, mbind, M_bind, lift, mret, M_ret.
  pose proof (calculate_store_priorities_cases ts QSUM
                (default 0%Qc (priority_temperature sp)) g) as Hw.
  destruct (_calculate_store_priorities _ _ _ g) as [[w g1]|e]; [|done].
  destruct (for_each_total (step2_sku A ts limits w) SKUs (a, 0)) as [st ->];
    [|done].
  intros i st' Hi. by apply step2_sku_total, HA.
Qed.

Lemma step3_cases A QSUM SKUs ts limits a sp g :
  (∀ i, i ∈ SKUs → is_Some (A !! i)) →
  match _step3_remaining_allocation A QSUM SKUs ts limits a sp g with
  | Ok (_, g') =>
      ts ≠ [] ∧ (∀ j, j ∈ ts → is_Some (QSUM !! j)) ∧
      pos g' = (pos g + length ts)%nat ∧ draws g' = draws g
  | Raise e => (e = ValueError ∧ ts = []) ∨
               (e = KeyError ∧ ∃ j, j ∈ ts ∧ QSUM !! j = None)
  end.
Proof.
  intros HA. unfold _step3_remaining_allocation, mbind, M_bind, lift, mret,
    M_ret.
  pose proof (calculate_store_priorities_cases ts QSUM
                (default 0%Qc (priority_temperature sp)) g) as Hw.
  destruct (_calculate_store_priorities _ _ _ g) as [[w g1]|e]; [|done].
  destruct (for_each_total (step3_sku A ts limits w) SKUs (a, 0)) as [st ->];
    [|done].
  intros i st' Hi. by apply step3_sku_total, HA.
Qed.

Lemma step1_cases
    (solve : LpProblem SKU Store Color Size → solver_response SKU Store Color Size)
    (d : data SKU Store Color Size) ts limits
    (df : list (@sku_row SKU Color Size)) :
  match _step1_coverage_optimization solve d ts limits df with
  | Ok (Some _) => ∃ P, step1_problem d ts limits df = Ok P ∧ status (solve P) = 1
  | Ok None => ∃ P, step1_problem d ts limits df = Ok P ∧ status (solve P) ≠ 1
  | Raise e => step1_problem d ts limits df = Raise e
  end.
Proof.
  unfold _step1_coverage_optimization.
  destruct (step1_problem d ts limits df) as [P|]; [|done]. simpl.
  destruct (decide (status (solve P) = 1)); by exists P.
Qed.

(** X12.  What a run does, by its inputs.  It raises [KeyError] when an
    SKU of the run has no supply entry (before the backend is called);
    otherwise it returns the failure dict, with an empty allocation, the
    optimizer untouched and no random number drawn, when the backend
    does not answer status 1; otherwise it raises [ValueError] when there
    is no target store and [KeyError] when a target store has no volume;
    otherwise it succeeds, having drawn exactly two random numbers per
    target store.  Nothing else is raised. *)
Theorem optimize_three_step_outcome
    (solve : LpProblem SKU Store Color Size → solver_response SKU Store Color Size)
    (d : data SKU Store Color Size) (target_stores : list Store)
    (store_allocation_limits : gmap Store Z)
    (df_sku_filtered : list (@sku_row SKU Color Size))
    (scenario_params : scenario) (g : rng) :
  match optimize_three_step solve d target_stores store_allocation_limits
          df_sku_filtered scenario_params g with
  | Raise e =>
      (e = KeyError ∧ ∃ i, i ∈ d_SKUs d ∧ d_A d !! i = None) ∨
      ((∃ P, step1_problem d target_stores store_allocation_limits
               df_sku_filtered = Ok P ∧ status (solve P) = 1) ∧
       ((e = ValueError ∧ target_stores = []) ∨
        (e = KeyError ∧ ∃ j, j ∈ target_stores ∧ d_QSUM d !! j = None)))
  | Ok (failed step final, self, g') =>
      step = 1 ∧ final = ∅ ∧ self = init ∧ g' = g ∧
      ∃ P, step1_problem d target_stores store_allocation_limits
             df_sku_filtered = Ok P ∧ status (solve P) ≠ 1
  | Ok (success final tot comb obj n2 n3, self, g') =>
      (∃ P, step1_problem d target_stores store_allocation_limits
              df_sku_filtered = Ok P ∧ status (solve P) = 1) ∧
      (∀ i, i ∈ d_SKUs d → is_Some (d_A d !! i)) ∧
      target_stores ≠ [] ∧
      (∀ j, j ∈ target_stores → is_Some (d_QSUM d !! j)) ∧
      pos g' = (pos g + 2 * length target_stores)%nat ∧ draws g' = draws g
  end.
Proof.
  unfold optimize_three_step, mbind at 1, M_bind at 1, lift.
  pose proof (step1_cases solve d target_stores store_allocation_limits
                df_sku_filtered) as Hs.
  pose proof (step1_problem_cases d target_stores store_allocation_limits
                df_sku_filtered) as H1.
  destruct (_step1_coverage_optimization solve d target_stores
              store_allocation_limits df_sku_filtered) as [[r1|]|e].
  2: { cbn. by split_and!. }
  2: { left. by rewrite Hs in H1. }
  destruct Hs as (P & HP & Hst). rewrite HP in H1.
  unfold mbind, M_bind, mret, M_ret.
  match goal with
  | |- context [_step2_single_allocation ?A ?Q ?S ?ts ?l ?a ?sp g] =>
      pose proof (step2_cases A Q S ts l a sp g H1) as H2;
      destruct (_step2_single_allocation A Q S ts l a sp g) as [[r2 g2]|e2]
  end.
  2: { right. split; [by exists P | done]. }
  match goal with
  | |- context [_step3_remaining_allocation ?A ?Q ?S ?ts ?l ?a ?sp g2] =>
      pose proof (step3_cases A Q S ts l a sp g2 H1) as H3;
      destruct (_step3_remaining_allocation A Q S ts l a sp g2) as [[r3 g3]|e3]
  end.
  2: { right. split; [by exists P | done]. }
  destruct H2 as (Hne & Hcov & Hpos2 & Hd2), H3 as (_ & _ & Hpos3 & Hd3).
  split_and!; try done; [by exists P | lia | congruence].
Qed.

End OutcomeFacts.

(** ** How far Steps 2 and 3 go *)

Section FillFacts.
Context {SKU Store : Type} `{Countable SKU} `{Countable Store}.
Implicit Types (a : gmap (SKU * Store) Z) (limits : gmap Store Z).
Implicit Types (A : gmap SKU Z) (S ts : list Store).

Lemma tops_up_dict_get_mono i S limits a n a' k :
  tops_up i S limits a n a' → dict_get a k 0 ≤ dict_get a' k 0.
Proof.
  induction 1 as [|a j q n a' Hj Hq Hcap _ IH]; [lia|].
  etrans; [|exact IH]. destruct (decide (k = (i, j))) as [->|Hne].
  - unfold dict_get at 2. rewrite lookup_insert_eq. cbn. lia.
  - unfold dict_get. rewrite lookup_insert_ne by done. lia.
Qed.

Lemma grows_dict_get_mono A S limits a n a' k :
  grows A S limits a n a' → dict_get a k 0 ≤ dict_get a' k 0.
Proof.
  induction 1 as [|a i n a' m a'' Hup _ _ IH]; [lia|].
  etrans; [by eapply tops_up_dict_get_mono | done].
Qed.

(** A pass touches no store outside its list. *)
Lemma tops_up_outside i S limits a n a' i' j :
  tops_up i S limits a n a' → j ∉ S → a' !! (i', j) = a !! (i', j).
Proof.
  induction 1 as [|a j0 q n a' Hj0 _ _ _ IH]; intros Hj; [done|].
  rewrite IH by done. apply lookup_insert_ne. intros Heq.
  injection Heq as -> ->. done.
Qed.

Lemma allocated_quantity_of_mono a a' i ts :
  (∀ k, dict_get a k 0 ≤ dict_get a' k 0) →
  allocated_quantity_of a i ts ≤ allocated_quantity_of a' i ts.
Proof.
  intros Hle. unfold allocated_quantity_of.
  induction ts as [|j ts IH]; [done|].
  rewrite !fmap_cons, !sum_list_Z_cons. specialize (Hle (i, j)). lia.
Qed.

Lemma allocated_quantity_of_other a i i' j v ts :
  (i' ≠ i ∨ j ∉ ts) →
  allocated_quantity_of (<[(i', j) := v]> a) i ts = allocated_quantity_of a i ts.
Proof.
  intros Hne. unfold allocated_quantity_of.
  induction ts as [|j0 ts IH]; [done|].
  rewrite !fmap_cons, !sum_list_Z_cons, IH.
  - unfold dict_get. rewrite lookup_insert_ne; [done|].
    intros Heq. injection Heq as -> ->.
    destruct Hne as [?|Hout]; [done|]. apply Hout. by left.
  - destruct Hne as [?|Hout]; [by left|]. right. intros ?. apply Hout. by right.
Qed.

Lemma allocated_quantity_of_insert a i j v ts :
  NoDup ts → j ∈ ts →
  allocated_quantity_of (<[(i, j) := v]> a) i ts
  = allocated_quantity_of a i ts + (v - dict_get a (i, j) 0).
Proof.
  intros Hnd Hj. induction Hnd as [|j0 ts Hj0 Hnd IH].
  { by apply not_elem_of_nil in Hj. }
  unfold allocated_quantity_of in *.
  rewrite !fmap_cons, !sum_list_Z_cons.
  apply elem_of_cons in Hj as [->|Hj].
  - pose proof (allocated_quantity_of_other a i i j0 v ts (or_intror Hj0)) as Ho.
    unfold allocated_quantity_of in Ho. rewrite Ho.
    unfold dict_get at 1. rewrite lookup_insert_eq. cbn. lia.
  - rewrite IH by done. unfold dict_get at 1.
    rewrite lookup_insert_ne; [unfold dict_get; lia|].
    intros Heq. injection Heq as ->. done.
Qed.

(** Over stores listed once, a pass raises what the SKU holds by what
    it added. *)
Lemma tops_up_allocated i ts limits a n a' :
  NoDup ts → tops_up i ts limits a n a' →
  allocated_quantity_of a' i ts = allocated_quantity_of a i ts + n.
Proof.
  intros Hnd. induction 1 as [|a j q n a' Hj _ _ _ IH]; [lia|].
  rewrite IH, allocated_quantity_of_insert by done. lia.
Qed.

Lemma used_up_mono A ts a a' i :
  (∀ k, dict_get a k 0 ≤ dict_get a' k 0) →
  used_up A ts a i → used_up A ts a' i.
Proof.
  intros Hle (s & Hs & Hused). exists s. split; [done|].
  pose proof (allocated_quantity_of_mono a a' i ts Hle). lia.
Qed.

Lemma served_once_mono A ts limits a a' i :
  (∀ k, dict_get a k 0 ≤ dict_get a' k 0) →
  served_once A ts limits a i → served_once A ts limits a' i.
Proof.
  intros Hle [Hused|Hall]; [left; by eapply used_up_mono|].
  right. intros j Hj Hroom. specialize (Hall j Hj Hroom).
  specialize (Hle (i, j)). lia.
Qed.

Lemma served_to_limit_mono A ts limits a a' i :
  (∀ k, dict_get a k 0 ≤ dict_get a' k 0) →
  served_to_limit A ts limits a i → served_to_limit A ts limits a' i.
Proof.
  intros Hle [Hused|Hall]; [left; by eapply used_up_mono|].
  right. intros j Hj. specialize (Hall j Hj). specialize (Hle (i, j)). lia.
Qed.

(** *** The inner loops, to their end *)

Lemma step3_fill_stop i limits ws a x t :
  x ≤ 0 → step3_fill i limits ws (a, x, t) = (a, x, t).
Proof.
  intros Hx. destruct ws as [|[j w] ws]; cbn [step3_fill]; [done|].
  by rewrite decide_True.
Qed.

(** The loop of Step 3 ends with nothing left of the SKU, or with every
    store it went through at its limit. *)
Lemma step3_fill_max i S limits ws a x t :
  Forall (λ p, p.1 ∈ S) ws →
  ∃ n a', step3_fill i limits ws (a, x, t) = (a', x - n, t + n) ∧
          tops_up i S limits a n a' ∧
          (x - n ≤ 0 ∨
           ∀ p, p ∈ ws → dict_get limits p.1 0 ≤ dict_get a' (i, p.1) 0).
Proof.
  intros Hws. revert a x t.
  induction Hws as [|[j w] ws Hj _ IH]; intros a x t; cbn [step3_fill].
  { exists 0, a. rewrite Z.sub_0_r, Z.add_0_r.
    split_and!; [done | constructor |]. right. intros p Hp.
    by apply not_elem_of_nil in Hp. }
  destruct (decide (x ≤ 0)) as [Hbreak|Hgo].
  { exists 0, a. rewrite Z.sub_0_r, Z.add_0_r.
    split_and!; [done | constructor | by left]. }
  cbn [fst snd] in Hj.
  destruct (decide (dict_get limits j 0 - dict_get a (i, j) 0 ≤ 0))
    as [Hfull|Hroom].
  { destruct (IH a x t) as (n & a' & Heq & Hup & Hmax).
    exists n, a'. split_and!; [done | done |].
    destruct Hmax as [?|Hmax]; [by left|]. right.
    intros p [->|Hp]%elem_of_cons; [|by apply Hmax]. cbn.
    pose proof (tops_up_dict_get_mono _ _ _ _ _ _ (i, j) Hup). lia. }
  set (q := Z.min x (dict_get limits j 0 - dict_get a (i, j) 0)).
  destruct (IH (<[(i, j) := dict_get a (i, j) 0 + q]> a) (x - q) (t + q))
    as (n & a' & Heq & Hup & Hmax).
  exists (q + n), a'. split_and!.
  - rewrite Heq. f_equal; [f_equal|]; lia.
  - apply (tops_more i S limits a j q n a'); [done | lia | lia | done].
  - destruct (decide (x - (q + n) ≤ 0)) as [|Hleft]; [by left|]. right.
    destruct Hmax as [?|Hmax]; [lia|].
    intros p [->|Hp]%elem_of_cons; [|by apply Hmax]. cbn.
    pose proof (tops_up_dict_get_mono _ _ _ _ _ _ (i, j) Hup) as Hmono.
    unfold dict_get at 1 in Hmono. rewrite lookup_insert_eq in Hmono.
    cbn in Hmono. pose proof (tops_up_nonneg _ _ _ _ _ _ Hup). lia.
Qed.

(** The loop of Step 2 ends with the units it was given all placed, or
    with a unit in every store it went through that has room for one. *)
Lemma step2_fill_max i S limits rem ws a x t :
  Forall (λ p, p.1 ∈ S) ws →
  (∀ p, p ∈ ws → 0 ≤ dict_get a (i, p.1) 0) →
  ∃ n a', step2_fill i limits rem ws (a, x, t) = (a', x + n, t + n) ∧
          tops_up i S limits a n a' ∧
          (rem ≤ x + n ∨
           ∀ p, p ∈ ws → 1 ≤ dict_get limits p.1 0 →
                1 ≤ dict_get a' (i, p.1) 0).
Proof.
  intros Hws. revert a x t.
  induction Hws as [|[j w] ws Hj _ IH]; intros a x t Hpos; cbn [step2_fill].
  { exists 0, a. rewrite !Z.add_0_r.
    split_and!; [done | constructor |]. right. intros p Hp.
    by apply not_elem_of_nil in Hp. }
  destruct (decide (rem ≤ x)) as [Hbreak|Hgo].
  { exists 0, a. rewrite !Z.add_0_r.
    split_and!; [done | constructor | by left]. }
  cbn [fst snd] in Hj.
  destruct (decide (dict_get limits j 0 ≤ dict_get a (i, j) 0)) as [Hfull|Hroom].
  { destruct (IH a x t) as (n & a' & Heq & Hup & Hmax).
    { intros p Hp. apply Hpos. by right. }
    exists n, a'. split_and!; [done | done |].
    destruct Hmax as [?|Hmax]; [by left|]. right.
    intros p [->|Hp]%elem_of_cons; [|by apply Hmax]. cbn. intros Hone.
    pose proof (tops_up_dict_get_mono _ _ _ _ _ _ (i, j) Hup). lia. }
  destruct (IH (<[(i, j) := dict_get a (i, j) 0 + 1]> a) (x + 1) (t + 1))
    as (n & a' & Heq & Hup & Hmax).
  { intros p Hp. specialize (Hpos p (list_elem_of_further _ _ _ Hp)).
    destruct (decide ((i, p.1) = (i, j))) as [Heq|Hne].
    - rewrite Heq. unfold dict_get at 1. rewrite lookup_insert_eq. cbn.
      specialize (Hpos). injection Heq as Heq. rewrite Heq in Hpos. lia.
    - unfold dict_get at 1. by rewrite lookup_insert_ne. }
  exists (1 + n), a'. split_and!.
  - rewrite Heq. f_equal; [f_equal|]; lia.
  - apply (tops_more i S limits a j 1 n a'); [done | lia | lia | done].
  - destruct Hmax as [?|Hmax]; [left; lia|]. right.
    intros p [->|Hp]%elem_of_cons; [|by apply Hmax]. cbn. intros _.
    pose proof (tops_up_dict_get_mono _ _ _ _ _ _ (i, j) Hup) as Hmono.
    unfold dict_get at 1 in Hmono. rewrite lookup_insert_eq in Hmono.
    cbn in Hmono. specialize (Hpos (j, w) (list_elem_of_here _ _)).
    cbn in Hpos. lia.
Qed.

Lemma weighted_stores_elem (w : gmap Store Qc) (l : list Store) j :
  j ∈ l →
  (j, dict_get w j 0%Qc) ∈ sort_desc ((λ j, (j, dict_get w j 0%Qc)) <$> l).
Proof.
  intros Hj. rewrite sort_desc_perm. apply list_elem_of_fmap. by exists j.
Qed.

Lemma weighted_stores_fst (w : gmap Store Qc) (l : list Store) p :
  p ∈ sort_desc ((λ j, (j, dict_get w j 0%Qc)) <$> l) → p.1 ∈ l.
Proof.
  rewrite sort_desc_perm. intros (j & -> & Hj)%list_elem_of_fmap. done.
Qed.

(** *** One SKU *)

Lemma step3_sku_max A ts limits (w : gmap Store Qc) i a t a' t' :
  NoDup ts →
  step3_sku A ts limits w i (a, t) = Ok (a', t') →
  served_to_limit A ts limits a' i.
Proof.
  intros Hnd. unfold step3_sku. intros Hrun.
  unfold getitem in Hrun. destruct (A !! i) as [s|] eqn:Hs; [|done].
  cbn in Hrun.
  destruct (decide (s - allocated_quantity_of a i ts ≤ 0)) as [Hrem|Hrem].
  { injection Hrun as <- <-. left. exists s. split; [done | lia]. }
  destruct (decide (filter _ ts = [])) as [Hnil|_].
  { injection Hrun as <- <-. right. intros j Hj.
    destruct (decide (dict_get a (i, j) 0 < dict_get limits j 0)) as [Hlt|]; [|lia].
    by destruct (filter_nil_not_elem_of _ _ j Hnil Hlt). }
  match type of Hrun with
  | context [step3_fill i limits ?ws (a, ?rem, t)] =>
      destruct (step3_fill_max i ts limits ws a rem t)
        as (n & a'' & Heq & Hup & Hmax)
  end.
  { apply weighted_stores_in. intros j Hj.
    by apply list_elem_of_filter in Hj as [_ Hj]. }
  rewrite Heq in Hrun. injection Hrun as <- <-.
  destruct Hmax as [Hdone|Hmax].
  - left. exists s. split; [done|].
    rewrite (tops_up_allocated _ _ _ _ _ _ Hnd Hup). lia.
  - right. intros j Hj.
    destruct (decide (dict_get a (i, j) 0 < dict_get limits j 0)) as [Hlt|Hge].
    + apply (Hmax (j, dict_get w j 0%Qc)). apply weighted_stores_elem.
      by apply list_elem_of_filter.
    + pose proof (tops_up_dict_get_mono _ _ _ _ _ _ (i, j) Hup). lia.
Qed.

Lemma step2_sku_max A ts limits (w : gmap Store Qc) i a t a' t' :
  NoDup ts → (∀ k v, a !! k = Some v → 0 ≤ v) →
  step2_sku A ts limits w i (a, t) = Ok (a', t') →
  served_once A ts limits a' i.
Proof.
  intros Hnd Hpos. unfold step2_sku. intros Hrun.
  assert (∀ j, j ∈ ts →
            j ∈ filter (λ j, a !! (i, j) = None ∨ a !! (i, j) = Some 0) ts ∨
            1 ≤ dict_get a (i, j) 0) as Hcases.
  { intros j Hj. unfold dict_get.
    destruct (a !! (i, j)) as [v|] eqn:Hv; cbn.
    - destruct (decide (v = 0)) as [->|Hne].
      + left. apply list_elem_of_filter. split; [by right | done].
      + right. specialize (Hpos _ _ Hv). lia.
    - left. apply list_elem_of_filter. split; [by left | done]. }
  destruct (decide (filter _ ts = [])) as [Hnil|_].
  { injection Hrun as <- <-. right. intros j Hj _.
    destruct (Hcases j Hj) as [Hin|?]; [|done].
    rewrite Hnil in Hin. by apply not_elem_of_nil in Hin. }
  unfold getitem in Hrun. destruct (A !! i) as [s|] eqn:Hs; [|done].
  cbn in Hrun.
  destruct (decide (s - allocated_quantity_of a i ts ≤ 0)) as [Hrem|Hrem].
  { injection Hrun as <- <-. left. exists s. split; [done | lia]. }
  match type of Hrun with
  | context [step2_fill i limits ?rem ?ws (a, 0, t)] =>
      destruct (step2_fill_max i ts limits rem ws a 0 t)
        as (n & a'' & Heq & Hup & Hmax)
  end.
  { apply weighted_stores_in. intros j Hj.
    by apply list_elem_of_filter in Hj as [_ Hj]. }
  { intros p Hp. apply weighted_stores_fst in Hp.
    apply list_elem_of_filter in Hp as [Hp _]. unfold dict_get.
    by destruct Hp as [->| ->]. }
  rewrite Heq in Hrun. injection Hrun as <- <-.
  destruct Hmax as [Hdone|Hmax].
  - left. exists s. split; [done|].
    rewrite (tops_up_allocated _ _ _ _ _ _ Hnd Hup). lia.
  - right. intros j Hj Hone. destruct (Hcases j Hj) as [Hin|Hge].
    + by apply (Hmax (j, dict_get w j 0%Qc)); [apply weighted_stores_elem|].
    + pose proof (tops_up_dict_get_mono _ _ _ _ _ _ (i, j) Hup). lia.
Qed.

(** *** The loop over the SKUs *)

(** What every pass establishes for its SKU, and what no later pass
    undoes, holds for every SKU when the loop ends. *)
Lemma for_each_established
    (I : gmap (SKU * Store) Z → Prop) (Q : gmap (SKU * Store) Z → SKU → Prop)
    A ts limits
    (body : SKU → gmap (SKU * Store) Z * Z → result (gmap (SKU * Store) Z * Z))
    SKUs a t a' t' :
  (∀ i a t a' t', body i (a, t) = Ok (a', t') →
     ∃ n, t' = t + n ∧ tops_up i ts limits a n a' ∧
          (n = 0 ∨ ∃ s, A !! i = Some s ∧
                        n ≤ s - allocated_quantity_of a i ts)) →
  (∀ i a n a', tops_up i ts limits a n a' → I a → I a') →
  (∀ i a t a' t', I a → body i (a, t) = Ok (a', t') → Q a' i) →
  (∀ a a' i, (∀ k, dict_get a k 0 ≤ dict_get a' k 0) → Q a i → Q a' i) →
  I a →
  for_each body SKUs (a, t) = Ok (a', t') →
  ∀ i, i ∈ SKUs → Q a' i.
Proof.
  intros Hbody HI HQ Hmono. revert a t.
  induction SKUs as [|i0 SKUs IH]; intros a t Ha Hrun i Hi.
  { by apply not_elem_of_nil in Hi. }
  cbn [for_each] in Hrun.
  destruct (body i0 (a, t)) as [[a1 t1]|] eqn:Hi0; [|done]. cbn in Hrun.
  destruct (Hbody _ _ _ _ _ Hi0) as (n & -> & Hup & _).
  assert (I a1) as Ha1 by (by eapply HI).
  destruct (decide (i ∈ SKUs)) as [Hin|Hout]; [by eapply IH|].
  apply elem_of_cons in Hi as [->|Hi]; [|done].
  apply (Hmono a1); [|exact (HQ i0 a t a1 (t + n) Ha Hi0)].
  intros k. eapply grows_dict_get_mono.
  by apply (for_each_grows A ts limits body SKUs a1 (t + n) a' t' Hbody).
Qed.

End FillFacts.

(** ** The steps of a successful run *)

Section StepsRun.
Context {SKU Store Color Size : Type}.
Context `{Countable SKU} `{Countable Store}.
Context `{EqDecision Color} `{EqDecision Size}.
Implicit Types (a : gmap (SKU * Store) Z) (limits : gmap Store Z).
Implicit Types (A : gmap SKU Z) (QSUM : gmap Store Qc) (ts : list Store).
Implicit Types (g : rng).

Lemma step2_inv A QSUM SKUs ts limits a sp g r g' :
  _step2_single_allocation A QSUM SKUs ts limits a sp g = Ok (r, g') →
  ∃ w, _calculate_store_priorities ts QSUM
         (default 0%Qc (priority_temperature sp)) g = Ok (w, g') ∧
       for_each (step2_sku A ts limits w) SKUs (a, 0)
       = Ok (allocation r, additional_allocation r).
Proof.
  unfold _step2_single_allocation, mbind, M_bind, lift, mret, M_ret.
  destruct (_calculate_store_priorities _ _ _ g) as [[w g1]|]; [|done].
  destruct (for_each _ SKUs (a, 0)) as [[a' t']|] eqn:Hloop; [|done].
  intros Hr. injection Hr as <- <-. by exists w.
Qed.

Lemma step3_inv A QSUM SKUs ts limits a sp g r g' :
  _step3_remaining_allocation A QSUM SKUs ts limits a sp g = Ok (r, g') →
  ∃ w, _calculate_store_priorities ts QSUM
         (default 0%Qc (priority_temperature sp)) g = Ok (w, g') ∧
       for_each (step3_sku A ts limits w) SKUs (a, 0)
       = Ok (allocation r, additional_allocation r).
Proof.
  unfold _step3_remaining_allocation, mbind, M_bind, lift, mret, M_ret.
  destruct (_calculate_store_priorities _ _ _ g) as [[w g1]|]; [|done].
  destruct (for_each _ SKUs (a, 0)) as [[a' t']|] eqn:Hloop; [|done].
  intros Hr. injection Hr as <- <-. by exists w.
Qed.

(** A successful run, step by step. *)
Lemma optimize_three_step_steps
    (solve : LpProblem SKU Store Color Size → solver_response SKU Store Color Size)
    (d : data SKU Store Color Size) ts limits
    (df : list (@sku_row SKU Color Size)) sp g
    final tot comb obj n2 n3 (self : @ThreeStepOptimizer SKU Store _ _ _ _) g' :
  optimize_three_step solve d ts limits df sp g
  = Ok (success final tot comb obj n2 n3, self, g') →
  ∃ r1 r2 r3 g2,
    _step1_coverage_optimization solve d ts limits df = Ok (Some r1) ∧
    _step2_single_allocation (d_A d) (d_QSUM d) (d_SKUs d) ts limits
      (s1_allocation r1) sp g = Ok (r2, g2) ∧
    _step3_remaining_allocation (d_A d) (d_QSUM d) (d_SKUs d) ts limits
      (allocation r2) sp g2 = Ok (r3, g') ∧
    self = {| step1_objective := s1_objective r1;
              step2_additional_allocation := additional_allocation r2;
              step3_additional_allocation := additional_allocation r3;
              final_allocation := allocation r3;
              step1_allocation := s1_allocation r1;
              allocation_after_step2 := allocation r2;
              allocation_after_step3 := allocation r3 |} ∧
    final = allocation r3 ∧ tot = total_allocated_of (allocation r3) ∧
    comb = s1_combinations r1 ∧ obj = s1_objective r1 ∧
    n2 = additional_allocation r2 ∧ n3 = additional_allocation r3.
Proof.
  unfold optimize_three_step, mbind, M_bind, lift, mret, M_ret.
  destruct (_step1_coverage_optimization solve d ts limits df)
    as [[r1|]|] eqn:H1; [|done|done].
  destruct (_step2_single_allocation _ _ _ _ _ _ _ g) as [[r2 g2]|] eqn:H2;
    [|done].
  destruct (_step3_remaining_allocation _ _ _ _ _ _ _ g2) as [[r3 g3]|] eqn:H3;
    [|done].
  intros Hrun. injection Hrun as <- <- <- <- <- <- <- <-.
  by exists r1, r2, r3, g2.
Qed.

Lemma for_each_invariant {X S} (I : S → Prop) (body : X → S → result S)
    (xs : list X) (st st' : S) :
  (∀ x st st', I st → body x st = Ok st' → I st') →
  I st → for_each body xs st = Ok st' → I st'.
Proof.
  intros Hbody. revert st. induction xs as [|x xs IH]; intros st Hst Hrun;
    cbn [for_each] in Hrun.
  { by injection Hrun as <-. }
  destruct (body x st) as [st1|] eqn:H1; [|done]. cbn in Hrun.
  eapply IH; [|done]. by eapply Hbody.
Qed.

(** *** Step 2 places single units *)

Lemma step2_fill_ones i limits rem (ws : list (Store * Qc)) a x t :
  NoDup ws.*1 →
  (∀ k v, a !! k = Some v → v = 1) →
  (∀ p, p ∈ ws → a !! (i, p.1) = None) →
  ∀ k v, (step2_fill i limits rem ws (a, x, t)).1.1 !! k = Some v → v = 1.
Proof.
  revert a x t. induction ws as [|[j w] ws IH]; intros a x t Hnd Hones Hnone;
    cbn [step2_fill]; [done|].
  destruct (decide (rem ≤ x)); [done|].
  rewrite fmap_cons in Hnd. apply NoDup_cons in Hnd as [Hj Hnd].
  destruct (decide _).
  { apply IH; [done | done |]. intros p Hp. apply Hnone. by right. }
  apply IH; [done | |].
  - intros k v. destruct (decide (k = (i, j))) as [->|Hne].
    + rewrite lookup_insert_eq. unfold dict_get.
      pose proof (Hnone (j, w) (list_elem_of_here _ _)) as Hj0. cbn in Hj0.
      rewrite Hj0. cbn. intros Hv. by injection Hv as <-.
    + rewrite lookup_insert_ne by done. apply Hones.
  - intros p Hp. rewrite lookup_insert_ne.
    + apply Hnone. by right.
    + intros Heq. injection Heq as Heq. apply Hj.
      rewrite Heq. apply list_elem_of_fmap. by exists p.
Qed.

Lemma weighted_stores_NoDup (w : gmap Store Qc) (l : list Store) :
  NoDup l → NoDup (sort_desc ((λ j, (j, dict_get w j 0%Qc)) <$> l)).*1.
Proof.
  intros Hnd. rewrite sort_desc_perm, <- list_fmap_compose.
  assert ((fst ∘ (λ j, (j, dict_get w j 0%Qc))) <$> l = l) as ->; [|done].
  clear Hnd. induction l as [|j l IH]; [done|].
  rewrite fmap_cons, IH. done.
Qed.

Lemma step2_sku_ones A ts limits (w : gmap Store Qc) i a t a' t' :
  NoDup ts →
  (∀ k v, a !! k = Some v → v = 1) →
  step2_sku A ts limits w i (a, t) = Ok (a', t') →
  ∀ k v, a' !! k = Some v → v = 1.
Proof.
  intros Hnd Hones. unfold step2_sku. intros Hrun.
  destruct (decide (filter _ ts = [])) as [_|_].
  { by injection Hrun as <- <-. }
  unfold getitem in Hrun. destruct (A !! i) as [s|]; [|done]. cbn in Hrun.
  destruct (decide _) as [_|_].
  { by injection Hrun as <- <-. }
  match type of Hrun with
  | context [step2_fill i limits ?rem ?ws (a, 0, t)] =>
      pose proof (step2_fill_ones i limits rem ws a 0 t) as Hfill;
      destruct (step2_fill i limits rem ws (a, 0, t)) as [[fa x] ta]
  end.
  injection Hrun as <- <-. apply Hfill; [| done |].
  - apply weighted_stores_NoDup. by apply NoDup_filter.
  - intros p Hp. apply weighted_stores_fst in Hp.
    apply list_elem_of_filter in Hp as [[Hp|Hp] _]; [done|].
    by specialize (Hones _ _ Hp).
Qed.

(** X13.  Step 2 places single units: when no target store is listed
    twice, every entry of the snapshot after Step 2 is 1, so after
    Step 2, as after Step 1, every (SKU, store) quantity is 0 or 1. *)
Theorem step2_single_units
    (solve : LpProblem SKU Store Color Size → solver_response SKU Store Color Size)
    (d : data SKU Store Color Size) (target_stores : list Store)
    (store_allocation_limits : gmap Store Z)
    (df_sku_filtered : list (@sku_row SKU Color Size))
    (scenario_params : scenario) (g : rng)
    final tot comb obj n2 n3 (self : @ThreeStepOptimizer SKU Store _ _ _ _) g' :
  NoDup target_stores →
  optimize_three_step solve d target_stores store_allocation_limits
    df_sku_filtered scenario_params g
  = Ok (success final tot comb obj n2 n3, self, g') →
  (∀ k v, allocation_after_step2 self !! k = Some v → v = 1) ∧
  (∀ i j, dict_get (allocation_after_step2 self) (i, j) 0 = 0 ∨
          dict_get (allocation_after_step2 self) (i, j) 0 = 1).
Proof.
  intros Hnd Hrun.
  apply optimize_three_step_steps in Hrun
    as (r1 & r2 & r3 & g2 & H1 & H2 & _ & -> & _).
  cbn [allocation_after_step2].
  apply step1_inv in H1 as (P & _ & _ & Ha1).
  apply step2_inv in H2 as (w & _ & Hloop).
  assert (∀ k v, allocation r2 !! k = Some v → v = 1) as Hones.
  { change (allocation r2) with (allocation r2, additional_allocation r2).1.
    eapply (for_each_invariant
              (λ st : gmap (SKU * Store) Z * Z,
                 ∀ k v, st.1 !! k = Some v → v = 1)); [| |exact Hloop].
    - intros i [a t] [a' t'] Hst Hbody. cbn in *. by eapply step2_sku_ones.
    - cbn. rewrite Ha1. intros k v Hk. rewrite mark_all_lookup in Hk.
      destruct (decide _); congruence. }
  split; [done|]. intros i j. unfold dict_get.
  destruct (allocation r2 !! (i, j)) as [v|] eqn:Hv; cbn; [|by left].
  right. by eapply Hones.
Qed.

(** X14.  Step 2 goes as far as single units can: when no target store
    is listed twice, after Step 2 every SKU of the run has its whole
    supply placed, or holds at least one unit in every target store
    whose limit is at least 1. *)
Theorem step2_serves_every_store
    (solve : LpProblem SKU Store Color Size → solver_response SKU Store Color Size)
    (d : data SKU Store Color Size) (target_stores : list Store)
    (store_allocation_limits : gmap Store Z)
    (df_sku_filtered : list (@sku_row SKU Color Size))
    (scenario_params : scenario) (g : rng)
    final tot comb obj n2 n3 (self : @ThreeStepOptimizer SKU Store _ _ _ _) g' :
  NoDup target_stores →
  optimize_three_step solve d target_stores store_allocation_limits
    df_sku_filtered scenario_params g
  = Ok (success final tot comb obj n2 n3, self, g') →
  ∀ i, i ∈ d_SKUs d →
    served_once (d_A d) target_stores store_allocation_limits
      (allocation_after_step2 self) i.
Proof.
  intros Hnd Hrun.
  apply optimize_three_step_steps in Hrun
    as (r1 & r2 & r3 & g2 & H1 & H2 & _ & -> & _).
  cbn [allocation_after_step2].
  apply step1_inv in H1 as (P & _ & _ & Ha1).
  apply step2_inv in H2 as (w & _ & Hloop).
  apply (for_each_established (placed target_stores)
           (served_once (d_A d) target_stores store_allocation_limits)
           (d_A d) target_stores store_allocation_limits
           (step2_sku (d_A d) target_stores store_allocation_limits w)
           (d_SKUs d) (s1_allocation r1) 0 (allocation r2)
           (additional_allocation r2)).
  - intros *. apply step2_sku_grows.
  - intros *. apply tops_up_placed.
  - intros i a t a' t' Hpl. apply step2_sku_max; [done|].
    intros k v Hk. by destruct (Hpl k v Hk).
  - intros *. apply served_once_mono.
  - rewrite Ha1. apply mark_all_placed.
  - exact Hloop.
Qed.

(** X15.  Step 3 leaves nothing that could still be placed: when no
    target store is listed twice, in the final allocation every SKU of
    the run has its whole supply placed, or holds the limit of every
    target store. *)
Theorem step3_serves_to_limit
    (solve : LpProblem SKU Store Color Size → solver_response SKU Store Color Size)
    (d : data SKU Store Color Size) (target_stores : list Store)
    (store_allocation_limits : gmap Store Z)
    (df_sku_filtered : list (@sku_row SKU Color Size))
    (scenario_params : scenario) (g : rng)
    final tot comb obj n2 n3 (self : @ThreeStepOptimizer SKU Store _ _ _ _) g' :
  NoDup target_stores →
  optimize_three_step solve d target_stores store_allocation_limits
    df_sku_filtered scenario_params g
  = Ok (success final tot comb obj n2 n3, self, g') →
  ∀ i, i ∈ d_SKUs d →
    served_to_limit (d_A d) target_stores store_allocation_limits final i.
Proof.
  intros Hnd Hrun.
  apply optimize_three_step_steps in Hrun
    as (r1 & r2 & r3 & g2 & _ & _ & H3 & _ & -> & _).
  apply step3_inv in H3 as (w & _ & Hloop).
  apply (for_each_established (λ _, True)
           (served_to_limit (d_A d) target_stores store_allocation_limits)
           (d_A d) target_stores store_allocation_limits
           (step3_sku (d_A d) target_stores store_allocation_limits w)
           (d_SKUs d) (allocation r2) 0 (allocation r3)
           (additional_allocation r3)).
  - intros *. apply step3_sku_grows.
  - done.
  - intros i a t a' t' _. by apply step3_sku_max.
  - intros *. apply served_to_limit_mono.
  - done.
  - exact Hloop.
Qed.

End StepsRun.

(** ** The order in which the stores are served *)

Section OrderFacts.
Context {SKU Store : Type} `{Countable SKU} `{Countable Store}.
Implicit Types (a : gmap (SKU * Store) Z) (limits : gmap Store Z).
Implicit Types (A : gmap SKU Z) (QSUM : gmap Store Qc) (S ts : list Store).
Implicit Types (g : rng).

(** In a list in descending order, what comes first is not smaller. *)
Lemma desc_before {X} (l1 : list (X * Qc)) p l2 :
  Sorted (λ p q, (q.2 ≤ p.2)%Qc) (l1 ++ p :: l2) →
  ∀ p0, p0 ∈ l1 → (p.2 ≤ p0.2)%Qc.
Proof.
  intros Hs. apply Sorted_StronglySorted in Hs.
  2: { intros x y z Hxy Hyz. by eapply Qcle_trans. }
  induction l1 as [|p1 l1 IH]; intros p0 Hp0.
  { by apply not_elem_of_nil in Hp0. }
  cbn in Hs. apply StronglySorted_inv in Hs as [Hs Hall].
  apply elem_of_cons in Hp0 as [->|Hp0]; [|by apply IH].
  rewrite Forall_forall in Hall. apply Hall.
  apply elem_of_app. right. by left.
Qed.

Lemma weighted_stores_fsts (w : gmap Store Qc) (l : list Store) :
  (sort_desc ((λ j, (j, dict_get w j 0%Qc)) <$> l)).*1 ≡ₚ l.
Proof.
  rewrite sort_desc_perm, <- list_fmap_compose.
  assert ((fst ∘ (λ j, (j, dict_get w j 0%Qc))) <$> l = l) as ->; [|done].
  induction l as [|j l IH]; [done|]. rewrite fmap_cons, IH. done.
Qed.

Lemma weighted_stores_snd (w : gmap Store Qc) (l : list Store) p :
  p ∈ sort_desc ((λ j, (j, dict_get w j 0%Qc)) <$> l) →
  p.2 = dict_get w p.1 0%Qc.
Proof.
  rewrite sort_desc_perm. intros (j & -> & Hj)%list_elem_of_fmap. done.
Qed.

Lemma step3_fill_tops_self i limits (ws : list (Store * Qc)) a x t :
  ∃ n a', step3_fill i limits ws (a, x, t) = (a', x - n, t + n) ∧
          tops_up i ws.*1 limits a n a'.
Proof.
  destruct (step3_fill_tops_up i ws.*1 limits ws a x t)
    as (n & a' & Heq & Hup & _).
  { apply Forall_forall. intros p Hp. apply list_elem_of_fmap. by exists p. }
  by exists n, a'.
Qed.

Lemma step2_fill_tops_self i limits rem (ws : list (Store * Qc)) a x t :
  ∃ n a', step2_fill i limits rem ws (a, x, t) = (a', x + n, t + n) ∧
          tops_up i ws.*1 limits a n a'.
Proof.
  destruct (step2_fill_tops_up i ws.*1 limits rem ws a x t)
    as (n & a' & Heq & Hup & _).
  { apply Forall_forall. intros p Hp. apply list_elem_of_fmap. by exists p. }
  by exists n, a'.
Qed.

(** In the loop of Step 3 a store is given units only after every store
    before it in the list has been brought to its limit. *)
Lemma step3_fill_order i limits (l1 : list (Store * Qc)) p l2 a x t a' x' t' :
  NoDup (l1 ++ p :: l2).*1 →
  step3_fill i limits (l1 ++ p :: l2) (a, x, t) = (a', x', t') →
  ∀ p', p' ∈ l2 → dict_get a (i, p'.1) 0 < dict_get a' (i, p'.1) 0 →
        dict_get limits p.1 0 ≤ dict_get a' (i, p.1) 0.
Proof.
  revert a x t.
  induction l1 as [|[j0 w0] l1 IH]; intros a x t Hnd Hrun p' Hp' Hgot.
  - destruct p as [j w]. cbn [app step3_fill] in Hrun. cbn [fst].
    cbn [app] in Hnd. rewrite fmap_cons in Hnd.
    apply NoDup_cons in Hnd as [Hj _]. cbn [fst] in Hj.
    assert (p'.1 ≠ j) as Hne.
    { intros <-. apply Hj. apply list_elem_of_fmap. by exists p'. }
    destruct (decide (x ≤ 0)) as [Hbreak|Hgo].
    { injection Hrun as <- <- <-. lia. }
    destruct (decide (dict_get limits j 0 - dict_get a (i, j) 0 ≤ 0))
      as [Hfull|Hroom].
    { destruct (step3_fill_tops_self i limits l2 a x t)
        as (n & a'' & Heq & Hup).
      rewrite Heq in Hrun. injection Hrun as <- <- <-.
      pose proof (tops_up_dict_get_mono _ _ _ _ _ _ (i, j) Hup). lia. }
    set (q := Z.min x (dict_get limits j 0 - dict_get a (i, j) 0)) in *.
    destruct (decide (x - q ≤ 0)) as [Hall|Hleft].
    + rewrite step3_fill_stop in Hrun by done. injection Hrun as <- <- <-.
      unfold dict_get at 2 in Hgot. rewrite lookup_insert_ne in Hgot.
      * unfold dict_get in Hgot. lia.
      * intros Heq. by injection Heq as Heq.
    + destruct (step3_fill_tops_self i limits l2
                  (<[(i, j) := dict_get a (i, j) 0 + q]> a) (x - q) (t + q))
        as (n & a'' & Heq & Hup).
      rewrite Heq in Hrun. injection Hrun as <- <- <-.
      pose proof (tops_up_dict_get_mono _ _ _ _ _ _ (i, j) Hup) as Hmono.
      unfold dict_get at 1 in Hmono. rewrite lookup_insert_eq in Hmono.
      cbn in Hmono. lia.
  - cbn [app step3_fill] in Hrun.
    rewrite <- app_comm_cons, fmap_cons in Hnd.
    apply NoDup_cons in Hnd as [Hj0 Hnd]. cbn [fst] in Hj0.
    assert (p'.1 ≠ j0) as Hne.
    { intros <-. apply Hj0. apply list_elem_of_fmap. exists p'.
      split; [done|]. apply elem_of_app. right. by right. }
    destruct (decide (x ≤ 0)) as [Hbreak|Hgo].
    { injection Hrun as <- <- <-. lia. }
    destruct (decide (dict_get limits j0 0 - dict_get a (i, j0) 0 ≤ 0))
      as [Hfull|Hroom].
    { by eapply IH. }
    eapply IH; [done | exact Hrun | done |].
    unfold dict_get at 1. rewrite lookup_insert_ne; [done|].
    intros Heq. by injection Heq as Heq.
Qed.

(** In the loop of Step 2 a store is given its unit only after every
    store before it in the list that has room for one has got one. *)
Lemma step2_fill_order i limits rem (l1 : list (Store * Qc)) p l2 a x t
    a' x' t' :
  NoDup (l1 ++ p :: l2).*1 →
  0 ≤ dict_get a (i, p.1) 0 →
  step2_fill i limits rem (l1 ++ p :: l2) (a, x, t) = (a', x', t') →
  ∀ p', p' ∈ l2 → dict_get a (i, p'.1) 0 < dict_get a' (i, p'.1) 0 →
        1 ≤ dict_get limits p.1 0 → 1 ≤ dict_get a' (i, p.1) 0.
Proof.
  revert a x t.
  induction l1 as [|[j0 w0] l1 IH]; intros a x t Hnd Hpos Hrun p' Hp' Hgot Hone.
  - destruct p as [j w]. cbn [app step2_fill] in Hrun. cbn [fst] in *.
    destruct (decide (rem ≤ x)) as [Hbreak|Hgo].
    { injection Hrun as <- <- <-. lia. }
    destruct (decide (dict_get limits j 0 ≤ dict_get a (i, j) 0))
      as [Hfull|Hroom].
    { destruct (step2_fill_tops_self i limits rem l2 a x t)
        as (n & a'' & Heq & Hup).
      rewrite Heq in Hrun. injection Hrun as <- <- <-.
      pose proof (tops_up_dict_get_mono _ _ _ _ _ _ (i, j) Hup). lia. }
    destruct (step2_fill_tops_self i limits rem l2
                (<[(i, j) := dict_get a (i, j) 0 + 1]> a) (x + 1) (t + 1))
      as (n & a'' & Heq & Hup).
    rewrite Heq in Hrun. injection Hrun as <- <- <-.
    pose proof (tops_up_dict_get_mono _ _ _ _ _ _ (i, j) Hup) as Hmono.
    unfold dict_get at 1 in Hmono. rewrite lookup_insert_eq in Hmono.
    cbn in Hmono. lia.
  - cbn [app step2_fill] in Hrun.
    rewrite <- app_comm_cons, fmap_cons in Hnd.
    apply NoDup_cons in Hnd as [Hj0 Hnd]. cbn [fst] in Hj0.
    assert (p'.1 ≠ j0) as Hne.
    { intros <-. apply Hj0. apply list_elem_of_fmap. exists p'.
      split; [done|]. apply elem_of_app. right. by right. }
    assert (p.1 ≠ j0) as Hne'.
    { intros <-. apply Hj0. apply list_elem_of_fmap. exists p.
      split; [done|]. apply elem_of_app. right. by left. }
    destruct (decide (rem ≤ x)) as [Hbreak|Hgo].
    { injection Hrun as <- <- <-. lia. }
    destruct (decide (dict_get limits j0 0 ≤ dict_get a (i, j0) 0))
      as [Hfull|Hroom].
    { by eapply IH. }
    eapply IH; [done | | exact Hrun | done | | done].
    + unfold dict_get at 1. rewrite lookup_insert_ne; [done|].
      intros Heq. by injection Heq as Heq.
    + unfold dict_get at 1. rewrite lookup_insert_ne; [done|].
      intros Heq. by injection Heq as Heq.
Qed.

(** Two stores of a weighted list, the heavier one first. *)
Lemma weighted_stores_split (w : gmap Store Qc) (l : list Store) j j' :
  j ∈ l → j' ∈ l → (dict_get w j' 0 < dict_get w j 0)%Qc →
  ∃ l1 l2, sort_desc ((λ j, (j, dict_get w j 0%Qc)) <$> l)
           = l1 ++ (j, dict_get w j 0%Qc) :: l2 ∧
           (j', dict_get w j' 0%Qc) ∈ l2.
Proof.
  intros Hj Hj' Hlt.
  pose proof (weighted_stores_elem w l j Hj) as Hin.
  pose proof (weighted_stores_elem w l j' Hj') as Hin'.
  apply list_elem_of_split in Hin as (l1 & l2 & Hsplit).
  exists l1, l2. split; [done|].
  rewrite Hsplit in Hin'.
  apply elem_of_app in Hin' as [Hin'|Hin'].
  - exfalso. pose proof (sort_desc_sorted ((λ j, (j, dict_get w j 0%Qc)) <$> l))
      as Hs.
    rewrite Hsplit in Hs.
    pose proof (desc_before _ _ _ Hs _ Hin') as Hle. cbn in Hle.
    by apply (Qclt_not_le _ _ Hlt).
  - apply elem_of_cons in Hin' as [Heq|Hin']; [|done].
    injection Heq as -> _. exfalso.
    apply (Qclt_not_le _ _ Hlt), Qcle_refl.
Qed.

Lemma step3_sku_order A ts limits (w : gmap Store Qc) i a t a' t' :
  NoDup ts →
  step3_sku A ts limits w i (a, t) = Ok (a', t') →
  ∀ j j', j ∈ ts → (dict_get w j' 0 < dict_get w j 0)%Qc →
    dict_get a (i, j') 0 < dict_get a' (i, j') 0 →
    dict_get limits j 0 ≤ dict_get a' (i, j) 0.
Proof.
  intros Hnd. unfold step3_sku. intros Hrun j j' Hj Hlt Hgot.
  unfold getitem in Hrun. destruct (A !! i) as [s|] eqn:Hs; [|done].
  cbn in Hrun.
  destruct (decide (s - allocated_quantity_of a i ts ≤ 0)) as [Hrem|Hrem].
  { injection Hrun as <- <-. lia. }
  destruct (decide (filter _ ts = [])) as [Hnil|_].
  { injection Hrun as <- <-. lia. }
  set (el := filter (λ j, dict_get a (i, j) 0 < dict_get limits j 0) ts) in *.
  set (ws := sort_desc ((λ j, (j, dict_get w j 0%Qc)) <$> el)) in *.
  destruct (step3_fill i limits ws
              (a, s - allocated_quantity_of a i ts, t)) as [[fa x] ta] eqn:Hfill.
  injection Hrun as <- <-.
  destruct (step3_fill_tops_self i limits ws a
              (s - allocated_quantity_of a i ts) t) as (n & a'' & Heq & Hup).
  rewrite Hfill in Heq. injection Heq as -> _ _.
  assert (j' ∈ el) as Hj'.
  { destruct (decide (j' ∈ el)) as [|Hout]; [done|]. exfalso.
    assert (j' ∉ ws.*1) as Hout' by (unfold ws; by rewrite weighted_stores_fsts).
    pose proof (tops_up_outside _ _ _ _ _ _ i j' Hup Hout') as Hsame.
    unfold dict_get in Hgot. rewrite Hsame in Hgot. lia. }
  destruct (decide (j ∈ el)) as [Hjel|Hjel].
  - destruct (weighted_stores_split w el j j' Hjel Hj' Hlt)
      as (l1 & l2 & Hsplit & Hin').
    fold ws in Hsplit. rewrite Hsplit in Hfill.
    apply (step3_fill_order i limits l1 (j, dict_get w j 0%Qc) l2 _ _ _ _ _ _
             ltac:(rewrite <- Hsplit; apply weighted_stores_NoDup;
                   by apply NoDup_filter)
             Hfill (j', dict_get w j' 0%Qc) Hin' Hgot).
  - assert (¬ dict_get a (i, j) 0 < dict_get limits j 0) as Hfull.
    { intros Hroom. apply Hjel. by apply list_elem_of_filter. }
    pose proof (tops_up_dict_get_mono _ _ _ _ _ _ (i, j) Hup). lia.
Qed.

Lemma step2_sku_order A ts limits (w : gmap Store Qc) i a t a' t' :
  NoDup ts → (∀ k v, a !! k = Some v → 0 ≤ v) →
  step2_sku A ts limits w i (a, t) = Ok (a', t') →
  ∀ j j', j ∈ ts → (dict_get w j' 0 < dict_get w j 0)%Qc →
    dict_get a (i, j') 0 < dict_get a' (i, j') 0 →
    1 ≤ dict_get limits j 0 → 1 ≤ dict_get a' (i, j) 0.
Proof.
  intros Hnd Hpos. unfold step2_sku. intros Hrun j j' Hj Hlt Hgot Hone.
  destruct (decide (filter _ ts = [])) as [Hnil|_].
  { injection Hrun as <- <-. lia. }
  unfold getitem in Hrun. destruct (A !! i) as [s|] eqn:Hs; [|done].
  cbn in Hrun.
  destruct (decide (s - allocated_quantity_of a i ts ≤ 0)) as [Hrem|Hrem].
  { injection Hrun as <- <-. lia. }
  set (el := filter (λ j, a !! (i, j) = None ∨ a !! (i, j) = Some 0) ts) in *.
  set (ws := sort_desc ((λ j, (j, dict_get w j 0%Qc)) <$> el)) in *.
  destruct (step2_fill i limits (s - allocated_quantity_of a i ts) ws
              (a, 0, t)) as [[fa x] ta] eqn:Hfill.
  injection Hrun as <- <-.
  destruct (step2_fill_tops_self i limits (s - allocated_quantity_of a i ts)
              ws a 0 t) as (n & a'' & Heq & Hup).
  rewrite Hfill in Heq. injection Heq as -> _ _.
  assert (j' ∈ el) as Hj'.
  { destruct (decide (j' ∈ el)) as [|Hout]; [done|]. exfalso.
    assert (j' ∉ ws.*1) as Hout' by (unfold ws; by rewrite weighted_stores_fsts).
    pose proof (tops_up_outside _ _ _ _ _ _ i j' Hup Hout') as Hsame.
    unfold dict_get in Hgot. rewrite Hsame in Hgot. lia. }
  destruct (decide (j ∈ el)) as [Hjel|Hjel].
  - destruct (weighted_stores_split w el j j' Hjel Hj' Hlt)
      as (l1 & l2 & Hsplit & Hin').
    fold ws in Hsplit. rewrite Hsplit in Hfill.
    apply (step2_fill_order i limits _ l1 (j, dict_get w j 0%Qc) l2 _ _ _ _ _ _
             ltac:(rewrite <- Hsplit; apply weighted_stores_NoDup;
                   by apply NoDup_filter)
             ltac:(cbn; apply list_elem_of_filter in Hjel as [[Hn|Hz] _];
                   unfold dict_get; [rewrite Hn | rewrite Hz]; done)
             Hfill (j', dict_get w j' 0%Qc) Hin' Hgot Hone).
  - assert (1 ≤ dict_get a (i, j) 0) as Hheld.
    { unfold dict_get. destruct (a !! (i, j)) as [v|] eqn:Hv; cbn.
      - destruct (decide (v = 0)) as [->|Hne].
        + destruct Hjel. apply list_elem_of_filter. split; [by right | done].
        + specialize (Hpos _ _ Hv). lia.
      - destruct Hjel. apply list_elem_of_filter. split; [by left | done]. }
    pose proof (tops_up_dict_get_mono _ _ _ _ _ _ (i, j) Hup). lia.
Qed.

(** A loop over other SKUs leaves the entries of an SKU as they are. *)
Lemma for_each_other A ts limits
    (body : SKU → gmap (SKU * Store) Z * Z → result (gmap (SKU * Store) Z * Z))
    SKUs a t a' t' i j :
  (∀ i a t a' t', body i (a, t) = Ok (a', t') →
     ∃ n, t' = t + n ∧ tops_up i ts limits a n a' ∧
          (n = 0 ∨ ∃ s, A !! i = Some s ∧
                        n ≤ s - allocated_quantity_of a i ts)) →
  i ∉ SKUs →
  for_each body SKUs (a, t) = Ok (a', t') →
  a' !! (i, j) = a !! (i, j).
Proof.
  intros Hbody. revert a t. induction SKUs as [|i0 SKUs IH]; intros a t Hi Hrun;
    cbn [for_each] in Hrun.
  { by injection Hrun as <- <-. }
  destruct (body i0 (a, t)) as [[a1 t1]|] eqn:Hi0; [|done]. cbn in Hrun.
  destruct (Hbody _ _ _ _ _ Hi0) as (n & -> & Hup & _).
  rewrite (IH a1 (t + n)); [| |done].
  - apply (tops_up_other _ _ _ _ _ _ (i, j) Hup). cbn. intros ->.
    apply Hi. by left.
  - intros ?. apply Hi. by right.
Qed.

(** What a pass guarantees about the units it gives to its SKU holds
    of the whole loop, when no SKU is listed twice. *)
Lemma for_each_order (I : gmap (SKU * Store) Z → Prop)
    (R : SKU → gmap (SKU * Store) Z → gmap (SKU * Store) Z → Prop)
    A ts limits
    (body : SKU → gmap (SKU * Store) Z * Z → result (gmap (SKU * Store) Z * Z))
    SKUs a t a' t' :
  (∀ i a t a' t', body i (a, t) = Ok (a', t') →
     ∃ n, t' = t + n ∧ tops_up i ts limits a n a' ∧
          (n = 0 ∨ ∃ s, A !! i = Some s ∧
                        n ≤ s - allocated_quantity_of a i ts)) →
  (∀ i a n a', tops_up i ts limits a n a' → I a → I a') →
  (∀ i a t a' t', I a → body i (a, t) = Ok (a', t') → R i a a') →
  (∀ i a1 a1' a2 a2', (∀ j, a1 !! (i, j) = a2 !! (i, j)) →
     (∀ j, a1' !! (i, j) = a2' !! (i, j)) → R i a1 a1' → R i a2 a2') →
  (∀ i a, R i a a) →
  NoDup SKUs → I a →
  for_each body SKUs (a, t) = Ok (a', t') →
  ∀ i, R i a a'.
Proof.
  intros Hbody HI HR Hext Hrefl Hnd. revert a t.
  induction Hnd as [|i0 SKUs Hi0 Hnd IH]; intros a t Ha Hrun i;
    cbn [for_each] in Hrun.
  { injection Hrun as <- <-. apply Hrefl. }
  destruct (body i0 (a, t)) as [[a1 t1]|] eqn:Hb; [|done]. cbn in Hrun.
  destruct (Hbody _ _ _ _ _ Hb) as (n & -> & Hup & _).
  assert (I a1) as Ha1 by (by eapply HI).
  destruct (decide (i = i0)) as [->|Hne].
  - apply (Hext i0 a a1 a a'); [done | | by eapply HR].
    intros j. symmetry. by eapply for_each_other.
  - apply (Hext i a1 a' a a'); [| done | by eapply IH].
    intros j. apply (tops_up_other _ _ _ _ _ _ (i, j) Hup). done.
Qed.

(** Step 3 serves the stores by priority: when no SKU and no target
    store is listed twice, a store is given units of an SKU in Step 3
    only if every target store with a strictly higher priority score
    ends at its limit for that SKU. *)
Lemma step3_order A QSUM (SKUs : list SKU) ts limits a
    (sp : scenario) g r g' w :
  NoDup ts → NoDup SKUs →
  _calculate_store_priorities ts QSUM
    (default 0%Qc (priority_temperature sp)) g = Ok (w, g') →
  _step3_remaining_allocation A QSUM SKUs ts limits a sp g = Ok (r, g') →
  ∀ i j j', j ∈ ts → (dict_get w j' 0 < dict_get w j 0)%Qc →
    dict_get a (i, j') 0 < dict_get (allocation r) (i, j') 0 →
    dict_get limits j 0 ≤ dict_get (allocation r) (i, j) 0.
Proof.
  intros Hts HSKUs Hw Hrun.
  apply step3_inv in Hrun as (w' & Hw' & Hloop).
  assert (w' = w) as -> by congruence.
  intros i.
  apply (for_each_order (λ _, True)
           (λ i a a', ∀ j j', j ∈ ts → (dict_get w j' 0 < dict_get w j 0)%Qc →
              dict_get a (i, j') 0 < dict_get a' (i, j') 0 →
              dict_get limits j 0 ≤ dict_get a' (i, j) 0)
           A ts limits (step3_sku A ts limits w) SKUs a 0 (allocation r)
           (additional_allocation r)); try done.
  - intros *. apply step3_sku_grows.
  - intros i0 a0 t0 a0' t0' _. by apply step3_sku_order.
  - intros i0 a1 a1' a2 a2' H1 H2 HR j j' Hj Hlt. unfold dict_get.
    rewrite <- !H1, <- !H2. by apply HR.
  - intros i0 a0 j j' _ _ ?. lia.
Qed.

(** Step 2 serves the stores by priority: when no SKU and no target
    store is listed twice and no quantity is negative, a store is given
    its unit of an SKU in Step 2 only if every target store with a
    strictly higher priority score and room for one unit ends with at
    least one unit of that SKU. *)
Lemma step2_order A QSUM (SKUs : list SKU) ts limits a
    (sp : scenario) g r g' w :
  NoDup ts → NoDup SKUs → placed ts a →
  _calculate_store_priorities ts QSUM
    (default 0%Qc (priority_temperature sp)) g = Ok (w, g') →
  _step2_single_allocation A QSUM SKUs ts limits a sp g = Ok (r, g') →
  ∀ i j j', j ∈ ts → (dict_get w j' 0 < dict_get w j 0)%Qc →
    dict_get a (i, j') 0 < dict_get (allocation r) (i, j') 0 →
    1 ≤ dict_get limits j 0 → 1 ≤ dict_get (allocation r) (i, j) 0.
Proof.
  intros Hts HSKUs Hpl Hw Hrun.
  apply step2_inv in Hrun as (w' & Hw' & Hloop).
  assert (w' = w) as -> by congruence.
  intros i.
  apply (for_each_order (placed ts)
           (λ i a a', ∀ j j', j ∈ ts → (dict_get w j' 0 < dict_get w j 0)%Qc →
              dict_get a (i, j') 0 < dict_get a' (i, j') 0 →
              1 ≤ dict_get limits j 0 → 1 ≤ dict_get a' (i, j) 0)
           A ts limits (step2_sku A ts limits w) SKUs a 0 (allocation r)
           (additional_allocation r)); try done.
  - intros *. apply step2_sku_grows.
  - intros *. apply tops_up_placed.
  - intros i0 a0 t0 a0' t0' Hp. apply step2_sku_order; [done|].
    intros k v Hk. by destruct (Hp k v Hk).
  - intros i0 a1 a1' a2 a2' H1 H2 HR j j' Hj Hlt. unfold dict_get.
    rewrite <- !H1, <- !H2. by apply HR.
  - intros i0 a0 j j' _ _ ?. lia.
Qed.

(** *** The sort is stable *)

Lemma listed_before_cons {X} (l : list X) h x y :
  listed_before l x y → listed_before (h :: l) x y.
Proof. intros (l1 & l2 & -> & Hy). by exists (h :: l1), l2. Qed.

Lemma listed_before_head {X} (l : list X) x y :
  y ∈ l → listed_before (x :: l) x y.
Proof. intros Hy. by exists [], l. Qed.

Lemma listed_before_inv {X} (l : list X) h x y :
  listed_before (h :: l) x y → (x = h ∧ y ∈ l) ∨ listed_before l x y.
Proof.
  intros ([|h' l1] & l2 & Heq & Hy); cbn in Heq; injection Heq as -> ->.
  - by left.
  - right. by exists l1, l2.
Qed.

Lemma listed_before_filter {X} (P : X → Prop) `{∀ x, Decision (P x)}
    (l : list X) x y :
  listed_before l x y → P x → P y → listed_before (filter P l) x y.
Proof.
  intros (l1 & l2 & -> & Hy) Hx HPy.
  exists (filter P l1), (filter P l2).
  rewrite filter_app, filter_cons_True by done. split; [done|].
  by apply list_elem_of_filter.
Qed.

Lemma listed_before_fmap {X Y} (f : X → Y) (l : list X) x y :
  listed_before l x y → listed_before (f <$> l) (f x) (f y).
Proof.
  intros (l1 & l2 & -> & Hy). exists (f <$> l1), (f <$> l2).
  rewrite fmap_app, fmap_cons. split; [done|].
  apply list_elem_of_fmap. by exists y.
Qed.

(** An insertion keeps the order of what was there. *)
Lemma insert_desc_keeps {X} (x : X * Qc) l y z :
  listed_before l y z → listed_before (insert_desc x l) y z.
Proof.
  induction l as [|h l IH]; intros Hb.
  { destruct Hb as ([|? ?] & ? & ? & _); done. }
  cbn [insert_desc]. destruct (decide (x.2 < h.2)%Qc).
  - apply listed_before_inv in Hb as [[-> Hz]|Hb].
    + apply listed_before_head. rewrite insert_desc_perm. by right.
    + by apply listed_before_cons, IH.
  - by apply listed_before_cons.
Qed.

(** What is inserted goes before everything that is not larger. *)
Lemma insert_desc_first {X} (x : X * Qc) l y :
  y ∈ l → (y.2 ≤ x.2)%Qc → listed_before (insert_desc x l) x y.
Proof.
  induction l as [|h l IH]; intros Hy Hle.
  { by apply not_elem_of_nil in Hy. }
  cbn [insert_desc]. destruct (decide (x.2 < h.2)%Qc) as [Hlt|Hge].
  - apply elem_of_cons in Hy as [->|Hy].
    + exfalso. by apply (Qclt_not_le _ _ Hlt).
    + by apply listed_before_cons, IH.
  - by apply listed_before_head.
Qed.

(** The sort is stable: of two elements, the one that stood first and is
    not smaller stays first. *)
Lemma sort_desc_stable {X} (l : list (X * Qc)) x y :
  listed_before l x y → (y.2 ≤ x.2)%Qc → listed_before (sort_desc l) x y.
Proof.
  induction l as [|h l IH]; intros Hb Hle.
  { destruct Hb as ([|? ?] & ? & ? & _); done. }
  cbn [sort_desc foldr]. fold (sort_desc l).
  apply listed_before_inv in Hb as [[-> Hy]|Hb].
  - apply insert_desc_first; [|done]. by rewrite sort_desc_perm.
  - by apply insert_desc_keeps, IH.
Qed.

(** Two stores of a weighted list, the one that is listed first and is
    not lighter first. *)
Lemma weighted_stores_stable (w : gmap Store Qc) (l : list Store) j j' :
  listed_before l j j' → (dict_get w j' 0 ≤ dict_get w j 0)%Qc →
  ∃ l1 l2, sort_desc ((λ j, (j, dict_get w j 0%Qc)) <$> l)
           = l1 ++ (j, dict_get w j 0%Qc) :: l2 ∧
           (j', dict_get w j' 0%Qc) ∈ l2.
Proof.
  intros Hb Hle.
  apply (listed_before_fmap (λ j, (j, dict_get w j 0%Qc))) in Hb.
  by apply sort_desc_stable in Hb.
Qed.

Lemma step3_sku_stable A ts limits (w : gmap Store Qc) i a t a' t' :
  NoDup ts →
  step3_sku A ts limits w i (a, t) = Ok (a', t') →
  ∀ j j', listed_before ts j j' → (dict_get w j' 0 ≤ dict_get w j 0)%Qc →
    dict_get a (i, j') 0 < dict_get a' (i, j') 0 →
    dict_get limits j 0 ≤ dict_get a' (i, j) 0.
Proof.
  intros Hnd. unfold step3_sku. intros Hrun j j' Hb Hle Hgot.
  unfold getitem in Hrun. destruct (A !! i) as [s|] eqn:Hs; [|done].
  cbn in Hrun.
  destruct (decide (s - allocated_quantity_of a i ts ≤ 0)) as [Hrem|Hrem].
  { injection Hrun as <- <-. lia. }
  destruct (decide (filter _ ts = [])) as [Hnil|_].
  { injection Hrun as <- <-. lia. }
  set (el := filter (λ j, dict_get a (i, j) 0 < dict_get limits j 0) ts) in *.
  set (ws := sort_desc ((λ j, (j, dict_get w j 0%Qc)) <$> el)) in *.
  destruct (step3_fill i limits ws
              (a, s - allocated_quantity_of a i ts, t)) as [[fa x] ta] eqn:Hfill.
  injection Hrun as <- <-.
  destruct (step3_fill_tops_self i limits ws a
              (s - allocated_quantity_of a i ts) t) as (n & a'' & Heq & Hup).
  rewrite Hfill in Heq. injection Heq as -> _ _.
  assert (j' ∈ el) as Hj'.
  { destruct (decide (j' ∈ el)) as [|Hout]; [done|]. exfalso.
    assert (j' ∉ ws.*1) as Hout' by (unfold ws; by rewrite weighted_stores_fsts).
    pose proof (tops_up_outside _ _ _ _ _ _ i j' Hup Hout') as Hsame.
    unfold dict_get in Hgot. rewrite Hsame in Hgot. lia. }
  destruct (decide (dict_get a (i, j) 0 < dict_get limits j 0))
    as [Hroom|Hfull].
  - assert (listed_before el j j') as Hbel.
    { apply listed_before_filter; [done | done |].
      by apply list_elem_of_filter in Hj' as [? _]. }
    destruct (weighted_stores_stable w el j j' Hbel Hle)
      as (l1 & l2 & Hsplit & Hin').
    fold ws in Hsplit. rewrite Hsplit in Hfill.
    apply (step3_fill_order i limits l1 (j, dict_get w j 0%Qc) l2 _ _ _ _ _ _
             ltac:(rewrite <- Hsplit; apply weighted_stores_NoDup;
                   by apply NoDup_filter)
             Hfill (j', dict_get w j' 0%Qc) Hin' Hgot).
  - pose proof (tops_up_dict_get_mono _ _ _ _ _ _ (i, j) Hup). lia.
Qed.

Lemma step2_sku_stable A ts limits (w : gmap Store Qc) i a t a' t' :
  NoDup ts → (∀ k v, a !! k = Some v → 0 ≤ v) →
  step2_sku A ts limits w i (a, t) = Ok (a', t') →
  ∀ j j', listed_before ts j j' → (dict_get w j' 0 ≤ dict_get w j 0)%Qc →
    dict_get a (i, j') 0 < dict_get a' (i, j') 0 →
    1 ≤ dict_get limits j 0 → 1 ≤ dict_get a' (i, j) 0.
Proof.
  intros Hnd Hpos. unfold step2_sku. intros Hrun j j' Hb Hle Hgot Hone.
  destruct (decide (filter _ ts = [])) as [Hnil|_].
  { injection Hrun as <- <-. lia. }
  unfold getitem in Hrun. destruct (A !! i) as [s|] eqn:Hs; [|done].
  cbn in Hrun.
  destruct (decide (s - allocated_quantity_of a i ts ≤ 0)) as [Hrem|Hrem].
  { injection Hrun as <- <-. lia. }
  set (el := filter (λ j, a !! (i, j) = None ∨ a !! (i, j) = Some 0) ts) in *.
  set (ws := sort_desc ((λ j, (j, dict_get w j 0%Qc)) <$> el)) in *.
  destruct (step2_fill i limits (s - allocated_quantity_of a i ts) ws
              (a, 0, t)) as [[fa x] ta] eqn:Hfill.
  injection Hrun as <- <-.
  destruct (step2_fill_tops_self i limits (s - allocated_quantity_of a i ts)
              ws a 0 t) as (n & a'' & Heq & Hup).
  rewrite Hfill in Heq. injection Heq as -> _ _.
  assert (j' ∈ el) as Hj'.
  { destruct (decide (j' ∈ el)) as [|Hout]; [done|]. exfalso.
    assert (j' ∉ ws.*1) as Hout' by (unfold ws; by rewrite weighted_stores_fsts).
    pose proof (tops_up_outside _ _ _ _ _ _ i j' Hup Hout') as Hsame.
    unfold dict_get in Hgot. rewrite Hsame in Hgot. lia. }
  destruct (decide (a !! (i, j) = None ∨ a !! (i, j) = Some 0))
    as [Hempty|Hheld].
  - assert (listed_before el j j') as Hbel.
    { apply listed_before_filter; [done | done |].
      by apply list_elem_of_filter in Hj' as [? _]. }
    destruct (weighted_stores_stable w el j j' Hbel Hle)
      as (l1 & l2 & Hsplit & Hin').
    fold ws in Hsplit. rewrite Hsplit in Hfill.
    apply (step2_fill_order i limits _ l1 (j, dict_get w j 0%Qc) l2 _ _ _ _ _ _
             ltac:(rewrite <- Hsplit; apply weighted_stores_NoDup;
                   by apply NoDup_filter)
             ltac:(cbn; destruct Hempty as [Hn|Hz];
                   unfold dict_get; [rewrite Hn | rewrite Hz]; done)
             Hfill (j', dict_get w j' 0%Qc) Hin' Hgot Hone).
  - assert (1 ≤ dict_get a (i, j) 0) as Hge.
    { unfold dict_get. destruct (a !! (i, j)) as [v|] eqn:Hv; cbn.
      - destruct (decide (v = 0)) as [->|Hne]; [destruct Hheld; by right|].
        specialize (Hpos _ _ Hv). lia.
      - destruct Hheld. by left. }
    pose proof (tops_up_dict_get_mono _ _ _ _ _ _ (i, j) Hup). lia.
Qed.

(** Step 3 keeps to the list: a store is given units of an SKU only if
    every store that is listed before it and whose score is not lower
    ends at its limit for that SKU. *)
Lemma step3_stable A QSUM (SKUs : list SKU) ts limits a
    (sp : scenario) g r g' w :
  NoDup ts → NoDup SKUs →
  _calculate_store_priorities ts QSUM
    (default 0%Qc (priority_temperature sp)) g = Ok (w, g') →
  _step3_remaining_allocation A QSUM SKUs ts limits a sp g = Ok (r, g') →
  ∀ i j j', listed_before ts j j' → (dict_get w j' 0 ≤ dict_get w j 0)%Qc →
    dict_get a (i, j') 0 < dict_get (allocation r) (i, j') 0 →
    dict_get limits j 0 ≤ dict_get (allocation r) (i, j) 0.
Proof.
  intros Hts HSKUs Hw Hrun.
  apply step3_inv in Hrun as (w' & Hw' & Hloop).
  assert (w' = w) as -> by congruence.
  intros i.
  apply (for_each_order (λ _, True)
           (λ i a a', ∀ j j', listed_before ts j j' →
              (dict_get w j' 0 ≤ dict_get w j 0)%Qc →
              dict_get a (i, j') 0 < dict_get a' (i, j') 0 →
              dict_get limits j 0 ≤ dict_get a' (i, j) 0)
           A ts limits (step3_sku A ts limits w) SKUs a 0 (allocation r)
           (additional_allocation r)); try done.
  - intros *. apply step3_sku_grows.
  - intros i0 a0 t0 a0' t0' _. by apply step3_sku_stable.
  - intros i0 a1 a1' a2 a2' H1 H2 HR j j' Hj Hlt. unfold dict_get.
    rewrite <- !H1, <- !H2. by apply HR.
  - intros i0 a0 j j' _ _ ?. lia.
Qed.

Lemma step2_stable A QSUM (SKUs : list SKU) ts limits a
    (sp : scenario) g r g' w :
  NoDup ts → NoDup SKUs → placed ts a →
  _calculate_store_priorities ts QSUM
    (default 0%Qc (priority_temperature sp)) g = Ok (w, g') →
  _step2_single_allocation A QSUM SKUs ts limits a sp g = Ok (r, g') →
  ∀ i j j', listed_before ts j j' → (dict_get w j' 0 ≤ dict_get w j 0)%Qc →
    dict_get a (i, j') 0 < dict_get (allocation r) (i, j') 0 →
    1 ≤ dict_get limits j 0 → 1 ≤ dict_get (allocation r) (i, j) 0.
Proof.
  intros Hts HSKUs Hpl Hw Hrun.
  apply step2_inv in Hrun as (w' & Hw' & Hloop).
  assert (w' = w) as -> by congruence.
  intros i.
  apply (for_each_order (placed ts)
           (λ i a a', ∀ j j', listed_before ts j j' →
              (dict_get w j' 0 ≤ dict_get w j 0)%Qc →
              dict_get a (i, j') 0 < dict_get a' (i, j') 0 →
              1 ≤ dict_get limits j 0 → 1 ≤ dict_get a' (i, j) 0)
           A ts limits (step2_sku A ts limits w) SKUs a 0 (allocation r)
           (additional_allocation r)); try done.
  - intros *. apply step2_sku_grows.
  - intros *. apply tops_up_placed.
  - intros i0 a0 t0 a0' t0' Hp. apply step2_sku_stable; [done|].
    intros k v Hk. by destruct (Hp k v Hk).
  - intros i0 a1 a1' a2 a2' H1 H2 HR j j' Hj Hlt. unfold dict_get.
    rewrite <- !H1, <- !H2. by apply HR.
  - intros i0 a0 j j' _ _ ?. lia.
Qed.

End OrderFacts.

(** ** At temperature 0 the stores are served in list order *)

Section VolumeOrder.
Context {SKU Store Color Size : Type}.
Context `{Countable SKU} `{Countable Store}.
Context `{EqDecision Color} `{EqDecision Size}.
Implicit Types (QSUM : gmap Store Qc) (ts : list Store).

Lemma priorities_at_zero ts QSUM (t : Qc) g w g' :
  t = 0%Qc →
  _calculate_store_priorities ts QSUM t g = Ok (w, g') →
  volume_weights ts QSUM = Ok w.
Proof.
  intros -> Hw. unfold _calculate_store_priorities in Hw.
  replace (py_max 0%Qc (py_min 1%Qc 0%Qc)) with 0%Qc in Hw by done.
  rewrite <- (compute_mixed_weights_zero ts QSUM g), Hw. done.
Qed.

(** X16.  The greedy steps serve the stores by priority.  In a
    successful run in which no SKU and no target store is listed twice,
    Step 2 and Step 3 each computed priority scores for which: a store
    is given units of an SKU in Step 3 only if every target store with a
    strictly higher score ends at its limit for that SKU, and a store is
    given its unit in Step 2 only if every target store with a strictly
    higher score and a limit of at least 1 holds a unit of that SKU
    after Step 2. *)
Theorem priority_order
    (solve : LpProblem SKU Store Color Size → solver_response SKU Store Color Size)
    (d : data SKU Store Color Size) (target_stores : list Store)
    (store_allocation_limits : gmap Store Z)
    (df_sku_filtered : list (@sku_row SKU Color Size))
    (scenario_params : scenario) (g : rng)
    final tot comb obj n2 n3 (self : @ThreeStepOptimizer SKU Store _ _ _ _) g' :
  NoDup target_stores → NoDup (d_SKUs d) →
  optimize_three_step solve d target_stores store_allocation_limits
    df_sku_filtered scenario_params g
  = Ok (success final tot comb obj n2 n3, self, g') →
  ∃ w2 g2 w3,
    _calculate_store_priorities target_stores (d_QSUM d)
      (default 0%Qc (priority_temperature scenario_params)) g = Ok (w2, g2) ∧
    _calculate_store_priorities target_stores (d_QSUM d)
      (default 0%Qc (priority_temperature scenario_params)) g2 = Ok (w3, g') ∧
    ∀ i j j', j ∈ target_stores →
      ((dict_get w3 j' 0 < dict_get w3 j 0)%Qc →
       dict_get (allocation_after_step2 self) (i, j') 0
       < dict_get final (i, j') 0 →
       dict_get store_allocation_limits j 0 ≤ dict_get final (i, j) 0) ∧
      ((dict_get w2 j' 0 < dict_get w2 j 0)%Qc →
       dict_get (step1_allocation self) (i, j') 0
       < dict_get (allocation_after_step2 self) (i, j') 0 →
       1 ≤ dict_get store_allocation_limits j 0 →
       1 ≤ dict_get (allocation_after_step2 self) (i, j) 0).
Proof.
  intros Hts HSKUs Hrun.
  apply optimize_three_step_steps in Hrun
    as (r1 & r2 & r3 & g2 & H1 & H2 & H3 & -> & -> & _).
  cbn [allocation_after_step2 step1_allocation].
  apply step1_inv in H1 as (P & _ & _ & Ha1).
  assert (placed target_stores (s1_allocation r1)) as Hpl
    by (rewrite Ha1; apply mark_all_placed).
  destruct (step2_inv _ _ _ _ _ _ _ _ _ _ H2) as (w2 & Hw2 & _).
  destruct (step3_inv _ _ _ _ _ _ _ _ _ _ H3) as (w3 & Hw3 & _).
  exists w2, g2, w3. split_and!; [done | done |].
  intros i j j' Hj. split.
  - by apply (step3_order _ _ _ _ _ _ _ _ _ _ w3 Hts HSKUs Hw3 H3 i j j' Hj).
  - by apply (step2_order _ _ _ _ _ _ _ _ _ _ w2 Hts HSKUs Hpl Hw2 H2 i j j' Hj).
Qed.

(** A store with at least the volume of another has at least its
    weight. *)
Lemma volume_weights_mono ts QSUM (w : gmap Store Qc) j j' q q' :
  volume_weights ts QSUM = Ok w → j ∈ ts → j' ∈ ts →
  QSUM !! j = Some q → QSUM !! j' = Some q' → (q' ≤ q)%Qc →
  (dict_get w j' 0 ≤ dict_get w j 0)%Qc.
Proof.
  intros Hw Hj Hj' Hq Hq' Hle.
  destruct (volume_weights_lookup _ _ _ Hw)
    as (qs & qmin & qmax & Hqs & Hmin & Hmax & Hl).
  unfold dict_get. rewrite !Hl.
  rewrite (decide_True (P := j ∈ ts)), (decide_True (P := j' ∈ ts)) by done.
  destruct (decide (qmin < qmax)%Qc) as [Hspan|_]; [|apply Qcle_refl].
  rewrite Hq, Hq'. cbn. unfold Qcdiv. apply Qcmult_le_compat_r.
  - unfold Qcminus. by apply Qcplus_le_mono_r.
  - apply Qclt_le_weak, Qcinv_pos. unfold Qcminus.
    rewrite <- (Qcplus_opp_r qmin). by apply Qcplus_lt_mono_r.
Qed.

(** X17.  At temperature 0 the greedy steps keep to the list where the
    volumes allow it.  When no SKU and no target store is listed twice,
    in a successful run a store is given units of an SKU in Step 3 only
    if every target store that is listed before it and has at least its
    volume ends at its limit for that SKU, and is given its unit in
    Step 2 only if every such store with a limit of at least 1 holds a
    unit of that SKU after Step 2.  (The scores only have to be
    monotone in the volume, and the sort stable.) *)
Theorem volume_order_at_zero
    (solve : LpProblem SKU Store Color Size → solver_response SKU Store Color Size)
    (d : data SKU Store Color Size) (target_stores : list Store)
    (store_allocation_limits : gmap Store Z)
    (df_sku_filtered : list (@sku_row SKU Color Size))
    (scenario_params : scenario) (g : rng)
    final tot comb obj n2 n3 (self : @ThreeStepOptimizer SKU Store _ _ _ _) g' :
  default 0%Qc (priority_temperature scenario_params) = 0%Qc →
  NoDup target_stores → NoDup (d_SKUs d) →
  optimize_three_step solve d target_stores store_allocation_limits
    df_sku_filtered scenario_params g
  = Ok (success final tot comb obj n2 n3, self, g') →
  ∀ i j j' q q',
    listed_before target_stores j j' →
    d_QSUM d !! j = Some q → d_QSUM d !! j' = Some q' → (q' ≤ q)%Qc →
    (dict_get (allocation_after_step2 self) (i, j') 0 < dict_get final (i, j') 0 →
     dict_get store_allocation_limits j 0 ≤ dict_get final (i, j) 0) ∧
    (dict_get (step1_allocation self) (i, j') 0
     < dict_get (allocation_after_step2 self) (i, j') 0 →
     1 ≤ dict_get store_allocation_limits j 0 →
     1 ≤ dict_get (allocation_after_step2 self) (i, j) 0).
Proof.
  intros Ht Hts HSKUs Hrun.
  apply optimize_three_step_steps in Hrun
    as (r1 & r2 & r3 & g2 & H1 & H2 & H3 & -> & -> & _).
  cbn [allocation_after_step2 step1_allocation].
  apply step1_inv in H1 as (P & _ & _ & Ha1).
  assert (placed target_stores (s1_allocation r1)) as Hpl
    by (rewrite Ha1; apply mark_all_placed).
  intros i j j' q q' Hb Hq Hq' Hle.
  assert (j ∈ target_stores ∧ j' ∈ target_stores) as [Hj Hj'].
  { destruct Hb as (l1 & l2 & -> & Hin). split.
    - apply elem_of_app. right. by left.
    - apply elem_of_app. right. by right. }
  destruct (step2_inv _ _ _ _ _ _ _ _ _ _ H2) as (w2 & Hw2 & _).
  destruct (step3_inv _ _ _ _ _ _ _ _ _ _ H3) as (w3 & Hw3 & _).
  split.
  - apply (step3_stable _ _ _ _ _ _ _ _ _ _ w3 Hts HSKUs Hw3 H3 i j j' Hb).
    eapply volume_weights_mono; try done.
    by eapply priorities_at_zero.
  - apply (step2_stable _ _ _ _ _ _ _ _ _ _ w2 Hts HSKUs Hpl Hw2 H2 i j j' Hb).
    eapply volume_weights_mono; try done.
    by eapply priorities_at_zero.
Qed.

End VolumeOrder.

(** ** The greedy steps on the sample with two stores *)

Lemma two_stores_feasible P :
  step1_problem TwoStores.inputs TwoStores.target_stores TwoStores.limits
    Sample.frame = Ok P →
  feasible P (varValue (TwoStores.solve P)).
Proof.
  intros HP. vm_compute in HP. injection HP as <-.
  refine (bool_decide_unpack _ _). vm_compute. exact I.
Qed.

Lemma two_stores_NoDup :
  NoDup TwoStores.target_stores ∧ NoDup (d_SKUs TwoStores.inputs).
Proof.
  split; refine (bool_decide_unpack _ _); vm_compute; exact I.
Defined.

Lemma step2_single_units_witness :
  ∃ final tot comb obj n2 n3 self g',
    optimize_three_step TwoStores.solve TwoStores.inputs
      TwoStores.target_stores TwoStores.limits Sample.frame
      Sample.temperature_50 Sample.source_a
    = Ok (success final tot comb obj n2 n3, self, g') ∧
    NoDup TwoStores.target_stores ∧
    (∀ k v, allocation_after_step2 self !! k = Some v → v = 1).
Proof.
  destruct (success_run (optimize_three_step TwoStores.solve TwoStores.inputs
              TwoStores.target_stores TwoStores.limits Sample.frame
              Sample.temperature_50 Sample.source_a))
    as (final & tot & comb & obj & n2 & n3 & self & g' & Hrun).
  { vm_compute. exact I. }
  exists final, tot, comb, obj, n2, n3, self, g'.
  split; [exact Hrun|]. split; [exact (proj1 two_stores_NoDup)|].
  exact (proj1 (step2_single_units _ _ _ _ _ _ _ _ _ _ _ _ _ _ _
                  (proj1 two_stores_NoDup) Hrun)).
Defined.

Lemma step2_serves_every_store_witness :
  ∃ final tot comb obj n2 n3 self g',
    optimize_three_step TwoStores.solve TwoStores.inputs
      TwoStores.target_stores TwoStores.limits Sample.frame
      Sample.temperature_50 Sample.source_a
    = Ok (success final tot comb obj n2 n3, self, g') ∧
    NoDup TwoStores.target_stores ∧
    ∀ i, i ∈ d_SKUs TwoStores.inputs →
      served_once (d_A TwoStores.inputs) TwoStores.target_stores
        TwoStores.limits (allocation_after_step2 self) i.
Proof.
  destruct (success_run (optimize_three_step TwoStores.solve TwoStores.inputs
              TwoStores.target_stores TwoStores.limits Sample.frame
              Sample.temperature_50 Sample.source_a))
    as (final & tot & comb & obj & n2 & n3 & self & g' & Hrun).
  { vm_compute. exact I. }
  exists final, tot, comb, obj, n2, n3, self, g'.
  split; [exact Hrun|]. split; [exact (proj1 two_stores_NoDup)|].
  exact (step2_serves_every_store _ _ _ _ _ _ _ _ _ _ _ _ _ _ _
           (proj1 two_stores_NoDup) Hrun).
Defined.

Lemma step3_serves_to_limit_witness :
  ∃ final tot comb obj n2 n3 self g',
    optimize_three_step TwoStores.solve TwoStores.inputs
      TwoStores.target_stores TwoStores.limits Sample.frame
      Sample.temperature_50 Sample.source_a
    = Ok (success final tot comb obj n2 n3, self, g') ∧
    NoDup TwoStores.target_stores ∧
    ∀ i, i ∈ d_SKUs TwoStores.inputs →
      served_to_limit (d_A TwoStores.inputs) TwoStores.target_stores
        TwoStores.limits final i.
Proof.
  destruct (success_run (optimize_three_step TwoStores.solve TwoStores.inputs
              TwoStores.target_stores TwoStores.limits Sample.frame
              Sample.temperature_50 Sample.source_a))
    as (final & tot & comb & obj & n2 & n3 & self & g' & Hrun).
  { vm_compute. exact I. }
  exists final, tot, comb, obj, n2, n3, self, g'.
  split; [exact Hrun|]. split; [exact (proj1 two_stores_NoDup)|].
  exact (step3_serves_to_limit _ _ _ _ _ _ _ _ _ _ _ _ _ _ _
           (proj1 two_stores_NoDup) Hrun).
Defined.

Lemma priority_order_witness :
  ∃ final tot comb obj n2 n3 self g',
    optimize_three_step TwoStores.solve TwoStores.inputs
      TwoStores.target_stores TwoStores.limits Sample.frame
      Sample.temperature_50 Sample.source_a
    = Ok (success final tot comb obj n2 n3, self, g') ∧
    NoDup TwoStores.target_stores ∧ NoDup (d_SKUs TwoStores.inputs) ∧
    ∃ w2 g2 w3,
      _calculate_store_priorities TwoStores.target_stores
        (d_QSUM TwoStores.inputs) (Qc_of_frac 1 2) Sample.source_a
      = Ok (w2, g2) ∧
      _calculate_store_priorities TwoStores.target_stores
        (d_QSUM TwoStores.inputs) (Qc_of_frac 1 2) g2 = Ok (w3, g') ∧
      ∀ i j j', j ∈ TwoStores.target_stores →
        (dict_get w3 j' 0 < dict_get w3 j 0)%Qc →
        dict_get (allocation_after_step2 self) (i, j') 0
        < dict_get final (i, j') 0 →
        dict_get TwoStores.limits j 0 ≤ dict_get final (i, j) 0.
Proof.
  destruct (success_run (optimize_three_step TwoStores.solve TwoStores.inputs
              TwoStores.target_stores TwoStores.limits Sample.frame
              Sample.temperature_50 Sample.source_a))
    as (final & tot & comb & obj & n2 & n3 & self & g' & Hrun).
  { vm_compute. exact I. }
  exists final, tot, comb, obj, n2, n3, self, g'.
  split; [exact Hrun|]. split; [exact (proj1 two_stores_NoDup)|].
  split; [exact (proj2 two_stores_NoDup)|].
  destruct (priority_order _ _ _ _ _ _ _ _ _ _ _ _ _ _ _
              (proj1 two_stores_NoDup) (proj2 two_stores_NoDup) Hrun)
    as (w2 & g2 & w3 & Hw2 & Hw3 & Horder).
  exists w2, g2, w3. split; [exact Hw2|]. split; [exact Hw3|].
  intros i j j' Hj. exact (proj1 (Horder i j j' Hj)).
Defined.

Lemma volume_order_at_zero_witness :
  ∃ final tot comb obj n2 n3 self g',
    optimize_three_step TwoStores.solve TwoStores.inputs
      TwoStores.target_stores TwoStores.limits Sample.frame
      Sample.deterministic Sample.source_a
    = Ok (success final tot comb obj n2 n3, self, g') ∧
    NoDup TwoStores.target_stores ∧ NoDup (d_SKUs TwoStores.inputs) ∧
    listed_before TwoStores.target_stores "s1" "s2" ∧
    d_QSUM TwoStores.inputs !! "s1" = Some (Qc_of_Z 100) ∧
    d_QSUM TwoStores.inputs !! "s2" = Some (Qc_of_Z 50) ∧
    ∀ i,
      dict_get (allocation_after_step2 self) (i, "s2") 0
      < dict_get final (i, "s2") 0 →
      dict_get TwoStores.limits "s1" 0 ≤ dict_get final (i, "s1") 0.
Proof.
  destruct (success_run (optimize_three_step TwoStores.solve TwoStores.inputs
              TwoStores.target_stores TwoStores.limits Sample.frame
              Sample.deterministic Sample.source_a))
    as (final & tot & comb & obj & n2 & n3 & self & g' & Hrun).
  { vm_compute. exact I. }
  assert (listed_before TwoStores.target_stores "s1" "s2") as Hb.
  { exists [], ["s2"]. split; [reflexivity | apply list_elem_of_here]. }
  exists final, tot, comb, obj, n2, n3, self, g'.
  split; [exact Hrun|]. split; [exact (proj1 two_stores_NoDup)|].
  split; [exact (proj2 two_stores_NoDup)|]. split; [exact Hb|].
  split; [reflexivity|]. split; [reflexivity|].
  intros i.
  refine (proj1 (volume_order_at_zero TwoStores.solve TwoStores.inputs
                   TwoStores.target_stores TwoStores.limits Sample.frame
                   Sample.deterministic Sample.source_a _ _ _ _ _ _ _ _ eq_refl
                   (proj1 two_stores_NoDup) (proj2 two_stores_NoDup) Hrun
                   i "s1" "s2" (Qc_of_Z 100) (Qc_of_Z 50) Hb eq_refl eq_refl _)).
  by vm_compute.
Defined.

(** ** What the coverage variables of Step 1 count *)

Section GroupFacts.
Context {SKU Color Size : Type}.
Context `{Countable SKU} `{EqDecision Color} `{EqDecision Size}.
Context {K : Type} `{EqDecision K}.
Implicit Types (df : list (@sku_row SKU Color Size)).
Implicit Types (groups : list (K * list SKU)).

Lemma group_append_keys (k : K) (sku : SKU) groups :
  (group_append k sku groups).*1
  = if decide (k ∈ groups.*1) then groups.*1 else groups.*1 ++ [k].
Proof.
  induction groups as [|g groups IH]; cbn [group_append].
  { by rewrite decide_False by apply not_elem_of_nil. }
  destruct (decide (g.1 = k)) as [<-|Hne].
  - rewrite decide_True by (rewrite fmap_cons; apply list_elem_of_here).
    by rewrite !fmap_cons.
  - rewrite !fmap_cons, IH. destruct (decide (k ∈ groups.*1)) as [Hin|Hout].
    + rewrite decide_True by (by right). done.
    + rewrite decide_False; [done|].
      intros [?|?]%elem_of_cons; [by apply Hne | done].
Qed.

Lemma group_append_NoDup (k : K) (sku : SKU) groups :
  NoDup groups.*1 → NoDup (group_append k sku groups).*1.
Proof.
  intros Hnd. rewrite group_append_keys.
  destruct (decide (k ∈ groups.*1)) as [|Hout]; [done|].
  apply NoDup_app. split_and!; [done | | apply NoDup_singleton].
  intros x Hx ->%list_elem_of_singleton. done.
Qed.

Lemma group_append_elem (k : K) (sku : SKU) groups k' sku' :
  (∃ l, (k', l) ∈ group_append k sku groups ∧ sku' ∈ l) ↔
  (∃ l, (k', l) ∈ groups ∧ sku' ∈ l) ∨ (k' = k ∧ sku' = sku).
Proof.
  induction groups as [|[k0 l0] groups IH]; cbn [group_append].
  { split.
    - intros (l & Hl%list_elem_of_singleton & Hs). injection Hl as -> ->.
      apply list_elem_of_singleton in Hs. by right.
    - intros [(l & Hl & _)|[-> ->]]; [by apply not_elem_of_nil in Hl|].
      exists [sku]. split; apply list_elem_of_here. }
  cbn [fst snd]. destruct (decide (k0 = k)) as [->|Hne].
  - split.
    + intros (l & [Heq|Hl]%elem_of_cons & Hs).
      * injection Heq as -> ->. apply elem_of_app in Hs as [Hs|Hs].
        -- left. exists l0. split; [by left | done].
        -- apply list_elem_of_singleton in Hs. by right.
      * left. exists l. split; [by right | done].
    + intros [(l & [Heq|Hl]%elem_of_cons & Hs)|[-> ->]].
      * injection Heq as -> ->. exists (l0 ++ [sku]).
        split; [by left | apply elem_of_app; by left].
      * exists l. split; [by right | done].
      * exists (l0 ++ [sku]). split; [by left|].
        apply elem_of_app. right. apply list_elem_of_here.
  - split.
    + intros (l & [Heq|Hl]%elem_of_cons & Hs).
      * injection Heq as -> ->. left. exists l0. split; [by left | done].
      * destruct (proj1 IH (ex_intro _ l (conj Hl Hs)))
          as [(l' & Hl' & Hs')|?]; [|by right].
        left. exists l'. split; [by right | done].
    + intros [(l & [Heq|Hl]%elem_of_cons & Hs)|Hnew].
      * injection Heq as -> ->. exists l0. split; [by left | done].
      * destruct (proj2 IH (or_introl (ex_intro _ l (conj Hl Hs))))
          as (l' & Hl' & Hs').
        exists l'. split; [by right | done].
      * destruct (proj2 IH (or_intror Hnew)) as (l' & Hl' & Hs').
        exists l'. split; [by right | done].
Qed.

Lemma sku_groups_NoDup df (col : sku_row → K) (SKUs : list SKU) groups :
  NoDup groups.*1 → NoDup (sku_groups df col SKUs groups).*1.
Proof.
  revert groups. induction SKUs as [|sku SKUs IH]; intros groups Hnd;
    cbn [sku_groups]; [done|].
  destruct (loc_iloc0 df sku col); [|by apply IH].
  by apply IH, group_append_NoDup.
Qed.

(** The groups hold, under each key, the SKUs of the list whose row has
    that key. *)
Lemma sku_groups_elem df (col : sku_row → K) (SKUs : list SKU) groups k sku :
  (∃ l, (k, l) ∈ sku_groups df col SKUs groups ∧ sku ∈ l) ↔
  (∃ l, (k, l) ∈ groups ∧ sku ∈ l) ∨
  (sku ∈ SKUs ∧ loc_iloc0 df sku col = Ok k).
Proof.
  revert groups. induction SKUs as [|s SKUs IH]; intros groups;
    cbn [sku_groups].
  { split; [by left|]. intros [?|[Hs _]]; [done|].
    by apply not_elem_of_nil in Hs. }
  destruct (loc_iloc0 df s col) as [k0|e] eqn:Hk0.
  - rewrite IH, group_append_elem, elem_of_cons. split.
    + intros [[?|[-> ->]]|[? ?]]; [by left | right | right]; split; auto.
    + intros [?|[[->|?] Hk]]; [left; by left | | right; by split].
      left. right. split; congruence.
  - rewrite IH, elem_of_cons. split.
    + intros [?|[? ?]]; [by left | right; split; auto].
    + intros [?|[[->|?] Hk]]; [by left | congruence | right; by split].
Qed.

End GroupFacts.

Section LinkFacts.
Context {SKU Store Color Size : Type}.
Context `{Countable SKU} `{Countable Store}.
Context `{EqDecision Color} `{EqDecision Size}.
Implicit Types (val : lpvar SKU Store Color Size → Z).
Implicit Types (ts stores : list Store).

Lemma eval_scaled val (c : Z) (v : lpvar SKU Store Color Size) :
  eval val (scaled c v) = c * val v.
Proof. unfold eval, scaled. cbn. lia. Qed.

Lemma group_vars ts (j : Store) (l : list SKU) :
  j ∈ ts →
  omap (λ sku, as_var (_create_binary_variables ts sku j
                       : entry SKU Store Color Size)) l
  = (λ sku, b_ sku j) <$> l.
Proof.
  intros Hj. induction l as [|sku l IH]; [done|].
  cbn [omap list_omap]. unfold _create_binary_variables at 1.
  rewrite decide_True by done. cbn. by rewrite <- IH.
Qed.

Lemma sum_list_Z_exists {X} (f : X → Z) (l : list X) :
  (∀ x, x ∈ l → 0 ≤ f x) → 1 ≤ sum_list_Z (f <$> l) →
  ∃ x, x ∈ l ∧ 1 ≤ f x.
Proof.
  induction l as [|x l IH]; intros Hpos Hsum.
  { cbn in Hsum. lia. }
  rewrite fmap_cons, sum_list_Z_cons in Hsum.
  destruct (decide (1 ≤ f x)) as [Hx|Hx]; [exists x; split; [by left | done]|].
  destruct IH as (y & Hy & Hfy).
  - intros y Hy. apply Hpos. by right.
  - specialize (Hpos x (list_elem_of_here _ _)). lia.
  - exists y. split; [by right | done].
Qed.

Lemma sum_list_Z_elem_le {X} (f : X → Z) (l : list X) x :
  (∀ y, y ∈ l → 0 ≤ f y) → x ∈ l → f x ≤ sum_list_Z (f <$> l).
Proof.
  induction l as [|y l IH]; intros Hpos Hx.
  { by apply not_elem_of_nil in Hx. }
  rewrite fmap_cons, sum_list_Z_cons.
  assert (0 ≤ sum_list_Z (f <$> l)) as Hrest.
  { clear -Hpos. induction l as [|z l IH]; [done|].
    rewrite fmap_cons, sum_list_Z_cons.
    assert (0 ≤ f z) by (apply Hpos; right; by left).
    assert (0 ≤ sum_list_Z (f <$> l)); [|lia].
    apply IH. intros y' [->|Hy']%elem_of_cons; apply Hpos;
      [by left | right; by right]. }
  apply elem_of_cons in Hx as [->|Hx]; [lia|].
  assert (f x ≤ sum_list_Z (f <$> l)).
  { apply IH; [|done]. intros y' Hy'. apply Hpos. by right. }
  specialize (Hpos y (list_elem_of_here _ _)). lia.
Qed.

(** A sum of numbers that are 0 or 1 counts the ones. *)
Lemma sum_list_Z_count {X} (f : X → Z) (l : list X) :
  (∀ x, x ∈ l → f x = 0 ∨ f x = 1) →
  sum_list_Z (f <$> l) = Z.of_nat (length (filter (λ x, f x = 1) l)).
Proof.
  induction l as [|x l IH]; intros Hbin; [done|].
  rewrite fmap_cons, sum_list_Z_cons, filter_cons, IH
    by (intros y Hy; apply Hbin; by right).
  destruct (Hbin x (list_elem_of_here _ _)) as [Hx|Hx]; rewrite Hx.
  - rewrite decide_False by done. lia.
  - rewrite decide_True by done. cbn [length]. lia.
Qed.

(** The two linking constraints make the indicator of a group 1 exactly
    when some SKU of the group is assigned. *)
Lemma group_constraints_link {K} val ts (j : Store)
    (bin : K → Store → lpvar SKU Store Color Size)
    (groups : list (K * list SKU)) g :
  j ∈ ts → g ∈ groups →
  Forall (holds val)
    (group_constraints (_create_binary_variables ts) bin j groups) →
  (∀ sku, sku ∈ g.2 → 0 ≤ val (b_ sku j) ≤ 1) →
  0 ≤ val (bin g.1 j) ≤ 1 →
  (val (bin g.1 j) = 1 ↔ ∃ sku, sku ∈ g.2 ∧ val (b_ sku j) = 1).
Proof.
  intros Hj Hg Hcons Hb Hbin. rewrite Forall_forall in Hcons.
  assert (∀ c, c ∈ [ {| lhs := lpSum ((λ sku, b_ sku j) <$> g.2); rel := GE;
                        rhs := scaled 1 (bin g.1 j) |};
                     {| lhs := lpSum ((λ sku, b_ sku j) <$> g.2); rel := LE;
                        rhs := scaled (Z.of_nat (length g.2)) (bin g.1 j) |} ]
               → holds val c) as Hboth.
  { intros c Hc. apply Hcons. unfold group_constraints.
    apply list_elem_of_bind. exists g. split; [|done].
    by rewrite group_vars. }
  pose proof (Hboth _ (list_elem_of_here _ _)) as Hge.
  pose proof (Hboth _ (list_elem_of_further _ _ _ (list_elem_of_here _ _)))
    as Hle.
  unfold holds in Hge, Hle. cbn [rel lhs rhs] in Hge, Hle.
  rewrite eval_lpSum, eval_scaled, <- list_fmap_compose in Hge, Hle.
  split.
  - intros Hone.
    destruct (sum_list_Z_exists (val ∘ (λ sku, b_ sku j)) g.2)
      as (sku & Hsku & Hval).
    + intros sku Hsku. cbn. by apply Hb.
    + lia.
    + exists sku. split; [done|]. cbn in Hval. specialize (Hb sku Hsku). lia.
  - intros (sku & Hsku & Hval).
    pose proof (sum_list_Z_elem_le (val ∘ (λ sku, b_ sku j)) g.2 sku) as Helem.
    cbn in Helem. rewrite Hval in Helem.
    assert (1 ≤ sum_list_Z (val ∘ (λ sku, b_ sku j) <$> g.2)) as Hsum.
    { apply Helem; [|done]. intros y Hy. by apply Hb. }
    destruct (decide (val (bin g.1 j) = 0)) as [Hz|]; [|lia].
    rewrite Hz in Hle. lia.
Qed.

End LinkFacts.

Section CoverageCounts.
Context {SKU Store Color Size : Type}.
Context `{Countable SKU} `{Countable Store}.
Context `{EqDecision Color} `{EqDecision Size}.
Implicit Types (val : lpvar SKU Store Color Size → Z).
Implicit Types (ts stores : list Store).
Implicit Types (df : list (@sku_row SKU Color Size)).

Lemma group_append_nonempty {K} `{EqDecision K} (k : K) (sku : SKU)
    (groups : list (K * list SKU)) :
  (∀ g, g ∈ groups → g.2 ≠ []) →
  ∀ g, g ∈ group_append k sku groups → g.2 ≠ [].
Proof.
  induction groups as [|g0 groups IH]; intros Hne; cbn [group_append].
  { intros g ->%list_elem_of_singleton. done. }
  destruct (decide (g0.1 = k)).
  - intros g [->|Hg]%elem_of_cons; [by destruct g0.2|].
    apply Hne. by right.
  - intros g [->|Hg]%elem_of_cons; [apply Hne; by left|].
    apply IH; [|done]. intros g' Hg'. apply Hne. by right.
Qed.

Lemma sku_groups_nonempty {K} `{EqDecision K} df (col : sku_row → K)
    (SKUs : list SKU) (groups : list (K * list SKU)) :
  (∀ g, g ∈ groups → g.2 ≠ []) →
  ∀ g, g ∈ sku_groups df col SKUs groups → g.2 ≠ [].
Proof.
  revert groups. induction SKUs as [|s SKUs IH]; intros groups Hne;
    cbn [sku_groups]; [done|].
  destruct (loc_iloc0 df s col) as [k0|e]; [|by apply IH].
  by apply IH, group_append_nonempty.
Qed.

Lemma NoDup_fst_unique {K V} (l : list (K * V)) k v1 v2 :
  NoDup l.*1 → (k, v1) ∈ l → (k, v2) ∈ l → v1 = v2.
Proof.
  induction l as [|[k0 v0] l IH]; intros Hnd H1 H2.
  { by apply not_elem_of_nil in H1. }
  rewrite fmap_cons in Hnd. apply NoDup_cons in Hnd as [Hk0 Hnd].
  assert (∀ v, (k0, v) ∈ l → False) as Hfresh.
  { intros v Hv. apply Hk0. apply list_elem_of_fmap. by exists (k0, v). }
  apply elem_of_cons in H1 as [Heq1|H1], H2 as [Heq2|H2].
  - congruence.
  - injection Heq1 as -> ->. by destruct (Hfresh v2).
  - injection Heq2 as -> ->. by destruct (Hfresh v1).
  - by apply IH.
Qed.

(** The groups of a frame column, their indicators and the variable
    that sums them, in a valuation that satisfies the constraints. *)
Lemma coverage_link {K} `{EqDecision K} val ts (j : Store) df
    (col : sku_row → K) (bin : K → Store → lpvar SKU Store Color Size)
    (cov : lpvar SKU Store Color Size) (SKUs : list SKU) :
  j ∈ ts →
  Forall (holds val)
    (group_constraints (_create_binary_variables ts) bin j
       (sku_groups df col SKUs [])) →
  holds val {| lhs := scaled 1 cov; rel := EQ;
               rhs := lpSum ((λ g, bin g.1 j) <$> sku_groups df col SKUs []) |} →
  (∀ sku, sku ∈ SKUs → 0 ≤ val (b_ sku j) ≤ 1) →
  (∀ g, g ∈ sku_groups df col SKUs [] → 0 ≤ val (bin g.1 j) ≤ 1) →
  NoDup (sku_groups df col SKUs []).*1 ∧
  (∀ k, k ∈ (sku_groups df col SKUs []).*1 ↔
        ∃ sku, sku ∈ SKUs ∧ loc_iloc0 df sku col = Ok k) ∧
  (∀ k, k ∈ (sku_groups df col SKUs []).*1 →
        (val (bin k j) = 1 ↔
         ∃ sku, sku ∈ SKUs ∧ loc_iloc0 df sku col = Ok k ∧
                val (b_ sku j) = 1)) ∧
  val cov = Z.of_nat (length (filter (λ k, val (bin k j) = 1)
                                (sku_groups df col SKUs []).*1)).
Proof.
  set (groups := sku_groups df col SKUs []).
  intros Hj Hcons Heq Hb Hbin.
  assert (NoDup groups.*1) as Hnd by (apply sku_groups_NoDup; constructor).
  assert (∀ k sku, (∃ l, (k, l) ∈ groups ∧ sku ∈ l) ↔
                   sku ∈ SKUs ∧ loc_iloc0 df sku col = Ok k) as Helem.
  { intros k sku. unfold groups. rewrite sku_groups_elem. split.
    - intros [(l & Hl & _)|?]; [by apply not_elem_of_nil in Hl | done].
    - by right. }
  assert (∀ g, g ∈ groups → g.2 ≠ []) as Hne.
  { apply sku_groups_nonempty. intros g Hg. by apply not_elem_of_nil in Hg. }
  assert (∀ g sku, g ∈ groups →
            sku ∈ g.2 ↔ sku ∈ SKUs ∧ loc_iloc0 df sku col = Ok g.1) as Hmem.
  { intros [k l] sku Hg. cbn. rewrite <- Helem. split.
    - intros Hs. by exists l.
    - intros (l' & Hl' & Hs). by rewrite (NoDup_fst_unique _ _ _ _ Hnd Hg Hl'). }
  split_and!; [done | | |].
  - intros k. split.
    + intros ([k' l] & -> & Hg)%list_elem_of_fmap. cbn.
      destruct l as [|sku l]; [by destruct (Hne _ Hg)|].
      exists sku. apply (Hmem (k', sku :: l) sku Hg). by left.
    + intros (sku & Hsku). apply Helem in Hsku as (l & Hl & _).
      apply list_elem_of_fmap. by exists (k, l).
  - intros k ([k' l] & -> & Hg)%list_elem_of_fmap. cbn [fst].
    rewrite (group_constraints_link val ts j bin groups (k', l) Hj Hg Hcons).
    + cbn [fst snd]. split.
      * intros (sku & Hsku & Hval). exists sku.
        apply (Hmem (k', l) sku Hg) in Hsku. tauto.
      * intros (sku & Hsku & Hk & Hval). exists sku. split; [|done].
        by apply (Hmem (k', l) sku Hg).
    + intros sku Hsku. apply Hb. by apply (Hmem (k', l) sku Hg) in Hsku as [? _].
    + by apply (Hbin (k', l)).
  - unfold holds in Heq. cbn [rel lhs rhs] in Heq.
    rewrite eval_scaled, eval_lpSum, <- list_fmap_compose in Heq.
    rewrite Z.mul_1_l in Heq. rewrite Heq.
    rewrite <- (sum_list_Z_count (λ k, val (bin k j))).
    + by rewrite <- list_fmap_compose.
    + intros k ([k' l] & -> & Hg)%list_elem_of_fmap. cbn.
      specialize (Hbin _ Hg). cbn in Hbin. lia.
Qed.

Lemma step1_problem_parts (d : data SKU Store Color Size) ts
    (limits : gmap Store Z) df P (j : Store) :
  step1_problem d ts limits df = Ok P → j ∈ d_stores d → j ∈ ts →
  (∀ c, c ∈ store_coverage_constraints (_create_binary_variables ts)
              (_create_coverage_variables ts (d_K_s d) (d_L_s d)).1
              (_create_coverage_variables ts (d_K_s d) (d_L_s d)).2
              (sku_groups df COLOR_CD (d_SKUs d) [])
              (sku_groups df SIZE_CD (d_SKUs d) []) j →
        c ∈ constraints P) ∧
  (∀ v, v ∈ ((λ g, binary (color_bin_ g.1 j))
               <$> sku_groups df COLOR_CD (d_SKUs d) [])
            ++ ((λ g, binary (size_bin_ g.1 j))
                  <$> sku_groups df SIZE_CD (d_SKUs d) []) →
        v ∈ variables P) ∧
  (∀ sku, sku ∈ d_SKUs d → binary (b_ sku j) ∈ variables P).
Proof.
  unfold step1_problem, _add_step1_constraints. cbn.
  destruct (supply_constraints _ (d_A d) (d_SKUs d) (d_stores d))
    as [cs|]; [|done].
  cbn. intros HP Hj Hts. injection HP as <-. cbn [constraints variables].
  split_and!.
  - intros c Hc. apply elem_of_app. right.
    unfold _add_coverage_constraints_step1. apply list_elem_of_bind.
    exists j. split; [|done]. by rewrite decide_True.
  - intros v Hv. rewrite !elem_of_app. do 3 right.
    unfold coverage_binaries. apply list_elem_of_bind.
    exists j. split; [|done]. by rewrite decide_True.
  - intros sku Hsku. apply elem_of_app. left. by apply b_variable_created.
Qed.

(** X18.  What the coverage variables of Step 1 count.  In any valuation
    that satisfies the problem Step 1 builds, at every target store [j]
    of the store list: the colour indicator of a colour is 1 exactly when
    some SKU of the run with that colour in the frame is assigned to
    [j]; the colour coverage variable of [j] is the number of colours
    whose indicator is 1; and the same holds for sizes.  The colours
    (sizes) that have an indicator are those of the SKUs of the run that
    have a row in the frame, each once. *)
Theorem step1_coverage_counts (d : data SKU Store Color Size) ts
    (limits : gmap Store Z) df P val (j : Store) :
  step1_problem d ts limits df = Ok P → feasible P val →
  j ∈ d_stores d → j ∈ ts →
  let colors := (sku_groups df COLOR_CD (d_SKUs d) []).*1 in
  let sizes := (sku_groups df SIZE_CD (d_SKUs d) []).*1 in
  (NoDup colors ∧
   (∀ c, c ∈ colors ↔
         ∃ sku, sku ∈ d_SKUs d ∧ loc_iloc0 df sku COLOR_CD = Ok c) ∧
   (∀ c, c ∈ colors →
         (val (color_bin_ c j) = 1 ↔
          ∃ sku, sku ∈ d_SKUs d ∧ loc_iloc0 df sku COLOR_CD = Ok c ∧
                 val (b_ sku j) = 1)) ∧
   val (color_coverage_ j)
   = Z.of_nat (length (filter (λ c, val (color_bin_ c j) = 1) colors))) ∧
  (NoDup sizes ∧
   (∀ z, z ∈ sizes ↔
         ∃ sku, sku ∈ d_SKUs d ∧ loc_iloc0 df sku SIZE_CD = Ok z) ∧
   (∀ z, z ∈ sizes →
         (val (size_bin_ z j) = 1 ↔
          ∃ sku, sku ∈ d_SKUs d ∧ loc_iloc0 df sku SIZE_CD = Ok z ∧
                 val (b_ sku j) = 1)) ∧
   val (size_coverage_ j)
   = Z.of_nat (length (filter (λ z, val (size_bin_ z j) = 1) sizes))).
Proof.
  intros HP [Hbounds Hcons] Hj Hts colors sizes.
  destruct (step1_problem_parts d ts limits df P j HP Hj Hts)
    as (Hcs & Hbins & Hbs).
  rewrite Forall_forall in Hbounds. rewrite Forall_forall in Hcons.
  assert (∀ sku, sku ∈ d_SKUs d → 0 ≤ val (b_ sku j) ≤ 1) as Hb.
  { intros sku Hsku. specialize (Hbounds _ (Hbs sku Hsku)).
    unfold in_bounds in Hbounds. cbn in Hbounds. lia. }
  unfold store_coverage_constraints, _create_coverage_variables in Hcs.
  cbn [fst snd] in Hcs. rewrite !decide_True in Hcs by done.
  cbn [name integer] in Hcs.
  split.
  - apply (coverage_link val ts j df COLOR_CD color_bin_ (color_coverage_ j)
             (d_SKUs d) Hts); [| |done|].
    + apply Forall_forall. intros c Hc. apply Hcons, Hcs.
      apply elem_of_app. by left.
    + apply Hcons, Hcs. apply elem_of_app. right. apply elem_of_app. left.
      apply list_elem_of_here.
    + intros g Hg.
      assert (in_bounds val (binary (color_bin_ g.1 j))) as Hin.
      { apply Hbounds, Hbins. apply elem_of_app. left.
        apply list_elem_of_fmap. by exists g. }
      unfold in_bounds in Hin. cbn in Hin. lia.
  - apply (coverage_link val ts j df SIZE_CD size_bin_ (size_coverage_ j)
             (d_SKUs d) Hts); [| |done|].
    + apply Forall_forall. intros c Hc. apply Hcons, Hcs.
      apply elem_of_app. right. apply elem_of_app. right.
      apply elem_of_app. by left.
    + apply Hcons, Hcs. apply elem_of_app. right. apply elem_of_app. right.
      apply elem_of_app. right. apply list_elem_of_here.
    + intros g Hg.
      assert (in_bounds val (binary (size_bin_ g.1 j))) as Hin.
      { apply Hbounds, Hbins. apply elem_of_app. right.
        apply list_elem_of_fmap. by exists g. }
      unfold in_bounds in Hin. cbn in Hin. lia.
Qed.

End CoverageCounts.

Lemma step1_coverage_counts_witness :
  ∃ P, step1_problem TwoStores.inputs TwoStores.target_stores TwoStores.limits
         Sample.frame = Ok P ∧
       feasible P TwoStores.first_store_only ∧
       "s2" ∈ d_stores TwoStores.inputs ∧ "s2" ∈ TwoStores.target_stores ∧
       TwoStores.first_store_only (color_coverage_ "s2")
       = Z.of_nat (length (filter
           (λ c, TwoStores.first_store_only (color_bin_ c "s2") = 1)
           (sku_groups Sample.frame COLOR_CD (d_SKUs TwoStores.inputs) []).*1)).
Proof.
  destruct (step1_problem TwoStores.inputs TwoStores.target_stores
              TwoStores.limits Sample.frame) as [P|e] eqn:HP.
  2: { exfalso. vm_compute in HP. discriminate HP. }
  exists P.
  assert (feasible P TwoStores.first_store_only) as Hfeas
    by exact (two_stores_feasible P HP).
  assert ("s2" ∈ d_stores TwoStores.inputs) as Hj
    by (apply list_elem_of_further, list_elem_of_here).
  assert ("s2" ∈ TwoStores.target_stores) as Hts
    by (apply list_elem_of_further, list_elem_of_here).
  split_and!; [reflexivity | exact Hfeas | exact Hj | exact Hts |].
  exact (proj2 (proj2 (proj2 (proj1
           (step1_coverage_counts TwoStores.inputs TwoStores.target_stores
              TwoStores.limits Sample.frame P TwoStores.first_store_only "s2"
              HP Hfeas Hj Hts))))).
Defined.

(** ** The numbers a run reports *)

Section ReportFacts.
Context {SKU Store Color Size : Type}.
Context `{Countable SKU} `{Countable Store}.
Context `{EqDecision Color} `{EqDecision Size}.
Implicit Types (a : gmap (SKU * Store) Z) (limits : gmap Store Z).
Implicit Types (A : gmap SKU Z) (ts : list Store) (SKUs : list SKU).

Lemma positive_entries_ones a :
  (∀ k v, a !! k = Some v → v = 1) →
  positive_entries a = total_allocated_of a.
Proof.
  unfold positive_entries, total_allocated_of.
  induction a as [|k v m Hnone IH] using map_ind; intros Hones.
  { by rewrite !map_fold_empty. }
  rewrite !map_fold_insert_L; [ | | done | | done].
  - rewrite IH.
    + rewrite (Hones k v) by apply lookup_insert_eq.
      rewrite decide_True by lia. done.
    + intros k' v' Hk'. apply (Hones k' v').
      rewrite lookup_insert_ne; [done | congruence].
  - intros. lia.
  - intros j1 j2 z1 z2 y _ _ _. repeat destruct (decide _); lia.
Qed.

Lemma mark_from_total (sel : list (SKU * Store)) a0 :
  NoDup sel → (∀ k, k ∈ sel → a0 !! k = None) →
  total_allocated_of (foldl (λ a ij, <[ij := 1]> a) a0 sel)
  = total_allocated_of a0 + Z.of_nat (length sel).
Proof.
  revert a0. induction sel as [|k sel IH]; intros a0 Hnd Hfresh; cbn [foldl].
  { cbn. lia. }
  apply NoDup_cons in Hnd as [Hk Hnd]. rewrite IH; [|done|].
  - rewrite !total_allocated_of_fold, fold_total_insert_fresh
      by (apply Hfresh; by left).
    cbn [length]. lia.
  - intros k' Hk'. rewrite lookup_insert_ne by (intros ->; done).
    apply Hfresh. by right.
Qed.

Lemma mark_all_total (sel : list (SKU * Store)) :
  NoDup sel → total_allocated_of (mark_all sel) = Z.of_nat (length sel).
Proof.
  intros Hnd. unfold mark_all. rewrite mark_from_total; [|done|].
  - rewrite total_allocated_of_fold, fold_total_empty. lia.
  - intros k _. apply lookup_empty.
Qed.

Lemma selected_combinations_NoDup (val : lpvar SKU Store Color Size → Z)
    SKUs (stores ts : list Store) :
  NoDup SKUs → NoDup stores →
  NoDup (selected_combinations val SKUs stores ts).
Proof.
  intros HS Hst. unfold selected_combinations.
  apply NoDup_bind; [| |done].
  - intros i1 i2 [i j] _ _ H1 H2.
    apply list_elem_of_bind in H1 as (j1 & H1 & _).
    apply list_elem_of_bind in H2 as (j2 & H2 & _).
    destruct (decide _); [|by apply not_elem_of_nil in H1].
    destruct (decide _); [|by apply not_elem_of_nil in H2].
    apply list_elem_of_singleton in H1, H2. congruence.
  - intros i _. apply NoDup_bind; [| |done].
    + intros j1 j2 [i' j] _ _ H1 H2.
      destruct (decide _); [|by apply not_elem_of_nil in H1].
      destruct (decide _); [|by apply not_elem_of_nil in H2].
      apply list_elem_of_singleton in H1, H2. congruence.
    + intros j _. destruct (decide _); [apply NoDup_singleton | constructor].
Qed.

(** X19.  The numbers of a successful run add up.  The combinations
    [get_step_analysis] counts are the units of the snapshot after Step
    1; the total the run reports is that count plus the additional units
    of Steps 2 and 3; [get_step_analysis] reports the objective and the
    additional units the run returned; and when no SKU and no store is
    listed twice, the [step1_combinations] of the run is the same
    count. *)
Theorem run_report_adds_up
    (solve : LpProblem SKU Store Color Size → solver_response SKU Store Color Size)
    (d : data SKU Store Color Size) (target_stores : list Store)
    (store_allocation_limits : gmap Store Z)
    (df_sku_filtered : list (@sku_row SKU Color Size))
    (scenario_params : scenario) (g : rng)
    final tot comb obj n2 n3 (self : @ThreeStepOptimizer SKU Store _ _ _ _) g' :
  optimize_three_step solve d target_stores store_allocation_limits
    df_sku_filtered scenario_params g
  = Ok (success final tot comb obj n2 n3, self, g') →
  analysis_combinations (get_step_analysis self)
  = total_allocated_of (step1_allocation self) ∧
  tot = analysis_combinations (get_step_analysis self) + n2 + n3 ∧
  analysis_objective (get_step_analysis self) = obj ∧
  analysis_step2_additional (get_step_analysis self) = n2 ∧
  analysis_step3_additional (get_step_analysis self) = n3 ∧
  (NoDup (d_SKUs d) → NoDup (d_stores d) →
   comb = analysis_combinations (get_step_analysis self)).
Proof.
  intros Hrun.
  destruct (optimize_three_step_success _ _ _ _ _ _ _ _ _ _ _ _ _ _ _ Hrun)
    as (P & HP & Hst & Ha1 & H12 & H23 & Hfinal & _ & Htot).
  apply optimize_three_step_steps in Hrun
    as (r1 & r2 & r3 & g2 & H1 & _ & _ & Hself & _ & _ & Hcomb & Hobj & Hn2 & Hn3).
  assert (positive_entries (step1_allocation self)
          = total_allocated_of (step1_allocation self)) as Hpos.
  { apply positive_entries_ones. rewrite Ha1. intros k v Hk.
    rewrite mark_all_lookup in Hk. destruct (decide _); congruence. }
  cbn [get_step_analysis analysis_combinations analysis_objective
       analysis_step2_additional analysis_step3_additional].
  split_and!.
  - exact Hpos.
  - rewrite Hpos, Htot, Hfinal.
    rewrite (grows_total _ _ _ _ _ _ H23), (grows_total _ _ _ _ _ _ H12). lia.
  - rewrite Hself. cbn. congruence.
  - rewrite Hself. cbn. congruence.
  - rewrite Hself. cbn. congruence.
  - intros HS Hstores. rewrite Hpos, Ha1, mark_all_total
      by (by apply selected_combinations_NoDup).
    rewrite Hcomb. unfold _step1_coverage_optimization in H1.
    rewrite HP in H1. cbn in H1. rewrite decide_True in H1 by done.
    by injection H1 as <-.
Qed.

(** *** Keys and values of the allocation *)

Lemma for_each_invariant_in {X S} (I : S → Prop) (body : X → S → result S)
    (xs : list X) (st st' : S) :
  (∀ x st st', x ∈ xs → I st → body x st = Ok st' → I st') →
  I st → for_each body xs st = Ok st' → I st'.
Proof.
  revert st. induction xs as [|x xs IH]; intros st Hbody Hst Hrun;
    cbn [for_each] in Hrun.
  { by injection Hrun as <-. }
  destruct (body x st) as [st1|] eqn:H1; [|done]. cbn in Hrun.
  eapply IH; [| |done].
  - intros x' s s' Hx'. apply Hbody. by right.
  - eapply Hbody; [by left | done | done].
Qed.

Lemma tops_up_entries i S limits a n a' SKUs :
  tops_up i S limits a n a' → i ∈ SKUs →
  (∀ k v, a !! k = Some v → k.1 ∈ SKUs ∧ k.2 ∈ S ∧ 1 ≤ v) →
  (∀ k v, a' !! k = Some v → k.1 ∈ SKUs ∧ k.2 ∈ S ∧ 1 ≤ v).
Proof.
  induction 1 as [|a j q n a' Hj Hq _ _ IH]; intros Hi Hall; [done|].
  apply IH; [done|]. intros k v Hk.
  destruct (decide (k = (i, j))) as [->|Hne].
  - rewrite lookup_insert_eq in Hk. injection Hk as <-. cbn.
    split_and!; [done | done |]. unfold dict_get.
    destruct (a !! (i, j)) as [w|] eqn:Hw; cbn; [|lia].
    destruct (Hall _ _ Hw) as (_ & _ & ?). lia.
  - rewrite lookup_insert_ne in Hk by done. by apply Hall.
Qed.

Lemma optimize_three_step_entries
    (solve : LpProblem SKU Store Color Size → solver_response SKU Store Color Size)
    (d : data SKU Store Color Size) ts limits
    (df : list (@sku_row SKU Color Size)) sp g
    final tot comb obj n2 n3 (self : @ThreeStepOptimizer SKU Store _ _ _ _) g' :
  optimize_three_step solve d ts limits df sp g
  = Ok (success final tot comb obj n2 n3, self, g') →
  ∀ k v, final !! k = Some v → k.1 ∈ d_SKUs d ∧ k.2 ∈ ts ∧ 1 ≤ v.
Proof.
  intros Hrun.
  apply optimize_three_step_steps in Hrun
    as (r1 & r2 & r3 & g2 & H1 & H2 & H3 & _ & -> & _).
  apply step1_inv in H1 as (P & _ & _ & Ha1).
  apply step2_inv in H2 as (w2 & _ & Hloop2).
  apply step3_inv in H3 as (w3 & _ & Hloop3).
  set (J := λ st : gmap (SKU * Store) Z * Z,
         ∀ k v, st.1 !! k = Some v →
                k.1 ∈ d_SKUs d ∧ k.2 ∈ ts ∧ 1 ≤ v).
  assert (J (s1_allocation r1, 0)) as J1.
  { intros [i j] v. cbn. rewrite Ha1, mark_all_lookup.
    destruct (decide _) as [Hsel|]; [|done]. intros Hv. injection Hv as <-.
    apply selected_combinations_elem in Hsel. split_and!; [tauto | tauto | lia]. }
  assert (J (allocation r2, additional_allocation r2)) as J2.
  { eapply (for_each_invariant_in J); [|exact J1|exact Hloop2].
    intros i [a t] [a' t'] Hi Ha Hbody.
    destruct (step2_sku_grows _ _ _ _ _ _ _ _ _ Hbody) as (n & _ & Hup & _).
    exact (tops_up_entries _ _ _ _ _ _ _ Hup Hi Ha). }
  assert (J (allocation r3, additional_allocation r3)) as J3.
  { eapply (for_each_invariant_in J);
      [|exact (J2 : J (allocation r2, 0))|exact Hloop3].
    intros i [a t] [a' t'] Hi Ha Hbody.
    destruct (step3_sku_grows _ _ _ _ _ _ _ _ _ Hbody) as (n & _ & Hup & _).
    exact (tops_up_entries _ _ _ _ _ _ _ Hup Hi Ha). }
  exact J3.
Qed.

(** X20.  Every entry of the allocation a successful run returns pairs
    an SKU of the run with a target store and holds at least one unit:
    the final allocation has no zero or negative entry and no key
    outside the run, whatever the backend answered; so the stores that
    hold something are target stores. *)
Theorem final_allocation_entries
    (solve : LpProblem SKU Store Color Size → solver_response SKU Store Color Size)
    (d : data SKU Store Color Size) (target_stores : list Store)
    (store_allocation_limits : gmap Store Z)
    (df_sku_filtered : list (@sku_row SKU Color Size))
    (scenario_params : scenario) (g : rng)
    final tot comb obj n2 n3 (self : @ThreeStepOptimizer SKU Store _ _ _ _) g' :
  optimize_three_step solve d target_stores store_allocation_limits
    df_sku_filtered scenario_params g
  = Ok (success final tot comb obj n2 n3, self, g') →
  (∀ i j v, final !! (i, j) = Some v →
     i ∈ d_SKUs d ∧ j ∈ target_stores ∧ 1 ≤ v) ∧
  (∀ i j, i ∉ d_SKUs d ∨ j ∉ target_stores → dict_get final (i, j) 0 = 0).
Proof.
  intros Hrun.
  pose proof (optimize_three_step_entries _ _ _ _ _ _ _ _ _ _ _ _ _ _ _ Hrun)
    as Hent.
  split.
  - intros i j v Hv. exact (Hent (i, j) v Hv).
  - intros i j Hout. unfold dict_get.
    destruct (final !! (i, j)) as [v|] eqn:Hv; [|done].
    destruct (Hent _ _ Hv) as (Hi & Hj & _). cbn in Hi, Hj. tauto.
Qed.

(** *** The total against the supply *)

Lemma sum_list_Z_indicator (x : SKU) (v : Z) (l : list SKU) :
  NoDup l →
  sum_list_Z ((λ i, if bool_decide (x = i) then v else 0) <$> l)
  = if decide (x ∈ l) then v else 0.
Proof.
  induction 1 as [|i l Hi Hnd IH]; [done|].
  rewrite fmap_cons, sum_list_Z_cons, IH.
  destruct (decide (x = i)) as [->|Hne].
  - rewrite bool_decide_eq_true_2 by done.
    rewrite decide_False by done. rewrite decide_True by (by left). lia.
  - rewrite bool_decide_eq_false_2 by done.
    destruct (decide (x ∈ l)) as [Hin|Hout].
    + rewrite decide_True by (by right). lia.
    + rewrite decide_False; [lia|]. intros [?|?]%elem_of_cons; done.
Qed.

Lemma sku_total_insert_fresh a k v (i : SKU) :
  a !! k = None →
  sku_total (<[k := v]> a) i
  = (if bool_decide (k.1 = i) then v else 0) + sku_total a i.
Proof. intros Hnone. unfold sku_total. by rewrite fold_total_insert_fresh. Qed.

(** The total of an allocation is the sum over the SKUs of what each
    holds. *)
Lemma total_by_sku a SKUs :
  NoDup SKUs → (∀ k v, a !! k = Some v → k.1 ∈ SKUs) →
  total_allocated_of a = sum_list_Z ((λ i, sku_total a i) <$> SKUs).
Proof.
  intros Hnd. induction a as [|k v m Hnone IH] using map_ind; intros Hkeys.
  { rewrite total_allocated_of_fold, fold_total_empty.
    clear. induction SKUs as [|i l IHl]; [done|].
    rewrite fmap_cons, sum_list_Z_cons, <- IHl. unfold sku_total.
    by rewrite fold_total_empty. }
  rewrite total_allocated_of_fold, fold_total_insert_fresh by done.
  rewrite <- total_allocated_of_fold, IH.
  2: { intros k' v' Hk'. apply (Hkeys k' v').
       rewrite lookup_insert_ne; [done | congruence]. }
  assert (k.1 ∈ SKUs) as Hk by (apply (Hkeys k v), lookup_insert_eq).
  pose proof (sum_list_Z_indicator k.1 v SKUs Hnd) as Hind.
  rewrite decide_True in Hind by done.
  rewrite <- Hind at 1. clear -Hnone.
  induction SKUs as [|i l IHl]; [done|].
  rewrite !fmap_cons, !sum_list_Z_cons.
  rewrite (sku_total_insert_fresh m k v i Hnone). lia.
Qed.

(** X21.  A run never hands out more than there is: when no SKU is
    listed twice and the backend answers Step 1 with a valuation that
    satisfies the problem, the total quantity of a successful run is at
    most the summed supply of its SKUs, and it is the sum over the SKUs
    of what each holds. *)
Theorem total_within_supply
    (solve : LpProblem SKU Store Color Size → solver_response SKU Store Color Size)
    (d : data SKU Store Color Size) (target_stores : list Store)
    (store_allocation_limits : gmap Store Z)
    (df_sku_filtered : list (@sku_row SKU Color Size))
    (scenario_params : scenario) (g : rng)
    final tot comb obj n2 n3 (self : @ThreeStepOptimizer SKU Store _ _ _ _) g' :
  NoDup (d_SKUs d) →
  (∀ P, step1_problem d target_stores store_allocation_limits df_sku_filtered
        = Ok P → answers_feasibly solve P) →
  optimize_three_step solve d target_stores store_allocation_limits
    df_sku_filtered scenario_params g
  = Ok (success final tot comb obj n2 n3, self, g') →
  tot = sum_list_Z ((λ i, sku_total final i) <$> d_SKUs d) ∧
  0 ≤ tot ≤ supply_of (d_A d) (d_SKUs d).
Proof.
  intros Hnd Hbackend Hrun.
  destruct (optimize_three_step_success _ _ _ _ _ _ _ _ _ _ _ _ _ _ _ Hrun)
    as (P & HP & Hst & Ha1 & H12 & H23 & Hfinal & _ & Htot).
  assert (placed target_stores (step1_allocation self)) as Hpl1.
  { rewrite Ha1. apply mark_all_placed. }
  assert (within_supply (d_A d) (d_SKUs d) final) as Hsup.
  { rewrite Hfinal.
    eapply grows_within_supply; [done | by eapply grows_placed |].
    eapply grows_within_supply; [done | done |].
    rewrite Ha1. eapply step1_within_supply; [done|]. by apply Hbackend. }
  assert (∀ i j v, final !! (i, j) = Some v →
            i ∈ d_SKUs d ∧ j ∈ target_stores ∧ 1 ≤ v) as Hent.
  { intros i j v Hv.
    exact (optimize_three_step_entries _ _ _ _ _ _ _ _ _ _ _ _ _ _ _ Hrun
             (i, j) v Hv). }
  assert (tot = sum_list_Z ((λ i, sku_total final i) <$> d_SKUs d)) as Hsum.
  { rewrite Htot. apply total_by_sku; [done|].
    intros [i j] v Hk. by destruct (Hent i j v Hk). }
  split; [done|]. split.
  - rewrite Htot, total_allocated_of_fold.
    clear -Hent. induction final as [|k v m Hnone IH] using map_ind.
    { by rewrite fold_total_empty. }
    rewrite fold_total_insert_fresh by done.
    assert (1 ≤ v).
    { destruct k as [i j].
      eapply proj2, proj2, (Hent i j v), lookup_insert_eq. }
    assert (0 ≤ fold_total (λ _, true) m); [|lia].
    apply IH. intros i j v' Hv'. apply (Hent i j v').
    rewrite lookup_insert_ne; [done | congruence].
  - rewrite Hsum. unfold supply_of. clear -Hsup.
    induction (d_SKUs d) as [|i l IHl]; [done|].
    rewrite !fmap_cons, !sum_list_Z_cons.
    assert (sum_list_Z ((λ i, sku_total final i) <$> l)
            ≤ sum_list_Z ((λ i, dict_get (d_A d) i 0) <$> l)) as Hrest.
    { apply IHl. intros i' Hi'. apply Hsup. by right. }
    destruct (Hsup i (list_elem_of_here _ _)) as (s & Hs & Hle).
    unfold dict_get at 1. rewrite Hs. cbn. lia.
Qed.

End ReportFacts.

Lemma run_report_adds_up_witness :
  ∃ final tot comb obj n2 n3 self g',
    optimize_three_step TwoStores.solve TwoStores.inputs
      TwoStores.target_stores TwoStores.limits Sample.frame
      Sample.temperature_50 Sample.source_a
    = Ok (success final tot comb obj n2 n3, self, g') ∧
    tot = analysis_combinations (get_step_analysis self) + n2 + n3 ∧
    comb = analysis_combinations (get_step_analysis self).
Proof.
  destruct (success_run (optimize_three_step TwoStores.solve TwoStores.inputs
              TwoStores.target_stores TwoStores.limits Sample.frame
              Sample.temperature_50 Sample.source_a))
    as (final & tot & comb & obj & n2 & n3 & self & g' & Hrun).
  { vm_compute. exact I. }
  exists final, tot, comb, obj, n2, n3, self, g'. split; [exact Hrun|].
  destruct (run_report_adds_up _ _ _ _ _ _ _ _ _ _ _ _ _ _ _ Hrun)
    as (_ & Htot & _ & _ & _ & Hcomb).
  split; [exact Htot|]. apply Hcomb.
  - exact (proj2 two_stores_NoDup).
  - exact (proj1 two_stores_NoDup).
Defined.

Lemma final_allocation_entries_witness :
  ∃ final tot comb obj n2 n3 self g',
    optimize_three_step TwoStores.solve TwoStores.inputs
      TwoStores.target_stores TwoStores.limits Sample.frame
      Sample.temperature_50 Sample.source_a
    = Ok (success final tot comb obj n2 n3, self, g') ∧
    ∀ i j v, final !! (i, j) = Some v →
      i ∈ d_SKUs TwoStores.inputs ∧ j ∈ TwoStores.target_stores ∧ 1 ≤ v.
Proof.
  destruct (success_run (optimize_three_step TwoStores.solve TwoStores.inputs
              TwoStores.target_stores TwoStores.limits Sample.frame
              Sample.temperature_50 Sample.source_a))
    as (final & tot & comb & obj & n2 & n3 & self & g' & Hrun).
  { vm_compute. exact I. }
  exists final, tot, comb, obj, n2, n3, self, g'. split; [exact Hrun|].
  exact (proj1 (final_allocation_entries _ _ _ _ _ _ _ _ _ _ _ _ _ _ _ Hrun)).
Defined.

Lemma total_within_supply_witness :
  ∃ final tot comb obj n2 n3 self g',
    optimize_three_step TwoStores.solve TwoStores.inputs
      TwoStores.target_stores TwoStores.limits Sample.frame
      Sample.temperature_50 Sample.source_a
    = Ok (success final tot comb obj n2 n3, self, g') ∧
    NoDup (d_SKUs TwoStores.inputs) ∧
    0 ≤ tot ≤ supply_of (d_A TwoStores.inputs) (d_SKUs TwoStores.inputs).
Proof.
  destruct (success_run (optimize_three_step TwoStores.solve TwoStores.inputs
              TwoStores.target_stores TwoStores.limits Sample.frame
              Sample.temperature_50 Sample.source_a))
    as (final & tot & comb & obj & n2 & n3 & self & g' & Hrun).
  { vm_compute. exact I. }
  exists final, tot, comb, obj, n2, n3, self, g'. split; [exact Hrun|].
  split; [exact (proj2 two_stores_NoDup)|].
  refine (proj2 (total_within_supply _ _ _ _ _ _ _ _ _ _ _ _ _ _ _
                   (proj2 two_stores_NoDup) _ Hrun)).
  intros P HP _. by apply two_stores_feasible.
Defined.

(** ** The coverage optimizer of logic4_oneStyle, beyond the store limit *)

Section CoverageMore.
Context {SKU Store Color Size : Type}.
Context `{Countable SKU} `{Countable Store}.
Context `{EqDecision Color} `{EqDecision Size}.
Implicit Types (val : lpvar SKU Store Color Size → Z).
Implicit Types (ts stores : list Store) (scarce_skus : list SKU).

Lemma store_limit_constraints_cases
    (b : SKU → Store → entry SKU Store Color Size) scarce_skus stores ts
    (limits : gmap Store Z) :
  match _add_store_limit_constraints b scarce_skus stores ts limits with
  | Ok _ => ∀ j, j ∈ stores → j ∈ ts → is_Some (limits !! j)
  | Raise e => e = KeyError ∧ ∃ j, j ∈ stores ∧ j ∈ ts ∧ limits !! j = None
  end.
Proof.
  induction stores as [|j stores IH]; cbn [_add_store_limit_constraints].
  { intros j Hj. by apply not_elem_of_nil in Hj. }
  destruct (decide (j ∈ ts)) as [Hts|Hts].
  - unfold getitem. destruct (limits !! j) as [cap|] eqn:Hcap; cbn.
    + destruct (_add_store_limit_constraints b scarce_skus stores ts limits)
        as [cs|e]; cbn.
      * intros j' [->|Hj']%elem_of_cons ?; [by eexists | by apply IH].
      * destruct IH as (-> & j' & Hj' & Hts' & Hnone). split; [done|].
        exists j'. split_and!; [by right | done | done].
    + split; [done|]. exists j. split_and!; [by left | done | done].
  - destruct (_add_store_limit_constraints b scarce_skus stores ts limits)
      as [cs|e].
    + intros j' [->|Hj']%elem_of_cons ?; [done | by apply IH].
    + destruct IH as (-> & j' & Hj' & Hts' & Hnone). split; [done|].
      exists j'. split_and!; [by right | done | done].
Qed.

(** X22.  What [optimize_coverage] returns or raises, by its inputs.  It
    raises nothing but [KeyError]: when a scarce SKU has no supply entry
    or, otherwise, when a target store of the store list has no limit.
    Otherwise it returns the failure summary with the status of the
    backend when that is not 1, and else the success summary, whose
    [b_hat] has an entry for exactly the pairs of a scarce SKU and a
    store of the list (the value of the assignment variable at a target
    store, 0 at any other store) and whose [total_marked] is the sum of
    the entries. *)
Theorem optimize_coverage_outcome
    (solve : LpProblem SKU Store Color Size → solver_response SKU Store Color Size)
    (d : data SKU Store Color Size) (scarce_skus : list SKU)
    (target_stores : list Store) (store_allocation_limits : gmap Store Z)
    (df_sku_filtered : list (@sku_row SKU Color Size)) :
  match optimize_coverage solve d scarce_skus target_stores
          store_allocation_limits df_sku_filtered with
  | Raise e =>
      e = KeyError ∧
      ((∃ i, i ∈ scarce_skus ∧ d_A d !! i = None) ∨
       ((∀ i, i ∈ scarce_skus → is_Some (d_A d !! i)) ∧
        ∃ j, j ∈ d_stores d ∧ j ∈ target_stores ∧
             store_allocation_limits !! j = None))
  | Ok (coverage_failed problem_status) =>
      problem_status ≠ 1 ∧
      ∃ P, coverage_problem d scarce_skus target_stores
             store_allocation_limits df_sku_filtered = Ok P ∧
           status (solve P) = problem_status
  | Ok (coverage_success total_marked b_hat) =>
      (∀ i, i ∈ scarce_skus → is_Some (d_A d !! i)) ∧
      (∀ j, j ∈ d_stores d → j ∈ target_stores →
            is_Some (store_allocation_limits !! j)) ∧
      total_marked = total_allocated_of b_hat ∧
      ∃ P, coverage_problem d scarce_skus target_stores
             store_allocation_limits df_sku_filtered = Ok P ∧
           status (solve P) = 1 ∧
           ∀ i j, b_hat !! (i, j)
                  = if decide (i ∈ scarce_skus ∧ j ∈ d_stores d)
                    then Some (if decide (j ∈ target_stores)
                               then varValue (solve P) (b_ i j) else 0)
                    else None
  end.
Proof.
  unfold optimize_coverage.
  destruct (coverage_problem d scarce_skus target_stores
              store_allocation_limits df_sku_filtered) as [P|e] eqn:HP.
  - assert ((∀ i, i ∈ scarce_skus → is_Some (d_A d !! i)) ∧
            (∀ j, j ∈ d_stores d → j ∈ target_stores →
                  is_Some (store_allocation_limits !! j))) as [HA Hlim].
    { unfold coverage_problem in HP. cbn in HP.
      pose proof (supply_constraints_cases (_create_binary_variables target_stores
                    : SKU → Store → entry SKU Store Color Size) (d_A d) scarce_skus (d_stores d)) as Hs.
      destruct (supply_constraints _ (d_A d) scarce_skus (d_stores d))
        as [supply|]; [|done]. cbn in HP.
      pose proof (store_limit_constraints_cases (_create_binary_variables target_stores
                    : SKU → Store → entry SKU Store Color Size) scarce_skus (d_stores d) target_stores
                    store_allocation_limits) as Hl.
      by destruct (_add_store_limit_constraints _ scarce_skus (d_stores d)
                     target_stores store_allocation_limits). }
    cbn. destruct (decide (status (solve P) = 1)) as [Hst|Hst].
    + split_and!; [done | done | done |]. exists P.
      split_and!; [done | done |]. intros i j. apply save_results_lookup.
    + split; [done|]. by exists P.
  - cbn. unfold coverage_problem in HP. cbn in HP.
    pose proof (supply_constraints_cases (_create_binary_variables target_stores
                    : SKU → Store → entry SKU Store Color Size) (d_A d) scarce_skus (d_stores d)) as Hs.
    destruct (supply_constraints _ (d_A d) scarce_skus (d_stores d))
      as [supply|e']; cbn in HP.
    + pose proof (store_limit_constraints_cases (_create_binary_variables target_stores
                    : SKU → Store → entry SKU Store Color Size) scarce_skus (d_stores d) target_stores
                    store_allocation_limits) as Hl.
      destruct (_add_store_limit_constraints _ scarce_skus (d_stores d)
                  target_stores store_allocation_limits) as [limit|e''];
        [done|]. cbn in HP. injection HP as <-.
      destruct Hl as [-> Hl]. split; [done|]. right. by split.
    + injection HP as <-. destruct Hs as [-> Hs]. split; [done|]. by left.
Qed.

(** What the saved marks of SKU [i] read over a list of stores is the
    sum of its assignment variables over that list. *)
Lemma saved_row_assignment val scarce_skus stores ts i (l : list Store) :
  i ∈ scarce_skus → (∀ j, j ∈ l → j ∈ stores) →
  sum_list_Z ((λ k, dict_get (_save_results (_create_binary_variables ts) val
                                scarce_skus stores) k 0)
                <$> ((λ j, (i, j)) <$> l))
  = sum_list_Z (val <$> omap (λ j, as_var (_create_binary_variables ts i j)) l).
Proof.
  intros Hi. induction l as [|j l IH]; intros Hl; [done|].
  rewrite !fmap_cons, sum_list_Z_cons.
  rewrite IH by (intros j' Hj'; apply Hl; by right).
  unfold dict_get at 1. rewrite save_results_lookup.
  rewrite decide_True by (split; [done | apply Hl; by left]).
  cbn [omap list_omap]. unfold _create_binary_variables at 2.
  destruct (decide (j ∈ ts)); cbn [default from_option id as_var name binary].
  - by rewrite fmap_cons, sum_list_Z_cons.
  - lia.
Qed.

(** X23.  The marks of a feasible coverage run.  When the backend
    answers status 1 with a valuation that satisfies the problem, every
    entry of [b_hat] is 0 or 1, an entry is 1 only at a target store,
    no scarce SKU is marked at more stores than it has units, and
    [total_marked] is not negative. *)
Theorem coverage_marks
    (solve : LpProblem SKU Store Color Size → solver_response SKU Store Color Size)
    (d : data SKU Store Color Size) (scarce_skus : list SKU)
    (target_stores : list Store) (store_allocation_limits : gmap Store Z)
    (df_sku_filtered : list (@sku_row SKU Color Size)) total_marked b_hat :
  (∀ P, coverage_problem d scarce_skus target_stores store_allocation_limits
          df_sku_filtered = Ok P → answers_feasibly solve P) →
  optimize_coverage solve d scarce_skus target_stores store_allocation_limits
    df_sku_filtered = Ok (coverage_success total_marked b_hat) →
  (∀ k v, b_hat !! k = Some v → v = 0 ∨ v = 1) ∧
  (∀ i j, dict_get b_hat (i, j) 0 = 1 → j ∈ target_stores) ∧
  (∀ i, i ∈ scarce_skus →
     ∃ supply, d_A d !! i = Some supply ∧ sku_total b_hat i ≤ supply) ∧
  0 ≤ total_marked.
Proof.
  intros Hbackend Hrun. unfold optimize_coverage in Hrun.
  destruct (coverage_problem d scarce_skus target_stores
              store_allocation_limits df_sku_filtered) as [P|] eqn:HP; [|done].
  cbn in Hrun. destruct (decide (status (solve P) = 1)) as [Hst|]; [|done].
  injection Hrun as <- <-.
  destruct (Hbackend P eq_refl Hst) as [Hbounds Hcons].
  set (val := varValue (solve P)) in *.
  unfold coverage_problem in HP. cbn in HP.
  destruct (supply_constraints _ (d_A d) scarce_skus (d_stores d))
    as [supply|] eqn:Hsupply; [|done]. cbn in HP.
  destruct (_add_store_limit_constraints _ scarce_skus (d_stores d)
              target_stores store_allocation_limits) as [limit|]; [|done].
  cbn in HP. injection HP as <-. cbn [variables constraints] in *.
  rewrite Forall_forall in Hbounds. rewrite Forall_forall in Hcons.
  assert (∀ i j, i ∈ scarce_skus → j ∈ d_stores d → j ∈ target_stores →
            0 ≤ val (b_ i j) ≤ 1) as Hb.
  { intros i j Hi Hj Hts.
    assert (in_bounds val (binary (b_ i j))) as Hin.
    { apply Hbounds. apply elem_of_app. left. by apply b_variable_created. }
    unfold in_bounds in Hin. cbn in Hin. lia. }
  assert (∀ k v, _save_results (_create_binary_variables target_stores) val
                   scarce_skus (d_stores d) !! k = Some v →
                 (v = 0 ∨ v = 1) ∧ (v = 1 → k.2 ∈ target_stores)) as Hent.
  { intros [i j] v. rewrite save_results_lookup.
    destruct (decide _) as [[Hi Hj]|]; [|done]. intros Hv. injection Hv as <-.
    destruct (decide (j ∈ target_stores)) as [Hts|]; [|split; [by left | lia]].
    specialize (Hb i j Hi Hj Hts). split; [lia | done]. }
  split_and!.
  - intros k v Hk. by destruct (Hent k v Hk).
  - intros i j. unfold dict_get.
    destruct (_save_results _ _ _ _ !! (i, j)) as [v|] eqn:Hv; cbn; [|lia].
    intros ->. by destruct (Hent _ _ Hv) as [_ Hin]; apply Hin.
  - intros i Hi.
    destruct (supply_constraints_elem _ _ _ _ _ i Hsupply Hi)
      as (Ai & HAi & Hin).
    exists Ai. split; [done|].
    pose proof (Hcons _ (proj2 (elem_of_app _ _ _) (or_introl Hin))) as Hle.
    unfold holds in Hle. cbn [rel lhs rhs] in Hle. rewrite eval_lpSum in Hle.
    unfold eval in Hle. cbn in Hle.
    etrans; [|exact Hle]. unfold sku_total.
    etrans; [apply (fold_total_le_list _ _ ((λ j, (i, j)) <$> d_stores d))|].
    + intros k v Hk. destruct (Hent k v Hk) as [[-> | ->] _]; lia.
    + intros [i' j] v Hk Hs. apply bool_decide_eq_true in Hs. cbn in Hs.
      subst i'. rewrite save_results_lookup in Hk.
      destruct (decide _) as [[_ Hj]|]; [|done].
      apply list_elem_of_fmap. by exists j.
    + by rewrite saved_row_assignment.
  - rewrite total_allocated_of_fold.
    generalize Hent. generalize (_save_results (_create_binary_variables
      target_stores) val scarce_skus (d_stores d)).
    intros m. induction m as [|k v m Hnone IH] using map_ind; intros Hm.
    { by rewrite fold_total_empty. }
    rewrite fold_total_insert_fresh by done.
    assert (0 ≤ v).
    { destruct (Hm k v (lookup_insert_eq _ _ _)) as [[-> | ->] _]; lia. }
    assert (0 ≤ fold_total (λ _, true) m); [|lia].
    apply IH. intros k' v' Hk'. apply (Hm k' v').
    rewrite lookup_insert_ne; [done | congruence].
Qed.

End CoverageMore.

Lemma coverage_marks_witness :
  ∃ total_marked b_hat,
    optimize_coverage Sample.solve Sample.inputs (d_SKUs Sample.inputs)
      Sample.target_stores Sample.limits Sample.frame
    = Ok (coverage_success total_marked b_hat) ∧
    (∀ k v, b_hat !! k = Some v → v = 0 ∨ v = 1) ∧
    0 ≤ total_marked.
Proof.
  destruct (success_coverage (optimize_coverage Sample.solve Sample.inputs
              (d_SKUs Sample.inputs) Sample.target_stores Sample.limits
              Sample.frame)) as (total_marked & b_hat & Hrun).
  { vm_compute. exact I. }
  exists total_marked, b_hat. split; [exact Hrun|].
  assert (∀ P, coverage_problem Sample.inputs (d_SKUs Sample.inputs)
                 Sample.target_stores Sample.limits Sample.frame = Ok P →
               answers_feasibly Sample.solve P) as Hbackend.
  { intros P HP _. by apply sample_coverage_feasible. }
  destruct (coverage_marks _ _ _ _ _ _ _ _ Hbackend Hrun)
    as (Hbin & _ & _ & Htot).
  split; [exact Hbin | exact Htot].
Defined.

(** ** Tiers per SKU *)

Lemma py_int_frac (n a : Z) (b : positive) :
  0 ≤ n → 0 ≤ a →
  py_int (Qc_of_Z n * Qc_of_frac a b) = (n * a) / Z.pos b.
Proof.
  intros Hn Ha. unfold py_int.
  assert (this (Qc_of_Z n * Qc_of_frac a b) == inject_Z n * (a # b))%Q as Heq.
  { unfold Qc_of_frac, Qc_of_Z, Qcmult. cbn [this Q2Qc].
    by rewrite !Qred_correct. }
  rewrite decide_True.
  - rewrite (Qfloor_comp _ _ Heq). unfold Qfloor, inject_Z, Qmult. cbn.
    done.
  - unfold Qcle. rewrite Heq. unfold Qle. cbn.
    rewrite Z.mul_1_r. by apply Z.mul_nonneg_nonneg.
Qed.

(** A list in descending order is left as it is by the sort. *)
Lemma sort_desc_sorted_id {X} (l : list (X * Qc)) :
  Sorted (λ p q, (q.2 ≤ p.2)%Qc) l → sort_desc l = l.
Proof.
  induction l as [|x l IH]; intros Hs; [done|].
  apply Sorted_inv in Hs as [Hs Hhd].
  cbn [sort_desc foldr]. fold (sort_desc l). rewrite IH by done.
  destruct l as [|y l]; [done|]. cbn [insert_desc].
  apply HdRel_inv in Hhd. rewrite decide_False; [done|].
  by apply Qcle_not_lt.
Qed.

Section SkuTierFacts.
Context {SKU Store : Type} `{Countable SKU} `{Countable Store}.
Implicit Types (sts : gmap SKU (list Store)) (QSUM : gmap Store Qc).
Implicit Types (l : list Store).

Lemma sorted_by_volume_perm QSUM l : sorted_by_volume QSUM l ≡ₚ l.
Proof. apply weighted_stores_fsts. Qed.

Lemma weighted_fsts_id QSUM (ws : list (Store * Qc)) :
  (∀ p, p ∈ ws → p.2 = dict_get QSUM p.1 0%Qc) →
  (λ x, (x, dict_get QSUM x 0%Qc)) <$> ws.*1 = ws.
Proof.
  induction ws as [|[x q] ws IH]; intros Hws; [done|].
  rewrite !fmap_cons, IH by (intros p Hp; apply Hws; by right).
  pose proof (Hws (x, q) (list_elem_of_here _ _)) as Hq. cbn in Hq.
  cbn. by rewrite <- Hq.
Qed.

Lemma sorted_by_volume_idempotent QSUM l :
  sorted_by_volume QSUM (sorted_by_volume QSUM l) = sorted_by_volume QSUM l.
Proof.
  unfold sorted_by_volume at 1 2.
  rewrite weighted_fsts_id by apply weighted_stores_snd.
  by rewrite sort_desc_sorted_id by apply sort_desc_sorted.
Qed.

Lemma sorted_by_volume_sorted QSUM l :
  Sorted (λ x y, (dict_get QSUM y 0 ≤ dict_get QSUM x 0)%Qc)
    (sorted_by_volume QSUM l).
Proof.
  unfold sorted_by_volume.
  pose proof (sort_desc_sorted ((λ x, (x, dict_get QSUM x 0%Qc)) <$> l)) as Hs.
  pose proof (weighted_stores_snd QSUM l) as Hsnd.
  induction Hs as [|p ws Hs IH Hhd]; [constructor|].
  rewrite fmap_cons. constructor.
  - apply IH. intros q Hq. apply Hsnd. by right.
  - destruct Hhd as [|q ws' Hpq]; [constructor|].
    rewrite fmap_cons. constructor.
    rewrite <- (Hsnd p) by (by left).
    rewrite <- (Hsnd q) by (right; by left). done.
Qed.

(** X24.  [set_sku_target_stores] stores, for its SKU only, the target
    stores in descending order of volume: the stored list is a
    reordering of the list given, [get_sku_target_stores] returns it,
    the list of every other SKU is as before, and sorting it again
    changes nothing, so that [get_store_tier_for_sku] ranks a store by
    its position in the stored list. *)
Theorem set_sku_target_stores_sorted sts (sku : SKU) (target_stores : list Store)
    QSUM dflt :
  let sts' := (set_sku_target_stores sts sku target_stores QSUM).1 in
  let stored := (set_sku_target_stores sts sku target_stores QSUM).2 in
  get_sku_target_stores sts' sku dflt = stored ∧
  stored ≡ₚ target_stores ∧
  Sorted (λ x y, (dict_get QSUM y 0 ≤ dict_get QSUM x 0)%Qc) stored ∧
  sorted_by_volume QSUM stored = stored ∧
  (∀ sku', sku' ≠ sku →
     get_sku_target_stores sts' sku' dflt = get_sku_target_stores sts sku' dflt).
Proof.
  cbn. unfold get_sku_target_stores, dict_get. split_and!.
  - by rewrite lookup_insert_eq.
  - apply sorted_by_volume_perm.
  - apply sorted_by_volume_sorted.
  - apply sorted_by_volume_idempotent.
  - intros sku' Hne. by rewrite lookup_insert_ne.
Qed.

Lemma tier_for_sku_listed sts (sku : SKU) (store : Store) QSUM :
  let sku_stores := get_sku_target_stores sts sku None in
  let n := Z.of_nat (length sku_stores) in
  store ∈ sku_stores →
  ∃ idx, list_index store (sorted_by_volume QSUM sku_stores) = Ok idx ∧
         0 ≤ idx < n ∧
         get_store_tier_for_sku sts sku store QSUM = tier_by_floor idx n.
Proof.
  intros l n Hin. unfold get_store_tier_for_sku. fold l.
  rewrite decide_False.
  2: { intros [Hnil|Hout]; [|done]. rewrite Hnil in Hin.
       by apply not_elem_of_nil in Hin. }
  destruct (list_index_ok store (sorted_by_volume QSUM l)) as [idx Hidx].
  { by rewrite sorted_by_volume_perm. }
  exists idx. rewrite Hidx.
  assert (length (sorted_by_volume QSUM l) = length l) as Hlen
    by (by rewrite sorted_by_volume_perm).
  destruct (list_index_lookup _ _ _ Hidx) as (Hpos & Hat & _).
  apply lookup_lt_Some in Hat. rewrite Hlen in Hat.
  rewrite Hlen. fold n.
  rewrite !py_int_frac by lia.
  replace (n * 3) with (3 * n) by lia. replace (n * 2) with (2 * n) by lia.
  split_and!; [done | lia | lia | done].
Qed.

(** X25.  The tier of a store for an SKU.  A store that is not in the
    list of the SKU (or an SKU without list) gets TIER_3_LOW.  A store
    of the list, at position [idx] of the list sorted by volume among
    [n] stores, gets TIER_1_HIGH when [idx < ⌊3n/10⌋], else
    TIER_2_MEDIUM when [idx < ⌊3n/10⌋ + ⌊2n/10⌋], else TIER_3_LOW; this
    is never a higher tier than the one [get_store_tier] gives the same
    position under the table of [config.py]. *)
Theorem get_store_tier_for_sku_rule sts (sku : SKU) (store : Store) QSUM :
  let sku_stores := get_sku_target_stores sts sku None in
  let n := Z.of_nat (length sku_stores) in
  (store ∉ sku_stores →
   get_store_tier_for_sku sts sku store QSUM = TIER_3_LOW) ∧
  (store ∈ sku_stores →
   ∃ idx, list_index store (sorted_by_volume QSUM sku_stores) = Ok idx ∧
          0 ≤ idx < n ∧
          get_store_tier_for_sku sts sku store QSUM
          = (if decide (idx < 3 * n / 10) then TIER_1_HIGH
             else if decide (idx < 3 * n / 10 + 2 * n / 10) then TIER_2_MEDIUM
             else TIER_3_LOW) ∧
          tier_rank (get_store_tier TIER_CONFIG idx n)
          ≤ tier_rank (get_store_tier_for_sku sts sku store QSUM)).
Proof.
  intros l n. split.
  - intros Hout. unfold get_store_tier_for_sku. fold l.
    by rewrite decide_True by (by right).
  - intros Hin.
    destruct (tier_for_sku_listed sts sku store QSUM Hin)
      as (idx & Hidx & Hrange & Htier).
    fold l n in Hidx, Hrange, Htier.
    exists idx. split_and!; [done | lia | lia | done |].
    rewrite Htier, config_tier_by_index. unfold tier_by_floor.
    repeat destruct (decide _); cbn [tier_rank]; try lia;
      exfalso; Z.div_mod_to_equations; lia.
Qed.

Lemma foldl_insert_lookup {V} (f : Store → V) l (m0 : gmap Store V) s :
  foldl (λ m k, <[k := f k]> m) m0 l !! s
  = if decide (s ∈ l) then Some (f s) else m0 !! s.
Proof.
  revert m0. induction l as [|k l IH]; intros m0; cbn [foldl].
  { rewrite decide_False; [done | apply not_elem_of_nil]. }
  rewrite IH. destruct (decide (s ∈ l)) as [Hin|Hin].
  - rewrite decide_True; [done | by right].
  - destruct (decide (s = k)) as [->|Hne].
    + rewrite lookup_insert_eq, decide_True; [done | by left].
    + rewrite lookup_insert_ne by done.
      rewrite decide_False; [done|]. intros [?|?]%elem_of_cons; done.
Qed.

Lemma foldl_add_sum (f : Store → Z) l (z : Z) :
  foldl (λ acc s, acc + f s) z l = z + sum_list_Z (f <$> l).
Proof.
  revert z. induction l as [|s l IH]; intros z; cbn [foldl].
  { cbn. lia. }
  rewrite IH, fmap_cons, sum_list_Z_cons. lia.
Qed.

(** X26.  Limits and capacity per SKU.  The limits dict of an SKU has an
    entry for exactly the stores of its list, the limit of the tier the
    store has for the SKU.  The most that can be allocated of an SKU
    without list is its supply; otherwise it is the smaller of its
    supply and the sum of those limits over its list, which with the
    table of [config.py] lies between the number of stores of the list
    and three times that number. *)
Theorem limits_and_capacity_for_sku (tier_config : tier_table) sts (sku : SKU)
    QSUM (A : gmap SKU Z) :
  let sku_stores := get_sku_target_stores sts sku None in
  let store_limits :=
    create_store_allocation_limits_for_sku tier_config sts sku QSUM in
  let capacity := sum_list_Z ((λ s, dict_get store_limits s 0) <$> sku_stores) in
  (∀ s, store_limits !! s
        = if decide (s ∈ sku_stores)
          then Some (max_sku_limit
                       (tier_config (get_store_tier_for_sku sts sku s QSUM)))
          else None) ∧
  get_max_allocatable_for_sku tier_config sts sku QSUM A
  = (if decide (sku_stores = []) then dict_get A sku 0
     else Z.min (dict_get A sku 0) capacity) ∧
  get_max_allocatable_for_sku tier_config sts sku QSUM A ≤ dict_get A sku 0 ∧
  (tier_config = TIER_CONFIG →
   Z.of_nat (length sku_stores) ≤ capacity ≤ 3 * Z.of_nat (length sku_stores)).
Proof.
  intros l limits capacity.
  assert (∀ s, limits !! s
               = if decide (s ∈ l)
                 then Some (max_sku_limit
                              (tier_config (get_store_tier_for_sku sts sku s QSUM)))
                 else None) as Hlookup.
  { intros s. unfold limits, create_store_allocation_limits_for_sku. fold l.
    destruct (decide (l = [])) as [Hnil|Hne].
    - rewrite lookup_empty, decide_False; [done|]. rewrite Hnil.
      apply not_elem_of_nil.
    - rewrite (foldl_insert_lookup
                 (λ store, info_max_sku_limit
                    (get_store_tier_info_for_sku tier_config sts store sku QSUM))).
      by rewrite lookup_empty. }
  assert (capacity
          = sum_list_Z ((λ s, max_sku_limit
                                (tier_config (get_store_tier_for_sku sts sku s QSUM)))
                          <$> l)) as Hcap.
  { unfold capacity. f_equal. apply list_fmap_ext. intros k s Hs.
    unfold dict_get. rewrite Hlookup, decide_True; [done|].
    by eapply list_elem_of_lookup_2. }
  assert (get_max_allocatable_for_sku tier_config sts sku QSUM A
          = (if decide (l = []) then dict_get A sku 0
             else Z.min (dict_get A sku 0) capacity)) as Hmax.
  { unfold get_max_allocatable_for_sku. fold l.
    destruct (decide (l = [])); [done|].
    rewrite (foldl_add_sum
               (λ store, info_max_sku_limit
                  (get_store_tier_info_for_sku tier_config sts store sku QSUM))).
    rewrite Hcap. cbn. done. }
  split_and!; [done | done | |].
  - rewrite Hmax. destruct (decide (l = [])); lia.
  - intros ->. rewrite Hcap. clear.
    induction l as [|s l IH]; [cbn; lia|].
    rewrite fmap_cons, sum_list_Z_cons. cbn [length].
    destruct (get_store_tier_for_sku sts sku s QSUM); cbn; lia.
Qed.

Lemma list_index_at (l : list Store) (k : nat) (x : Store) :
  NoDup l → l !! k = Some x → list_index x l = Ok (Z.of_nat k).
Proof.
  intros Hnd Hk.
  destruct (list_index_ok x l) as [idx Hidx].
  { by eapply list_elem_of_lookup_2. }
  destruct (list_index_lookup _ _ _ Hidx) as (Hpos & Hat & _).
  rewrite Hidx. f_equal.
  pose proof (NoDup_lookup _ _ _ _ Hnd Hat Hk). lia.
Qed.

(** Counting the elements of a list by a property of their position. *)
Lemma filter_by_position {X} (P : X → Prop) (Q : Z → Prop)
    `{∀ x, Decision (P x)} `{∀ i, Decision (Q i)} (l : list X) (off : Z) :
  (∀ (k : nat) x, l !! k = Some x → (P x ↔ Q (off + Z.of_nat k))) →
  length (filter P l) = length (filter Q (seqZ off (Z.of_nat (length l)))).
Proof.
  revert off. induction l as [|x l IH]; intros off HPQ; [done|].
  cbn [length]. rewrite seqZ_cons by lia.
  replace (Z.pred (Z.of_nat (S (length l)))) with (Z.of_nat (length l)) by lia.
  rewrite !filter_cons.
  assert (length (filter P l)
          = length (filter Q (seqZ (Z.succ off) (Z.of_nat (length l))))) as IH'.
  { apply IH. intros k y Hy. rewrite (HPQ (S k) y Hy).
    by replace (off + Z.of_nat (S k)) with (Z.succ off + Z.of_nat k) by lia. }
  pose proof (HPQ 0%nat x eq_refl) as Hx. rewrite Z.add_0_r in Hx.
  destruct (decide (P x)), (decide (Q off)); cbn [length]; rewrite ?IH';
    tauto.
Qed.

(** X27.  The counts [print_sku_tier_summary] reports are the numbers of
    stores [get_store_tier_for_sku] puts in each tier.  For an SKU
    without list there is no summary.  For an SKU whose list names no
    store twice, the three counts are [⌊3n/10⌋], [⌊2n/10⌋] and the rest
    of the [n] stores, and each is the number of stores of the list
    that have that tier. *)
Theorem print_sku_tier_summary_counts sts (sku : SKU) QSUM :
  let sku_stores := get_sku_target_stores sts sku None in
  let n := Z.of_nat (length sku_stores) in
  let count tier :=
    Z.of_nat (length (filter (λ s, get_store_tier_for_sku sts sku s QSUM = tier)
                        sku_stores)) in
  NoDup sku_stores →
  match print_sku_tier_summary sts sku QSUM with
  | None => sku_stores = []
  | Some summary =>
      sku_stores ≠ [] ∧
      summary_tier_1 summary = 3 * n / 10 ∧
      summary_tier_2 summary = 2 * n / 10 ∧
      summary_tier_3 summary = n - 3 * n / 10 - 2 * n / 10 ∧
      summary_tier_1 summary = count TIER_1_HIGH ∧
      summary_tier_2 summary = count TIER_2_MEDIUM ∧
      summary_tier_3 summary = count TIER_3_LOW
  end.
Proof.
  intros l n count Hnd. unfold print_sku_tier_summary. fold l.
  destruct (decide (l = [])) as [Hnil|Hne]; [done|].
  cbn [summary_tier_1 summary_tier_2 summary_tier_3].
  assert (length (sorted_by_volume QSUM l) = length l) as Hlen
    by (by rewrite sorted_by_volume_perm).
  rewrite Hlen. fold n.
  rewrite !py_int_frac by lia.
  replace (n * 3) with (3 * n) by lia. replace (n * 2) with (2 * n) by lia.
  assert (∀ tier, count tier
          = Z.of_nat (length (filter (λ i, tier_by_floor i n = tier) (range n))))
    as Hcount.
  { intros tier. unfold count, range.
    rewrite <- (sorted_by_volume_perm QSUM l) at 1.
    rewrite (filter_by_position _ (λ i, tier_by_floor i n = tier)
               (sorted_by_volume QSUM l) 0); [by rewrite Hlen|].
    intros k s Hk.
    assert (s ∈ l) as Hin.
    { rewrite <- (sorted_by_volume_perm QSUM l). by eapply list_elem_of_lookup_2. }
    destruct (tier_for_sku_listed sts sku s QSUM Hin)
      as (idx & Hidx & _ & Htier).
    fold l in Hidx, Htier.
    rewrite (list_index_at _ k s) in Hidx.
    - injection Hidx as <-. rewrite Htier. by rewrite Z.add_0_l.
    - by rewrite sorted_by_volume_perm.
    - done. }
  assert (0 ≤ 3 * n / 10 ∧ 0 ≤ 2 * n / 10 ∧ 3 * n / 10 + 2 * n / 10 ≤ n) as Hc.
  { subst n. Z.div_mod_to_equations. lia. }
  assert (count TIER_1_HIGH = 3 * n / 10) as H1.
  { rewrite Hcount.
    rewrite (filter_agree _ (λ i, i < 3 * n / 10)).
    - apply range_below. lia.
    - apply Forall_forall. intros i _. unfold tier_by_floor.
      repeat destruct (decide _); split; try done; lia. }
  assert (count TIER_3_LOW = n - 3 * n / 10 - 2 * n / 10) as H3.
  { rewrite Hcount.
    rewrite (filter_agree _ (λ i, ¬ i < 3 * n / 10 + 2 * n / 10)).
    - pose proof (filter_split_length (λ i, i < 3 * n / 10 + 2 * n / 10)
                    (range n)) as Hs.
      pose proof (range_below (length l) (3 * n / 10 + 2 * n / 10)) as Hb.
      fold n in Hb. unfold range in Hs at 3. rewrite length_seqZ in Hs.
      lia.
    - apply Forall_forall. intros i Hi. apply elem_of_seqZ in Hi.
      unfold tier_by_floor.
      repeat destruct (decide _); split; try done; lia. }
  assert (count TIER_2_MEDIUM = 2 * n / 10) as H2.
  { pose proof (tier_partition_length (λ i, tier_by_floor i n) (range n)) as Hs.
    rewrite <- !Hcount in Hs. unfold range in Hs. rewrite length_seqZ in Hs.
    lia. }
  split_and!; [done | done | done | done | by rewrite H1 | by rewrite H2
               | by rewrite H3].
Qed.

End SkuTierFacts.


(** Witnesses on the sample of five stores. *)
Lemma set_sku_target_stores_sorted_witness :
  get_sku_target_stores SkuSample.sku_target_stores "A_red_S" (Some ["s9"])
  = ["s1"; "s3"; "s2"; "s4"; "s5"] ∧
  "A_blue_M" ≠ "A_red_S" ∧
  get_sku_target_stores SkuSample.sku_target_stores "A_blue_M" (Some ["s9"])
  = ["s9"].
Proof.
  destruct (set_sku_target_stores_sorted ∅ "A_red_S" SkuSample.five_stores
              SkuSample.QSUM (Some ["s9"])) as (Hget & _ & _ & _ & Hother).
  assert ("A_blue_M" ≠ "A_red_S") as Hne by discriminate.
  split_and!.
  - etrans; [exact Hget | vm_compute; reflexivity].
  - exact Hne.
  - etrans; [exact (Hother _ Hne) | vm_compute; reflexivity].
Defined.

Lemma get_store_tier_for_sku_rule_witness :
  let sku_stores :=
    get_sku_target_stores SkuSample.sku_target_stores "A_red_S" None in
  (("ghost" ∉ sku_stores) ∧
   get_store_tier_for_sku SkuSample.sku_target_stores "A_red_S" "ghost"
     SkuSample.QSUM = TIER_3_LOW) ∧
  ("s3" ∈ sku_stores ∧
   ∃ idx, list_index "s3" (sorted_by_volume SkuSample.QSUM sku_stores) = Ok idx ∧
          0 ≤ idx < 5 ∧
          get_store_tier_for_sku SkuSample.sku_target_stores "A_red_S" "s3"
            SkuSample.QSUM = TIER_2_MEDIUM ∧
          tier_rank (get_store_tier TIER_CONFIG idx 5) ≤ 2).
Proof.
  intros sku_stores.
  assert ("ghost" ∉ sku_stores) as Hghost.
  { refine (bool_decide_unpack _ _). vm_compute. exact I. }
  assert ("s3" ∈ sku_stores) as Hs3.
  { refine (bool_decide_unpack _ _). vm_compute. exact I. }
  split.
  - split; [exact Hghost|].
    exact (proj1 (get_store_tier_for_sku_rule SkuSample.sku_target_stores
                    "A_red_S" "ghost" SkuSample.QSUM) Hghost).
  - split; [exact Hs3|].
    destruct (proj2 (get_store_tier_for_sku_rule SkuSample.sku_target_stores
                       "A_red_S" "s3" SkuSample.QSUM) Hs3)
      as (idx & Hidx & Hrange & Htier & Hrank).
    assert (get_store_tier_for_sku SkuSample.sku_target_stores "A_red_S" "s3"
              SkuSample.QSUM = TIER_2_MEDIUM) as Hmed
      by (vm_compute; reflexivity).
    exists idx. split_and!; [exact Hidx | apply Hrange | apply Hrange
                             | exact Hmed |].
    rewrite Hmed in Hrank. exact Hrank.
Defined.

Lemma limits_and_capacity_for_sku_witness :
  let sku_stores :=
    get_sku_target_stores SkuSample.sku_target_stores "A_red_S" None in
  let store_limits :=
    create_store_allocation_limits_for_sku TIER_CONFIG
      SkuSample.sku_target_stores "A_red_S" SkuSample.QSUM in
  store_limits !! "s3" = Some 2 ∧
  store_limits !! "ghost" = None ∧
  get_max_allocatable_for_sku TIER_CONFIG SkuSample.sku_target_stores
    "A_red_S" SkuSample.QSUM SkuSample.A = 4 ∧
  5 ≤ sum_list_Z ((λ s, dict_get store_limits s 0) <$> sku_stores) ≤ 15.
Proof.
  intros sku_stores store_limits.
  destruct (limits_and_capacity_for_sku TIER_CONFIG SkuSample.sku_target_stores
              "A_red_S" SkuSample.QSUM SkuSample.A)
    as (Hlookup & Hmax & _ & Hcap).
  split_and!.
  - etrans; [exact (Hlookup "s3") | vm_compute; reflexivity].
  - etrans; [exact (Hlookup "ghost") | vm_compute; reflexivity].
  - etrans; [exact Hmax | vm_compute; reflexivity].
  - apply (Hcap eq_refl).
  - apply (Hcap eq_refl).
Defined.

Lemma print_sku_tier_summary_counts_witness :
  let sku_stores :=
    get_sku_target_stores SkuSample.sku_target_stores "A_red_S" None in
  NoDup sku_stores ∧
  ∃ summary,
    print_sku_tier_summary SkuSample.sku_target_stores "A_red_S" SkuSample.QSUM
    = Some summary ∧
    summary_tier_1 summary = 1 ∧
    summary_tier_2 summary = 1 ∧
    summary_tier_3 summary = 3 ∧
    summary_tier_1 summary
    = Z.of_nat (length (filter
        (λ s, get_store_tier_for_sku SkuSample.sku_target_stores "A_red_S" s
                SkuSample.QSUM = TIER_1_HIGH) sku_stores)).
Proof.
  intros sku_stores.
  assert (NoDup sku_stores) as Hnd.
  { refine (bool_decide_unpack _ _). vm_compute. exact I. }
  split; [exact Hnd|].
  pose proof (print_sku_tier_summary_counts SkuSample.sku_target_stores
                "A_red_S" SkuSample.QSUM Hnd) as Hsum.
  destruct (print_sku_tier_summary SkuSample.sku_target_stores "A_red_S"
              SkuSample.QSUM) as [summary|].
  - exists summary. destruct Hsum as (_ & H1 & H2 & H3 & Hc1 & _).
    split_and!; [reflexivity | | | | exact Hc1].
    + etrans; [exact H1 | vm_compute; reflexivity].
    + etrans; [exact H2 | vm_compute; reflexivity].
    + etrans; [exact H3 | vm_compute; reflexivity].
  - exfalso. cbv zeta in Hsum. vm_compute in Hsum. discriminate Hsum.
Defined.


(** ** The greedy allocator *)

(** A loop seen with the part of the list it has gone through. *)
Lemma for_each_prefix {X S} (I : list X → S → Prop) (body : X → S → result S)
    (xs : list X) (st st' : S) :
  I [] st →
  (∀ pre x post s s', xs = pre ++ x :: post → I pre s → body x s = Ok s' →
     I (pre ++ [x]) s') →
  for_each body xs st = Ok st' → I xs st'.
Proof.
  intros Hinit Hstep.
  assert (∀ post pre s, xs = pre ++ post → I pre s →
            for_each body post s = Ok st' → I xs st') as Hgen.
  { induction post as [|x post IH]; intros pre s Hxs Hpre Hrun;
      cbn [for_each] in Hrun.
    - injection Hrun as <-. by rewrite Hxs, app_nil_r.
    - destruct (body x s) as [s1|] eqn:Hx; [|done]. cbn in Hrun.
      apply (IH (pre ++ [x]) s1); [by rewrite <- app_assoc | | done].
      by eapply Hstep. }
  by apply (Hgen xs [] st).
Qed.

Lemma for_each_app {X S} (body : X → S → result S) (xs ys : list X) (st : S) :
  for_each body (xs ++ ys) st = (for_each body xs st ≫= for_each body ys).
Proof.
  revert st. induction xs as [|x xs IH]; intros st; [done|].
  cbn [app for_each]. destruct (body x st) as [s1|]; [|done]. cbn. apply IH.
Qed.

(** Two nested loops are one loop over the pairs. *)
Lemma for_each_nested {X Y S} (body : X → Y → S → result S)
    (xs : list X) (ys : list Y) (st : S) :
  for_each (λ x, for_each (body x) ys) xs st
  = for_each (λ p, body p.1 p.2) (x ← xs; pair x <$> ys) st.
Proof.
  revert st. induction xs as [|x xs IH]; intros st; [done|].
  cbn [for_each]. rewrite bind_cons, for_each_app.
  assert (∀ s, for_each (body x) ys s
               = for_each (λ p, body p.1 p.2) (pair x <$> ys) s) as Hrow.
  { clear. induction ys as [|y ys IH]; intros s; [done|].
    rewrite fmap_cons. cbn [for_each]. cbn.
    destruct (body x y s) as [s1|]; [|done]. cbn. apply IH. }
  rewrite Hrow. destruct (for_each _ (pair x <$> ys) st) as [s1|]; [|done].
  cbn. apply IH.
Qed.

(** Where a loop raises. *)
Lemma for_each_raise {X S} (body : X → S → result S) (xs : list X) (st : S) e :
  for_each body xs st = Raise e →
  ∃ pre x post s, xs = pre ++ x :: post ∧ for_each body pre st = Ok s ∧
                  body x s = Raise e.
Proof.
  revert st. induction xs as [|x xs IH]; intros st Hrun; [done|].
  cbn [for_each] in Hrun. destruct (body x st) as [s1|] eqn:Hx.
  - cbn in Hrun. destruct (IH s1 Hrun) as (pre & y & post & s & -> & Hpre & Hy).
    exists (x :: pre), y, post, s. split_and!; [done | | done].
    cbn [for_each]. by rewrite Hx.
  - cbn in Hrun. injection Hrun as ->.
    by exists [], x, xs, st.
Qed.

Section AllocatorFacts.
Import GreedyAllocator.
Context {SKU Store Color Size : Type}.
Context `{Countable SKU} `{Countable Store}.
Implicit Types (d : list (SKU * Store * Z)) (st : @state SKU Store _ _)
  (k : SKU * Store) (A : gmap SKU Z).

Lemma od_set_fresh k v d : k ∉ d.*1 → od_set k v d = d ++ [(k, v)].
Proof.
  induction d as [|e d IH]; intros Hk; [done|].
  rewrite fmap_cons in Hk. cbn [od_set].
  rewrite decide_False by (intros <-; apply Hk; by left).
  rewrite IH; [done|]. intros ?. apply Hk. by right.
Qed.

Lemma od_lookup_fresh k d : k ∉ d.*1 → od_lookup d k = None.
Proof.
  induction d as [|e d IH]; intros Hk; [done|].
  rewrite fmap_cons in Hk. cbn [od_lookup].
  rewrite decide_False by (intros <-; apply Hk; by left).
  apply IH. intros ?. apply Hk. by right.
Qed.

Lemma od_lookup_elem k q d : od_lookup d k = Some q → (k, q) ∈ d.
Proof.
  induction d as [|[k0 q0] d IH]; intros Hk; [done|].
  cbn [od_lookup] in Hk. cbn in Hk. destruct (decide (k0 = k)) as [->|Hne].
  - injection Hk as ->. by left.
  - right. by apply IH.
Qed.

Lemma od_set_elem k v d k' q :
  (k', q) ∈ od_set k v d → (k', q) ∈ d ∨ (k' = k ∧ q = v).
Proof.
  induction d as [|e d IH]; cbn [od_set].
  - intros Hin. apply list_elem_of_singleton in Hin. injection Hin as -> ->.
    by right.
  - destruct (decide (e.1 = k)) as [He|He].
    + intros [Hin|Hin]%elem_of_cons.
      * injection Hin as -> ->. by right.
      * left. by right.
    + intros [->|Hin]%elem_of_cons; [left; by left|].
      destruct (IH Hin) as [?|?]; [left; by right | by right].
Qed.

Lemma od_set_keys k v d k' : k' ∈ (od_set k v d).*1 ↔ k' = k ∨ k' ∈ d.*1.
Proof.
  induction d as [|e d IH]; cbn [od_set].
  - rewrite fmap_cons. cbn. rewrite list_elem_of_singleton.
    split; [by left|]. intros [?|Hin]; [done|]. by apply not_elem_of_nil in Hin.
  - destruct (decide (e.1 = k)) as [He|He]; rewrite !fmap_cons, !elem_of_cons.
    + cbn. rewrite He. tauto.
    + rewrite IH. tauto.
Qed.

Lemma od_set_values k v d :
  sum_list_Z (od_set k v d).*2
  = sum_list_Z d.*2 + v - default 0 (od_lookup d k).
Proof.
  induction d as [|e d IH]; cbn [od_set od_lookup].
  - cbn. lia.
  - destruct (decide (e.1 = k)); rewrite !fmap_cons, !sum_list_Z_cons.
    + cbn. lia.
    + rewrite IH. lia.
Qed.

Lemma od_set_quantity k v d i :
  sku_quantity (od_set k v d) i
  = sku_quantity d i
    + (if decide (k.1 = i) then v - default 0 (od_lookup d k) else 0).
Proof.
  unfold sku_quantity. induction d as [|e d IH]; cbn [od_set od_lookup].
  - rewrite filter_cons, !filter_nil. cbn [fst].
    destruct (decide (k.1 = i)); cbn; lia.
  - destruct (decide (e.1 = k)) as [He|He].
    + rewrite !filter_cons. cbn [fst]. rewrite He.
      destruct (decide (k.1 = i));
        rewrite ?fmap_cons, ?sum_list_Z_cons; cbn; lia.
    + rewrite !filter_cons.
      destruct (decide (e.1.1 = i));
        rewrite ?fmap_cons, ?sum_list_Z_cons, IH; lia.
Qed.

Lemma sum_values_insert_fresh (m : gmap SKU Z) i v :
  m !! i = None → sum_values (<[i := v]> m) = v + sum_values m.
Proof.
  intros Hnone. unfold sum_values.
  rewrite map_fold_insert_L; [done | | done].
  intros j1 j2 z1 z2 y _ _ _. lia.
Qed.

Lemma sum_values_insert (m : gmap SKU Z) i v w :
  m !! i = Some w → sum_values (<[i := v]> m) = sum_values m - w + v.
Proof.
  intros Hi.
  rewrite <- (insert_delete_id m i w) at 2 by done.
  rewrite <- (insert_delete_eq m i v).
  rewrite !sum_values_insert_fresh by apply lookup_delete_eq. lia.
Qed.

(** *** What a move keeps *)

Lemma accounted_init A :
  accounted A {| final_allocation := ([] : list (SKU * Store * Z));
                 current_supply := A |}.
Proof.
  unfold accounted, sku_quantity. cbn. split_and!; try done; try lia.
  intros k q Hin. by apply not_elem_of_nil in Hin.
Qed.

Lemma move_accounted A st st' : accounted A st → move st st' → accounted A st'.
Proof.
  intros (Hsum & Hsku & Hpos & Hone & Hdom) (sku & j & q & v & Hv & Hq & ->).
  unfold accounted. cbn [final_allocation current_supply]. split_and!.
  - rewrite (sum_values_insert _ _ _ v) by done. rewrite od_set_values. lia.
  - intros i. rewrite od_set_quantity. cbn [fst]. unfold dict_get in *.
    specialize (Hsku i). destruct (decide (sku = i)) as [->|Hne].
    + rewrite lookup_insert_eq. rewrite Hv in Hsku. cbn in *. lia.
    + rewrite lookup_insert_ne by done. lia.
  - intros i Hi. unfold dict_get in *. specialize (Hpos i Hi).
    destruct (decide (sku = i)) as [->|Hne].
    + rewrite lookup_insert_eq. cbn. lia.
    + by rewrite lookup_insert_ne.
  - intros k' q' [Hin|[-> ->]]%od_set_elem; [by eapply Hone|].
    destruct (od_lookup (final_allocation st) (sku, j)) as [q0|] eqn:Hq0;
      cbn; [|lia].
    apply od_lookup_elem, Hone in Hq0. lia.
  - intros i. rewrite <- Hdom. destruct (decide (sku = i)) as [->|Hne].
    + rewrite lookup_insert_eq, Hv. done.
    + by rewrite lookup_insert_ne.
Qed.

Lemma moves_accounted A st st' :
  accounted A st → rtc move st st' → accounted A st'.
Proof.
  intros Hst Hrun. induction Hrun as [|s1 s2 s3 Hstep _ IH]; [done|].
  apply IH. by eapply move_accounted.
Qed.

End AllocatorFacts.

Lemma pairs_elem {X Y} (xs : list X) (ys : list Y) x y :
  (x, y) ∈ (x ← xs; pair x <$> ys) ↔ x ∈ xs ∧ y ∈ ys.
Proof.
  rewrite list_elem_of_bind. split.
  - intros (x' & Hin & Hx'). apply list_elem_of_fmap in Hin as (y' & Heq & Hy').
    injection Heq as -> ->. done.
  - intros [Hx Hy]. exists x. split; [|done]. apply list_elem_of_fmap. by exists y.
Qed.

Lemma pairs_NoDup {X Y} (xs : list X) (ys : list Y) :
  NoDup xs → NoDup ys → NoDup (x ← xs; pair x <$> ys).
Proof.
  intros Hxs Hys. apply NoDup_bind; [| |done].
  - intros x1 x2 [x y] _ _ H1 H2.
    apply list_elem_of_fmap in H1 as (y1 & Heq1 & _).
    apply list_elem_of_fmap in H2 as (y2 & Heq2 & _). congruence.
  - intros x _. apply NoDup_fmap_2; [|done]. intros y1 y2. congruence.
Qed.

Section PriorityFacts.
Import GreedyAllocator.
Context {SKU Store : Type} `{Countable SKU} `{Countable Store}.
Implicit Types (d : list (SKU * Store * Z)) (st : @state SKU Store _ _)
  (k : SKU * Store) (A : gmap SKU Z) (b_hat : gmap (SKU * Store) Z).

Lemma mark_priority_cases b_hat i j st st' :
  mark_priority b_hat i j st = Ok st' →
  (st' = st ∧
   (dict_get b_hat (i, j) 0 ≠ 1 ∨ dict_get (current_supply st) i 0 ≤ 0)) ∨
  (dict_get b_hat (i, j) 0 = 1 ∧
   ∃ v, current_supply st !! i = Some v ∧ 0 < v ∧
        st' = {| final_allocation := od_set (i, j) 1 (final_allocation st);
                 current_supply := <[i := v - 1]> (current_supply st) |}).
Proof.
  unfold mark_priority, getitem. intros Hrun.
  destruct (decide (dict_get b_hat (i, j) 0 = 1)) as [Hb|Hb].
  - destruct (current_supply st !! i) as [v|] eqn:Hv; [|done]. cbn in Hrun.
    destruct (decide (0 < v)).
    + right. split; [done|]. exists v. by injection Hrun as <-.
    + left. injection Hrun as <-. split; [done|]. right.
      unfold dict_get. rewrite Hv. cbn. lia.
  - left. injection Hrun as <-. split; [done|]. by left.
Qed.

Lemma mark_priority_raise b_hat i j st e :
  mark_priority b_hat i j st = Raise e →
  e = KeyError ∧ dict_get b_hat (i, j) 0 = 1 ∧ current_supply st !! i = None.
Proof.
  unfold mark_priority, getitem. intros Hrun.
  destruct (decide (dict_get b_hat (i, j) 0 = 1)) as [Hb|Hb]; [|done].
  destruct (current_supply st !! i) as [v|] eqn:Hv.
  - cbn in Hrun. by destruct (decide (0 < v)).
  - cbn in Hrun. by injection Hrun as <-.
Qed.

(** The loop of the priority allocation over a list of pairs that names
    no pair twice. *)
Lemma mark_pairs_inv b_hat (ps : list (SKU * Store)) A st :
  NoDup ps →
  for_each (λ p, mark_priority b_hat p.1 p.2) ps
    {| final_allocation := []; current_supply := A |} = Ok st →
  rtc move {| final_allocation := []; current_supply := A |} st ∧
  (∀ k q, (k, q) ∈ final_allocation st →
     q = 1 ∧ dict_get b_hat k 0 = 1 ∧ k ∈ ps) ∧
  NoDup (final_allocation st).*1 ∧
  (∀ k, k ∈ ps → dict_get b_hat k 0 = 1 →
     k ∈ (final_allocation st).*1 ∨ dict_get (current_supply st) k.1 0 ≤ 0).
Proof.
  intros Hnd Hrun.
  apply (for_each_prefix
           (λ pre s,
              rtc move {| final_allocation := []; current_supply := A |} s ∧
              (∀ k q, (k, q) ∈ final_allocation s →
                 q = 1 ∧ dict_get b_hat k 0 = 1 ∧ k ∈ pre) ∧
              NoDup (final_allocation s).*1 ∧
              (∀ k, k ∈ pre → dict_get b_hat k 0 = 1 →
                 k ∈ (final_allocation s).*1
                 ∨ dict_get (current_supply s) k.1 0 ≤ 0))) in Hrun;
    [done | |].
  { split_and!; [done | | constructor |].
    - intros k q Hin. by apply not_elem_of_nil in Hin.
    - intros k Hin. by apply not_elem_of_nil in Hin. }
  intros pre [i j] post s s' Hps (Hreach & Hent & Hkeys & Hserved) Hbody.
  cbn [fst snd] in Hbody.
  assert ((i, j) ∉ pre) as Hfresh.
  { rewrite Hps in Hnd. apply NoDup_app in Hnd as (_ & Hdis & _).
    intros Hin. apply (Hdis _ Hin). by left. }
  assert ((i, j) ∉ (final_allocation s).*1) as Hnew.
  { intros Hin. apply list_elem_of_fmap in Hin as ([k q] & Heq & Hin).
    cbn in Heq. subst k. by apply Hent in Hin as (_ & _ & Hin). }
  destruct (mark_priority_cases _ _ _ _ _ Hbody)
    as [[-> Hwhy]|(Hb & v & Hv & Hpos & ->)].
  - split_and!; [done | | done |].
    + intros k q Hin. destruct (Hent k q Hin) as (? & ? & ?).
      split_and!; [done | done |]. apply elem_of_app. by left.
    + intros k [Hk|Hk]%elem_of_app Hbk; [by apply Hserved|].
      apply list_elem_of_singleton in Hk as ->.
      destruct Hwhy as [Hn|Hle]; [done | by right].
  - cbn [final_allocation current_supply].
    rewrite (od_set_fresh _ _ _ Hnew). split_and!.
    + eapply rtc_r; [exact Hreach|]. exists i, j, 1, v.
      split_and!; [done | lia | lia |].
      rewrite od_lookup_fresh by done. cbn.
      by rewrite (od_set_fresh _ _ _ Hnew).
    + intros k q [Hin|Hin]%elem_of_app.
      * destruct (Hent k q Hin) as (? & ? & ?).
        split_and!; [done | done |]. apply elem_of_app. by left.
      * apply list_elem_of_singleton in Hin. injection Hin as -> ->.
        split_and!; [done | done |]. apply elem_of_app. right.
        by apply list_elem_of_singleton.
    + rewrite fmap_app. apply NoDup_app. split_and!; [done | |].
      * intros k Hk Hk'. cbn in Hk'. apply list_elem_of_singleton in Hk' as ->.
        done.
      * apply NoDup_singleton.
    + intros k [Hk|Hk]%elem_of_app Hbk.
      * destruct (Hserved k Hk Hbk) as [Hin|Hle].
        -- left. rewrite fmap_app. apply elem_of_app. by left.
        -- destruct (decide (k.1 = i)) as [Hki|Hki].
           ++ exfalso. unfold dict_get in Hle. rewrite Hki, Hv in Hle.
              cbn in Hle. lia.
           ++ right. unfold dict_get. by rewrite lookup_insert_ne.
      * apply list_elem_of_singleton in Hk as ->. left.
        rewrite fmap_app. apply elem_of_app. right. cbn. by left.
Qed.

(** X28.  [_priority_allocation] on lists that name no SKU and no store
    twice.  When it returns, every entry of the allocation is one unit
    at a pair of a scarce SKU and a target store that Step 1 marked,
    and no pair is entered twice; a marked pair is left out only when
    the supply of its SKU is used up; for every SKU what remains and
    what was allocated add up to the supply, and a supply that was not
    negative does not become negative.  It raises only a [KeyError],
    for a marked pair whose SKU has no supply entry. *)
Theorem priority_allocation_marks b_hat (scarce_skus : list SKU)
    (target_stores : list Store) A :
  NoDup scarce_skus → NoDup target_stores →
  match _priority_allocation b_hat scarce_skus target_stores A with
  | Ok st =>
      (∀ i j q, ((i, j), q) ∈ final_allocation st →
         q = 1 ∧ dict_get b_hat (i, j) 0 = 1 ∧
         i ∈ scarce_skus ∧ j ∈ target_stores) ∧
      NoDup (final_allocation st).*1 ∧
      (∀ i j, i ∈ scarce_skus → j ∈ target_stores →
         dict_get b_hat (i, j) 0 = 1 →
         (i, j) ∈ (final_allocation st).*1
         ∨ dict_get (current_supply st) i 0 ≤ 0) ∧
      (∀ i, dict_get (current_supply st) i 0
            + sku_quantity (final_allocation st) i = dict_get A i 0) ∧
      (∀ i, 0 ≤ dict_get A i 0 → 0 ≤ dict_get (current_supply st) i 0)
  | Raise e =>
      e = KeyError ∧
      ∃ i j, i ∈ scarce_skus ∧ j ∈ target_stores ∧
             dict_get b_hat (i, j) 0 = 1 ∧ A !! i = None
  end.
Proof.
  intros Hs Ht. unfold _priority_allocation. rewrite for_each_nested.
  pose proof (pairs_NoDup _ _ Hs Ht) as Hnd.
  destruct (for_each _ _ _) as [st|e] eqn:Hrun.
  - destruct (mark_pairs_inv _ _ _ _ Hnd Hrun)
      as (Hreach & Hent & Hkeys & Hserved).
    destruct (moves_accounted A _ _ (accounted_init A) Hreach)
      as (_ & Hsku & Hpos & _ & _).
    split_and!; [| done | | done | done].
    + intros i j q Hin. destruct (Hent _ _ Hin) as (? & ? & Hp).
      apply pairs_elem in Hp as [? ?]. done.
    + intros i j Hi Hj Hb. apply (Hserved (i, j)); [|done].
      by apply pairs_elem.
  - apply for_each_raise in Hrun
      as (pre & [i j] & post & s & Hps & Hpre & Hbody).
    apply mark_priority_raise in Hbody as (-> & Hb & Hnone).
    split; [done|]. exists i, j.
    assert ((i, j) ∈ (x ← scarce_skus; pair x <$> target_stores)) as Hin.
    { rewrite Hps. apply elem_of_app. right. by left. }
    apply pairs_elem in Hin as [Hi Hj]. split_and!; [done | done | done |].
    rewrite Hps in Hnd. apply NoDup_app in Hnd as (Hnd & _ & _).
    destruct (mark_pairs_inv _ _ _ _ Hnd Hpre) as (Hreach & _).
    destruct (moves_accounted A _ _ (accounted_init A) Hreach)
      as (_ & _ & _ & _ & Hdom).
    by apply Hdom.
Qed.

End PriorityFacts.


(** *** The whole allocation *)

Section AllocateFacts.
Import GreedyAllocator.
Context {SKU Store Color Size : Type}.
Context `{Countable SKU} `{Countable Store}.
Implicit Types (d : list (SKU * Store * Z)) (st : @state SKU Store _ _)
  (k : SKU * Store) (A : gmap SKU Z) (b_hat : gmap (SKU * Store) Z)
  (cs : list (SKU * sku_type * Z)).

Lemma candidates_of_spec ty (skus : list SKU) (store : Store) st cs :
  candidates_of ty skus store st = Ok cs →
  cs.*1.*1 `sublist_of` skus ∧
  Forall (λ c, current_supply st !! c.1.1 = Some c.2 ∧
               (c.1.1, store) ∉ (final_allocation st).*1) cs.
Proof.
  revert cs. induction skus as [|sku skus IH]; intros cs Hrun;
    cbn [candidates_of] in Hrun.
  - injection Hrun as <-. split; constructor.
  - unfold getitem in Hrun.
    destruct (current_supply st !! sku) as [v|] eqn:Hv; [|done]. cbn in Hrun.
    destruct (candidates_of ty skus store st) as [more|]; [|done].
    cbn in Hrun. destruct (IH more eq_refl) as [Hsub Hall].
    injection Hrun as <-. destruct (decide _) as [[Hpos Hnew]|_].
    + split; [rewrite !fmap_cons; by apply sublist_skip|].
      by constructor.
    + split; [by apply sublist_cons | done].
Qed.

Lemma insert_by_key_perm (x : SKU * sku_type * Z) cs :
  insert_by_key x cs ≡ₚ x :: cs.
Proof.
  induction cs as [|y cs IH]; cbn [insert_by_key]; [done|].
  destruct (decide _); [|done]. rewrite IH. apply perm_swap.
Qed.

Lemma sort_by_key_perm cs : sort_by_key cs ≡ₚ cs.
Proof.
  induction cs as [|x cs IH]; [done|].
  cbn [sort_by_key foldr]. fold (sort_by_key cs).
  rewrite insert_by_key_perm. by constructor.
Qed.

(** The candidates of a store: no SKU twice, each with its supply as it
    is and without entry at the store. *)
Lemma get_candidate_skus_spec (scarce abundant : list SKU) (store : Store)
    st cs :
  NoDup (scarce ++ abundant) →
  _get_candidate_skus scarce abundant store st = Ok cs →
  NoDup cs.*1.*1 ∧
  Forall (λ c, current_supply st !! c.1.1 = Some c.2 ∧
               (c.1.1, store) ∉ (final_allocation st).*1) cs.
Proof.
  intros Hnd Hrun. unfold _get_candidate_skus in Hrun.
  destruct (candidates_of type_scarce scarce store st) as [c1|] eqn:H1;
    [|done]. cbn in Hrun.
  destruct (candidates_of type_abundant abundant store st) as [c2|] eqn:H2;
    [|done]. cbn in Hrun. injection Hrun as <-.
  apply candidates_of_spec in H1 as [Hs1 Ha1].
  apply candidates_of_spec in H2 as [Hs2 Ha2].
  pose proof (sort_by_key_perm (c1 ++ c2)) as Hperm. split.
  - rewrite Hperm, !fmap_app.
    apply (sublist_NoDup _ (scarce ++ abundant)); [exact Hnd|].
    by apply sublist_app.
  - rewrite Hperm. by apply Forall_app.
Qed.

Lemma allocate_to_store_reach (store : Store) cs slots tier_info n st r :
  NoDup cs.*1.*1 →
  Forall (λ c, current_supply st !! c.1.1 = Some c.2 ∧
               (c.1.1, store) ∉ (final_allocation st).*1) cs →
  _allocate_to_store store cs slots tier_info n st = Ok r →
  rtc move st r.2.
Proof.
  revert n st. induction cs as [|[[sku ty] avail] cs IH];
    intros n st Hnd Hgood Hrun; cbn [_allocate_to_store] in Hrun.
  - by injection Hrun as <-.
  - destruct (decide (slots ≤ n)); [by injection Hrun as <-|].
    rewrite !fmap_cons in Hnd. cbn [fst] in Hnd.
    apply NoDup_cons in Hnd as [Hsku Hnd].
    apply Forall_cons in Hgood as [[Hv Hnew] Hgood]. cbn [fst snd] in Hv, Hnew.
    destruct (decide (0 < Z.min (Z.min _ avail) 1)) as [Hq|Hq].
    + unfold getitem in Hrun. rewrite Hv in Hrun. cbn in Hrun.
      assert (Z.min (Z.min (info_max_sku_limit tier_info) avail) 1 = 1)
        as Hone by lia.
      rewrite Hone in Hrun.
      eapply rtc_l; [|eapply IH; [exact Hnd | |exact Hrun]].
      * exists sku, store, 1, avail. split_and!; [done | lia | lia |].
        by rewrite od_lookup_fresh by done.
      * cbn [final_allocation current_supply].
        apply Forall_forall. intros c Hc. rewrite Forall_forall in Hgood.
        destruct (Hgood c Hc) as [Hcv Hcnew].
        assert (c.1.1 ≠ sku) as Hne.
        { intros <-. apply Hsku. apply list_elem_of_fmap. exists c.1.
          split; [done|]. apply list_elem_of_fmap. by exists c. }
        split; [by rewrite lookup_insert_ne|].
        rewrite od_set_keys. intros [Heq|Hin]; [|done].
        by injection Heq.
    + eapply IH; [exact Hnd | exact Hgood | exact Hrun].
Qed.

Lemma additional_for_store_reach tc (scarce abundant : list SKU)
    (target : list Store) store st st' :
  NoDup (scarce ++ abundant) →
  additional_for_store tc scarce abundant target store st = Ok st' →
  rtc move st st'.
Proof.
  intros Hnd Hrun. unfold additional_for_store in Hrun.
  destruct (get_store_tier_info tc store target) as [info|]; [|done].
  cbn in Hrun. destruct (decide _); [by injection Hrun as <-|].
  destruct (_get_candidate_skus scarce abundant store st) as [cs|] eqn:Hcs;
    [|done]. cbn in Hrun.
  destruct (_allocate_to_store _ _ _ _ _ _) as [r|] eqn:Hr; [|done].
  cbn in Hrun. injection Hrun as <-.
  destruct (get_candidate_skus_spec _ _ _ _ _ Hnd Hcs) as [Hn Hg].
  by eapply allocate_to_store_reach.
Qed.

Lemma increase_entry_reach (store : Store) max (e : SKU * Z) st st' :
  increase_entry store max e st = Ok st' → rtc move st st'.
Proof.
  destruct e as [sku cur]. unfold increase_entry, getitem, od_getitem.
  intros Hrun.
  destruct (decide (cur < max)); [|by injection Hrun as <-].
  destruct (current_supply st !! sku) as [v|] eqn:Hv; [|done]. cbn in Hrun.
  destruct (decide (0 < v)); [|by injection Hrun as <-].
  destruct (od_lookup (final_allocation st) (sku, store)) as [q|] eqn:Hq;
    [|done]. cbn in Hrun.
  injection Hrun as <-. apply rtc_once.
  exists sku, store, (Z.min (max - cur) v), v.
  split_and!; [done | lia | lia |]. by rewrite Hq.
Qed.

Lemma increase_stores_reach tc n idx (stores : list Store) st st' :
  increase_stores tc n idx stores st = Ok st' → rtc move st st'.
Proof.
  revert idx st. induction stores as [|s stores IH]; intros idx st Hrun;
    cbn [increase_stores] in Hrun.
  - by injection Hrun as <-.
  - destruct (decide _); [by eapply IH|].
    destruct (for_each _ _ st) as [s1|] eqn:H1; [|done]. cbn in Hrun.
    etrans; [|by eapply IH].
    eapply (for_each_invariant (λ s, rtc move st s)); [|done|exact H1].
    intros x s2 s3 Hs2 Hx. etrans; [exact Hs2|].
    by eapply increase_entry_reach.
Qed.

(** The three steps keep the accounts. *)
Lemma allocate_steps_accounted tc b_hat (scarce abundant : list SKU)
    (target : list Store) A st1 st2 st3 :
  NoDup target → NoDup (scarce ++ abundant) →
  _priority_allocation b_hat scarce target A = Ok st1 →
  _additional_allocation tc scarce abundant target st1 = Ok st2 →
  _quantity_increase_allocation tc target st2 = Ok st3 →
  accounted A st3.
Proof.
  intros Ht Hnd H1 H2 H3.
  assert (NoDup scarce) as Hs by (by apply NoDup_app in Hnd as (? & _ & _)).
  unfold _priority_allocation in H1. rewrite for_each_nested in H1.
  destruct (mark_pairs_inv _ _ _ _ (pairs_NoDup _ _ Hs Ht) H1) as (Hr1 & _).
  eapply moves_accounted; [apply accounted_init|].
  etrans; [exact Hr1|]. etrans.
  - eapply (for_each_invariant (λ s, rtc move st1 s)); [|done|exact H2].
    intros x s2 s3 Hs2 Hx. etrans; [exact Hs2|].
    by eapply additional_for_store_reach.
  - by eapply increase_stores_reach.
Qed.

(** Nothing but a [KeyError] is raised. *)
Lemma only_key_error_bind {X Y} (m : result X) (f : X → result Y) :
  only_key_error m → (∀ x, only_key_error (f x)) → only_key_error (m ≫= f).
Proof. destruct m; cbn; [intros _ Hf; apply Hf | done]. Qed.

Lemma only_key_error_for_each {X S} (body : X → S → result S) (xs : list X)
    (s : S) :
  (∀ x s, x ∈ xs → only_key_error (body x s)) →
  only_key_error (for_each body xs s).
Proof.
  revert s. induction xs as [|x xs IH]; intros s Hbody; cbn [for_each];
    [done|].
  apply only_key_error_bind; [apply Hbody; by left|].
  intros s1. apply IH. intros x' s' Hx'. apply Hbody. by right.
Qed.

Lemma only_key_error_getitem {V} (m : gmap SKU V) i :
  only_key_error (getitem m i).
Proof. unfold getitem. by destruct (m !! i). Qed.

Lemma only_key_error_priority b_hat (scarce : list SKU) (target : list Store) A :
  only_key_error (_priority_allocation b_hat scarce target A).
Proof.
  unfold _priority_allocation.
  apply only_key_error_for_each. intros i s _.
  apply only_key_error_for_each. intros j s' _. unfold mark_priority.
  destruct (decide _); [|done].
  apply only_key_error_bind; [apply only_key_error_getitem|].
  intros v. by destruct (decide _).
Qed.

Lemma only_key_error_candidates ty (skus : list SKU) (store : Store) st :
  only_key_error (candidates_of ty skus store st).
Proof.
  induction skus as [|sku skus IH]; cbn [candidates_of]; [done|].
  apply only_key_error_bind; [apply only_key_error_getitem|]. intros v.
  by apply only_key_error_bind.
Qed.

Lemma only_key_error_allocate_to_store (store : Store) cs slots tier_info n st :
  only_key_error (_allocate_to_store store cs slots tier_info n st).
Proof.
  revert n st. induction cs as [|[[sku ty] avail] cs IH]; intros n st;
    cbn [_allocate_to_store]; [done|].
  destruct (decide _); [done|]. destruct (decide _); [|apply IH].
  apply only_key_error_bind; [apply only_key_error_getitem|].
  intros v. apply IH.
Qed.

Lemma only_key_error_additional tc (scarce abundant : list SKU)
    (target : list Store) st :
  only_key_error (_additional_allocation tc scarce abundant target st).
Proof.
  unfold _additional_allocation.
  apply only_key_error_for_each. intros store s Hin.
  unfold additional_for_store, get_store_tier_info.
  destruct (list_index_ok store target Hin) as [idx ->]. cbn.
  destruct (decide _); [done|].
  apply only_key_error_bind.
  - unfold _get_candidate_skus.
    apply only_key_error_bind; [apply only_key_error_candidates|]. intros c1.
    by apply only_key_error_bind; [apply only_key_error_candidates|].
  - intros cs. apply only_key_error_bind; [|done].
    apply only_key_error_allocate_to_store.
Qed.

Lemma only_key_error_increase tc (target : list Store) st :
  only_key_error (_quantity_increase_allocation tc target st).
Proof.
  unfold _quantity_increase_allocation.
  generalize (Z.of_nat (length target)) as n. generalize 0 as idx.
  revert st. induction target as [|s target IH]; intros st idx n;
    cbn [increase_stores]; [done|].
  destruct (decide _); [apply IH|].
  apply only_key_error_bind; [|intros s1; apply IH].
  apply only_key_error_for_each. intros [sku cur] s1 _.
  unfold increase_entry. destruct (decide _); [|done].
  apply only_key_error_bind; [apply only_key_error_getitem|]. intros v.
  destruct (decide _); [|done].
  apply only_key_error_bind; [|done].
  unfold od_getitem. by destruct (od_lookup _ _).
Qed.

(** X29.  The totals of [allocate], for stores that are listed once and
    SKUs that are listed once over the scarce and the abundant list.
    When it returns a summary, the supply does not add up to zero, the
    total allocated is the sum of the final allocation, the total
    remaining is the sum of the remaining supply, and the two add up to
    the supply it was given.  When the supply adds up to zero the rate
    cannot be computed.  Nothing but a [KeyError] is raised. *)
Theorem allocate_totals tc (data : data SKU Store Color Size) b_hat
    (scarce_skus abundant_skus : list SKU) (target_stores : list Store) :
  NoDup target_stores → NoDup (scarce_skus ++ abundant_skus) →
  match allocate tc data b_hat scarce_skus abundant_skus target_stores with
  | Ok (Some s) =>
      sum_values (d_A data) ≠ 0 ∧
      total_allocated s = sum_list_Z (summary_final_allocation s).*2 ∧
      total_remaining s = sum_values (remaining_supply s) ∧
      total_allocated s + total_remaining s = sum_values (d_A data)
  | Ok None => sum_values (d_A data) = 0
  | Raise e => e = KeyError
  end.
Proof.
  intros Ht Hnd. unfold allocate.
  pose proof (only_key_error_priority b_hat scarce_skus target_stores
                (d_A data)) as He1.
  destruct (_priority_allocation _ _ _ _) as [st1|e] eqn:H1; [|exact He1].
  cbn.
  pose proof (only_key_error_additional tc scarce_skus abundant_skus
                target_stores st1) as He2.
  destruct (_additional_allocation _ _ _ _ _) as [st2|e] eqn:H2; [|exact He2].
  cbn.
  pose proof (only_key_error_increase tc target_stores st2) as He3.
  destruct (_quantity_increase_allocation _ _ _) as [st3|e] eqn:H3;
    [|exact He3].
  cbn.
  destruct (allocate_steps_accounted _ _ _ _ _ _ _ _ _ Ht Hnd H1 H2 H3)
    as (Hsum & _).
  unfold _get_allocation_summary. destruct (decide _) as [Hz|Hz]; [done|].
  cbn. split_and!; [done | done | done | lia].
Qed.

(** X30.  [allocate] stays within the supply, for stores that are listed
    once and SKUs that are listed once over the two lists.  In the
    summary it returns, for every SKU what remains and what the stores
    got add up to its supply; an SKU whose supply was not negative has
    nothing negative left, so the stores got no more than its supply;
    and every entry of the final allocation holds at least one unit. *)
Theorem allocate_within_supply tc (data : data SKU Store Color Size) b_hat
    (scarce_skus abundant_skus : list SKU) (target_stores : list Store) :
  NoDup target_stores → NoDup (scarce_skus ++ abundant_skus) →
  match allocate tc data b_hat scarce_skus abundant_skus target_stores with
  | Ok (Some s) =>
      (∀ i, dict_get (remaining_supply s) i 0
            + sku_quantity (summary_final_allocation s) i
            = dict_get (d_A data) i 0) ∧
      (∀ i, 0 ≤ dict_get (d_A data) i 0 →
            0 ≤ dict_get (remaining_supply s) i 0 ∧
            sku_quantity (summary_final_allocation s) i
            ≤ dict_get (d_A data) i 0) ∧
      (∀ k q, (k, q) ∈ summary_final_allocation s → 1 ≤ q)
  | _ => True
  end.
Proof.
  intros Ht Hnd. unfold allocate.
  destruct (_priority_allocation _ _ _ _) as [st1|e] eqn:H1; [|done]. cbn.
  destruct (_additional_allocation _ _ _ _ _) as [st2|e] eqn:H2; [|done].
  cbn.
  destruct (_quantity_increase_allocation _ _ _) as [st3|e] eqn:H3; [|done].
  cbn.
  destruct (allocate_steps_accounted _ _ _ _ _ _ _ _ _ Ht Hnd H1 H2 H3)
    as (_ & Hsku & Hpos & Hone & _).
  unfold _get_allocation_summary. destruct (decide _) as [Hz|Hz]; [done|].
  cbn -[sku_quantity]. split_and!; [done | | done].
  intros i Hi. specialize (Hsku i). specialize (Hpos i Hi). lia.
Qed.

End AllocateFacts.


(** A call that is seen to return hands out what it returned. *)
Lemma returned_state {X} (r : result X) :
  match r with Ok _ => True | Raise _ => False end → ∃ x, r = Ok x.
Proof. destruct r as [x|e]; [by exists x | done]. Defined.

Lemma returned_summary {X} (r : result (option X)) :
  match r with Ok (Some _) => True | _ => False end → ∃ x, r = Ok (Some x).
Proof. destruct r as [[x|]|e]; [by exists x | done | done]. Defined.

(** Witnesses on the sample of three stores. *)
Lemma priority_allocation_marks_witness :
  NoDup GreedySample.scarce_skus ∧ NoDup GreedySample.target_stores ∧
  ∃ st, GreedyAllocator._priority_allocation GreedySample.b_hat
          GreedySample.scarce_skus GreedySample.target_stores
          (d_A GreedySample.inputs) = Ok st ∧
        (("A_red_S", "s3") ∈ (GreedyAllocator.final_allocation st).*1
         ∨ dict_get (GreedyAllocator.current_supply st) "A_red_S" 0 ≤ 0) ∧
        dict_get (GreedyAllocator.current_supply st) "A_red_S" 0
        + GreedyAllocator.sku_quantity (GreedyAllocator.final_allocation st)
            "A_red_S" = 2.
Proof.
  assert (NoDup GreedySample.scarce_skus) as Hs.
  { refine (bool_decide_unpack _ _). vm_compute. exact I. }
  assert (NoDup GreedySample.target_stores) as Ht.
  { refine (bool_decide_unpack _ _). vm_compute. exact I. }
  split_and!; [exact Hs | exact Ht |].
  pose proof (priority_allocation_marks GreedySample.b_hat
                GreedySample.scarce_skus GreedySample.target_stores
                (d_A GreedySample.inputs) Hs Ht) as Hthm.
  destruct (returned_state
              (GreedyAllocator._priority_allocation GreedySample.b_hat
                 GreedySample.scarce_skus GreedySample.target_stores
                 (d_A GreedySample.inputs))) as [st Hrun].
  { vm_compute. exact I. }
  rewrite Hrun in Hthm. exists st. split; [exact Hrun|].
  destruct Hthm as (_ & _ & Hserved & Hsku & _). split.
  - apply Hserved.
    + refine (bool_decide_unpack _ _). vm_compute. exact I.
    + refine (bool_decide_unpack _ _). vm_compute. exact I.
    + vm_compute. reflexivity.
  - etrans; [apply Hsku | vm_compute; reflexivity].
Defined.

Lemma allocate_totals_witness :
  NoDup GreedySample.target_stores ∧
  NoDup (GreedySample.scarce_skus ++ GreedySample.abundant_skus) ∧
  ∃ s, GreedyAllocator.allocate TIER_CONFIG GreedySample.inputs
         GreedySample.b_hat GreedySample.scarce_skus
         GreedySample.abundant_skus GreedySample.target_stores = Ok (Some s) ∧
       GreedyAllocator.total_allocated s + GreedyAllocator.total_remaining s
       = 8.
Proof.
  assert (NoDup GreedySample.target_stores) as Ht.
  { refine (bool_decide_unpack _ _). vm_compute. exact I. }
  assert (NoDup (GreedySample.scarce_skus ++ GreedySample.abundant_skus))
    as Hnd.
  { refine (bool_decide_unpack _ _). vm_compute. exact I. }
  split_and!; [exact Ht | exact Hnd |].
  pose proof (allocate_totals TIER_CONFIG GreedySample.inputs
                GreedySample.b_hat GreedySample.scarce_skus
                GreedySample.abundant_skus GreedySample.target_stores Ht Hnd)
    as Hthm.
  destruct (returned_summary
              (GreedyAllocator.allocate TIER_CONFIG GreedySample.inputs
                 GreedySample.b_hat GreedySample.scarce_skus
                 GreedySample.abundant_skus GreedySample.target_stores))
    as [s Hrun].
  { vm_compute. exact I. }
  rewrite Hrun in Hthm. exists s. split; [exact Hrun|].
  destruct Hthm as (_ & _ & _ & Hsum).
  etrans; [exact Hsum | vm_compute; reflexivity].
Defined.

Lemma allocate_within_supply_witness :
  NoDup GreedySample.target_stores ∧
  NoDup (GreedySample.scarce_skus ++ GreedySample.abundant_skus) ∧
  ∃ s, GreedyAllocator.allocate TIER_CONFIG GreedySample.inputs
         GreedySample.b_hat GreedySample.scarce_skus
         GreedySample.abundant_skus GreedySample.target_stores = Ok (Some s) ∧
       0 ≤ dict_get (GreedyAllocator.remaining_supply s) "A_blue_M" 0 ∧
       GreedyAllocator.sku_quantity
         (GreedyAllocator.summary_final_allocation s) "A_blue_M" ≤ 5.
Proof.
  assert (NoDup GreedySample.target_stores) as Ht.
  { refine (bool_decide_unpack _ _). vm_compute. exact I. }
  assert (NoDup (GreedySample.scarce_skus ++ GreedySample.abundant_skus))
    as Hnd.
  { refine (bool_decide_unpack _ _). vm_compute. exact I. }
  split_and!; [exact Ht | exact Hnd |].
  pose proof (allocate_within_supply TIER_CONFIG GreedySample.inputs
                GreedySample.b_hat GreedySample.scarce_skus
                GreedySample.abundant_skus GreedySample.target_stores Ht Hnd)
    as Hthm.
  destruct (returned_summary
              (GreedyAllocator.allocate TIER_CONFIG GreedySample.inputs
                 GreedySample.b_hat GreedySample.scarce_skus
                 GreedySample.abundant_skus GreedySample.target_stores))
    as [s Hrun].
  { vm_compute. exact I. }
  rewrite Hrun in Hthm. exists s. split; [exact Hrun|].
  destruct Hthm as (_ & Hpos & _).
  assert (0 ≤ dict_get (d_A GreedySample.inputs) "A_blue_M" 0) as Hsupply.
  { refine (bool_decide_unpack _ _). vm_compute. exact I. }
  exact (Hpos "A_blue_M" Hsupply).
Defined.
